(** * Enterprise usage dashboard: metrics cache and aggregation engine

  A shallow embedding of the Worker's aggregation, caching and alerting
  code (the file holding [getMetricsProgressive], [fetchAccountMetrics],
  [aggregateAccountMetrics], [checkThresholds], [fetchEnterpriseZones],
  [preWarmCache] and [runScheduledThresholdCheck]), and the properties
  the specification states about it.

  Conventions of the embedding:
  - a JavaScript number that holds a count (requests, bytes, queries,
    sample sizes, interval bounds) is an integer [Z]: a double holds the
    integers up to 2^53 exactly, and their sums and differences are
    exact;
  - a fractional number is a rational [Q]. The confidence percentage is
    computed as the code computes it, in double precision: from the
    division on, every operation is rounded to the nearest double
    ([Binary64]), and the [Q] is the exact value of that double. The
    operands of the threshold evaluator are exact rationals;
  - a field that may be missing is an [option]: [None] stands for
    [undefined], [null] and [NaN] alike, which [!x], [x || d] and
    [a + b] treat in the same way (falsy, and absorbing for [+]);
  - the key-value store maps string keys to a value and its expiry;
  - asynchronous calls are sequenced in program order. *)

From Stdlib Require Import QArith Qround Qminmax Qpower Qabs Lqa.
From Stdlib Require SpecFloat.
From stdpp Require Import gmap strings list pretty sorting.

Open Scope Z_scope.

(** ** Double-precision arithmetic *)

Module Binary64.

(** The integer part of the binary logarithm of a positive rational. *)
Definition log2 (q : Q) : Z :=
  let k := Z.log2 (Qnum q) - Z.log2 (Zpos (Qden q)) in
  if Qle_bool (2 ^ k) q then k else k - 1.

(** The nearest integer, a tie going to the even one. *)
Definition nearestEven (x : Q) : Z :=
  let f := Qfloor x in
  match Qcompare (x - inject_Z f) (1 # 2) with
  | Lt => f
  | Gt => f + 1
  | Eq => if Z.even f then f else f + 1
  end.

(** The nearest number with 53 significant bits: the significand of [q]
    scaled into [2^52, 2^53) is rounded to an integer. *)
Definition roundPositive (q : Q) : Q :=
  let e := log2 q - 52 in
  (inject_Z (nearestEven (q / 2 ^ e)) * 2 ^ e)%Q.

(** The double nearest to [x], ties to even, in lowest terms. The
    exponent is not bounded: the numbers rounded here are quotients of
    counts and what the calculator derives from them, far from the
    overflow and underflow thresholds of a double. *)
Definition round (x : Q) : Q :=
  let q := Qred x in
  Qred (match Qnum q with
        | Z0 => 0
        | Zpos _ => roundPositive q
        | Zneg _ => - roundPositive (- q)
        end)%Q.

(** 2^-53, the largest relative error of one rounding. *)
Definition unitRoundoff : Q := 1 # 9007199254740992.

(** [x - y], [x * y] and [x / y] on doubles. *)
Definition sub (x y : Q) : Q := round (x - y).
Definition mul (x y : Q) : Q := round (x * y).
Definition div (x y : Q) : Q := round (x / y).

End Binary64.

(** ** JavaScript values *)

Module Js.

(** A numeric field: [None] is a missing value or [NaN]. *)
Definition num := option Z.

(** [!!x] for a numeric field. *)
Definition truthy (x : num) : bool :=
  match x with
  | Some z => negb (z =? 0)
  | None => false
  end.

(** [x || d] where [d] is a number. *)
Definition orNum (x : num) (d : Z) : Z :=
  match x with
  | Some z => if z =? 0 then d else z
  | None => d
  end.

(** [x || 0]. *)
Definition orZero (x : num) : Z := orNum x 0.

(** [a + b] on numeric fields. *)
Definition add (a b : num) : num :=
  match a, b with
  | Some x, Some y => Some (x + y)
  | _, _ => None
  end.

(** [xs.reduce((a, b) => a + b, 0)]. *)
Definition sum (xs : list num) : num := fold_left add xs (Some 0).

(** [Math.round(x)]: the nearest integer, ties towards +infinity. *)
Definition round (x : Q) : Z := Qfloor (x + (1 # 2))%Q.

(** [Math.max(0, Math.min(100, x))]. *)
Definition clamp100 (x : Q) : Q := Qmax 0%Q (Qmin 100%Q x).

End Js.

(** ** Confidence calculator *)

Module Confidence.

(** The interval handed to [calculateConfidencePercentage]. *)
Record Interval := mkInterval {
  estimate : Js.num;
  lower : Js.num;
  upper : Js.num;
  sampleSize : Js.num
}.

(** What [calculateConfidencePercentage] returns. *)
Record Confidence := mkConfidence {
  percent : Q;
  c_sampleSize : Js.num;
  c_estimate : Js.num;
  c_lower : Js.num;
  c_upper : Js.num
}.

(** [calculateConfidencePercentage] (the helper is declared twice in the
    source, in [fetchAccountMetrics] and in [aggregateAccountMetrics],
    with the same body). The width and the doubled estimate are
    integers; the division, the subtraction from 1, the two
    multiplications and the last division round. *)
Definition calculateConfidencePercentage (confidence : option Interval)
  : option Confidence :=
  match confidence with
  | None => None
  | Some c =>
    match estimate c with
    | None => None
    | Some e =>
      if e =? 0 then None else
      let lo := Js.orNum (lower c) e in
      let up := Js.orNum (upper c) e in
      let intervalWidth := up - lo in
      let relativeWidth :=
        Binary64.div (inject_Z intervalWidth) (inject_Z (2 * e)) in
      let confidencePercent :=
        Js.clamp100 (Binary64.mul 100 (Binary64.sub 1 relativeWidth)) in
      Some {| percent :=
                Binary64.div
                  (inject_Z (Js.round (Binary64.mul confidencePercent 10))) 10;
              c_sampleSize := sampleSize c;
              c_estimate := estimate c;
              c_lower := lower c;
              c_upper := upper c |}
    end
  end.

(** The specification's formula in exact arithmetic, on an interval
    whose three numbers are all given:
    100 * (1 - (upper - lower) / (2 * estimate)), clamped to [0,100]. *)
Definition exactPercent (e l u : Z) : Q :=
  Js.clamp100 (100 * (1 - inject_Z (u - l) / inject_Z (2 * e)))%Q.

(** The same, rounded to one decimal in exact arithmetic. *)
Definition specPercent (e l u : Z) : Q :=
  let raw := (100 * (1 - inject_Z (u - l) / inject_Z (2 * e)))%Q in
  let clamped := if Qle_bool raw 0 then 0%Q
                 else if Qle_bool 100 raw then 100%Q else raw in
  (inject_Z (Qfloor (clamped * 10 + (1 # 2))%Q) / 10)%Q.

(** What the roundings of the calculator can add to the half tenth of
    the last rounding: 10^-13 of a percent. *)
Definition tolerance : Q := 1 # 10000000000000.

(** The tenths of a percent the calculator arrives at from the exact
    relative width of an interval. *)
Definition tenths (w : Q) : Z :=
  Js.round
    (Binary64.mul
       (Js.clamp100 (Binary64.mul 100 (Binary64.sub 1 (Binary64.round w)))) 10).

End Confidence.

(** ** JavaScript containers *)

Module JsMap.

(** A [Map] with string keys: an association list in insertion order,
    which is the order [values()] iterates in. *)
Definition t (V : Type) := list (string * V).

Fixpoint get {V} (k : string) (m : t V) : option V :=
  match m with
  | [] => None
  | (k', v) :: m' => if String.eqb k k' then Some v else get k m'
  end.

(** [set]: an existing key keeps its position, a new key goes last. *)
Fixpoint set {V} (k : string) (v : V) (m : t V) : t V :=
  match m with
  | [] => [(k, v)]
  | (k', v') :: m' =>
    if String.eqb k k' then (k', v) :: m' else (k', v') :: set k v m'
  end.

Definition values {V} (m : t V) : list V := map snd m.

End JsMap.

Module JsArray.

(** [xs.sort(cmp)]: the sort is stable, an element moves in front of
    another only when [cmp] puts it strictly before. *)
Fixpoint insert {A} (cmp : A -> A -> Z) (x : A) (l : list A) : list A :=
  match l with
  | [] => [x]
  | y :: l' => if cmp y x <=? 0 then y :: insert cmp x l' else x :: y :: l'
  end.

Definition sort {A} (cmp : A -> A -> Z) (l : list A) : list A :=
  fold_left (fun acc x => insert cmp x acc) l [].

(** [xs.find(p)]. *)
Definition find {A} (p : A -> bool) (l : list A) : option A := List.find p l.

End JsArray.

(** ** Data model of the metrics records *)

Module Entry.
(** One month of a time series. [timestamp] is the instant
    [new Date(entry.timestamp)] denotes, in milliseconds. *)
Record t := mk {
  month : string;
  timestamp : Z;
  requests : Js.num;
  bytes : Js.num;
  dnsQueries : Js.num
}.
End Entry.

Module Zone.
Record t := mk {
  zoneTag : string;
  zoneName : string;
  requests : Js.num;
  bytes : Js.num;
  dnsQueries : Js.num;
  isPrimary : bool
}.
End Zone.

Module ConfidenceSet.
Record t := mk {
  requests : option Confidence.Confidence;
  bytes : option Confidence.Confidence;
  dnsQueries : option Confidence.Confidence
}.
End ConfidenceSet.

Module Totals.
(** [current] and [previous] of a per-account record; [previous] carries
    no [confidence]. *)
Record t := mk {
  requests : Js.num;
  bytes : Js.num;
  dnsQueries : Js.num;
  confidence : option ConfidenceSet.t
}.
End Totals.

Module Breakdown.
Record t := mk {
  primary : Js.num;
  secondary : Js.num;
  zones : option (list Zone.t)
}.
End Breakdown.

Module AccountMetrics.
Record t := mk {
  accountId : string;
  accountName : option string;
  current : Totals.t;
  previous : Totals.t;
  timeSeries : option (list Entry.t);
  zoneBreakdown : Breakdown.t;
  previousMonthZoneBreakdown : Breakdown.t
}.
End AccountMetrics.

Module AggTotals.
Record t := mk {
  requests : Z;
  bytes : Z;
  dnsQueries : Z;
  confidence : ConfidenceSet.t
}.
End AggTotals.

Module AggPrevious.
Record t := mk {
  requests : Z;
  bytes : Z;
  dnsQueries : Z
}.
End AggPrevious.

Module AggBreakdown.
Record t := mk {
  primary : Z;
  secondary : Z;
  zones : list Zone.t
}.
End AggBreakdown.

Module Aggregate.
(** The object [aggregateAccountMetrics] returns. *)
Record t := mk {
  current : AggTotals.t;
  previous : AggPrevious.t;
  timeSeries : list Entry.t;
  zoneBreakdown : AggBreakdown.t;
  previousMonthZoneBreakdown : AggBreakdown.t;
  perAccountData : list AccountMetrics.t
}.
End Aggregate.

(** ** Cross-account aggregator *)

Module Aggregator.

(** One slot of [confidenceAggregator]. *)
Record Collected := mkCollected {
  estimates : list Js.num;
  lowers : list Js.num;
  uppers : list Js.num;
  sampleSizes : list Js.num
}.

Definition noneCollected : Collected := mkCollected [] [] [] [].

(** The four [push] calls made for one account's confidence object. *)
Definition collect (acc : Collected) (conf : option Confidence.Confidence)
  : Collected :=
  match conf with
  | None => acc
  | Some c =>
    {| estimates := estimates acc ++ [Confidence.c_estimate c];
       lowers := lowers acc ++ [Confidence.c_lower c];
       uppers := uppers acc ++ [Confidence.c_upper c];
       sampleSizes := sampleSizes acc ++ [Confidence.c_sampleSize c] |}
  end.

(** The first [forEach]: which confidence object of an account feeds a
    slot (none when [current.confidence] is missing). *)
Definition confidenceOf (sel : ConfidenceSet.t -> option Confidence.Confidence)
  (accountData : AccountMetrics.t) : option Confidence.Confidence :=
  match Totals.confidence (AccountMetrics.current accountData) with
  | None => None
  | Some cs => sel cs
  end.

Definition collectAll (sel : ConfidenceSet.t -> option Confidence.Confidence)
  (accountMetrics : list AccountMetrics.t) : Collected :=
  fold_left (fun acc accountData => collect acc (confidenceOf sel accountData))
            accountMetrics noneCollected.

(** "Aggregate confidence for ...": the four [reduce] calls and the call
    of [calculateConfidencePercentage]; [null] when nothing was pushed. *)
Definition aggregateConfidence (col : Collected) : option Confidence.Confidence :=
  if (0 <? Z.of_nat (length (estimates col))) then
    let totalEstimate := Js.sum (estimates col) in
    let totalLower := Js.sum (lowers col) in
    let totalUpper := Js.sum (uppers col) in
    let totalSampleSize := Js.sum (sampleSizes col) in
    Confidence.calculateConfidencePercentage
      (Some {| Confidence.estimate := totalEstimate;
               Confidence.lower := totalLower;
               Confidence.upper := totalUpper;
               Confidence.sampleSize := totalSampleSize |})
  else None.

(** [total += field || 0] over the accounts. *)
Definition sumOrZero {A} (f : A -> Js.num) (l : list A) : Z :=
  fold_left (fun total a => total + Js.orZero (f a)) l 0.

(** The body of the time-series [forEach] for one entry. *)
Definition mergeEntry (timeSeriesMap : JsMap.t Entry.t) (entry : Entry.t)
  : JsMap.t Entry.t :=
  match JsMap.get (Entry.month entry) timeSeriesMap with
  | Some existing =>
    JsMap.set (Entry.month entry)
      {| Entry.month := Entry.month existing;
         Entry.timestamp := Entry.timestamp existing;
         Entry.requests :=
           Js.add (Entry.requests existing) (Some (Js.orZero (Entry.requests entry)));
         Entry.bytes :=
           Js.add (Entry.bytes existing) (Some (Js.orZero (Entry.bytes entry)));
         Entry.dnsQueries :=
           Js.add (Entry.dnsQueries existing)
                  (Some (Js.orZero (Entry.dnsQueries entry))) |}
      timeSeriesMap
  | None =>
    JsMap.set (Entry.month entry)
      {| Entry.month := Entry.month entry;
         Entry.timestamp := Entry.timestamp entry;
         Entry.requests := Some (Js.orZero (Entry.requests entry));
         Entry.bytes := Some (Js.orZero (Entry.bytes entry));
         Entry.dnsQueries := Some (Js.orZero (Entry.dnsQueries entry)) |}
      timeSeriesMap
  end.

Definition mergeAccount (timeSeriesMap : JsMap.t Entry.t)
  (accountData : AccountMetrics.t) : JsMap.t Entry.t :=
  match AccountMetrics.timeSeries accountData with
  | Some series => fold_left mergeEntry series timeSeriesMap
  | None => timeSeriesMap
  end.

(** [(a, b) => new Date(a.timestamp) - new Date(b.timestamp)]. *)
Definition byTimestamp (a b : Entry.t) : Z :=
  Entry.timestamp a - Entry.timestamp b.

Definition mergeTimeSeries (accountMetrics : list AccountMetrics.t)
  : list Entry.t :=
  JsArray.sort byTimestamp
    (JsMap.values (fold_left mergeAccount accountMetrics [])).

(** [zones.push(...accountData.zoneBreakdown.zones)] over the accounts. *)
Definition concatZones (f : AccountMetrics.t -> Breakdown.t)
  (accountMetrics : list AccountMetrics.t) : list Zone.t :=
  fold_left (fun zs accountData =>
               match Breakdown.zones (f accountData) with
               | Some l => zs ++ l
               | None => zs
               end) accountMetrics [].

Definition aggregateBreakdown (f : AccountMetrics.t -> Breakdown.t)
  (accountMetrics : list AccountMetrics.t) : AggBreakdown.t :=
  {| AggBreakdown.primary :=
       sumOrZero (fun a => Breakdown.primary (f a)) accountMetrics;
     AggBreakdown.secondary :=
       sumOrZero (fun a => Breakdown.secondary (f a)) accountMetrics;
     AggBreakdown.zones := concatZones f accountMetrics |}.

Definition aggregateAccountMetrics (accountMetrics : list AccountMetrics.t)
  : Aggregate.t :=
  let cur a := AccountMetrics.current a in
  let prev a := AccountMetrics.previous a in
  {| Aggregate.current :=
       {| AggTotals.requests := sumOrZero (fun a => Totals.requests (cur a)) accountMetrics;
          AggTotals.bytes := sumOrZero (fun a => Totals.bytes (cur a)) accountMetrics;
          AggTotals.dnsQueries :=
            sumOrZero (fun a => Totals.dnsQueries (cur a)) accountMetrics;
          AggTotals.confidence :=
            {| ConfidenceSet.requests :=
                 aggregateConfidence (collectAll ConfidenceSet.requests accountMetrics);
               ConfidenceSet.bytes :=
                 aggregateConfidence (collectAll ConfidenceSet.bytes accountMetrics);
               ConfidenceSet.dnsQueries :=
                 aggregateConfidence
                   (collectAll ConfidenceSet.dnsQueries accountMetrics) |} |};
     Aggregate.previous :=
       {| AggPrevious.requests := sumOrZero (fun a => Totals.requests (prev a)) accountMetrics;
          AggPrevious.bytes := sumOrZero (fun a => Totals.bytes (prev a)) accountMetrics;
          AggPrevious.dnsQueries :=
            sumOrZero (fun a => Totals.dnsQueries (prev a)) accountMetrics |};
     Aggregate.timeSeries := mergeTimeSeries accountMetrics;
     Aggregate.zoneBreakdown :=
       aggregateBreakdown AccountMetrics.zoneBreakdown accountMetrics;
     Aggregate.previousMonthZoneBreakdown :=
       aggregateBreakdown AccountMetrics.previousMonthZoneBreakdown accountMetrics;
     Aggregate.perAccountData := accountMetrics |}.

End Aggregator.

(** ** Add-on aggregation in the progressive response builder *)

Module AddonZone.
Record t := mk {
  zoneId : string;
  zoneName : string;
  requests : Js.num
}.
End AddonZone.

Module AddonEntry.
Record t := mk {
  month : string;
  timestamp : Z;
  requests : Js.num
}.
End AddonEntry.

Module AddonCurrent.
Record t := mk {
  requests : Js.num;
  zones : list AddonZone.t;
  confidence : option Confidence.Confidence
}.
End AddonCurrent.

Module AddonPrevious.
Record t := mk {
  requests : Js.num;
  zones : list AddonZone.t
}.
End AddonPrevious.

Module AddonData.
(** What [calculateZoneBasedAddonForAccount] returns for one account. *)
Record t := mk {
  current : AddonCurrent.t;
  previous : AddonPrevious.t;
  timeSeries : option (list AddonEntry.t)
}.
End AddonData.

Module AddonAccount.
(** [{ accountId, data }], the value of one settled promise. *)
Record t := mk {
  accountId : string;
  data : option AddonData.t
}.
End AddonAccount.

Module AddonPerAccount.
Record t := mk {
  accountId : string;
  current : AddonCurrent.t;
  previous : AddonPrevious.t;
  timeSeries : option (list AddonEntry.t)
}.
End AddonPerAccount.

Module Addon.
(** The aggregated add-on object ([apiShieldData], [pageShieldData],
    [advancedRateLimitingData]). *)
Record t := mk {
  enabled : bool;
  threshold : Js.num;
  current : AddonCurrent.t;
  previous : AddonPrevious.t;
  timeSeries : list AddonEntry.t;
  perAccountData : list AddonPerAccount.t
}.
End Addon.

Module AddonAggregator.

(** [results.filter(r => r.status === 'fulfilled' && r.value?.data)
            .map(r => r.value)]: the accounts that produced data. *)
Definition withData (results : list AddonAccount.t)
  : list (string * AddonData.t) :=
  flat_map (fun r => match AddonAccount.data r with
                     | Some d => [(AddonAccount.accountId r, d)]
                     | None => []
                     end) results.

Definition mergeEntry (timeSeriesMap : JsMap.t AddonEntry.t)
  (entry : AddonEntry.t) : JsMap.t AddonEntry.t :=
  match JsMap.get (AddonEntry.month entry) timeSeriesMap with
  | Some existing =>
    JsMap.set (AddonEntry.month entry)
      {| AddonEntry.month := AddonEntry.month existing;
         AddonEntry.timestamp := AddonEntry.timestamp existing;
         AddonEntry.requests :=
           Js.add (AddonEntry.requests existing)
                  (Some (Js.orZero (AddonEntry.requests entry))) |}
      timeSeriesMap
  | None =>
    JsMap.set (AddonEntry.month entry)
      {| AddonEntry.month := AddonEntry.month entry;
         AddonEntry.timestamp := AddonEntry.timestamp entry;
         AddonEntry.requests := Some (Js.orZero (AddonEntry.requests entry)) |}
      timeSeriesMap
  end.

Definition mergeAccount (timeSeriesMap : JsMap.t AddonEntry.t)
  (accountEntry : string * AddonData.t) : JsMap.t AddonEntry.t :=
  match AddonData.timeSeries (snd accountEntry) with
  | Some series => fold_left mergeEntry series timeSeriesMap
  | None => timeSeriesMap
  end.

Definition byTimestamp (a b : AddonEntry.t) : Z :=
  AddonEntry.timestamp a - AddonEntry.timestamp b.

(** [accounts.find(entry => entry.data.current?.confidence)
             ?.data.current.confidence || null]. *)
Definition firstConfidence (accounts : list (string * AddonData.t))
  : option Confidence.Confidence :=
  match JsArray.find
          (fun entry =>
             match AddonCurrent.confidence (AddonData.current (snd entry)) with
             | Some _ => true
             | None => false
             end) accounts with
  | Some entry => AddonCurrent.confidence (AddonData.current (snd entry))
  | None => None
  end.

(** The block of [getMetricsProgressive] that builds [apiShieldData]
    from the settled per-account results (the blocks for Page Shield and
    Advanced Rate Limiting are the same text; [preWarmCache] repeats them).
    [None] is the [null] the variable keeps when no account has data. *)
Definition aggregateAddon (threshold : Js.num) (results : list AddonAccount.t)
  : option Addon.t :=
  let accounts := withData results in
  if (0 <? Z.of_nat (length accounts)) then
    let mergedTimeSeries :=
      JsArray.sort byTimestamp
        (JsMap.values (fold_left mergeAccount accounts [])) in
    Some
      {| Addon.enabled := true;
         Addon.threshold := threshold;
         Addon.current :=
           {| AddonCurrent.requests :=
                Js.sum (map (fun e => AddonCurrent.requests
                                        (AddonData.current (snd e))) accounts);
              AddonCurrent.zones :=
                flat_map (fun e => AddonCurrent.zones
                                     (AddonData.current (snd e))) accounts;
              AddonCurrent.confidence := firstConfidence accounts |};
         Addon.previous :=
           {| AddonPrevious.requests :=
                Js.sum (map (fun e => AddonPrevious.requests
                                        (AddonData.previous (snd e))) accounts);
              AddonPrevious.zones :=
                flat_map (fun e => AddonPrevious.zones
                                     (AddonData.previous (snd e))) accounts |};
         Addon.timeSeries := mergedTimeSeries;
         Addon.perAccountData :=
           map (fun e =>
                  {| AddonPerAccount.accountId := fst e;
                     AddonPerAccount.current := AddonData.current (snd e);
                     AddonPerAccount.previous := AddonData.previous (snd e);
                     AddonPerAccount.timeSeries := AddonData.timeSeries (snd e) |})
               accounts |}
  else None.

End AddonAggregator.

(** ** Strings, dates and JSON values *)

Module JsString.

(** [String(n)] for an integer. *)
Definition ofInt (n : Z) : string := pretty n.

(** [s.padStart(2, '0')]. *)
Definition padStart2 (s : string) : string :=
  match String.length s with
  | O => "00"
  | S O => "0" +:+ s
  | _ => s
  end.

(** [xs.join(sep)]. *)
Definition join (sep : string) (xs : list string) : string :=
  String.concat sep xs.

(** [a.localeCompare]-free default order of [sort()]: by code units. *)
Definition byCodeUnits (a b : string) : Z :=
  if String.eqb a b then 0 else if String.leb a b then -1 else 1.

(** [xs.sort()] on strings. *)
Definition sort (xs : list string) : list string :=
  JsArray.sort byCodeUnits xs.

(** [!!s.trim()]: some character is not white space. *)
Fixpoint nonBlank (s : string) : bool :=
  match s with
  | EmptyString => false
  | String c s' => negb (Ascii.is_space c) || nonBlank s'
  end.

(** [!!s]. *)
Definition truthy (s : string) : bool := negb (String.eqb s EmptyString).

Definition lowerChar (c : Ascii.ascii) : Ascii.ascii :=
  let n := Ascii.nat_of_ascii c in
  if ((65 <=? n)%nat && (n <=? 90)%nat)%bool
  then Ascii.ascii_of_nat (n + 32) else c.

(** [s.toLowerCase()] on ASCII letters. *)
Fixpoint toLowerCase (s : string) : string :=
  match s with
  | EmptyString => EmptyString
  | String c s' => String (lowerChar c) (toLowerCase s')
  end.

(** [s.includes(sub)]. *)
Fixpoint includes (sub s : string) : bool :=
  String.prefix sub s
  || match s with
     | EmptyString => false
     | String _ s' => includes sub s'
     end.

End JsString.

Module JsDate.

(** A [Date], by its calendar fields (the Worker's clock is UTC);
    [month] counts from 0 as [getMonth()] does. *)
Record t := mk {
  year : Z;
  month : Z;
  date : Z;
  hours : Z;
  minutes : Z;
  seconds : Z;
  milliseconds : Z
}.

Definition valid (d : t) : Prop :=
  1000 <= year d <= 9999 /\ 0 <= month d <= 11 /\ 1 <= date d <= 31
  /\ 0 <= hours d <= 23 /\ 0 <= minutes d <= 59 /\ 0 <= seconds d <= 59
  /\ 0 <= milliseconds d <= 999.

(** Days from 1970-01-01 to the given civil date ([m] from 1). *)
Definition daysFromCivil (y m d : Z) : Z :=
  let y' := if m <=? 2 then y - 1 else y in
  let era := y' / 400 in
  let yoe := y' - era * 400 in
  let mp := (m + 9) mod 12 in
  let doy := (153 * mp + 2) / 5 + d - 1 in
  let doe := yoe * 365 + yoe / 4 - yoe / 100 + doy in
  era * 146097 + doe - 719468.

(** [getTime()], which is also [Date.now()] at that instant. *)
Definition getTime (d : t) : Z :=
  (((daysFromCivil (year d) (month d + 1) (date d) * 24 + hours d) * 60
    + minutes d) * 60 + seconds d) * 1000 + milliseconds d.

(** [`${now.getFullYear()}-${String(now.getMonth() + 1).padStart(2, '0')}`]. *)
Definition monthKey (d : t) : string :=
  JsString.ofInt (year d) +:+ "-"
  +:+ JsString.padStart2 (JsString.ofInt (month d + 1)).

End JsDate.

Module Json.

Local Unset Elimination Schemes.

(** A value read back from the store with [get(key, 'json')]. *)
Inductive t :=
| Undefined
| Null
| Bool (b : bool)
| Num (z : Z)
| Str (s : string)
| Arr (items : list t)
| Obj (fields : list (string * t)).

Local Set Elimination Schemes.

(** [!!v]. *)
Definition truthy (v : t) : bool :=
  match v with
  | Undefined | Null => false
  | Bool b => b
  | Num z => negb (z =? 0)
  | Str s => JsString.truthy s
  | Arr _ | Obj _ => true
  end.

(** [v.k] on a value that is not [null] or [undefined]. *)
Definition prop (k : string) (v : t) : t :=
  match v with
  | Obj fields =>
    match JsMap.get k fields with
    | Some x => x
    | None => Undefined
    end
  | _ => Undefined
  end.

(** [{ ...v, k: x }]. *)
Definition with_prop (k : string) (x : t) (v : t) : t :=
  match v with
  | Obj fields => Obj (JsMap.set k x fields)
  | _ => Obj [(k, x)]
  end.

End Json.

(** ** Configuration record *)

Module AddonConfig.
Record t := mk {
  enabled : option bool;
  threshold : Js.num;
  zones : option (list string)
}.
End AddonConfig.

Module CoreConfig.
Record t := mk {
  enabled : option bool
}.
End CoreConfig.

Module AppServices.
Record t := mk {
  core : option CoreConfig.t;
  botManagement : option AddonConfig.t;
  apiShield : option AddonConfig.t;
  pageShield : option AddonConfig.t;
  advancedRateLimiting : option AddonConfig.t
}.
End AppServices.

Module Config.
Record t := mk {
  accountIds : option (list string);
  accountId : option string;
  applicationServices : option AppServices.t;
  thresholdZones : option Q;
  thresholdRequests : option Q;
  thresholdBandwidth : option Q;
  thresholdDnsQueries : option Q;
  slackWebhook : option string;
  alertsEnabled : bool
}.

(** [config.accountIds || (config.accountId ? [config.accountId] : [])]. *)
Definition accounts (config : t) : list string :=
  match accountIds config with
  | Some ids => ids
  | None =>
    match accountId config with
    | Some id => if JsString.truthy id then [id] else []
    | None => []
    end
  end.

(** [config?.applicationServices?.core?.enabled] as a condition. *)
Definition coreEnabled (config : t) : bool :=
  match applicationServices config with
  | Some services =>
    match AppServices.core services with
    | Some c => match CoreConfig.enabled c with Some b => b | None => false end
    | None => false
    end
  | None => false
  end.

(** [config?.applicationServices?.<addon>?.enabled] as a condition. *)
Definition addonEnabled (sel : AppServices.t -> option AddonConfig.t)
  (config : t) : bool :=
  match applicationServices config with
  | Some services =>
    match sel services with
    | Some a => match AddonConfig.enabled a with Some b => b | None => false end
    | None => false
    end
  | None => false
  end.

End Config.

(** ** Key-value store and the world around a request *)

Module EnterpriseZone.
(** A zone as the zones API lists it. *)
Record t := mk {
  id : string;
  name : string;
  account_id : option string;
  plan_legacy_id : option string;
  plan_name : option string
}.
End EnterpriseZone.

Module CurrentMonthCache.
(** The payload kept under [current-month:...]. *)
Record t := mk {
  version : Js.num;
  cachedAt : Js.num;
  data : AccountMetrics.t
}.
End CurrentMonthCache.

Module KV.

(** What the Worker keeps in the store, by family of keys. *)
Inductive value :=
| VConfig (config : Config.t)
| VSnapshot (cachedData : Json.t)
| VText (s : string)
| VCurrentMonth (c : CurrentMonthCache.t)
| VZones (zones : list EnterpriseZone.t).

(** A stored value and the instant (ms) it expires at, if any. *)
Abbreviation store := (gmap string (value * option Z)).

(** [CONFIG_KV.get(key)] at instant [now]. *)
Definition get (now : Z) (key : string) (kv : store) : option value :=
  match kv !! key with
  | Some (v, Some expiry) => if now <? expiry then Some v else None
  | Some (v, None) => Some v
  | None => None
  end.

(** [CONFIG_KV.put(key, value, { expirationTtl })], [ttl] in seconds. *)
Definition put (now : Z) (key : string) (v : value) (ttl : Z) (kv : store)
  : store :=
  <[key := (v, Some (now + ttl * 1000))]> kv.

Definition getConfig (now : Z) (key : string) (kv : store) : option Config.t :=
  match get now key kv with
  | Some (VConfig c) => Some c
  | _ => None
  end.

(** [get(key, 'json')] of a snapshot: [null] when there is none. *)
Definition getSnapshot (now : Z) (key : string) (kv : store) : Json.t :=
  match get now key kv with
  | Some (VSnapshot j) => j
  | _ => Json.Null
  end.

Definition getCurrentMonth (now : Z) (key : string) (kv : store)
  : option CurrentMonthCache.t :=
  match get now key kv with
  | Some (VCurrentMonth c) => Some c
  | _ => None
  end.

Definition getZones (now : Z) (key : string) (kv : store)
  : option (list EnterpriseZone.t) :=
  match get now key kv with
  | Some (VZones zs) => Some zs
  | _ => None
  end.

(** [!!(await CONFIG_KV.get(key))] for a text marker. *)
Definition hasMarker (now : Z) (key : string) (kv : store) : bool :=
  match get now key kv with
  | Some (VText s) => JsString.truthy s
  | Some _ => true
  | None => false
  end.

End KV.

(** ** Progressive response builder: the cache check, and the pre-warm write *)

Module RequestBody.
Record t := mk {
  phase : Js.num;
  accountIds : option (list string);
  accountId : option string
}.
End RequestBody.

Module Progressive.

Inductive response :=
| BadRequest (error : string)
| Cached (payload : Json.t)
| Fresh (phase : Z).

(** [parseAccountIds]. *)
Definition parseAccountIds (body : RequestBody.t) : list string :=
  match RequestBody.accountIds body with
  | Some (id :: ids) =>
    List.filter (fun i => JsString.truthy i && JsString.nonBlank i) (id :: ids)
  | _ =>
    match RequestBody.accountId body with
    | Some id => if JsString.truthy id then [id] else []
    | None => []
    end
  end.

(** [`pre-warmed:${accountIds.join(',')}`]. *)
Definition preWarmedKey (accountIds : list string) : string :=
  "pre-warmed:" +:+ JsString.join "," accountIds.

(** One "Check <add-on>" block: the add-on's data, its [timeSeries] and
    its [perAccountData] must all be there. *)
Definition addonPresent (name : string) (data : Json.t) : bool :=
  let addon := Json.prop name data in
  if negb (Json.truthy addon) then false
  else if negb (Json.truthy (Json.prop "timeSeries" addon)) then false
  else if negb (Json.truthy (Json.prop "perAccountData" addon)) then false
  else true.

(** The computation of [cacheIsComplete]. *)
Definition cacheIsComplete (configData : option Config.t) (data : Json.t) : bool :=
  match configData with
  | None => true
  | Some config =>
    let c0 := true in
    let c1 := if Config.coreEnabled config
                 && negb (Json.truthy (Json.prop "current" data))
              then false else c0 in
    let c2 := if Config.addonEnabled AppServices.botManagement config
              then (if addonPresent "botManagement" data then c1 else false)
              else c1 in
    let c3 := if Config.addonEnabled AppServices.apiShield config
              then (if addonPresent "apiShield" data then c2 else false)
              else c2 in
    let c4 := if Config.addonEnabled AppServices.pageShield config
              then (if addonPresent "pageShield" data then c3 else false)
              else c3 in
    let c5 := if Config.addonEnabled AppServices.advancedRateLimiting config
              then (if addonPresent "advancedRateLimiting" data then c4 else false)
              else c4 in
    c5
  end.

(** [Date.now() - cachedData.timestamp]. *)
Definition cacheAge (now : Z) (cachedData : Json.t) : Json.t :=
  match Json.prop "timestamp" cachedData with
  | Json.Num t => Json.Num (now - t)
  | _ => Json.Null
  end.

(** [getMetricsProgressive] up to the choice of what to compute: the
    cached snapshot, or phase 1, 2 or 3 afresh (the fresh computations
    themselves are [fetchPhase1Data], [fetchPhase2Data] and the phase-3
    block). *)
Definition getMetricsProgressive (apiKey : option string) (body : RequestBody.t)
  (now : Z) (kv : KV.store) : response :=
  let phase := Js.orNum (RequestBody.phase body) 1 in
  let accountIds := parseAccountIds body in
  match apiKey with
  | None => BadRequest "API token not configured"
  | Some key =>
    if negb (JsString.truthy key) then BadRequest "API token not configured"
    else if (Z.of_nat (length accountIds) =? 0)
    then BadRequest "Account IDs not configured"
    else
      let cacheKey := preWarmedKey accountIds in
      let cachedData := KV.getSnapshot now cacheKey kv in
      let fresh := if phase =? 1 then Fresh 1
                   else if phase =? 2 then Fresh 2 else Fresh 3 in
      if Json.truthy cachedData && Json.truthy (Json.prop "data" cachedData)
      then
        let configData := KV.getConfig now "config:default" kv in
        if cacheIsComplete configData (Json.prop "data" cachedData)
        then Cached (Json.with_prop "cacheAge" (cacheAge now cachedData)
                       (Json.with_prop "phase" (Json.Str "cached")
                          (Json.prop "data" cachedData)))
        else fresh
      else fresh
  end.

(** [preWarmCache]: where and for how long the assembled snapshot is
    stored. [assemble] stands for the computation of the snapshot's
    [data] (the phase-3 computation for all enabled features). *)
Definition preWarmCache (assemble : Config.t -> list string -> Json.t)
  (apiKey : option string) (now : Z) (kv : KV.store) : KV.store :=
  match KV.getConfig now "config:default" kv with
  | None => kv
  | Some config =>
    let accountIds := Config.accounts config in
    match apiKey with
    | None => kv
    | Some key =>
      if negb (JsString.truthy key) then kv
      else if (Z.of_nat (length accountIds) =? 0) then kv
      else
        let cacheKey := preWarmedKey accountIds in
        let cacheData :=
          Json.Obj [("timestamp", Json.Num now);
                    ("data", assemble config accountIds)] in
        KV.put now cacheKey (KV.VSnapshot cacheData) (6 * 60 * 60) kv
    end
  end.

End Progressive.

(** ** Threshold evaluator and notifier *)

Module Readings.
(** [metrics] and [thresholds] of a check request: one number per
    tracked metric, possibly missing. *)
Record t := mk {
  zones : option Q;
  requests : option Q;
  bandwidth : option Q;
  dnsQueries : option Q;
  botManagement : option Q;
  apiShield : option Q;
  pageShield : option Q;
  advancedRateLimiting : option Q
}.
End Readings.

Module Alert.
(** An alert record. The source stores [current], [threshold] and
    [percentage] formatted for display; the numbers are kept here. *)
Record t := mk {
  metric : string;
  metricKey : string;
  current : Q;
  threshold : Q;
  percentage : Q
}.
End Alert.

Module ScheduledAlert.
(** An alert record of the scheduled check (it has no [metricKey]). *)
Record t := mk {
  metric : string;
  current : Q;
  threshold : Q;
  percentage : Q
}.
End ScheduledAlert.

Module CheckBody.
Record t := mk {
  metrics : Readings.t;
  thresholds : Readings.t;
  slackWebhook : option string;
  accountIds : option (list string);
  accountId : option string;
  forceTest : bool
}.
End CheckBody.

Module Http.
(** What a [fetch] gives: it rejects, or resolves to a response whose
    body parses as JSON ([Some]) or does not ([None]). *)
Inductive outcome (B : Type) :=
| NetworkError
| Response (ok : bool) (body : option B).
Arguments NetworkError {B}.
Arguments Response {B} ok body.
End Http.

Module Call.
(** A request sent to an external service. *)
Inductive t :=
| AccountLookup (accountId : string)
| ZoneList (accountId : string)
| Analytics (operationName : string)
| SlackTest (webhook : string)
| SlackPost (webhook : string) (alerts : list Alert.t)
| SlackScheduled (webhook : string) (alerts : list ScheduledAlert.t).
End Call.

Module World.
(** The store, and the external requests made so far (latest last). *)
Record t := mk {
  kv : KV.store;
  calls : list Call.t
}.

Definition call (c : Call.t) (w : t) : t :=
  {| kv := kv w; calls := calls w ++ [c] |}.

Definition setKv (s : KV.store) (w : t) : t :=
  {| kv := s; calls := calls w |}.
End World.

Module Exec.
(** A computation that may throw, over the world. *)
Inductive result (A : Type) :=
| Returned (a : A)
| Thrown (message : string).
Arguments Returned {A} a.
Arguments Thrown {A} message.

Definition M (A : Type) := World.t -> result A * World.t.

Definition ret {A} (a : A) : M A := fun w => (Returned a, w).
Definition throw {A} (message : string) : M A := fun w => (Thrown message, w).
Definition bind {A B} (m : M A) (k : A -> M B) : M B :=
  fun w => match m w with
           | (Returned a, w') => k a w'
           | (Thrown e, w') => (Thrown e, w')
           end.
(** [try { m } catch (error) { h }]. *)
Definition catch {A} (m : M A) (h : string -> M A) : M A :=
  fun w => match m w with
           | (Returned a, w') => (Returned a, w')
           | (Thrown e, w') => h e w'
           end.
Definition request (c : Call.t) : M unit :=
  fun w => (Returned tt, World.call c w).
Definition kvGet {A} (read : KV.store -> A) : M A :=
  fun w => (Returned (read (World.kv w)), w).
Definition kvPut (write : KV.store -> KV.store) : M unit :=
  fun w => (Returned tt, World.setKv (write (World.kv w)) w).
End Exec.

Declare Scope exec_scope.
Delimit Scope exec_scope with exec.
Notation "x <- m ;; k" := (Exec.bind m (fun x => k))
(at level 100, m at next level, right associativity) : exec_scope.
Notation "m ;;; k" := (Exec.bind m (fun _ => k))
(at level 100, right associativity) : exec_scope.

Module Thresholds.

(** [!!x] for a reading. *)
Definition truthy (x : option Q) : bool :=
  match x with
  | Some q => negb (Qeq_bool q 0)
  | None => false
  end.

(** A division made while evaluating: numerator and denominator. *)
Definition division := (Q * Q)%type.

(** One "if (metrics.m && thresholds.m) { ... }" block: the alert it
    pushes, if any, and the division it makes, if any. *)
Definition checkMetric (label key : string) (current threshold : option Q)
  : list Alert.t * list division :=
  match current, threshold with
  | Some c, Some t =>
    if truthy current && truthy threshold then
      let percentage := (c / t * 100)%Q in
      (if Qle_bool 90 percentage
       then [{| Alert.metric := label; Alert.metricKey := key;
                Alert.current := c; Alert.threshold := t;
                Alert.percentage := percentage |}]
       else [],
       [(c, t)])
    else ([], [])
  | _, _ => ([], [])
  end.

(** The tracked metrics in the order the source checks them. *)
Definition tracked : list (string * string * (Readings.t -> option Q)) :=
  [("Enterprise Zones", "zones", Readings.zones);
   ("HTTP Requests", "requests", Readings.requests);
   ("Data Transfer", "bandwidth", Readings.bandwidth);
   ("DNS Queries", "dnsQueries", Readings.dnsQueries);
   ("Bot Management (Likely Human)", "botManagement", Readings.botManagement);
   ("API Shield (HTTP Requests)", "apiShield", Readings.apiShield);
   ("Page Shield (HTTP Requests)", "pageShield", Readings.pageShield);
   ("Advanced Rate Limiting (HTTP Requests)", "advancedRateLimiting",
    Readings.advancedRateLimiting)].

(** The eight blocks of [checkThresholds] that fill [alerts]. *)
Definition evaluate (metrics thresholds : Readings.t)
  : list Alert.t * list division :=
  fold_left
    (fun acc m =>
       let '(label, key, field) := m in
       let r := checkMetric label key (field metrics) (field thresholds) in
       (fst acc ++ fst r, snd acc ++ snd r))
    tracked ([], []).

Definition alertsOf (metrics thresholds : Readings.t) : list Alert.t :=
  fst (evaluate metrics thresholds).

(** [accountIds || (accountId ? [accountId] : [])]. *)
Definition accountsOf (body : CheckBody.t) : list string :=
  match CheckBody.accountIds body with
  | Some ids => ids
  | None =>
    match CheckBody.accountId body with
    | Some id => if JsString.truthy id then [id] else []
    | None => []
    end
  end.

(** [`alert-sent:${accountsKey}:${alert.metricKey}:${currentMonth}`] with
    [accountsKey = accounts.sort().join('-')]. *)
Definition alertKey (accounts : list string) (metricKey currentMonth : string)
  : string :=
  "alert-sent:" +:+ JsString.join "-" (JsString.sort accounts)
  +:+ ":" +:+ metricKey +:+ ":" +:+ currentMonth.

(** Marker lifetime: 45 days, in seconds. *)
Definition markerTtl : Z := 3888000.

(** The [for (const alert of alerts)] loop: keep the alerts without a
    marker and mark them. *)
Definition selectNew (now : JsDate.t) (accounts : list string)
  (alerts : list Alert.t) (kv : KV.store) : list Alert.t * KV.store :=
  fold_left
    (fun st alert =>
       let '(newAlerts, kv) := st in
       let key := alertKey accounts (Alert.metricKey alert) (JsDate.monthKey now) in
       if KV.hasMarker (JsDate.getTime now) key kv
       then (newAlerts, kv)
       else (newAlerts ++ [alert],
             KV.put (JsDate.getTime now) key (KV.VText "true") markerTtl kv))
    alerts ([], kv).

(** An argument of [sendSlackAlert], which the two callers fill with
    values of different kinds. *)
Inductive arg :=
| Alerts (alerts : list Alert.t)
| ScheduledAlerts (alerts : list ScheduledAlert.t)
| Text (s : string)
| Texts (l : list string).

(** [sendSlackAlert(alerts, webhookUrl, dashboardUrl)]: [alerts.map]
    needs an array, [fetch] a URL; a response that is not OK throws. *)
Definition sendSlackAlert (slack : string -> Http.outcome unit)
  (alerts webhookUrl dashboardUrl : arg) : Exec.M bool :=
  let post (call : Call.t) (url : string) : Exec.M bool :=
    (Exec.request call ;;;
     match slack url with
     | Http.NetworkError => Exec.throw "fetch failed"
     | Http.Response ok _ =>
       if ok then Exec.ret true
       else Exec.throw "Failed to send Slack message"
     end)%exec in
  match alerts, webhookUrl with
  | Text _, _ | Texts _, _ => Exec.throw "alerts.map is not a function"
  | Alerts l, Text url => post (Call.SlackPost url l) url
  | ScheduledAlerts l, Text url => post (Call.SlackScheduled url l) url
  | _, _ => Exec.throw "Failed to parse URL"
  end.

Inductive response :=
| TestResponse (success : bool)
| CheckResponse (alerts : list Alert.t) (alertsTriggered : bool)
                (slackSent : option bool) (skipped : option Z)
                (error : option string).

Definition webhookOf (body : CheckBody.t) : option string :=
  match CheckBody.slackWebhook body with
  | Some url => if JsString.truthy url then Some url else None
  | None => None
  end.

(** [checkThresholds]. *)
Definition checkThresholds (slack : string -> Http.outcome unit)
  (origin : string) (now : JsDate.t) (body : CheckBody.t)
  : Exec.M response :=
  let accounts := accountsOf body in
  match CheckBody.forceTest body, webhookOf body with
  | true, Some url =>
    (Exec.request (Call.SlackTest url) ;;;
     match slack url with
     | Http.NetworkError => Exec.ret (TestResponse false)
     | Http.Response _ _ => Exec.ret (TestResponse true)
     end)%exec
  | _, webhook =>
    let alerts := alertsOf (CheckBody.metrics body) (CheckBody.thresholds body) in
    match webhook with
    | Some url =>
      if (0 <? Z.of_nat (length alerts)) then
        Exec.catch
          (newAlerts <- (fun w =>
                           let '(l, kv') := selectNew now accounts alerts (World.kv w) in
                           (Exec.Returned l, World.setKv kv' w)) ;;
           if (0 <? Z.of_nat (length newAlerts)) then
             (sendSlackAlert slack (Alerts newAlerts) (Text url) (Text origin) ;;;
              Exec.ret (CheckResponse newAlerts true (Some true)
                          (Some (Z.of_nat (length alerts)
                                 - Z.of_nat (length newAlerts))) None))
           else
             Exec.ret (CheckResponse [] true (Some false)
                         (Some (Z.of_nat (length alerts))) None))%exec
          (fun e => Exec.ret (CheckResponse alerts true (Some false) None (Some e)))
      else
        Exec.ret (CheckResponse alerts (0 <? Z.of_nat (length alerts)) None None None)
    | None =>
      Exec.ret (CheckResponse alerts (0 <? Z.of_nat (length alerts)) None None None)
    end
  end.

(** The threshold checks of [runScheduledThresholdCheck]: the four
    blocks that fill [alerts] from the configured thresholds. *)
Definition scheduledCheck (label : string) (current : Z) (threshold : option Q)
  : list ScheduledAlert.t :=
  match threshold with
  | Some t =>
    if truthy threshold && negb (Qle_bool (inject_Z current) t) then
      [{| ScheduledAlert.metric := label;
          ScheduledAlert.current := inject_Z current;
          ScheduledAlert.threshold := t;
          ScheduledAlert.percentage := (inject_Z current / t * 100)%Q |}]
    else []
  | None => []
  end.

Definition scheduledAlerts (config : Config.t) (totalZones : Z)
  (aggregated : Aggregate.t) : list ScheduledAlert.t :=
  let current := Aggregate.current aggregated in
  scheduledCheck "Enterprise Zones" totalZones (Config.thresholdZones config)
  ++ scheduledCheck "HTTP Requests" (AggTotals.requests current)
       (Config.thresholdRequests config)
  ++ scheduledCheck "Data Transfer" (AggTotals.bytes current)
       (Config.thresholdBandwidth config)
  ++ scheduledCheck "DNS Queries" (AggTotals.dnsQueries current)
       (Config.thresholdDnsQueries config).

(** The end of [runScheduledThresholdCheck]: the monthly marker and the
    notification, inside the function's [try]/[catch]. *)
Definition scheduledNotify (slack : string -> Http.outcome unit)
  (now : JsDate.t) (config : Config.t) (accountIds : list string)
  (alerts : list ScheduledAlert.t) : Exec.M unit :=
  Exec.catch
    (if (Z.of_nat (length alerts) =? 0) then Exec.ret tt
     else
       let alertKey :=
         "alerts-sent:" +:+ match accountIds with id :: _ => id | [] => "undefined" end
         +:+ ":" +:+ JsDate.monthKey now in
       alreadySent <- Exec.kvGet (KV.hasMarker (JsDate.getTime now) alertKey) ;;
       if (alreadySent : bool) then Exec.ret tt
       else
         slackSent <- sendSlackAlert slack
                        (Text (match Config.slackWebhook config with
                               | Some url => url | None => EmptyString end))
                        (ScheduledAlerts alerts) (Texts accountIds) ;;
         if (slackSent : bool) then
           Exec.kvPut (KV.put (JsDate.getTime now) alertKey (KV.VText "sent")
                         (32 * 24 * 60 * 60))
         else Exec.ret tt)%exec
    (fun _ => Exec.ret tt).

End Thresholds.

(** ** Per-account metrics fetcher: up to the zero-zone return *)

Module AccountBody.
(** The body of the account lookup: [data.result?.name]. *)
Record t := mk {
  result_name : option string
}.
End AccountBody.

Module ZonesBody.
(** [data.result] of a parsed body that is not [null]. An element of a
    result array is a zone object or [null]; the fields of a zone
    object, where present, are strings, as the API documents them. *)
Inductive field :=
| Falsy
    (** missing, [null], [false], [0] or the empty string *)
| NotArray
    (** any other value that is not an array: [true], a number, a
        string, an object *)
| Array (zones : list (option EnterpriseZone.t)).

(** The parsed body of the zone list: [null], or a value with its
    [result] (a body that is a number, a string, a boolean or an array
    has no [result]: [Value Falsy]). *)
Inductive t :=
| Null
| Value (result : field).

(** A body whose [result] lists the given zone objects. *)
Definition ofZones (zones : list EnterpriseZone.t) : t :=
  Value (Array (map Some zones)).

(** The zone objects of a result array, unless an element is [null]. *)
Fixpoint objects (result : list (option EnterpriseZone.t))
  : option (list EnterpriseZone.t) :=
  match result with
  | [] => Some []
  | None :: _ => None
  | Some zone :: rest =>
    match objects rest with
    | Some zones => Some (zone :: zones)
    | None => None
    end
  end.
End ZonesBody.

Module Env.
(** The services a fetch talks to, and the clock. *)
Record t := mk {
  now : JsDate.t;
  accountsApi : string -> Http.outcome AccountBody.t;
  zonesApi : Http.outcome ZonesBody.t
}.
End Env.

Module Fetcher.

(** [fetchAccountName]: any failure gives [null]. *)
Definition fetchAccountName (env : Env.t) (accountId : string)
  : Exec.M (option string) :=
  Exec.catch
    (Exec.request (Call.AccountLookup accountId) ;;;
     match Env.accountsApi env accountId with
     | Http.NetworkError => Exec.throw "fetch failed"
     | Http.Response _ None => Exec.throw "Unexpected token"
     | Http.Response ok (Some data) =>
       match AccountBody.result_name data with
       | Some name =>
         if ok && JsString.truthy name then Exec.ret (Some name)
         else Exec.ret None
       | None => Exec.ret None
       end
     end)%exec
    (fun _ => Exec.ret None).

(** [zone.plan?.legacy_id === 'enterprise' ||
     zone.plan?.name?.toLowerCase().includes('enterprise')]. *)
Definition isEnterprise (zone : EnterpriseZone.t) : bool :=
  match EnterpriseZone.plan_legacy_id zone with
  | Some l => String.eqb l "enterprise"
  | None => false
  end
  || match EnterpriseZone.plan_name zone with
     | Some n => JsString.includes "enterprise" (JsString.toLowerCase n)
     | None => false
     end.

(** [zone.account && zone.account.id === accountId]. *)
Definition inAccount (accountId : string) (zone : EnterpriseZone.t) : bool :=
  match EnterpriseZone.account_id zone with
  | Some a => String.eqb a accountId
  | None => false
  end.

(** [fetchEnterpriseZones]. The body is parsed before the status is
    looked at, and nothing catches a failure of any step: of the
    request, of the parsing, of [data.result] on a [null] body (read
    only when the response is OK), of [data.result.filter] on a value
    that is not an array, or of [zone.account] on a [null] element. *)
Definition fetchEnterpriseZones (env : Env.t) (accountId : string)
  : Exec.M (list EnterpriseZone.t) :=
  (Exec.request (Call.ZoneList accountId) ;;;
   match Env.zonesApi env with
   | Http.NetworkError => Exec.throw "fetch failed"
   | Http.Response _ None => Exec.throw "Unexpected token"
   | Http.Response ok (Some data) =>
     if negb ok then Exec.ret []
     else
       match data with
       | ZonesBody.Null => Exec.throw "Cannot read properties of null"
       | ZonesBody.Value ZonesBody.Falsy => Exec.ret []
       | ZonesBody.Value ZonesBody.NotArray =>
         Exec.throw "data.result.filter is not a function"
       | ZonesBody.Value (ZonesBody.Array result) =>
         match ZonesBody.objects result with
         | None => Exec.throw "Cannot read properties of null"
         | Some zones =>
           let accountZones := List.filter (inAccount accountId) zones in
           let enterpriseZones := List.filter isEnterprise accountZones in
           Exec.ret enterpriseZones
         end
       end
   end)%exec.

Definition CACHE_VERSION : Z := 2.

(** [`current-month:${accountId}:${year}-${month}-${day}-${hour}`]. *)
Definition currentMonthCacheKey (now : JsDate.t) (accountId : string) : string :=
  "current-month:" +:+ accountId +:+ ":"
  +:+ JsString.ofInt (JsDate.year now) +:+ "-"
  +:+ JsString.padStart2 (JsString.ofInt (JsDate.month now + 1)) +:+ "-"
  +:+ JsString.padStart2 (JsString.ofInt (JsDate.date now)) +:+ "-"
  +:+ JsString.padStart2 (JsString.ofInt (JsDate.hours now)).

(** The record returned for an account without enterprise zones. *)
Definition emptyMetrics (accountId : string) (accountName : option string)
  : AccountMetrics.t :=
  {| AccountMetrics.accountId := accountId;
     AccountMetrics.accountName := accountName;
     AccountMetrics.current :=
       {| Totals.requests := Some 0; Totals.bytes := Some 0;
          Totals.dnsQueries := Some 0; Totals.confidence := None |};
     AccountMetrics.previous :=
       {| Totals.requests := Some 0; Totals.bytes := Some 0;
          Totals.dnsQueries := Some 0; Totals.confidence := None |};
     AccountMetrics.timeSeries := Some [];
     AccountMetrics.zoneBreakdown :=
       {| Breakdown.primary := Some 0; Breakdown.secondary := Some 0;
          Breakdown.zones := Some [] |};
     AccountMetrics.previousMonthZoneBreakdown :=
       {| Breakdown.primary := Some 0; Breakdown.secondary := Some 0;
          Breakdown.zones := Some [] |} |}.

(** The current-month cache test: a payload of the current version,
    younger than 10 minutes. *)
Definition freshCurrentMonth (now : Z) (cached : option CurrentMonthCache.t)
  : option AccountMetrics.t :=
  match cached with
  | Some c =>
    match CurrentMonthCache.cachedAt c, CurrentMonthCache.version c with
    | Some cachedAt, Some version =>
      if negb (cachedAt =? 0) && (version =? CACHE_VERSION)
         && (now - cachedAt <? 10 * 60 * 1000)
      then Some (CurrentMonthCache.data c) else None
    | _, _ => None
    end
  | None => None
  end.

(** [fetchAccountMetrics]. [queryAnalytics] stands for the rest of the
    function once the account has zones: the analytics queries for the
    current and the previous month, the DNS queries per zone, the
    historical series and the cache write. *)
Definition fetchAccountMetrics
  (queryAnalytics : Env.t -> string -> option string ->
                    list EnterpriseZone.t -> Exec.M AccountMetrics.t)
  (env : Env.t) (accountId : string) : Exec.M AccountMetrics.t :=
  let now := JsDate.getTime (Env.now env) in
  (accountName <- fetchAccountName env accountId ;;
   cachedCurrentMonth <-
     Exec.kvGet (KV.getCurrentMonth now
                   (currentMonthCacheKey (Env.now env) accountId)) ;;
   match freshCurrentMonth now cachedCurrentMonth with
   | Some data => Exec.ret data
   | None =>
     let zonesCacheKey := "zones:" +:+ accountId in
     cachedZones <- Exec.kvGet (KV.getZones now zonesCacheKey) ;;
     enterpriseZones <-
       match cachedZones with
       | Some zones => Exec.ret zones
       | None =>
         zones <- fetchEnterpriseZones env accountId ;;
         (if (0 <? Z.of_nat (length zones))
          then Exec.kvPut (KV.put now zonesCacheKey (KV.VZones zones) 3600)
          else Exec.ret tt) ;;;
         Exec.ret zones
       end ;;
     if (Z.of_nat (length enterpriseZones) =? 0)
     then Exec.ret (emptyMetrics accountId accountName)
     else queryAnalytics env accountId accountName enterpriseZones
   end)%exec.

(** The external requests that are analytics queries. *)
Definition isAnalytics (c : Call.t) : bool :=
  match c with
  | Call.Analytics _ => true
  | _ => false
  end.

End Fetcher.
(** ** Request handlers around the fetchers *)

Module Settled.

(** The promises of [xs.map(f)] run in the order of the list; each one
    ends fulfilled or rejected, and none of them stops the others. *)
Fixpoint settle {A} (promises : list (Exec.M A)) (w : World.t)
  : list (Exec.result A) * World.t :=
  match promises with
  | [] => ([], w)
  | p :: rest =>
    let '(r, w') := p w in
    let '(rs, w'') := settle rest w' in
    (r :: rs, w'')
  end.

(** [await Promise.allSettled(promises)]. *)
Definition allSettled {A} (promises : list (Exec.M A))
  : Exec.M (list (Exec.result A)) :=
  fun w => let '(rs, w') := settle promises w in (Exec.Returned rs, w').

(** [results.filter(r => r.status === 'fulfilled').map(r => r.value)]. *)
Definition fulfilled {A} (results : list (Exec.result A)) : list A :=
  flat_map (fun r => match r with
                     | Exec.Returned a => [a]
                     | Exec.Thrown _ => []
                     end) results.

Definition rejected {A} (r : Exec.result A) : Prop :=
  match r with
  | Exec.Returned _ => False
  | Exec.Thrown _ => True
  end.

End Settled.

Module Phase1.
(** What [fetchPhase1Data] returns; [requests], [bytes] and [dnsQueries]
    are the fields of its [current]. *)
Record t := mk {
  requests : Z;
  bytes : Z;
  dnsQueries : Z;
  zonesCount : Z;
  loading : bool
}.
End Phase1.

Module Phase2.
(** What [fetchPhase2Data] returns: the aggregate and [loading]. *)
Record t := mk {
  aggregated : Aggregate.t;
  loading : bool
}.
End Phase2.

Module ZonesResponse.
(** The body [getZones] answers with; a zone is listed by id and name. *)
Record t := mk {
  total : Z;
  enterprise : Z;
  zones : list (string * string)
}.
End ZonesResponse.

Module CacheStatus.
(** The body [getCacheStatus] answers with. *)
Record t := mk {
  exists_ : bool;
  age : Json.t;
  ageMinutes : Json.t;
  accountIds : list string
}.
End CacheStatus.

Module ConfigBody.
(** The body of a request to save the configuration. *)
Record t := mk {
  userId : option string;
  config : option Config.t
}.
End ConfigBody.

Module Api.

(** A handler's answer: 200 with a body, 400 or 500 with a message. *)
Inductive response (A : Type) :=
| Ok (body : A)
| BadRequest (error : string)
| ServerError (error : string).
Arguments Ok {A} body.
Arguments BadRequest {A} error.
Arguments ServerError {A} error.

(** [!apiKey]. *)
Definition tokenMissing (apiKey : option string) : bool :=
  match apiKey with
  | Some key => negb (JsString.truthy key)
  | None => true
  end.

Definition noToken : string :=
  "API token not configured. Set it using: npx wrangler secret put CLOUDFLARE_API_TOKEN".

Definition noAccounts : string :=
  "Account IDs not configured. Please configure them in Settings.".

(** [getMetrics]. *)
Definition getMetrics
  (queryAnalytics : Env.t -> string -> option string ->
                    list EnterpriseZone.t -> Exec.M AccountMetrics.t)
  (env : Env.t) (apiKey : option string) (body : RequestBody.t)
  : Exec.M (response Aggregate.t) :=
  let accountIds := Progressive.parseAccountIds body in
  if tokenMissing apiKey then Exec.ret (BadRequest noToken)
  else if (Z.of_nat (length accountIds) =? 0) then Exec.ret (BadRequest noAccounts)
  else
    (accountMetricsResults <-
       Settled.allSettled
         (map (Fetcher.fetchAccountMetrics queryAnalytics env) accountIds) ;;
     let successfulMetrics := Settled.fulfilled accountMetricsResults in
     if (Z.of_nat (length successfulMetrics) =? 0)
     then Exec.ret (ServerError "Failed to fetch metrics from any account")
     else Exec.ret (Ok (Aggregator.aggregateAccountMetrics successfulMetrics)))%exec.

(** [fetchPhase1Data]. *)
Definition fetchPhase1Data (env : Env.t) (accountIds : list string)
  : Exec.M Phase1.t :=
  (zonesResults <-
     Settled.allSettled (map (Fetcher.fetchEnterpriseZones env) accountIds) ;;
   let allZones := concat (Settled.fulfilled zonesResults) in
   let totalZones := Z.of_nat (length allZones) in
   Exec.ret {| Phase1.requests := 0; Phase1.bytes := 0; Phase1.dnsQueries := 0;
               Phase1.zonesCount := totalZones; Phase1.loading := true |})%exec.

(** [{ ...metrics, timeSeries: [] }]. *)
Definition stripTimeSeries (metrics : AccountMetrics.t) : AccountMetrics.t :=
  {| AccountMetrics.accountId := AccountMetrics.accountId metrics;
     AccountMetrics.accountName := AccountMetrics.accountName metrics;
     AccountMetrics.current := AccountMetrics.current metrics;
     AccountMetrics.previous := AccountMetrics.previous metrics;
     AccountMetrics.timeSeries := Some [];
     AccountMetrics.zoneBreakdown := AccountMetrics.zoneBreakdown metrics;
     AccountMetrics.previousMonthZoneBreakdown :=
       AccountMetrics.previousMonthZoneBreakdown metrics |}.

(** [fetchPhase2Data]. *)
Definition fetchPhase2Data
  (queryAnalytics : Env.t -> string -> option string ->
                    list EnterpriseZone.t -> Exec.M AccountMetrics.t)
  (env : Env.t) (accountIds : list string) : Exec.M Phase2.t :=
  (accountMetricsResults <-
     Settled.allSettled
       (map (fun accountId =>
               metrics <- Fetcher.fetchAccountMetrics queryAnalytics env accountId ;;
               Exec.ret (stripTimeSeries metrics))
            accountIds) ;;
   let successfulMetrics := Settled.fulfilled accountMetricsResults in
   let aggregated := Aggregator.aggregateAccountMetrics successfulMetrics in
   Exec.ret {| Phase2.aggregated := aggregated; Phase2.loading := true |})%exec.

(** The [for (const accountId of accountIds)] loop of [getZones]. *)
Fixpoint collectZones (env : Env.t) (accountIds : list string)
  (allEnterpriseZones : list EnterpriseZone.t)
  : Exec.M (list EnterpriseZone.t) :=
  match accountIds with
  | [] => Exec.ret allEnterpriseZones
  | accountId :: rest =>
    (pushed <-
       Exec.catch
         (zones <- Fetcher.fetchEnterpriseZones env accountId ;;
          if (0 <? Z.of_nat (length zones))
          then Exec.ret (allEnterpriseZones ++ zones)
          else Exec.ret allEnterpriseZones)
         (fun _ => Exec.ret allEnterpriseZones) ;;
     collectZones env rest pushed)%exec
  end.

(** [getZones]. *)
Definition getZones (env : Env.t) (apiKey : option string) (body : RequestBody.t)
  : Exec.M (response ZonesResponse.t) :=
  let accountIds := Progressive.parseAccountIds body in
  if tokenMissing apiKey then Exec.ret (BadRequest noToken)
  else if (Z.of_nat (length accountIds) =? 0) then Exec.ret (BadRequest noAccounts)
  else
    (allEnterpriseZones <- collectZones env accountIds [] ;;
     Exec.ret
       (Ok {| ZonesResponse.total := Z.of_nat (length allEnterpriseZones);
              ZonesResponse.enterprise := Z.of_nat (length allEnterpriseZones);
              ZonesResponse.zones :=
                map (fun z => (EnterpriseZone.id z, EnterpriseZone.name z))
                    allEnterpriseZones |}))%exec.

(** [getCacheStatus]. *)
Definition getCacheStatus (now : Z) (body : RequestBody.t)
  : Exec.M CacheStatus.t :=
  let accountIds := Progressive.parseAccountIds body in
  let cacheKey := Progressive.preWarmedKey accountIds in
  (cachedData <- Exec.kvGet (KV.getSnapshot now cacheKey) ;;
   Exec.ret
     {| CacheStatus.exists_ := Json.truthy cachedData;
        CacheStatus.age :=
          if Json.truthy cachedData then Progressive.cacheAge now cachedData
          else Json.Null;
        CacheStatus.ageMinutes :=
          if Json.truthy cachedData then
            match Progressive.cacheAge now cachedData with
            | Json.Num age => Json.Num (age / 60000)
            | _ => Json.Null
            end
          else Json.Null;
        CacheStatus.accountIds := accountIds |})%exec.

(** [CONFIG_KV.put(key, value)] without a lifetime. *)
Definition putForever (key : string) (v : KV.value) (kv : KV.store) : KV.store :=
  <[key := (v, None)]> kv.

(** [getConfig]: [userId] is the query parameter; [None] in the answer
    is the empty object sent when nothing is stored. *)
Definition getConfig (now : Z) (userId : option string)
  : Exec.M (option Config.t) :=
  let user := match userId with
              | Some u => if JsString.truthy u then u else "default"
              | None => "default"
              end in
  Exec.kvGet (KV.getConfig now ("config:" +:+ user)).

(** [saveConfig]; the default of [userId] only replaces a missing one. *)
Definition saveConfig (body : ConfigBody.t) : Exec.M (response bool) :=
  let userId := match ConfigBody.userId body with
                | Some u => u
                | None => "default"
                end in
  match ConfigBody.config body with
  | None => Exec.ret (BadRequest "Missing config")
  | Some config =>
    (Exec.kvPut (putForever ("config:" +:+ userId) (KV.VConfig config)) ;;;
     Exec.ret (Ok true))%exec
  end.

End Api.
(** ** Per-account metrics fetcher: the current-month block and the cache write *)

Module ZoneTotals.
(** [zone.totals[0]] of the current-month query: [count],
    [sum.edgeResponseBytes], [confidence.count] and
    [confidence.sum.edgeResponseBytes]. *)
Record t := mk {
  count : Js.num;
  edgeResponseBytes : Js.num;
  confidenceCount : option Confidence.Interval;
  confidenceBytes : option Confidence.Interval
}.
End ZoneTotals.

Module ZoneStats.
(** One zone of [data.data.viewer.zones]. *)
Record t := mk {
  zoneTag : string;
  totals : option ZoneTotals.t
}.
End ZoneStats.

Module DnsTotals.
(** [queryTotals[0]] of the DNS query of one zone. *)
Record t := mk {
  count : Js.num;
  confidence : option Confidence.Interval
}.
End DnsTotals.

Module Calendar.

(** [new Date(year, month, 1)]: a month outside 0..11 carries into the
    year. *)
Definition startOfMonth (year month : Z) : JsDate.t :=
  {| JsDate.year := year + month / 12;
     JsDate.month := month mod 12;
     JsDate.date := 1;
     JsDate.hours := 0; JsDate.minutes := 0; JsDate.seconds := 0;
     JsDate.milliseconds := 0 |}.

Definition currentMonthStart (now : JsDate.t) : JsDate.t :=
  startOfMonth (JsDate.year now) (JsDate.month now).

Definition previousMonthStart (now : JsDate.t) : JsDate.t :=
  startOfMonth (JsDate.year now) (JsDate.month now - 1).

End Calendar.

Module AnalyticsEnv.
(** The analytics service as one fetch of an account sees it. The body
    of the zone statistics is [data.data?.viewer?.zones || []], the body
    of a zone's DNS totals is
    [dnsData.data?.viewer?.zones?.[0]?.queryTotals?.[0]] when it is
    there. [previousMonth] stands for the previous-month block (its
    totals and its zone metrics) and [historical] for
    [getHistoricalMonthlyData]. *)
Record t := mk {
  zoneStats : string -> Http.outcome (list ZoneStats.t);
  dnsApi : string -> Http.outcome (option DnsTotals.t);
  previousMonth : string -> list EnterpriseZone.t ->
                  Exec.M (Totals.t * list Zone.t);
  historical : string -> Exec.M (list Entry.t)
}.
End AnalyticsEnv.

Module CurrentMonth.
(** The state of the [zones.forEach] loop: [currentMonthTotal], the two
    confidence collectors and [zoneMetrics]. *)
Record t := mk {
  requests : Z;
  bytes : Z;
  requestsConfidence : Aggregator.Collected;
  bytesConfidence : Aggregator.Collected;
  zoneMetrics : list Zone.t
}.
End CurrentMonth.

Module Analytics.

(** 50GB in bytes. *)
Definition SECONDARY_ZONE_THRESHOLD : Z := 50 * 1024 ^ 3.

(** [zoneNameMap[tag] || tag], the map filled from the zone list in
    order (a later zone of the same id replaces an earlier one). *)
Definition zoneNameOf (enterpriseZones : list EnterpriseZone.t) (tag : string)
  : string :=
  match List.find (fun z => String.eqb (EnterpriseZone.id z) tag)
                  (rev enterpriseZones) with
  | Some z =>
    if JsString.truthy (EnterpriseZone.name z) then EnterpriseZone.name z else tag
  | None => tag
  end.

(** The four [push] calls made for one interval, a missing or zero
    number replaced by the count itself (the sample size by 0). *)
Definition pushInterval (acc : Aggregator.Collected)
  (conf : option Confidence.Interval) (count : Z) : Aggregator.Collected :=
  match conf with
  | None => acc
  | Some c =>
    {| Aggregator.estimates :=
         Aggregator.estimates acc ++ [Some (Js.orNum (Confidence.estimate c) count)];
       Aggregator.lowers :=
         Aggregator.lowers acc ++ [Some (Js.orNum (Confidence.lower c) count)];
       Aggregator.uppers :=
         Aggregator.uppers acc ++ [Some (Js.orNum (Confidence.upper c) count)];
       Aggregator.sampleSizes :=
         Aggregator.sampleSizes acc ++ [Some (Js.orZero (Confidence.sampleSize c))] |}
  end.

Definition zoneRequests (zone : ZoneStats.t) : Z :=
  match ZoneStats.totals zone with
  | Some totals => Js.orZero (ZoneTotals.count totals)
  | None => 0
  end.

Definition zoneBytes (zone : ZoneStats.t) : Z :=
  match ZoneStats.totals zone with
  | Some totals => Js.orZero (ZoneTotals.edgeResponseBytes totals)
  | None => 0
  end.

(** The body of [zones.forEach]. *)
Definition addZone (enterpriseZones : list EnterpriseZone.t)
  (st : CurrentMonth.t) (zone : ZoneStats.t) : CurrentMonth.t :=
  let requestsConf := match ZoneStats.totals zone with
                      | Some totals => ZoneTotals.confidenceCount totals
                      | None => None
                      end in
  let bytesConf := match ZoneStats.totals zone with
                   | Some totals => ZoneTotals.confidenceBytes totals
                   | None => None
                   end in
  let isPrimary := SECONDARY_ZONE_THRESHOLD <=? zoneBytes zone in
  {| CurrentMonth.requests := CurrentMonth.requests st + zoneRequests zone;
     CurrentMonth.bytes := CurrentMonth.bytes st + zoneBytes zone;
     CurrentMonth.requestsConfidence :=
       pushInterval (CurrentMonth.requestsConfidence st) requestsConf
                    (zoneRequests zone);
     CurrentMonth.bytesConfidence :=
       pushInterval (CurrentMonth.bytesConfidence st) bytesConf (zoneBytes zone);
     CurrentMonth.zoneMetrics :=
       CurrentMonth.zoneMetrics st
       ++ [{| Zone.zoneTag := ZoneStats.zoneTag zone;
              Zone.zoneName := zoneNameOf enterpriseZones (ZoneStats.zoneTag zone);
              Zone.requests := Some (zoneRequests zone);
              Zone.bytes := Some (zoneBytes zone);
              Zone.dnsQueries := Some 0;
              Zone.isPrimary := isPrimary |}] |}.

Definition processZones (enterpriseZones : list EnterpriseZone.t)
  (zones : list ZoneStats.t) : CurrentMonth.t :=
  fold_left (addZone enterpriseZones) zones
    {| CurrentMonth.requests := 0; CurrentMonth.bytes := 0;
       CurrentMonth.requestsConfidence := Aggregator.noneCollected;
       CurrentMonth.bytesConfidence := Aggregator.noneCollected;
       CurrentMonth.zoneMetrics := [] |}.

(** The DNS query of one zone: the count and the interval it reports. *)
Definition dnsResult (aenv : AnalyticsEnv.t) (zoneTag : string)
  : Exec.M (Z * option Confidence.Interval) :=
  (Exec.request (Call.Analytics "DnsTotals") ;;;
   match AnalyticsEnv.dnsApi aenv zoneTag with
   | Http.NetworkError => Exec.throw "fetch failed"
   | Http.Response _ None => Exec.throw "Unexpected token"
   | Http.Response ok (Some dnsData) =>
     match ok, dnsData with
     | true, Some queryData =>
       Exec.ret (Js.orZero (DnsTotals.count queryData),
                 DnsTotals.confidence queryData)
     | _, _ => Exec.ret (0, None)
     end
   end)%exec.

(** [zoneMetric.dnsQueries = n]. *)
Definition withDns (zoneMetric : Zone.t) (n : Z) : Zone.t :=
  {| Zone.zoneTag := Zone.zoneTag zoneMetric;
     Zone.zoneName := Zone.zoneName zoneMetric;
     Zone.requests := Zone.requests zoneMetric;
     Zone.bytes := Zone.bytes zoneMetric;
     Zone.dnsQueries := Some n;
     Zone.isPrimary := Zone.isPrimary zoneMetric |}.

(** The DNS queries of the zones, each inside its own [try]/[catch]:
    the total, the collected intervals and the updated zone metrics. *)
Fixpoint fetchDns (aenv : AnalyticsEnv.t) (zoneMetrics : list Zone.t)
  (total : Z) (conf : Aggregator.Collected) (done : list Zone.t)
  : Exec.M (Z * Aggregator.Collected * list Zone.t) :=
  match zoneMetrics with
  | [] => Exec.ret (total, conf, done)
  | zoneMetric :: rest =>
    (answer <- Exec.catch
                 (r <- dnsResult aenv (Zone.zoneTag zoneMetric) ;;
                  Exec.ret (Some r))
                 (fun _ => Exec.ret None) ;;
     match answer with
     | Some (count, confidence) =>
       fetchDns aenv rest (total + count) (pushInterval conf confidence count)
                (done ++ [withDns zoneMetric count])
     | None =>
       fetchDns aenv rest total conf (done ++ [withDns zoneMetric 0])
     end)%exec
  end.

(** [zoneMetrics.filter(z => z.isPrimary).length] and its complement. *)
Definition primaryCount (zoneMetrics : list Zone.t) : Z :=
  Z.of_nat (length (List.filter Zone.isPrimary zoneMetrics)).

Definition secondaryCount (zoneMetrics : list Zone.t) : Z :=
  Z.of_nat (length (List.filter (fun z => negb (Zone.isPrimary z)) zoneMetrics)).

(** The rest of [fetchAccountMetrics] once the account has zones. A
    response that is not OK throws (the source adds the body to the
    message), and so does an empty zone list. *)
Definition queryAnalytics (aenv : AnalyticsEnv.t) (env : Env.t)
  (accountId : string) (accountName : option string)
  (enterpriseZones : list EnterpriseZone.t) : Exec.M AccountMetrics.t :=
  let now := Env.now env in
  (Exec.request (Call.Analytics "GetEnterpriseZoneStats") ;;;
   match AnalyticsEnv.zoneStats aenv accountId with
   | Http.NetworkError => Exec.throw "fetch failed"
   | Http.Response _ None => Exec.throw "Unexpected token"
   | Http.Response ok (Some zones) =>
     if negb ok
     then Exec.throw ("Failed to fetch metrics for account " +:+ accountId)
     else if (Z.of_nat (length zones) =? 0)
     then Exec.throw ("No zone data found for account " +:+ accountId)
     else
       let currentMonthTotal := processZones enterpriseZones zones in
       dns <- fetchDns aenv (CurrentMonth.zoneMetrics currentMonthTotal)
                0 Aggregator.noneCollected [] ;;
       let '(dnsQueries, dnsConfidence, zoneMetrics) := dns in
       previous <- AnalyticsEnv.previousMonth aenv accountId enterpriseZones ;;
       let '(previousMonthStats, prevZoneMetrics) := previous in
       historicalData <- AnalyticsEnv.historical aenv accountId ;;
       let timeSeriesData :=
         JsArray.sort Aggregator.byTimestamp
           (historicalData
            ++ [{| Entry.month := JsDate.monthKey now;
                   Entry.timestamp :=
                     JsDate.getTime (Calendar.currentMonthStart now);
                   Entry.requests := Some (CurrentMonth.requests currentMonthTotal);
                   Entry.bytes := Some (CurrentMonth.bytes currentMonthTotal);
                   Entry.dnsQueries := Some dnsQueries |}]) in
       let result :=
         {| AccountMetrics.accountId := accountId;
            AccountMetrics.accountName := accountName;
            AccountMetrics.current :=
              {| Totals.requests := Some (CurrentMonth.requests currentMonthTotal);
                 Totals.bytes := Some (CurrentMonth.bytes currentMonthTotal);
                 Totals.dnsQueries := Some dnsQueries;
                 Totals.confidence :=
                   Some {| ConfidenceSet.requests :=
                             Aggregator.aggregateConfidence
                               (CurrentMonth.requestsConfidence currentMonthTotal);
                           ConfidenceSet.bytes :=
                             Aggregator.aggregateConfidence
                               (CurrentMonth.bytesConfidence currentMonthTotal);
                           ConfidenceSet.dnsQueries :=
                             Aggregator.aggregateConfidence dnsConfidence |} |};
            AccountMetrics.previous := previousMonthStats;
            AccountMetrics.timeSeries := Some timeSeriesData;
            AccountMetrics.zoneBreakdown :=
              {| Breakdown.primary := Some (primaryCount zoneMetrics);
                 Breakdown.secondary := Some (secondaryCount zoneMetrics);
                 Breakdown.zones := Some zoneMetrics |};
            AccountMetrics.previousMonthZoneBreakdown :=
              {| Breakdown.primary := Some (primaryCount prevZoneMetrics);
                 Breakdown.secondary := Some (secondaryCount prevZoneMetrics);
                 Breakdown.zones := Some prevZoneMetrics |} |} in
       Exec.kvPut
         (KV.put (JsDate.getTime now)
                 (Fetcher.currentMonthCacheKey now accountId)
                 (KV.VCurrentMonth
                    {| CurrentMonthCache.version := Some Fetcher.CACHE_VERSION;
                       CurrentMonthCache.cachedAt := Some (JsDate.getTime now);
                       CurrentMonthCache.data := result |})
                 600) ;;;
       Exec.ret result
   end)%exec.

End Analytics.
(** ** Zone-based add-ons of one account, and the phase-3 response *)

Module AddonCalc.

(** [configuredZones.has(zone.zoneTag)]. *)
Definition configured (zones : list string) (zone : Zone.t) : bool :=
  existsb (String.eqb (Zone.zoneTag zone)) zones.

(** [{ zoneId: zone.zoneTag, zoneName: zone.zoneName || zone.zoneTag,
       requests: zone.requests || 0 }]. *)
Definition toAddonZone (zone : Zone.t) : AddonZone.t :=
  {| AddonZone.zoneId := Zone.zoneTag zone;
     AddonZone.zoneName :=
       if JsString.truthy (Zone.zoneName zone) then Zone.zoneName zone
       else Zone.zoneTag zone;
     AddonZone.requests := Some (Js.orZero (Zone.requests zone)) |}.

(** [(breakdown?.zones || []).filter(...).map(...)]. *)
Definition selectZones (zones : list string) (breakdown : Breakdown.t)
  : list AddonZone.t :=
  map toAddonZone
      (List.filter (configured zones)
                   (match Breakdown.zones breakdown with
                    | Some l => l
                    | None => []
                    end)).

(** [zones.reduce((sum, zone) => sum + (zone.requests || 0), 0)]. *)
Definition totalRequests (zones : list AddonZone.t) : Z :=
  fold_left (fun sum zone => sum + Js.orZero (AddonZone.requests zone)) zones 0.

(** The character [-]. *)
Definition dash : Ascii.ascii := Ascii.ascii_of_nat 45.

(** [s.replace(/\s+/g, '-')]. *)
Fixpoint dashSpaces (inRun : bool) (s : string) : string :=
  match s with
  | EmptyString => EmptyString
  | String c s' =>
    if Ascii.is_space c
    then (if inRun then dashSpaces true s' else String dash (dashSpaces true s'))
    else String c (dashSpaces false s')
  end.

(** [`monthly-${addonType.toLowerCase().replace(/\s+/g, '-')}-stats`]. *)
Definition kvPrefix (addonType : string) : string :=
  "monthly-" +:+ dashSpaces false (JsString.toLowerCase addonType) +:+ "-stats".

Definition zoneJson (zone : AddonZone.t) : Json.t :=
  Json.Obj [("zoneId", Json.Str (AddonZone.zoneId zone));
            ("zoneName", Json.Str (AddonZone.zoneName zone));
            ("requests", match AddonZone.requests zone with
                         | Some n => Json.Num n
                         | None => Json.Null
                         end)].

(** [{ requests: previousTotal, zones: previousZones }] as it is stored. *)
Definition monthlyStats (previousTotal : Z) (previousZones : list AddonZone.t)
  : KV.value :=
  KV.VSnapshot (Json.Obj [("requests", Json.Num previousTotal);
                          ("zones", Json.Arr (map zoneJson previousZones))]).

(** The key the previous month's add-on usage of an account is kept under. *)
Definition monthlyKey (addonType accountId : string) (now : JsDate.t) : string :=
  kvPrefix addonType +:+ ":" +:+ accountId +:+ ":"
  +:+ JsDate.monthKey (Calendar.previousMonthStart now).

(** [calculateZoneBasedAddonForAccount]; [getHistoricalAddonData] is
    the function of that name, of the account and the add-on type. *)
Definition calculateZoneBasedAddonForAccount
  (getHistoricalAddonData : string -> string -> Exec.M (list AddonEntry.t))
  (now : JsDate.t) (accountData : AccountMetrics.t)
  (addonConfig : option AddonConfig.t) (addonType : string)
  : Exec.M (option AddonData.t) :=
  match addonConfig with
  | None => Exec.ret None
  | Some cfg =>
    match AddonConfig.enabled cfg, AddonConfig.zones cfg with
    | Some true, Some (zone :: zones) =>
      let configuredZones := zone :: zones in
      let currentZones :=
        selectZones configuredZones (AccountMetrics.zoneBreakdown accountData) in
      if (Z.of_nat (length currentZones) =? 0) then Exec.ret None
      else
        let previousZones :=
          selectZones configuredZones
                      (AccountMetrics.previousMonthZoneBreakdown accountData) in
        let currentTotal := totalRequests currentZones in
        let previousTotal := totalRequests previousZones in
        let confidence :=
          match Totals.confidence (AccountMetrics.current accountData) with
          | Some cs => ConfidenceSet.requests cs
          | None => None
          end in
        (historicalData <-
           getHistoricalAddonData (AccountMetrics.accountId accountData) addonType ;;
         let timeSeries :=
           JsArray.sort AddonAggregator.byTimestamp
             (historicalData
              ++ [{| AddonEntry.month :=
                       JsDate.monthKey (Calendar.previousMonthStart now);
                     AddonEntry.timestamp :=
                       JsDate.getTime (Calendar.previousMonthStart now);
                     AddonEntry.requests := Some previousTotal |};
                  {| AddonEntry.month := JsDate.monthKey now;
                     AddonEntry.timestamp :=
                       JsDate.getTime (Calendar.currentMonthStart now);
                     AddonEntry.requests := Some currentTotal |}]) in
         (if (2 <=? JsDate.date now) && (0 <? previousTotal)
          then Exec.kvPut
                 (KV.put (JsDate.getTime now)
                         (monthlyKey addonType (AccountMetrics.accountId accountData) now)
                         (monthlyStats previousTotal previousZones)
                         31536000)
          else Exec.ret tt) ;;;
         Exec.ret
           (Some {| AddonData.current :=
                      {| AddonCurrent.requests := Some currentTotal;
                         AddonCurrent.zones := currentZones;
                         AddonCurrent.confidence := confidence |};
                    AddonData.previous :=
                      {| AddonPrevious.requests := Some previousTotal;
                         AddonPrevious.zones := previousZones |};
                    AddonData.timeSeries := Some timeSeries |}))%exec
    | _, _ => Exec.ret None
    end
  end.

End AddonCalc.

Module Phase3.
(** The phase-3 response: the core aggregate when there is one, and each
    add-on object that was built. [B] is the Bot Management object. *)
Record t (B : Type) := mk {
  core : option Aggregate.t;
  botManagement : option B;
  apiShield : option Addon.t;
  pageShield : option Addon.t;
  advancedRateLimiting : option Addon.t
}.
Arguments mk {B} core botManagement apiShield pageShield advancedRateLimiting.
Arguments core {B} t.
Arguments botManagement {B} t.
Arguments apiShield {B} t.
Arguments pageShield {B} t.
Arguments advancedRateLimiting {B} t.
End Phase3.

Module Builder.

(** [config?.applicationServices?.core?.enabled !== false]. *)
Definition coreNotDisabled (config : option Config.t) : bool :=
  match config with
  | Some c =>
    match Config.applicationServices c with
    | Some services =>
      match AppServices.core services with
      | Some core =>
        match CoreConfig.enabled core with
        | Some false => false
        | _ => true
        end
      | None => true
      end
    | None => true
    end
  | None => true
  end.

(** [config.applicationServices.<addon>] once the add-on is known to be
    enabled. *)
Definition addonConfigOf (sel : AppServices.t -> option AddonConfig.t)
  (config : option Config.t) : option AddonConfig.t :=
  match config with
  | Some c =>
    match Config.applicationServices c with
    | Some services => sel services
    | None => None
    end
  | None => None
  end.

Definition addonOn (sel : AppServices.t -> option AddonConfig.t)
  (config : option Config.t) : bool :=
  match config with
  | Some c => Config.addonEnabled sel c
  | None => false
  end.

(** One "Fetch <add-on> if enabled" block of phase 3. *)
Definition addonBlock
  (getHistoricalAddonData : string -> string -> Exec.M (list AddonEntry.t))
  (now : JsDate.t) (config : option Config.t)
  (sel : AppServices.t -> option AddonConfig.t) (addonType : string)
  (successfulMetrics : list AccountMetrics.t) : Exec.M (option Addon.t) :=
  if addonOn sel config && (0 <? Z.of_nat (length successfulMetrics)) then
    let addonConfig := addonConfigOf sel config in
    (results <-
       Settled.allSettled
         (map (fun accountData =>
                 data <- AddonCalc.calculateZoneBasedAddonForAccount
                           getHistoricalAddonData now accountData addonConfig
                           addonType ;;
                 Exec.ret {| AddonAccount.accountId :=
                               AccountMetrics.accountId accountData;
                             AddonAccount.data := data |})
              successfulMetrics) ;;
     Exec.ret (AddonAggregator.aggregateAddon
                 (match addonConfig with
                  | Some cfg => AddonConfig.threshold cfg
                  | None => None
                  end)
                 (Settled.fulfilled results)))%exec
  else Exec.ret None.

(** The phase-3 block of [getMetricsProgressive]. [botBlock] stands for
    the Bot Management block. *)
Definition phase3 {B}
  (queryAnalytics : Env.t -> string -> option string ->
                    list EnterpriseZone.t -> Exec.M AccountMetrics.t)
  (getHistoricalAddonData : string -> string -> Exec.M (list AddonEntry.t))
  (botBlock : option Config.t -> list string -> Exec.M (option B))
  (env : Env.t) (accountIds : list string) : Exec.M (Phase3.t B) :=
  let now := Env.now env in
  (config <- Exec.kvGet (KV.getConfig (JsDate.getTime now) "config:default") ;;
   successfulMetrics <-
     (if coreNotDisabled config then
        accountMetricsResults <-
          Settled.allSettled
            (map (Fetcher.fetchAccountMetrics queryAnalytics env) accountIds) ;;
        Exec.ret (Settled.fulfilled accountMetricsResults)
      else Exec.ret []) ;;
   let coreMetrics :=
     if (0 <? Z.of_nat (length successfulMetrics))
     then Some (Aggregator.aggregateAccountMetrics successfulMetrics)
     else None in
   botManagementData <- botBlock config accountIds ;;
   apiShieldData <-
     addonBlock getHistoricalAddonData now config AppServices.apiShield
                "api-shield" successfulMetrics ;;
   pageShieldData <-
     addonBlock getHistoricalAddonData now config AppServices.pageShield
                "page-shield" successfulMetrics ;;
   advancedRateLimitingData <-
     addonBlock getHistoricalAddonData now config AppServices.advancedRateLimiting
                "advanced-rate-limiting" successfulMetrics ;;
   Exec.ret {| Phase3.core := coreMetrics;
               Phase3.botManagement := botManagementData;
               Phase3.apiShield := apiShieldData;
               Phase3.pageShield := pageShieldData;
               Phase3.advancedRateLimiting := advancedRateLimitingData |})%exec.

End Builder.
(** ** Bot Management of one account *)

Module BotScope.
(** [data.data.viewer.scope[0]]: the counts of each series, and the
    interval [likely_human_total[0].confidence.count]. *)
Record t := mk {
  likely_human : option (list Js.num);
  likely_human_total : option Confidence.Interval;
  automated : option (list Js.num);
  likely_automated : option (list Js.num);
  verified_bot : option (list Js.num)
}.
End BotScope.

Module BotResponse.
(** The body of the bot query: whether [data.errors] is there, and the
    scope. *)
Record t := mk {
  errors : bool;
  scope : option BotScope.t
}.
End BotResponse.

Module BotZoneMetrics.
(** What [fetchBotManagementMetrics] returns for a zone. *)
Record t := mk {
  zoneId : string;
  likelyHuman : Z;
  confidence : option Confidence.Interval;
  automated : Z;
  likelyAutomated : Z;
  verifiedBot : Z
}.
End BotZoneMetrics.

Module BotZone.
(** A zone of the breakdown. *)
Record t := mk {
  zoneId : string;
  zoneName : string;
  likelyHuman : Z;
  automated : Z;
  likelyAutomated : Z;
  verifiedBot : Z
}.
End BotZone.

Module BotEntry.
Record t := mk {
  month : string;
  timestamp : Z;
  likelyHuman : Js.num
}.
End BotEntry.

Module BotCurrent.
Record t := mk {
  likelyHuman : Z;
  zones : list BotZone.t;
  confidence : option Confidence.Confidence
}.
End BotCurrent.

Module BotPrevious.
Record t := mk {
  likelyHuman : Z;
  zones : list BotZone.t
}.
End BotPrevious.

Module BotData.
(** What [fetchBotManagementForAccount] returns. *)
Record t := mk {
  enabled : bool;
  threshold : Js.num;
  current : BotCurrent.t;
  previous : BotPrevious.t;
  timeSeries : list BotEntry.t
}.
End BotData.

Module Bot.

(** The date range of a bot query. *)
Inductive period :=
| CurrentMonth
| PreviousMonth.

(** [entries.reduce((total, entry) => total + (entry.count || 0), 0)]. *)
Definition counts (entries : list Js.num) : Z :=
  fold_left (fun total count => total + Js.orZero count) entries 0.

Definition countsOf (series : option (list Js.num)) : Z :=
  match series with
  | Some entries => counts entries
  | None => 0
  end.

(** [fetchBotManagementMetrics]. *)
Definition fetchBotManagementMetrics
  (botApi : string -> period -> Http.outcome BotResponse.t)
  (zoneId : string) (range : period) : Exec.M (option BotZoneMetrics.t) :=
  (Exec.request (Call.Analytics "GetBotTimeseries") ;;;
   match botApi zoneId range with
   | Http.NetworkError => Exec.throw "fetch failed"
   | Http.Response _ None => Exec.throw "Unexpected token"
   | Http.Response ok (Some data) =>
     if negb ok || BotResponse.errors data then Exec.ret None
     else
       match BotResponse.scope data with
       | None => Exec.ret None
       | Some scope =>
         let likelyHuman := countsOf (BotScope.likely_human scope) in
         let confidence :=
           match BotScope.likely_human_total scope with
           | Some c =>
             Some {| Confidence.estimate :=
                       Some (Js.orNum (Confidence.estimate c) likelyHuman);
                     Confidence.lower :=
                       Some (Js.orNum (Confidence.lower c) likelyHuman);
                     Confidence.upper :=
                       Some (Js.orNum (Confidence.upper c) likelyHuman);
                     Confidence.sampleSize :=
                       Some (Js.orZero (Confidence.sampleSize c)) |}
           | None => None
           end in
         Exec.ret
           (Some {| BotZoneMetrics.zoneId := zoneId;
                    BotZoneMetrics.likelyHuman := likelyHuman;
                    BotZoneMetrics.confidence := confidence;
                    BotZoneMetrics.automated := countsOf (BotScope.automated scope);
                    BotZoneMetrics.likelyAutomated :=
                      countsOf (BotScope.likely_automated scope);
                    BotZoneMetrics.verifiedBot :=
                      countsOf (BotScope.verified_bot scope) |})
       end
   end)%exec.

(** [results.filter(r => r.status === 'fulfilled' && r.value)
            .map(r => r.value)]. *)
Definition withValue {A} (results : list (Exec.result (option A))) : list A :=
  omap (fun v => v) (Settled.fulfilled results).

(** [accountZoneIds.has(zoneId)]. *)
Definition inZones (allZones : list EnterpriseZone.t) (zoneId : string) : bool :=
  existsb (fun zone => String.eqb (EnterpriseZone.id zone) zoneId) allZones.

(** [data.reduce((sum, zone) => sum + zone.likelyHuman, 0)]. *)
Definition totalLikelyHuman (data : list BotZoneMetrics.t) : Z :=
  fold_left (fun sum zone => sum + BotZoneMetrics.likelyHuman zone) data 0.

(** The [forEach] that collects the zones' intervals. *)
Definition collectConfidence (data : list BotZoneMetrics.t) : Aggregator.Collected :=
  fold_left
    (fun acc zone =>
       match BotZoneMetrics.confidence zone with
       | Some c =>
         {| Aggregator.estimates :=
              Aggregator.estimates acc ++ [Confidence.estimate c];
            Aggregator.lowers := Aggregator.lowers acc ++ [Confidence.lower c];
            Aggregator.uppers := Aggregator.uppers acc ++ [Confidence.upper c];
            Aggregator.sampleSizes :=
              Aggregator.sampleSizes acc ++ [Confidence.sampleSize c] |}
       | None => acc
       end)
    data Aggregator.noneCollected.

Definition toBreakdown (allZones : list EnterpriseZone.t) (zone : BotZoneMetrics.t)
  : BotZone.t :=
  {| BotZone.zoneId := BotZoneMetrics.zoneId zone;
     BotZone.zoneName := Analytics.zoneNameOf allZones (BotZoneMetrics.zoneId zone);
     BotZone.likelyHuman := BotZoneMetrics.likelyHuman zone;
     BotZone.automated := BotZoneMetrics.automated zone;
     BotZone.likelyAutomated := BotZoneMetrics.likelyAutomated zone;
     BotZone.verifiedBot := BotZoneMetrics.verifiedBot zone |}.

Definition zoneJson (zone : BotZone.t) : Json.t :=
  Json.Obj [("zoneId", Json.Str (BotZone.zoneId zone));
            ("zoneName", Json.Str (BotZone.zoneName zone));
            ("likelyHuman", Json.Num (BotZone.likelyHuman zone));
            ("automated", Json.Num (BotZone.automated zone));
            ("likelyAutomated", Json.Num (BotZone.likelyAutomated zone));
            ("verifiedBot", Json.Num (BotZone.verifiedBot zone))].

(** [{ likelyHuman: previousTotal, zones: previousZoneBreakdown }] as it
    is stored. *)
Definition monthlyStats (previousTotal : Z) (zones : list BotZone.t) : KV.value :=
  KV.VSnapshot (Json.Obj [("likelyHuman", Json.Num previousTotal);
                          ("zones", Json.Arr (map zoneJson zones))]).

Definition monthlyKey (accountId : string) (now : JsDate.t) : string :=
  "monthly-bot-stats:" +:+ accountId +:+ ":"
  +:+ JsDate.monthKey (Calendar.previousMonthStart now).

(** [botManagementConfig.threshold || null]. *)
Definition thresholdOrNull (threshold : Js.num) : Js.num :=
  if Js.truthy threshold then threshold else None.

(** [fetchBotManagementForAccount]; [getHistoricalBotManagementData]
    is the function of that name, of the account. *)
Definition fetchBotManagementForAccount
  (botApi : string -> period -> Http.outcome BotResponse.t)
  (getHistoricalBotManagementData : string -> Exec.M (list BotEntry.t))
  (env : Env.t) (accountId : string) (botManagementConfig : option AddonConfig.t)
  : Exec.M (option BotData.t) :=
  let now := Env.now env in
  match botManagementConfig with
  | None => Exec.ret None
  | Some cfg =>
    match AddonConfig.enabled cfg, AddonConfig.zones cfg with
    | Some true, Some (zone :: zones) =>
      (allZones <- Fetcher.fetchEnterpriseZones env accountId ;;
       let accountBotZones := List.filter (inZones allZones) (zone :: zones) in
       if (Z.of_nat (length accountBotZones) =? 0) then Exec.ret None
       else
         currentMonthResults <-
           Settled.allSettled
             (map (fun zoneId => fetchBotManagementMetrics botApi zoneId CurrentMonth)
                  accountBotZones) ;;
         let currentMonthData := withValue currentMonthResults in
         previousMonthResults <-
           Settled.allSettled
             (map (fun zoneId => fetchBotManagementMetrics botApi zoneId PreviousMonth)
                  accountBotZones) ;;
         let previousMonthData := withValue previousMonthResults in
         let currentTotal := totalLikelyHuman currentMonthData in
         let previousTotal := totalLikelyHuman previousMonthData in
         let zoneBreakdown := map (toBreakdown allZones) currentMonthData in
         let previousZoneBreakdown := map (toBreakdown allZones) previousMonthData in
         (if (2 <=? JsDate.date now)
          then Exec.kvPut
                 (KV.put (JsDate.getTime now) (monthlyKey accountId now)
                         (monthlyStats previousTotal previousZoneBreakdown)
                         31536000)
          else Exec.ret tt) ;;;
         historicalBotData <- getHistoricalBotManagementData accountId ;;
         let timeSeriesData :=
           historicalBotData
           ++ [{| BotEntry.month := JsDate.monthKey now;
                  BotEntry.timestamp :=
                    JsDate.getTime (Calendar.currentMonthStart now);
                  BotEntry.likelyHuman := Some currentTotal |}] in
         Exec.ret
           (Some {| BotData.enabled := true;
                    BotData.threshold := thresholdOrNull (AddonConfig.threshold cfg);
                    BotData.current :=
                      {| BotCurrent.likelyHuman := currentTotal;
                         BotCurrent.zones := zoneBreakdown;
                         BotCurrent.confidence :=
                           Aggregator.aggregateConfidence
                             (collectConfidence currentMonthData) |};
                    BotData.previous :=
                      {| BotPrevious.likelyHuman := previousTotal;
                         BotPrevious.zones := previousZoneBreakdown |};
                    BotData.timeSeries := timeSeriesData |}))%exec
    | _, _ => Exec.ret None
    end
  end.

End Bot.

(** ** Reference definitions used to state the properties *)

Module Ieee754.

(** The standard library's specification of IEEE 754 arithmetic
    ([SpecFloat]), at the precision and the exponent range of a double,
    rounding to nearest, ties to even. *)
Definition ofInt (z : Z) : SpecFloat.spec_float :=
  match z with
  | Z0 => SpecFloat.S754_zero false
  | Zpos p => SpecFloat.S754_finite false p 0
  | Zneg p => SpecFloat.S754_finite true p 0
  end.

(** The rational a finite float stands for, in lowest terms. *)
Definition value (f : SpecFloat.spec_float) : Q :=
  match f with
  | SpecFloat.S754_finite s m e =>
    Qred ((if s then - 1 else 1) * inject_Z (Zpos m) * 2 ^ e)%Q
  | _ => 0%Q
  end.

Definition sub : SpecFloat.spec_float -> SpecFloat.spec_float -> SpecFloat.spec_float :=
  SpecFloat.SFsub 53 1024.
Definition mul : SpecFloat.spec_float -> SpecFloat.spec_float -> SpecFloat.spec_float :=
  SpecFloat.SFmul 53 1024.
Definition div : SpecFloat.spec_float -> SpecFloat.spec_float -> SpecFloat.spec_float :=
  SpecFloat.SFdiv 53 1024.

(** The calculator's relative width, [1 - w], [100 * (1 - w)] and ten
    times that, for an interval of non-zero numbers whose percentage is
    not clamped. *)
Definition steps (e l u : Z) : list Q :=
  let w := div (ofInt (u - l)) (ofInt (2 * e)) in
  let t := sub (ofInt 1) w in
  let raw := mul (ofInt 100) t in
  [value w; value t; value raw; value (mul raw (ofInt 10))].

(** The same four numbers by [Binary64]. *)
Definition roundedSteps (e l u : Z) : list Q :=
  let w := Binary64.div (inject_Z (u - l)) (inject_Z (2 * e)) in
  let t := Binary64.sub 1 w in
  let raw := Binary64.mul 100 t in
  [w; t; raw; Binary64.mul raw 10].

(** The whole numbers of tenths from 0 to 1000. *)
Definition allTenths : list Z := map Z.of_nat (seq 0 1001).

End Ieee754.

Module Reference.

(** The interval obtained by adding up, field by field, a list of
    per-account confidence objects, and the confidence derived from it. *)
Definition summedInterval (confs : list Confidence.Confidence)
  : Confidence.Interval :=
  {| Confidence.estimate := Js.sum (map Confidence.c_estimate confs);
     Confidence.lower := Js.sum (map Confidence.c_lower confs);
     Confidence.upper := Js.sum (map Confidence.c_upper confs);
     Confidence.sampleSize := Js.sum (map Confidence.c_sampleSize confs) |}.

Definition confidenceOfSum (confs : list Confidence.Confidence)
  : option Confidence.Confidence :=
  match confs with
  | [] => None
  | _ :: _ => Confidence.calculateConfidencePercentage (Some (summedInterval confs))
  end.

(** All time-series entries of a list of accounts, in iteration order. *)
Definition allEntries (accountMetrics : list AccountMetrics.t) : list Entry.t :=
  flat_map (fun a => match AccountMetrics.timeSeries a with
                     | Some series => series
                     | None => []
                     end) accountMetrics.

(** The entries of one month. *)
Definition ofMonth (m : string) (es : list Entry.t) : list Entry.t :=
  List.filter (fun x => String.eqb (Entry.month x) m) es.

Definition total (f : Entry.t -> Js.num) (es : list Entry.t) : Z :=
  fold_right Z.add 0 (map (fun x => Js.orZero (f x)) es).

(** The field-by-field sum of a non-empty group of entries of one month:
    month and timestamp of the first one, each count the sum of the
    group's counts (a missing count adds 0). *)
Definition summed (group : list Entry.t) : option Entry.t :=
  match group with
  | [] => None
  | x :: _ =>
    Some {| Entry.month := Entry.month x;
            Entry.timestamp := Entry.timestamp x;
            Entry.requests := Some (total Entry.requests group);
            Entry.bytes := Some (total Entry.bytes group);
            Entry.dnsQueries := Some (total Entry.dnsQueries group) |}
  end.

Definition timestampLe (a b : Entry.t) : Prop :=
  Entry.timestamp a <= Entry.timestamp b.

(** [n] tenths and the percentage [p] are what double-precision
    arithmetic makes of the formula on the interval [e, l, u]: both are
    within half a tenth, and the rounding error of the arithmetic, of
    the exact clamped value; and the tenths are the exactly rounded
    ones when the exact value is not that close to a rounding tie. *)
Definition evaluates (e l u : Z) (n : Z) (p : Q) : Prop :=
  (Qabs (inject_Z n / 10 - Confidence.exactPercent e l u)
   <= (1 # 20) + Confidence.tolerance)%Q
  /\ (Qabs (p - Confidence.exactPercent e l u)
      <= (1 # 20) + Confidence.tolerance)%Q
  /\ ((forall k : Z,
         (10 * Confidence.tolerance
          < Qabs (Confidence.exactPercent e l u * 10 + (1 # 2) - inject_Z k))%Q) ->
      (inject_Z n / 10)%Q = Confidence.specPercent e l u).

End Reference.

(** ** Sample data *)

Module Sample.

Definition interval : Confidence.Interval :=
  {| Confidence.estimate := Some 100; Confidence.lower := Some 90;
     Confidence.upper := Some 110; Confidence.sampleSize := Some 4000 |}.

(** A per-account record that only carries a requests confidence and a
    time series. *)
Definition account (id : string) (e l u n : Z) (series : list Entry.t)
  : AccountMetrics.t :=
  {| AccountMetrics.accountId := id;
     AccountMetrics.accountName := None;
     AccountMetrics.current :=
       {| Totals.requests := Some e; Totals.bytes := Some 0;
          Totals.dnsQueries := Some 0;
          Totals.confidence :=
            Some {| ConfidenceSet.requests :=
                      Confidence.calculateConfidencePercentage
                        (Some (Confidence.mkInterval
                                 (Some e) (Some l) (Some u) (Some n)));
                    ConfidenceSet.bytes := None;
                    ConfidenceSet.dnsQueries := None |} |};
     AccountMetrics.previous := Totals.mk (Some 0) (Some 0) (Some 0) None;
     AccountMetrics.timeSeries := Some series;
     AccountMetrics.zoneBreakdown := Breakdown.mk (Some 0) (Some 0) (Some []);
     AccountMetrics.previousMonthZoneBreakdown :=
       Breakdown.mk (Some 0) (Some 0) (Some []) |}.

Definition addonAccount (id : string) (e l u n : Z) : AddonAccount.t :=
  {| AddonAccount.accountId := id;
     AddonAccount.data :=
       Some {| AddonData.current :=
                 {| AddonCurrent.requests := Some e;
                    AddonCurrent.zones := [];
                    AddonCurrent.confidence :=
                      Confidence.calculateConfidencePercentage
                        (Some (Confidence.mkInterval
                                 (Some e) (Some l) (Some u) (Some n))) |};
               AddonData.previous := AddonPrevious.mk (Some 0) [];
               AddonData.timeSeries := Some [] |} |}.

(** 2025-01-01T00:00:00Z and 2025-02-01T00:00:00Z in milliseconds. *)
Definition jan2025 : Z := 1735689600000.
Definition feb2025 : Z := 1738368000000.

Definition entry (m : string) (ts r : Z) : Entry.t :=
  {| Entry.month := m; Entry.timestamp := ts; Entry.requests := Some r;
     Entry.bytes := Some 0; Entry.dnsQueries := Some 0 |}.

(** An entry that only has [month], [timestamp] and [requests]. *)
Definition requestsOnly (m : string) (ts r : Z) : Entry.t :=
  {| Entry.month := m; Entry.timestamp := ts; Entry.requests := Some r;
     Entry.bytes := None; Entry.dnsQueries := None |}.

Definition accountA : AccountMetrics.t :=
  account "A" 100 90 110 10 [requestsOnly "2025-01" jan2025 100].

Definition accountB : AccountMetrics.t :=
  account "B" 200 180 220 20
    [requestsOnly "2025-01" jan2025 50; requestsOnly "2025-02" feb2025 10].

End Sample.

Module CacheReference.

Definition present (v : Json.t) : Prop := Json.truthy v = true.

(** The add-ons and where the configuration keeps each one. *)
Definition addons : list (string * (AppServices.t -> option AddonConfig.t)) :=
  [("botManagement", AppServices.botManagement);
   ("apiShield", AppServices.apiShield);
   ("pageShield", AppServices.pageShield);
   ("advancedRateLimiting", AppServices.advancedRateLimiting)].

(** A snapshot's [data] is complete for a configuration: the core's
    [current] is there if the core is enabled, and every enabled add-on
    has its data, its [timeSeries] and its [perAccountData]. *)
Definition completeFor (config : Config.t) (data : Json.t) : Prop :=
  (Config.coreEnabled config = true -> present (Json.prop "current" data))
  /\ Forall (fun a =>
               Config.addonEnabled (snd a) config = true ->
               present (Json.prop (fst a) data)
               /\ present (Json.prop "timeSeries" (Json.prop (fst a) data))
               /\ present (Json.prop "perAccountData" (Json.prop (fst a) data)))
            addons.

(** The fresh computation a request asks for: phase 1, 2, or else 3. *)
Definition requestedPhase (body : RequestBody.t) : Z :=
  match RequestBody.phase body with
  | Some 1 => 1
  | Some 2 => 2
  | Some 0 | None => 1
  | Some _ => 3
  end.

(** The characters of a joined list, counting one separator after every
    element. *)
Definition joinedLength (xs : list string) : nat :=
  fold_right (fun x n => (String.length x + 1 + n)%nat) 0%nat xs.

End CacheReference.

Module CacheSample.

Definition addonOn : AddonConfig.t :=
  {| AddonConfig.enabled := Some true; AddonConfig.threshold := Some 1000;
     AddonConfig.zones := Some ["z1"] |}.

(** A configuration with the core and Bot Management enabled. *)
Definition config (ids : list string) : Config.t :=
  {| Config.accountIds := Some ids;
     Config.accountId := None;
     Config.applicationServices :=
       Some {| AppServices.core := Some (CoreConfig.mk (Some true));
               AppServices.botManagement := Some addonOn;
               AppServices.apiShield := None;
               AppServices.pageShield := None;
               AppServices.advancedRateLimiting := None |};
     Config.thresholdZones := None;
     Config.thresholdRequests := Some 100%Q;
     Config.thresholdBandwidth := None;
     Config.thresholdDnsQueries := None;
     Config.slackWebhook := Some "https://hooks.example/T";
     Config.alertsEnabled := true |}.

Definition coreOnly : Json.t :=
  Json.Obj [("current", Json.Obj [("requests", Json.Num 5)])].

Definition withBot : Json.t :=
  Json.Obj [("current", Json.Obj [("requests", Json.Num 5)]);
            ("botManagement",
             Json.Obj [("timeSeries", Json.Arr []);
                       ("perAccountData", Json.Arr [])])].

Definition store (ids : list string) (data : Json.t) : KV.store :=
  <["config:default" := (KV.VConfig (config ids), None)]>
    (<[Progressive.preWarmedKey ids :=
         (KV.VSnapshot (Json.Obj [("timestamp", Json.Num 1000); ("data", data)]),
          Some 21601000)]> ∅).

Definition body (ids : list string) : RequestBody.t :=
  {| RequestBody.phase := Some 3; RequestBody.accountIds := Some ids;
     RequestBody.accountId := None |}.

(** A store that only holds the configuration. *)
Definition configured (ids : list string) : KV.store :=
  <["config:default" := (KV.VConfig (config ids), None)]> ∅.

(** The store after a pre-warm at instant 1000 for the configured
    accounts ["b"; "a"]. *)
Definition preWarmed : KV.store :=
  Progressive.preWarmCache (fun _ _ => withBot) (Some "token") 1000
    (configured ["b"; "a"]).

End CacheSample.

Module ThresholdReference.

(** Usage has reached 90% of the threshold. *)
Definition breached (current threshold : Q) : Prop :=
  (90 <= current / threshold * 100)%Q.

Definition keyOf (m : string * string * (Readings.t -> option Q)) : string :=
  snd (fst m).

Definition fieldOf (m : string * string * (Readings.t -> option Q))
  : Readings.t -> option Q := snd m.

Definition labelOf (m : string * string * (Readings.t -> option Q)) : string :=
  fst (fst m).

(** The marker key of an alert at a date, for a set of accounts. *)
Definition keyAt (d : JsDate.t) (accounts : list string) (a : Alert.t) : string :=
  Thresholds.alertKey accounts (Alert.metricKey a) (JsDate.monthKey d).

(** The alert has no live marker at that date. *)
Definition unmarked (d : JsDate.t) (accounts : list string) (kv : KV.store)
  (a : Alert.t) : bool :=
  negb (KV.hasMarker (JsDate.getTime d) (keyAt d accounts a) kv).

(** The store once the alert's marker has been written. *)
Definition mark (d : JsDate.t) (accounts : list string) (kv : KV.store)
  (a : Alert.t) : KV.store :=
  KV.put (JsDate.getTime d) (keyAt d accounts a) (KV.VText "true")
         Thresholds.markerTtl kv.

(** The marker written for an alert at a date: the text 'true', to
    expire 45 days (3 888 000 seconds) later. *)
Definition markerAt (d : JsDate.t) : KV.value * option Z :=
  (KV.VText "true", Some (JsDate.getTime d + 3888000 * 1000)).

(** The request a run sends for the alerts it selected: none when
    there is nothing new, else one message listing them. *)
Definition posted (url : string) (new : list Alert.t) : list Call.t :=
  match new with
  | [] => []
  | _ :: _ => [Call.SlackPost url new]
  end.

Definition sameMonth (d d' : JsDate.t) : Prop :=
  JsDate.year d = JsDate.year d' /\ JsDate.month d = JsDate.month d'.

End ThresholdReference.

Module ThresholdSample.

(** Readings with the HTTP requests only. *)
Definition requestsOnly (requests : Q) : Readings.t :=
  {| Readings.zones := None; Readings.requests := Some requests;
     Readings.bandwidth := None; Readings.dnsQueries := None;
     Readings.botManagement := None; Readings.apiShield := None;
     Readings.pageShield := None; Readings.advancedRateLimiting := None |}.

(** Readings with the zones and the HTTP requests. *)
Definition zonesAndRequests (zones requests : Q) : Readings.t :=
  {| Readings.zones := Some zones; Readings.requests := Some requests;
     Readings.bandwidth := None; Readings.dnsQueries := None;
     Readings.botManagement := None; Readings.apiShield := None;
     Readings.pageShield := None; Readings.advancedRateLimiting := None |}.

(** An aggregate with the given current HTTP requests and nothing else. *)
Definition aggregate (requests : Z) : Aggregate.t :=
  {| Aggregate.current :=
       {| AggTotals.requests := requests; AggTotals.bytes := 0;
          AggTotals.dnsQueries := 0;
          AggTotals.confidence := ConfidenceSet.mk None None None |};
     Aggregate.previous := AggPrevious.mk 0 0 0;
     Aggregate.timeSeries := [];
     Aggregate.zoneBreakdown := AggBreakdown.mk 0 0 [];
     Aggregate.previousMonthZoneBreakdown := AggBreakdown.mk 0 0 [];
     Aggregate.perAccountData := [] |}.

Definition body (accounts : list string) (requests threshold : Q) : CheckBody.t :=
  {| CheckBody.metrics := requestsOnly requests;
     CheckBody.thresholds := requestsOnly threshold;
     CheckBody.slackWebhook := Some "https://hooks.example/T";
     CheckBody.accountIds := Some accounts;
     CheckBody.accountId := None;
     CheckBody.forceTest := false |}.

Definition date (y m d : Z) : JsDate.t :=
  {| JsDate.year := y; JsDate.month := m; JsDate.date := d;
     JsDate.hours := 12; JsDate.minutes := 0; JsDate.seconds := 0;
     JsDate.milliseconds := 0 |}.

Definition delivered : string -> Http.outcome unit :=
  fun _ => Http.Response true (Some tt).

Definition emptyWorld : World.t := {| World.kv := ∅; World.calls := [] |}.

End ThresholdSample.

Module FetcherReference.

(** The zone list the fetcher works with: the cached list when there is
    one, else what [fetchEnterpriseZones] gives. *)
Definition discoveredZones (env : Env.t) (accountId : string) (kv : KV.store)
  : Exec.result (list EnterpriseZone.t) :=
  match KV.getZones (JsDate.getTime (Env.now env)) ("zones:" +:+ accountId) kv with
  | Some zones => Exec.Returned zones
  | None =>
    fst (Fetcher.fetchEnterpriseZones env accountId
           {| World.kv := kv; World.calls := [] |})
  end.

(** No payload of the current-month cache is served. *)
Definition currentMonthMiss (env : Env.t) (accountId : string) (kv : KV.store)
  : Prop :=
  Fetcher.freshCurrentMonth (JsDate.getTime (Env.now env))
    (KV.getCurrentMonth (JsDate.getTime (Env.now env))
       (Fetcher.currentMonthCacheKey (Env.now env) accountId) kv) = None.

Definition allZero (r : AccountMetrics.t) : Prop :=
  Totals.requests (AccountMetrics.current r) = Some 0
  /\ Totals.bytes (AccountMetrics.current r) = Some 0
  /\ Totals.dnsQueries (AccountMetrics.current r) = Some 0
  /\ Totals.requests (AccountMetrics.previous r) = Some 0
  /\ Totals.bytes (AccountMetrics.previous r) = Some 0
  /\ Totals.dnsQueries (AccountMetrics.previous r) = Some 0
  /\ AccountMetrics.timeSeries r = Some []
  /\ Breakdown.zones (AccountMetrics.zoneBreakdown r) = Some []
  /\ Breakdown.zones (AccountMetrics.previousMonthZoneBreakdown r) = Some [].

Definition analyticsCalls (w : World.t) : list Call.t :=
  List.filter Fetcher.isAnalytics (World.calls w).

End FetcherReference.

Module FetcherSample.

(** An environment whose zone list answers with the given outcome. *)
Definition env (zones : Http.outcome ZonesBody.t) : Env.t :=
  {| Env.now := ThresholdSample.date 2025 0 15;
     Env.accountsApi :=
       fun _ => Http.Response true (Some (AccountBody.mk (Some "Acme")));
     Env.zonesApi := zones |}.

(** A continuation that would issue one analytics query. *)
Definition queryAnalytics (env : Env.t) (accountId : string)
  (accountName : option string) (zones : list EnterpriseZone.t)
  : Exec.M AccountMetrics.t :=
  (Exec.request (Call.Analytics "GetEnterpriseZoneStats") ;;;
   Exec.ret (Fetcher.emptyMetrics accountId accountName))%exec.

(** The zone list answers 502 with a body that is not JSON. *)
Definition badGateway : Env.t := env (Http.Response false None).

Definition freeZone : EnterpriseZone.t :=
  {| EnterpriseZone.id := "z1"; EnterpriseZone.name := "example.com";
     EnterpriseZone.account_id := Some "acct";
     EnterpriseZone.plan_legacy_id := Some "free";
     EnterpriseZone.plan_name := Some "Free Website" |}.

(** The zone list answers 200 with the body [null]. *)
Definition nullBody : Env.t := env (Http.Response true (Some ZonesBody.Null)).

(** The zone list answers 200 with a [result] that is a string. *)
Definition textResult : Env.t :=
  env (Http.Response true (Some (ZonesBody.Value ZonesBody.NotArray))).

(** Five minutes after [env], with a zone list that holds one zone, on
    a free plan. *)
Definition freeOnlyLater : Env.t :=
  {| Env.now := {| JsDate.year := 2025; JsDate.month := 0; JsDate.date := 15;
                   JsDate.hours := 12; JsDate.minutes := 5; JsDate.seconds := 0;
                   JsDate.milliseconds := 0 |};
     Env.accountsApi :=
       fun _ => Http.Response true (Some (AccountBody.mk (Some "Acme")));
     Env.zonesApi := Http.Response true (Some (ZonesBody.ofZones [freeZone])) |}.

(** A record of 500 requests and 4096 bytes. *)
Definition busy : AccountMetrics.t :=
  {| AccountMetrics.accountId := "acct";
     AccountMetrics.accountName := Some "Acme";
     AccountMetrics.current :=
       {| Totals.requests := Some 500; Totals.bytes := Some 4096;
          Totals.dnsQueries := Some 0; Totals.confidence := None |};
     AccountMetrics.previous :=
       {| Totals.requests := Some 0; Totals.bytes := Some 0;
          Totals.dnsQueries := Some 0; Totals.confidence := None |};
     AccountMetrics.timeSeries := Some [];
     AccountMetrics.zoneBreakdown :=
       {| Breakdown.primary := Some 0; Breakdown.secondary := Some 0;
          Breakdown.zones := Some [] |};
     AccountMetrics.previousMonthZoneBreakdown :=
       {| Breakdown.primary := Some 0; Breakdown.secondary := Some 0;
          Breakdown.zones := Some [] |} |}.

(** The store five minutes after [busy] was computed for "acct" and put
    in the current-month cache, for 10 minutes. *)
Definition recentlyCached : World.t :=
  {| World.kv :=
       KV.put (JsDate.getTime (Env.now (env Http.NetworkError)))
         (Fetcher.currentMonthCacheKey (Env.now (env Http.NetworkError)) "acct")
         (KV.VCurrentMonth
            {| CurrentMonthCache.version := Some Fetcher.CACHE_VERSION;
               CurrentMonthCache.cachedAt :=
                 Some (JsDate.getTime (Env.now (env Http.NetworkError)));
               CurrentMonthCache.data := busy |})
         600 ∅;
     World.calls := [] |}.

End FetcherSample.

Module DedupSample.

Definition url : string := "https://hooks.example/T".
Definition origin : string := "https://dashboard.example".

(** 95 requests against a threshold of 100, for accounts "b" and "a". *)
Definition body : CheckBody.t := ThresholdSample.body ["b"; "a"] 95 100.

Definition jan10 : JsDate.t := ThresholdSample.date 2025 0 10.
Definition jan20 : JsDate.t := ThresholdSample.date 2025 0 20.
Definition feb01 : JsDate.t := ThresholdSample.date 2025 1 1.

Definition run (d : JsDate.t) (w : World.t) : World.t :=
  snd (Thresholds.checkThresholds ThresholdSample.delivered origin d body w).

Definition alerts : list Alert.t :=
  Thresholds.alertsOf (CheckBody.metrics body) (CheckBody.thresholds body).

(** The worlds after a run on 10 January, then 20 January, then
    1 February, starting from an empty store. *)
Definition w1 : World.t := run jan10 ThresholdSample.emptyWorld.
Definition w2 : World.t := run jan20 w1.
Definition w3 : World.t := run feb01 w2.

End DedupSample.
(** ** Reference definitions for the handlers and the fetcher *)

Module SettledReference.

(** The outcome of a promise continued with [.then(g)]. *)
Definition mapResult {A B} (g : A -> B) (r : Exec.result A) : Exec.result B :=
  match r with
  | Exec.Returned a => Exec.Returned (g a)
  | Exec.Thrown e => Exec.Thrown e
  end.

End SettledReference.

Module HandlerReference.

(** What the zone lookup of an account gives, whatever the store. *)
Definition zoneLookup (env : Env.t) (accountId : string)
  : Exec.result (list EnterpriseZone.t) :=
  fst (Fetcher.fetchEnterpriseZones env accountId
         {| World.kv := ∅; World.calls := [] |}).

(** The per-account fetches of a request, settled in order from a world. *)
Definition coreResults
  (queryAnalytics : Env.t -> string -> option string ->
                    list EnterpriseZone.t -> Exec.M AccountMetrics.t)
  (env : Env.t) (accountIds : list string) (w : World.t)
  : list (Exec.result AccountMetrics.t) * World.t :=
  Settled.settle (map (Fetcher.fetchAccountMetrics queryAnalytics env) accountIds) w.

(** The records of the accounts whose fetch did not throw. *)
Definition successfulMetrics
  (queryAnalytics : Env.t -> string -> option string ->
                    list EnterpriseZone.t -> Exec.M AccountMetrics.t)
  (env : Env.t) (accountIds : list string) (w : World.t)
  : list AccountMetrics.t :=
  Settled.fulfilled (fst (coreResults queryAnalytics env accountIds w)).

(** The record is the one returned for an account without zones. *)
Definition emptyRecord (accountId : string) (r : AccountMetrics.t) : Prop :=
  exists name, r = Fetcher.emptyMetrics accountId name.

(** The aggregate whose totals are all 0, without confidence, series or
    zones, over the given per-account records. *)
Definition zeroAggregate (records : list AccountMetrics.t) : Aggregate.t :=
  {| Aggregate.current :=
       {| AggTotals.requests := 0; AggTotals.bytes := 0;
          AggTotals.dnsQueries := 0;
          AggTotals.confidence := ConfidenceSet.mk None None None |};
     Aggregate.previous := AggPrevious.mk 0 0 0;
     Aggregate.timeSeries := [];
     Aggregate.zoneBreakdown := AggBreakdown.mk 0 0 [];
     Aggregate.previousMonthZoneBreakdown := AggBreakdown.mk 0 0 [];
     Aggregate.perAccountData := records |}.

End HandlerReference.

Module HandlerSample.

Definition enterpriseZone (id name account : string) : EnterpriseZone.t :=
  {| EnterpriseZone.id := id; EnterpriseZone.name := name;
     EnterpriseZone.account_id := Some account;
     EnterpriseZone.plan_legacy_id := Some "enterprise";
     EnterpriseZone.plan_name := Some "Enterprise Website" |}.

(** Two enterprise zones of account "a", one of account "b". *)
Definition threeZones : Env.t :=
  FetcherSample.env
    (Http.Response true
       (Some (ZonesBody.ofZones
                [enterpriseZone "z1" "one.example" "a";
                 enterpriseZone "z2" "two.example" "b";
                 enterpriseZone "z3" "three.example" "a"]))).

Definition body (ids : list string) : RequestBody.t :=
  {| RequestBody.phase := Some 1; RequestBody.accountIds := Some ids;
     RequestBody.accountId := None |}.

(** The zone list holds one zone, on a free plan. *)
Definition noEnterpriseZone : Env.t :=
  FetcherSample.env
    (Http.Response true (Some (ZonesBody.ofZones [FetcherSample.freeZone]))).

End HandlerSample.

Module ConfigSample.

(** A store in which the default user already has a configuration. *)
Definition world : World.t :=
  {| World.kv := CacheSample.configured ["a"]; World.calls := [] |}.

Definition saved : Config.t := CacheSample.config ["x"; "y"].

End ConfigSample.

Module Invariant.

(** [breakdown.zones], empty when missing. *)
Definition zonesOf (b : Breakdown.t) : list Zone.t :=
  match Breakdown.zones b with
  | Some l => l
  | None => []
  end.

(** The sum of one figure over a list of zones. *)
Definition zoneSum (f : Zone.t -> Js.num) (zs : list Zone.t) : Z :=
  fold_right Z.add 0 (map (fun z => Js.orZero (f z)) zs).

(** The number of primary zones of a list. *)
Definition primaries (zs : list Zone.t) : Z :=
  Z.of_nat (length (List.filter Zone.isPrimary zs)).

(** A per-account record is consistent: each current total is the sum of
    that figure over the zones of its breakdown, the primary count is
    the number of its primary zones, and primary and secondary counts
    add up to the number of zones. *)
Definition account (a : AccountMetrics.t) : Prop :=
  let current := AccountMetrics.current a in
  let breakdown := AccountMetrics.zoneBreakdown a in
  Js.orZero (Totals.requests current) = zoneSum Zone.requests (zonesOf breakdown)
  /\ Js.orZero (Totals.bytes current) = zoneSum Zone.bytes (zonesOf breakdown)
  /\ Js.orZero (Totals.dnsQueries current)
     = zoneSum Zone.dnsQueries (zonesOf breakdown)
  /\ Js.orZero (Breakdown.primary breakdown) = primaries (zonesOf breakdown)
  /\ Js.orZero (Breakdown.primary breakdown)
     + Js.orZero (Breakdown.secondary breakdown)
     = Z.of_nat (length (zonesOf breakdown)).

(** The same for an aggregate. *)
Definition aggregate (g : Aggregate.t) : Prop :=
  let current := Aggregate.current g in
  let breakdown := Aggregate.zoneBreakdown g in
  AggTotals.requests current = zoneSum Zone.requests (AggBreakdown.zones breakdown)
  /\ AggTotals.bytes current = zoneSum Zone.bytes (AggBreakdown.zones breakdown)
  /\ AggTotals.dnsQueries current
     = zoneSum Zone.dnsQueries (AggBreakdown.zones breakdown)
  /\ AggBreakdown.primary breakdown = primaries (AggBreakdown.zones breakdown)
  /\ AggBreakdown.primary breakdown + AggBreakdown.secondary breakdown
     = Z.of_nat (length (AggBreakdown.zones breakdown)).

End Invariant.

Module InvariantSample.

Definition zone (tag : string) (requests bytes dns : Z) (isPrimary : bool)
  : Zone.t :=
  {| Zone.zoneTag := tag; Zone.zoneName := tag;
     Zone.requests := Some requests; Zone.bytes := Some bytes;
     Zone.dnsQueries := Some dns; Zone.isPrimary := isPrimary |}.

(** A consistent record with the given zones. *)
Definition account (id : string) (zones : list Zone.t) : AccountMetrics.t :=
  {| AccountMetrics.accountId := id;
     AccountMetrics.accountName := None;
     AccountMetrics.current :=
       {| Totals.requests := Some (Invariant.zoneSum Zone.requests zones);
          Totals.bytes := Some (Invariant.zoneSum Zone.bytes zones);
          Totals.dnsQueries := Some (Invariant.zoneSum Zone.dnsQueries zones);
          Totals.confidence := None |};
     AccountMetrics.previous := Totals.mk (Some 0) (Some 0) (Some 0) None;
     AccountMetrics.timeSeries := Some [];
     AccountMetrics.zoneBreakdown :=
       {| Breakdown.primary := Some (Invariant.primaries zones);
          Breakdown.secondary :=
            Some (Z.of_nat (length zones) - Invariant.primaries zones);
          Breakdown.zones := Some zones |};
     AccountMetrics.previousMonthZoneBreakdown :=
       Breakdown.mk (Some 0) (Some 0) (Some []) |}.

Definition accountA : AccountMetrics.t :=
  account "A" [zone "z1" 100 60000000000 7 true; zone "z2" 5 10 0 false].

Definition accountB : AccountMetrics.t :=
  account "B" [zone "z3" 40 20 1 false].

End InvariantSample.

Module AnalyticsReference.

(** A computation that ends without throwing, from every world. *)
Definition returns {A} (m : Exec.M A) : Prop :=
  forall w, exists a w', m w = (Exec.Returned a, w').

(** The DNS queries counted for a zone: what its DNS totals report, and
    0 when the query fails in any way or reports nothing. *)
Definition dnsCount (aenv : AnalyticsEnv.t) (zoneTag : string) : Z :=
  match AnalyticsEnv.dnsApi aenv zoneTag with
  | Http.Response true (Some (Some queryData)) =>
    Js.orZero (DnsTotals.count queryData)
  | _ => 0
  end.

(** The DNS query of the zone did not give totals. *)
Definition dnsFailed (aenv : AnalyticsEnv.t) (zoneTag : string) : Prop :=
  match AnalyticsEnv.dnsApi aenv zoneTag with
  | Http.Response true (Some (Some _)) => False
  | _ => True
  end.

(** One DNS query per zone. *)
Definition dnsCalls (zoneMetrics : list Zone.t) : list Call.t :=
  map (fun _ => Call.Analytics "DnsTotals") zoneMetrics.

(** Two instants of the same hour of the same day. *)
Definition sameHour (d d' : JsDate.t) : Prop :=
  JsDate.year d = JsDate.year d' /\ JsDate.month d = JsDate.month d'
  /\ JsDate.date d = JsDate.date d' /\ JsDate.hours d = JsDate.hours d'.

End AnalyticsReference.

Module AnalyticsSample.

Definition interval (e l u n : Z) : Confidence.Interval :=
  Confidence.mkInterval (Some e) (Some l) (Some u) (Some n).

Definition stats (tag : string) (count bytes : Z) : ZoneStats.t :=
  {| ZoneStats.zoneTag := tag;
     ZoneStats.totals :=
       Some {| ZoneTotals.count := Some count;
               ZoneTotals.edgeResponseBytes := Some bytes;
               ZoneTotals.confidenceCount :=
                 Some (interval count (count - 10) (count + 10) 500);
               ZoneTotals.confidenceBytes := None |} |}.

(** Account "a" has a large zone "z1" and a small zone "z3"; the DNS
    query of "z1" reports 7 queries, that of "z3" fails. *)
Definition aenv : AnalyticsEnv.t :=
  {| AnalyticsEnv.zoneStats :=
       fun _ => Http.Response true
                  (Some [stats "z1" 1000 60000000000; stats "z3" 200 4096]);
     AnalyticsEnv.dnsApi :=
       fun tag => if String.eqb tag "z1"
                  then Http.Response true
                         (Some (Some {| DnsTotals.count := Some 7;
                                        DnsTotals.confidence := None |}))
                  else Http.NetworkError;
     AnalyticsEnv.previousMonth :=
       fun _ _ => Exec.ret (Totals.mk (Some 0) (Some 0) (Some 0) None, []);
     AnalyticsEnv.historical := fun _ => Exec.ret [] |}.

Definition zones : list EnterpriseZone.t :=
  [HandlerSample.enterpriseZone "z1" "one.example" "a";
   HandlerSample.enterpriseZone "z3" "three.example" "a"].

(** 2025-01-15 12:00 and 12:05, with the zone list of [HandlerSample]. *)
Definition env : Env.t := HandlerSample.threeZones.

Definition later : Env.t :=
  {| Env.now := {| JsDate.year := 2025; JsDate.month := 0; JsDate.date := 15;
                   JsDate.hours := 12; JsDate.minutes := 5; JsDate.seconds := 0;
                   JsDate.milliseconds := 0 |};
     Env.accountsApi := fun _ => Http.NetworkError;
     Env.zonesApi := Http.NetworkError |}.

End AnalyticsSample.

Module AddonReference.

(** The zones of the account's current breakdown that are configured
    for the add-on. *)
Definition coveredZones (zones : list string) (accountData : AccountMetrics.t)
  : list Zone.t :=
  List.filter (AddonCalc.configured zones)
              (Invariant.zonesOf (AccountMetrics.zoneBreakdown accountData)).

Definition coveredPrevious (zones : list string) (accountData : AccountMetrics.t)
  : list Zone.t :=
  List.filter (AddonCalc.configured zones)
              (Invariant.zonesOf
                 (AccountMetrics.previousMonthZoneBreakdown accountData)).

(** The zones configured for the add-on, none when it has no list. *)
Definition configuredZones (addonConfig : option AddonConfig.t) : list string :=
  match addonConfig with
  | Some cfg =>
    match AddonConfig.zones cfg with
    | Some zones => zones
    | None => []
    end
  | None => []
  end.

(** The add-on applies to the account: it is enabled, and a zone of the
    account's current breakdown is among its configured zones. *)
Definition applicable (addonConfig : option AddonConfig.t)
  (accountData : AccountMetrics.t) : bool :=
  match addonConfig with
  | Some cfg =>
    match AddonConfig.enabled cfg with
    | Some true =>
      negb (Z.of_nat (length (coveredZones (configuredZones addonConfig) accountData))
            =? 0)
    | _ => false
    end
  | None => false
  end.

(** The calendar month before that of [d]. *)
Definition monthBefore (d : JsDate.t) : Z * Z :=
  if JsDate.month d =? 0 then (JsDate.year d - 1, 11)
  else (JsDate.year d, JsDate.month d - 1).

(** [YYYY-MM] of a year and a month counted from 0. *)
Definition monthKeyOf (ym : Z * Z) : string :=
  JsString.ofInt (fst ym) +:+ "-"
  +:+ JsString.padStart2 (JsString.ofInt (snd ym + 1)).

Definition previousEntry (now : JsDate.t) (previousTotal : Z) : AddonEntry.t :=
  {| AddonEntry.month := JsDate.monthKey (Calendar.previousMonthStart now);
     AddonEntry.timestamp := JsDate.getTime (Calendar.previousMonthStart now);
     AddonEntry.requests := Some previousTotal |}.

Definition currentEntry (now : JsDate.t) (currentTotal : Z) : AddonEntry.t :=
  {| AddonEntry.month := JsDate.monthKey now;
     AddonEntry.timestamp := JsDate.getTime (Calendar.currentMonthStart now);
     AddonEntry.requests := Some currentTotal |}.

Definition byTime (a b : AddonEntry.t) : Prop :=
  AddonEntry.timestamp a <= AddonEntry.timestamp b.

End AddonReference.

Module AddonSample.

(** API Shield is configured for the zones "z1" and "z9". *)
Definition config : AddonConfig.t :=
  {| AddonConfig.enabled := Some true; AddonConfig.threshold := Some 1000;
     AddonConfig.zones := Some ["z1"; "z9"] |}.

(** An account with the zones "z1" (100 requests) and "z2" (5), which
    had 60 and 3 requests the month before. *)
Definition account : AccountMetrics.t :=
  {| AccountMetrics.accountId := "A";
     AccountMetrics.accountName := None;
     AccountMetrics.current := Totals.mk (Some 105) (Some 70) (Some 7) None;
     AccountMetrics.previous := Totals.mk (Some 63) (Some 0) (Some 0) None;
     AccountMetrics.timeSeries := Some [];
     AccountMetrics.zoneBreakdown :=
       {| Breakdown.primary := Some 1; Breakdown.secondary := Some 1;
          Breakdown.zones :=
            Some [InvariantSample.zone "z1" 100 60 7 true;
                  InvariantSample.zone "z2" 5 10 0 false] |};
     AccountMetrics.previousMonthZoneBreakdown :=
       {| Breakdown.primary := Some 0; Breakdown.secondary := Some 2;
          Breakdown.zones :=
            Some [InvariantSample.zone "z1" 60 0 0 false;
                  InvariantSample.zone "z2" 3 0 0 false] |} |}.

(** The same account, its configured zone without traffic. *)
Definition quiet : AccountMetrics.t :=
  {| AccountMetrics.accountId := "A";
     AccountMetrics.accountName := None;
     AccountMetrics.current := Totals.mk (Some 5) (Some 10) (Some 0) None;
     AccountMetrics.previous := Totals.mk (Some 0) (Some 0) (Some 0) None;
     AccountMetrics.timeSeries := Some [];
     AccountMetrics.zoneBreakdown :=
       {| Breakdown.primary := Some 0; Breakdown.secondary := Some 2;
          Breakdown.zones :=
            Some [InvariantSample.zone "z1" 0 0 0 false;
                  InvariantSample.zone "z2" 5 10 0 false] |};
     AccountMetrics.previousMonthZoneBreakdown :=
       Breakdown.mk (Some 0) (Some 0) (Some []) |}.

Definition noHistory : string -> string -> Exec.M (list AddonEntry.t) :=
  fun _ _ => Exec.ret [].

(** 15 January 2025 and 1 March 2025, at noon. *)
Definition jan15 : JsDate.t := ThresholdSample.date 2025 0 15.
Definition mar01 : JsDate.t := ThresholdSample.date 2025 2 1.

End AddonSample.

Module BuilderSample.

(** The core is switched off, API Shield is enabled for zone "z1". *)
Definition coreOff : Config.t :=
  {| Config.accountIds := Some ["a"];
     Config.accountId := None;
     Config.applicationServices :=
       Some {| AppServices.core := Some (CoreConfig.mk (Some false));
               AppServices.botManagement := None;
               AppServices.apiShield := Some AddonSample.config;
               AppServices.pageShield := None;
               AppServices.advancedRateLimiting := None |};
     Config.thresholdZones := None;
     Config.thresholdRequests := None;
     Config.thresholdBandwidth := None;
     Config.thresholdDnsQueries := None;
     Config.slackWebhook := None;
     Config.alertsEnabled := false |}.

Definition world : World.t :=
  {| World.kv := <["config:default" := (KV.VConfig coreOff, None)]> ∅;
     World.calls := [] |}.

(** A Bot Management block that builds nothing. *)
Definition noBot : option Config.t -> list string -> Exec.M (option unit) :=
  fun _ _ => Exec.ret None.

End BuilderSample.

Module NotifyReference.

(** The alerts of a check request. *)
Definition alerts (body : CheckBody.t) : list Alert.t :=
  Thresholds.alertsOf (CheckBody.metrics body) (CheckBody.thresholds body).

(** The alerts a run at date [d] selects from a store: those without a
    live marker. *)
Definition selected (d : JsDate.t) (body : CheckBody.t) (kv : KV.store)
  : list Alert.t :=
  List.filter (ThresholdReference.unmarked d (Thresholds.accountsOf body) kv)
              (alerts body).

(** The webhook did not accept the message. *)
Definition refused (outcome : Http.outcome unit) : Prop :=
  match outcome with
  | Http.NetworkError => True
  | Http.Response ok _ => ok = false
  end.

(** What the test notification reports. *)
Definition testSucceeded (outcome : Http.outcome unit) : bool :=
  match outcome with
  | Http.NetworkError => false
  | Http.Response _ _ => true
  end.

End NotifyReference.

Module NotifySample.

(** Slack answers 404. *)
Definition gone : string -> Http.outcome unit :=
  fun _ => Http.Response false None.

Definition testBody : CheckBody.t :=
  {| CheckBody.metrics := ThresholdSample.requestsOnly 95;
     CheckBody.thresholds := ThresholdSample.requestsOnly 100;
     CheckBody.slackWebhook := Some DedupSample.url;
     CheckBody.accountIds := Some ["a"];
     CheckBody.accountId := None;
     CheckBody.forceTest := true |}.

End NotifySample.

Module AlertKeyReference.

(** The character [-]. *)
Definition dash : Ascii.ascii := Ascii.ascii_of_nat 45.

Fixpoint dashFree (s : string) : Prop :=
  match s with
  | EmptyString => True
  | String c s' => c <> dash /\ dashFree s'
  end.

(** An account id that is not empty and holds no [-], as the 32
    hexadecimal digits of an account id do. *)
Definition plain (id : string) : Prop := id <> EmptyString /\ dashFree id.

End AlertKeyReference.

Module ConfidenceReference.

Definition estimateOf (c : Confidence.Confidence) : Z :=
  Js.orZero (Confidence.c_estimate c).

Definition lowerOf (c : Confidence.Confidence) : Z :=
  Js.orZero (Confidence.c_lower c).

Definition upperOf (c : Confidence.Confidence) : Z :=
  Js.orZero (Confidence.c_upper c).

(** The estimate and both bounds of the interval are positive numbers. *)
Definition positive (c : Confidence.Confidence) : Prop :=
  Confidence.c_estimate c = Some (estimateOf c)
  /\ Confidence.c_lower c = Some (lowerOf c)
  /\ Confidence.c_upper c = Some (upperOf c)
  /\ 0 < estimateOf c /\ 0 < lowerOf c /\ 0 < upperOf c.

(** The confidence derived from the interval a confidence object keeps. *)
Definition recomputed (c : Confidence.Confidence) : option Confidence.Confidence :=
  Confidence.calculateConfidencePercentage
    (Some {| Confidence.estimate := Confidence.c_estimate c;
             Confidence.lower := Confidence.c_lower c;
             Confidence.upper := Confidence.c_upper c;
             Confidence.sampleSize := Confidence.c_sampleSize c |}).

(** The percentage of an interval given by three non-zero numbers. *)
Definition percentOf (e l u : Z) : Q :=
  Binary64.div
    (inject_Z
       (Js.round
          (Binary64.mul
             (Js.clamp100
                (Binary64.mul 100
                   (Binary64.sub 1
                      (Binary64.div (inject_Z (u - l)) (inject_Z (2 * e))))))
             10)))
    10.

Definition conf (e l u : Z) : Confidence.Confidence :=
  {| Confidence.percent := percentOf e l u;
     Confidence.c_sampleSize := Some 100;
     Confidence.c_estimate := Some e;
     Confidence.c_lower := Some l;
     Confidence.c_upper := Some u |}.

End ConfidenceReference.

Module BotReference.

(** What the bot query of a zone gives, whatever the world. *)
Definition outcome (botApi : string -> Bot.period -> Http.outcome BotResponse.t)
  (range : Bot.period) (zoneId : string)
  : Exec.result (option BotZoneMetrics.t) :=
  fst (Bot.fetchBotManagementMetrics botApi zoneId range
         {| World.kv := ∅; World.calls := [] |}).

(** The metrics of a zone whose query gave some. *)
Definition zoneData (botApi : string -> Bot.period -> Http.outcome BotResponse.t)
  (range : Bot.period) (zoneId : string) : option BotZoneMetrics.t :=
  match outcome botApi range zoneId with
  | Exec.Returned (Some metrics) => Some metrics
  | _ => None
  end.


(** One bot query per zone. *)
Definition botCalls (zones : list string) : list Call.t :=
  map (fun _ => Call.Analytics "GetBotTimeseries") zones.

(** Bot Management is switched on. *)
Definition enabled (botManagementConfig : option AddonConfig.t) : bool :=
  match botManagementConfig with
  | Some cfg =>
    match AddonConfig.enabled cfg with
    | Some true => true
    | _ => false
    end
  | None => false
  end.

(** The configured zones that are enterprise zones of the account. *)
Definition accountBotZones (allZones : list EnterpriseZone.t)
  (botManagementConfig : option AddonConfig.t) : list string :=
  List.filter (Bot.inZones allZones)
              (AddonReference.configuredZones botManagementConfig).

(** The world once the zone list and the bot queries of both months
    have been made. *)
Definition queried (accountId : string) (zones : list string) (w : World.t)
  : World.t :=
  {| World.kv := World.kv w;
     World.calls := World.calls w ++ [Call.ZoneList accountId]
                    ++ botCalls zones ++ botCalls zones |}.

End BotReference.

Module BotSample.

Definition scope (counts : list Z) : BotScope.t :=
  {| BotScope.likely_human := Some (map Some counts);
     BotScope.likely_human_total := None;
     BotScope.automated := None;
     BotScope.likely_automated := None;
     BotScope.verified_bot := None |}.

(** The query of zone "z1" reports 40 and 2 requests, that of "z3"
    answers with GraphQL errors. *)
Definition botApi : string -> Bot.period -> Http.outcome BotResponse.t :=
  fun zoneId _ =>
    if String.eqb zoneId "z1"
    then Http.Response true (Some (BotResponse.mk false (Some (scope [40; 2]))))
    else Http.Response true (Some (BotResponse.mk true None)).

(** Bot Management is configured for "z1", "z3" and a zone "z7" of
    another account. *)
Definition config : AddonConfig.t :=
  {| AddonConfig.enabled := Some true; AddonConfig.threshold := Some 1000;
     AddonConfig.zones := Some ["z1"; "z7"; "z3"] |}.

Definition noHistory : string -> Exec.M (list BotEntry.t) :=
  fun _ => Exec.ret [].

End BotSample.

Module BotStorageSample.

(** Bot Management is configured only for a zone of another account. *)
Definition elsewhere : AddonConfig.t :=
  {| AddonConfig.enabled := Some true; AddonConfig.threshold := Some 1000;
     AddonConfig.zones := Some ["z7"] |}.

(** No bot query of any zone answers. *)
Definition silent : string -> Bot.period -> Http.outcome BotResponse.t :=
  fun _ _ => Http.NetworkError.

End BotStorageSample.
(** * Properties *)

(** ** Double-precision rounding *)

Section Binary64Facts.

Import Binary64.

Lemma pow2_pos (e : Z) : (0 < 2 ^ e)%Q.
Proof. now apply Qpower_0_lt. Qed.

Lemma pow2_add (a b : Z) : (2 ^ (a + b) == 2 ^ a * 2 ^ b)%Q.
Proof. apply Qpower_plus. discriminate. Qed.

Lemma pow2_le (a b : Z) : a <= b -> (2 ^ a <= 2 ^ b)%Q.
Proof. intros H. apply Qpower_le_compat_l; [exact H | discriminate]. Qed.

Lemma pow2_succ (a : Z) : (2 ^ (a + 1) == 2 * 2 ^ a)%Q.
Proof. rewrite pow2_add. change (2 ^ 1)%Q with 2%Q. ring. Qed.

Lemma pow2_pred (a : Z) : (2 * 2 ^ (a - 1) == 2 ^ a)%Q.
Proof.
  rewrite <- pow2_succ. now replace (a - 1 + 1) with a by lia.
Qed.

Lemma pow2_inject (a : Z) : 0 <= a -> (inject_Z (2 ^ a) == 2 ^ a)%Q.
Proof. intros H. now rewrite Zpower_Qpower. Qed.

(** [log2 q] is the integer part of the binary logarithm of [q]. *)
Lemma log2_spec (q : Q) :
  (0 < q)%Q -> (2 ^ log2 q <= q < 2 ^ (log2 q + 1))%Q.
Proof.
  intros Hq. destruct q as [n d]. unfold log2. cbn [Qnum Qden].
  assert (0 < n) as Hn by (unfold Qlt in Hq; cbn in Hq; lia).
  set (a := Z.log2 n). set (b := Z.log2 (Z.pos d)).
  destruct (Z.log2_spec n Hn) as [Ha1 Ha2]. fold a in Ha1, Ha2.
  destruct (Z.log2_spec (Z.pos d) ltac:(lia)) as [Hb1 Hb2]. fold b in Hb1, Hb2.
  assert (0 <= a) as Ha0 by apply Z.log2_nonneg.
  assert (0 <= b) as Hb0 by apply Z.log2_nonneg.
  assert (2 ^ a <= inject_Z n < 2 * 2 ^ a)%Q as [HA1 HA2].
  { rewrite <- pow2_inject by lia. split.
    - now rewrite <- Zle_Qle.
    - change 2%Q with (inject_Z 2). rewrite <- inject_Z_mult, <- Zlt_Qlt.
      replace (Z.succ a) with (a + 1) in Ha2 by lia.
      rewrite Z.pow_add_r in Ha2 by lia. lia. }
  assert (2 ^ b <= inject_Z (Z.pos d) < 2 * 2 ^ b)%Q as [HB1 HB2].
  { rewrite <- pow2_inject by lia. split.
    - now rewrite <- Zle_Qle.
    - change 2%Q with (inject_Z 2). rewrite <- inject_Z_mult, <- Zlt_Qlt.
      replace (Z.succ b) with (b + 1) in Hb2 by lia.
      rewrite Z.pow_add_r in Hb2 by lia. lia. }
  assert (n # d == inject_Z n / inject_Z (Z.pos d))%Q as Hq' by apply Qmake_Qdiv.
  assert ((n # d) * inject_Z (Z.pos d) == inject_Z n)%Q as Hmul.
  { rewrite Hq'. field. intros H. unfold Qeq in H. cbn in H. lia. }
  assert (2 ^ a == 2 ^ (a - b) * 2 ^ b)%Q as Hk.
  { rewrite <- pow2_add. now replace (a - b + b) with a by lia. }
  pose proof (pow2_pos a) as HPa. pose proof (pow2_pos b) as HPb.
  pose proof (pow2_pos (a - b)) as HPk.
  revert Hq Hmul Hk HA1 HA2 HB1 HB2 HPa HPb HPk.
  generalize (inject_Z n) (inject_Z (Z.pos d)) (n # d)%Q.
  intros nQ dQ q Hq Hmul Hk HA1 HA2 HB1 HB2 HPa HPb HPk.
  assert (2 ^ (a - b) < 2 * q)%Q as Hlow.
  { apply Qnot_le_lt. intros H.
    assert (2 * q * 2 ^ b <= 2 ^ (a - b) * 2 ^ b)%Q
      by (apply Qmult_le_compat_r; [exact H | lra]).
    assert (q * 2 ^ b <= q * dQ)%Q by (apply Qmult_le_l; [exact Hq | exact HB1]).
    assert (q * dQ < q * (2 * 2 ^ b))%Q by (apply Qmult_lt_l; [exact Hq | exact HB2]).
    lra. }
  assert (q < 2 * 2 ^ (a - b))%Q as Hhigh.
  { apply Qnot_le_lt. intros H.
    assert (2 * 2 ^ (a - b) * 2 ^ b <= q * 2 ^ b)%Q
      by (apply Qmult_le_compat_r; [exact H | lra]).
    assert (q * 2 ^ b <= q * dQ)%Q by (apply Qmult_le_l; [exact Hq | exact HB1]).
    lra. }
  destruct (Qle_bool (2 ^ (a - b)) q) eqn:Htest.
  - apply Qle_bool_iff in Htest. split; [exact Htest |].
    rewrite pow2_succ. exact Hhigh.
  - assert (q < 2 ^ (a - b))%Q as Hlt.
    { apply Qnot_le_lt. intros H. apply Qle_bool_iff in H. congruence. }
    replace (a - b - 1 + 1) with (a - b) by lia. split; [| exact Hlt].
    pose proof (pow2_pred (a - b)). lra.
Qed.

Lemma log2_mono (x y : Q) : (0 < x)%Q -> (x <= y)%Q -> log2 x <= log2 y.
Proof.
  intros Hx Hxy.
  destruct (log2_spec x Hx) as [Hx1 _].
  destruct (log2_spec y ltac:(lra)) as [_ Hy2].
  destruct (Z_le_gt_dec (log2 x) (log2 y)) as [H | H]; [exact H |].
  pose proof (pow2_le (log2 y + 1) (log2 x) ltac:(lia)). lra.
Qed.

(** ** Rounding to the nearest integer, ties to even *)

Lemma nearestEven_cases (x : Q) :
  (nearestEven x = Qfloor x /\ (x - inject_Z (Qfloor x) <= 1 # 2)%Q)
  \/ (nearestEven x = Qfloor x + 1 /\ (1 # 2 <= x - inject_Z (Qfloor x))%Q).
Proof.
  unfold nearestEven.
  destruct (Qcompare (x - inject_Z (Qfloor x)) (1 # 2)) eqn:Hc.
  - rewrite <- Qeq_alt in Hc. destruct (Z.even (Qfloor x)); [left | right];
      (split; [reflexivity | lra]).
  - rewrite <- Qlt_alt in Hc. left. split; [reflexivity | lra].
  - rewrite <- Qgt_alt in Hc. right. split; [reflexivity | lra].
Qed.

Lemma floor_bounds (x : Q) :
  (inject_Z (Qfloor x) <= x < inject_Z (Qfloor x) + 1)%Q.
Proof.
  split; [apply Qfloor_le |].
  pose proof (Qlt_floor x) as H. rewrite inject_Z_plus in H. exact H.
Qed.

Lemma nearestEven_near (x : Q) :
  (- (1 # 2) <= inject_Z (nearestEven x) - x <= 1 # 2)%Q.
Proof.
  pose proof (floor_bounds x) as [Hlo Hhi].
  destruct (nearestEven_cases x) as [[-> H] | [-> H]].
  - lra.
  - rewrite inject_Z_plus. change (inject_Z 1) with 1%Q. lra.
Qed.

Lemma nearestEven_integer (z : Z) : nearestEven (inject_Z z) = z.
Proof.
  unfold nearestEven. rewrite Qfloor_Z.
  assert (Qcompare (inject_Z z - inject_Z z) (1 # 2) = Lt) as ->; [| reflexivity].
  rewrite <- Qlt_alt. lra.
Qed.

Lemma nearestEven_mono (x y : Q) :
  (x <= y)%Q -> nearestEven x <= nearestEven y.
Proof.
  intros Hxy. pose proof (Qfloor_resp_le x y Hxy) as Hf.
  destruct (Z.eq_dec (Qfloor x) (Qfloor y)) as [Heq | Hne].
  - unfold nearestEven. rewrite <- Heq.
    destruct (Qcompare (x - inject_Z (Qfloor x)) (1 # 2)) eqn:Hx;
      [rewrite <- Qeq_alt in Hx | rewrite <- Qlt_alt in Hx
       | rewrite <- Qgt_alt in Hx];
      (destruct (Qcompare (y - inject_Z (Qfloor x)) (1 # 2)) eqn:Hy;
       [rewrite <- Qeq_alt in Hy | rewrite <- Qlt_alt in Hy
        | rewrite <- Qgt_alt in Hy]);
      try lra; destruct (Z.even (Qfloor x)); lia.
  - destruct (nearestEven_cases x) as [[-> _] | [-> _]];
      destruct (nearestEven_cases y) as [[-> _] | [-> _]]; lia.
Qed.

(** ** Rounding to 53 significant bits *)

Lemma roundPositive_scaled (q : Q) :
  (0 < q)%Q ->
  (2 ^ 52 <= q / 2 ^ (log2 q - 52) < 2 ^ 53)%Q.
Proof.
  intros Hq. destruct (log2_spec q Hq) as [Hlo Hhi].
  pose proof (pow2_pos (log2 q - 52)) as HP.
  assert (2 ^ log2 q == 2 ^ 52 * 2 ^ (log2 q - 52))%Q as E1.
  { rewrite <- pow2_add. now replace (52 + (log2 q - 52)) with (log2 q) by lia. }
  assert (2 ^ (log2 q + 1) == 2 ^ 53 * 2 ^ (log2 q - 52))%Q as E2.
  { rewrite <- pow2_add. now replace (53 + (log2 q - 52)) with (log2 q + 1) by lia. }
  rewrite E1 in Hlo. rewrite E2 in Hhi.
  split.
  - apply Qle_shift_div_l; [exact HP | exact Hlo].
  - apply Qlt_shift_div_r; [exact HP | exact Hhi].
Qed.

Lemma roundPositive_bounds (q : Q) :
  (0 < q)%Q ->
  (2 ^ log2 q <= roundPositive q <= 2 ^ (log2 q + 1))%Q.
Proof.
  intros Hq. destruct (roundPositive_scaled q Hq) as [Hlo Hhi].
  unfold roundPositive. cbn zeta.
  pose proof (pow2_pos (log2 q - 52)) as HP.
  assert (2 ^ log2 q == 2 ^ 52 * 2 ^ (log2 q - 52))%Q as ->.
  { rewrite <- pow2_add. now replace (52 + (log2 q - 52)) with (log2 q) by lia. }
  assert (2 ^ (log2 q + 1) == 2 ^ 53 * 2 ^ (log2 q - 52))%Q as ->.
  { rewrite <- pow2_add. now replace (53 + (log2 q - 52)) with (log2 q + 1) by lia. }
  pose proof (nearestEven_mono _ _ Hlo) as H1.
  pose proof (nearestEven_mono _ _ (Qlt_le_weak _ _ Hhi)) as H2.
  change (2 ^ 52)%Q with (inject_Z (2 ^ 52)) in H1 |- *.
  change (2 ^ 53)%Q with (inject_Z (2 ^ 53)) in H2 |- *.
  rewrite nearestEven_integer in H1, H2.
  split; (apply Qmult_le_compat_r; [now rewrite <- Zle_Qle | lra]).
Qed.

Lemma roundPositive_mono (x y : Q) :
  (0 < x)%Q -> (x <= y)%Q -> (roundPositive x <= roundPositive y)%Q.
Proof.
  intros Hx Hxy. assert (0 < y)%Q as Hy by lra.
  pose proof (log2_mono x y Hx Hxy) as He.
  destruct (Z.eq_dec (log2 x) (log2 y)) as [Heq | Hne].
  - unfold roundPositive. cbn zeta. rewrite Heq.
    pose proof (pow2_pos (log2 y - 52)) as HP.
    apply Qmult_le_compat_r; [| lra].
    rewrite <- Zle_Qle. apply nearestEven_mono.
    apply Qmult_le_compat_r; [exact Hxy |].
    apply Qlt_le_weak, Qinv_lt_0_compat, HP.
  - destruct (roundPositive_bounds x Hx) as [_ H1].
    destruct (roundPositive_bounds y Hy) as [H2 _].
    pose proof (pow2_le (log2 x + 1) (log2 y) ltac:(lia)). lra.
Qed.

Lemma roundPositive_near (q : Q) :
  (0 < q)%Q ->
  (- (q * unitRoundoff) <= roundPositive q - q <= q * unitRoundoff)%Q.
Proof.
  intros Hq. destruct (roundPositive_scaled q Hq) as [Hlo _].
  unfold roundPositive. cbn zeta.
  set (P := (2 ^ (log2 q - 52))%Q) in *.
  assert (0 < P)%Q as HP by apply pow2_pos.
  pose proof (nearestEven_near (q / P)) as [Hn1 Hn2].
  set (m := inject_Z (nearestEven (q / P))) in *.
  assert (q / P * P == q)%Q as Hq' by (field; lra).
  assert (2 ^ 52 * P <= q / P * P)%Q as Hsize
    by (apply Qmult_le_compat_r; [exact Hlo | lra]).
  rewrite Hq' in Hsize.
  assert (m * P - q == (m - q / P) * P)%Q as -> by (field; lra).
  assert ((- (1 # 2)) * P <= (m - q / P) * P)%Q
    by (apply Qmult_le_compat_r; [exact Hn1 | lra]).
  assert ((m - q / P) * P <= (1 # 2) * P)%Q
    by (apply Qmult_le_compat_r; [exact Hn2 | lra]).
  change (2 ^ 52)%Q with 4503599627370496%Q in Hsize.
  unfold unitRoundoff.
  revert H H0. generalize ((m - q / P) * P)%Q. intros t H H0.
  clearbody P. lra.
Qed.

End Binary64Facts.

Section Binary64RoundFacts.

Import Binary64.

Lemma round_comp (x y : Q) : (x == y)%Q -> round x = round y.
Proof. intros H. unfold round. now rewrite (Qred_complete x y H). Qed.

Lemma round_positive (x : Q) :
  (0 < x)%Q -> (round x == roundPositive (Qred x))%Q.
Proof.
  intros Hx. unfold round. cbn zeta. rewrite Qred_correct.
  pose proof (Qred_correct x) as H.
  destruct (Qred x) as [n d]. cbn [Qnum].
  destruct n; [| reflexivity |]; exfalso;
    rewrite <- H in Hx; unfold Qlt in Hx; cbn in Hx; lia.
Qed.

Lemma round_negative (x : Q) :
  (x < 0)%Q -> (round x == - roundPositive (- Qred x))%Q.
Proof.
  intros Hx. unfold round. cbn zeta. rewrite Qred_correct.
  pose proof (Qred_correct x) as H.
  destruct (Qred x) as [n d]. cbn [Qnum].
  destruct n; [| | reflexivity]; exfalso;
    rewrite <- H in Hx; unfold Qlt in Hx; cbn in Hx; lia.
Qed.

Lemma round_zero (x : Q) : (x == 0)%Q -> (round x == 0)%Q.
Proof. intros H. now rewrite (round_comp x 0 H). Qed.

Lemma roundPositive_positive (q : Q) : (0 < q)%Q -> (0 < roundPositive q)%Q.
Proof.
  intros Hq. destruct (roundPositive_bounds q Hq) as [H _].
  pose proof (pow2_pos (log2 q)). lra.
Qed.

(** Rounding keeps the order. *)
Lemma round_mono (x y : Q) : (x <= y)%Q -> (round x <= round y)%Q.
Proof.
  intros Hxy.
  pose proof (Qred_correct x) as Hx. pose proof (Qred_correct y) as Hy.
  destruct (Q_dec x 0) as [[Hxs | Hxs] | Hxs];
    destruct (Q_dec y 0) as [[Hys | Hys] | Hys]; try lra.
  - rewrite (round_negative x Hxs), (round_negative y Hys).
    pose proof (roundPositive_mono (- Qred y) (- Qred x) ltac:(lra) ltac:(lra)).
    lra.
  - rewrite (round_negative x Hxs), (round_positive y Hys).
    pose proof (roundPositive_positive (- Qred x) ltac:(lra)).
    pose proof (roundPositive_positive (Qred y) ltac:(lra)). lra.
  - rewrite (round_negative x Hxs), (round_zero y Hys).
    pose proof (roundPositive_positive (- Qred x) ltac:(lra)). lra.
  - rewrite (round_positive x Hxs), (round_positive y Hys).
    apply roundPositive_mono; lra.
  - rewrite (round_zero x Hxs), (round_positive y Hys).
    pose proof (roundPositive_positive (Qred y) ltac:(lra)). lra.
  - rewrite (round_zero x Hxs), (round_zero y Hys). lra.
Qed.

(** The relative error of rounding is at most 2^-53. *)
Lemma round_near (x : Q) :
  (0 <= x)%Q ->
  (- (x * unitRoundoff) <= round x - x <= x * unitRoundoff)%Q.
Proof.
  intros Hx. destruct (Qle_lt_or_eq _ _ Hx) as [Hpos | Hzero].
  - rewrite (round_positive x Hpos).
    pose proof (Qred_correct x) as Hred.
    pose proof (roundPositive_near (Qred x) ltac:(lra)) as H.
    unfold unitRoundoff in *. lra.
  - rewrite (round_zero x ltac:(lra)). unfold unitRoundoff. lra.
Qed.

Lemma round_bounds (x lo hi : Q) :
  (round lo == lo)%Q -> (round hi == hi)%Q -> (lo <= x <= hi)%Q ->
  (lo <= round x <= hi)%Q.
Proof.
  intros Hlo Hhi [H1 H2]. rewrite <- Hlo, <- Hhi.
  split; now apply round_mono.
Qed.

End Binary64RoundFacts.

(** ** Agreement with the standard library's IEEE 754 arithmetic *)

Section Ieee754Facts.

(** On the intervals of the examples the steps of the calculator, as
    [Binary64] rounds them, are the doubles IEEE 754 arithmetic gives. *)
Example calculator_steps_are_ieee754 :
  Ieee754.roundedSteps 40 40 69 = Ieee754.steps 40 40 69
  /\ Ieee754.roundedSteps 100 90 110 = Ieee754.steps 100 90 110
  /\ Ieee754.roundedSteps 300 270 330 = Ieee754.steps 300 270 330
  /\ Ieee754.roundedSteps 1000 600 1400 = Ieee754.steps 1000 600 1400
  /\ Ieee754.roundedSteps 123456789 123000000 124111111
     = Ieee754.steps 123456789 123000000 124111111.
Proof. repeat split; vm_compute; reflexivity. Qed.

(** So is the last division, for every whole number of tenths. *)
Example tenths_are_ieee754 :
  map (fun n => Binary64.div (inject_Z n) 10) Ieee754.allTenths
  = map (fun n => Ieee754.value (Ieee754.div (Ieee754.ofInt n) (Ieee754.ofInt 10)))
        Ieee754.allTenths.
Proof. vm_compute. reflexivity. Qed.

End Ieee754Facts.

(** ** The steps of the confidence calculator *)

Section ConfidenceStepFacts.

Import Binary64 Confidence.

Lemma clamp100_bounds (x : Q) : (0 <= Js.clamp100 x <= 100)%Q.
Proof.
  unfold Js.clamp100. split.
  - apply Q.le_max_l.
  - apply Q.max_lub; [discriminate | apply Q.le_min_l].
Qed.

Lemma clamp100_low (x : Q) : (x <= 0)%Q -> (Js.clamp100 x == 0)%Q.
Proof.
  intros H. unfold Js.clamp100. apply Q.max_l.
  eapply Qle_trans; [apply Q.le_min_r | exact H].
Qed.

Lemma clamp100_high (x : Q) : (100 <= x)%Q -> (Js.clamp100 x == 100)%Q.
Proof.
  intros H. unfold Js.clamp100. rewrite Q.min_l by exact H.
  apply Q.max_r. discriminate.
Qed.

Lemma clamp100_inside (x : Q) : (0 <= x <= 100)%Q -> (Js.clamp100 x == x)%Q.
Proof.
  intros [H0 H1]. unfold Js.clamp100. rewrite Q.min_r by exact H1.
  now apply Q.max_r.
Qed.

Lemma clamp_mono (x y : Q) : (x <= y)%Q -> (Js.clamp100 x <= Js.clamp100 y)%Q.
Proof.
  intros H. unfold Js.clamp100.
  apply Q.max_le_compat_l, Q.min_le_compat_l, H.
Qed.

Lemma jsRound_mono (x y : Q) : (x <= y)%Q -> Js.round x <= Js.round y.
Proof. intros H. unfold Js.round. apply Qfloor_resp_le. lra. Qed.

Lemma jsRound_near (x : Q) :
  (- (1 # 2) <= inject_Z (Js.round x) - x <= 1 # 2)%Q.
Proof.
  unfold Js.round. pose proof (floor_bounds (x + (1 # 2))) as [H1 H2]. lra.
Qed.

Lemma round_0 : round 0 = 0%Q.
Proof. reflexivity. Qed.

Lemma round_1 : round 1 = 1%Q.
Proof. vm_compute. reflexivity. Qed.

Lemma round_100 : round 100 = 100%Q.
Proof. vm_compute. reflexivity. Qed.

Lemma round_1000 : round 1000 = 1000%Q.
Proof. vm_compute. reflexivity. Qed.

(** The scaled percentage before [Math.round]. *)
Lemma scaled_range (w : Q) :
  (0 <= mul (Js.clamp100 (mul 100 (sub 1 (round w)))) 10 <= 1000)%Q.
Proof.
  unfold mul at 1.
  pose proof (clamp100_bounds (mul 100 (sub 1 (round w)))) as [H0 H1].
  apply round_bounds; [now rewrite round_0 | now rewrite round_1000 | lra].
Qed.

Lemma tenths_range (w : Q) : 0 <= tenths w <= 1000.
Proof.
  unfold tenths. destruct (scaled_range w) as [H0 H1]. split.
  - change 0 with (Js.round 0). now apply jsRound_mono.
  - change 1000 with (Js.round 1000). now apply jsRound_mono.
Qed.

(** A relatively wider interval never has more tenths. *)
Lemma tenths_mono (w w' : Q) : (w <= w')%Q -> tenths w' <= tenths w.
Proof.
  intros H. unfold tenths, mul, sub.
  apply jsRound_mono, round_mono.
  apply Qmult_le_compat_r; [| discriminate].
  apply clamp_mono, round_mono.
  apply Qmult_le_l; [reflexivity |].
  apply round_mono. pose proof (round_mono w w' H). lra.
Qed.

Lemma tenths_wide (w : Q) : (1 <= w)%Q -> tenths w = 0.
Proof.
  intros H. unfold tenths, mul, sub.
  pose proof (round_mono 1 w H) as H1. rewrite round_1 in H1.
  pose proof (round_mono (1 - round w) 0 ltac:(lra)) as H2. rewrite round_0 in H2.
  pose proof (round_mono (100 * round (1 - round w)) 0 ltac:(lra)) as H3.
  rewrite round_0 in H3.
  rewrite (round_comp (Js.clamp100 (round (100 * round (1 - round w))) * 10) 0).
  - reflexivity.
  - rewrite (clamp100_low _ H3). reflexivity.
Qed.

Lemma tenths_negative (w : Q) : (w <= 0)%Q -> tenths w = 1000.
Proof.
  intros H. unfold tenths, mul, sub.
  pose proof (round_mono w 0 H) as H1. rewrite round_0 in H1.
  pose proof (round_mono 1 (1 - round w) ltac:(lra)) as H2. rewrite round_1 in H2.
  pose proof (round_mono 100 (100 * round (1 - round w)) ltac:(lra)) as H3.
  rewrite round_100 in H3.
  rewrite (round_comp (Js.clamp100 (round (100 * round (1 - round w))) * 10) 1000).
  - reflexivity.
  - rewrite (clamp100_high _ H3). reflexivity.
Qed.

(** Between the two, the rounding errors of the five operations add up
    to less than 4000 * 2^-53 tenths. *)
Lemma tenths_inside (w : Q) :
  (0 <= w <= 1)%Q ->
  (- ((1 # 2) + 4000 * unitRoundoff)
   <= inject_Z (tenths w) - 1000 * (1 - w)
   <= (1 # 2) + 4000 * unitRoundoff)%Q.
Proof.
  intros [Hw0 Hw1]. unfold tenths, mul, sub.
  pose proof (round_near w Hw0) as Hr1.
  pose proof (round_bounds w 0 1 ltac:(now rewrite round_0)
                ltac:(now rewrite round_1) (conj Hw0 Hw1)) as Hb1.
  set (r1 := round w) in *.
  pose proof (round_near (1 - r1) ltac:(lra)) as Hr2.
  pose proof (round_bounds (1 - r1) 0 1 ltac:(now rewrite round_0)
                ltac:(now rewrite round_1) ltac:(lra)) as Hb2.
  set (t := round (1 - r1)) in *.
  pose proof (round_near (100 * t) ltac:(lra)) as Hr3.
  pose proof (round_bounds (100 * t) 0 100 ltac:(now rewrite round_0)
                ltac:(now rewrite round_100) ltac:(lra)) as Hb3.
  set (raw := round (100 * t)) in *.
  pose proof (clamp100_inside raw Hb3) as Hc.
  assert (round (Js.clamp100 raw * 10) = round (raw * 10)) as ->
    by (apply round_comp; now rewrite Hc).
  pose proof (round_near (raw * 10) ltac:(lra)) as Hr4.
  set (s := round (raw * 10)) in *.
  pose proof (jsRound_near s) as Hn.
  unfold unitRoundoff in *. lra.
Qed.

Lemma tenths_near (w : Q) :
  (Qabs (inject_Z (tenths w) / 10 - Js.clamp100 (100 * (1 - w)))
   <= (1 # 20) + 400 * unitRoundoff)%Q.
Proof.
  apply Qabs_Qle_condition.
  destruct (Qlt_le_dec w 0) as [Hneg | Hpos].
  - rewrite (tenths_negative w ltac:(lra)).
    rewrite (clamp100_high (100 * (1 - w)) ltac:(lra)).
    unfold unitRoundoff. split; [discriminate | discriminate].
  - destruct (Qlt_le_dec 1 w) as [Hwide | Hin].
    + rewrite (tenths_wide w ltac:(lra)).
      rewrite (clamp100_low (100 * (1 - w)) ltac:(lra)).
      unfold unitRoundoff. split; discriminate.
    + pose proof (tenths_inside w (conj Hpos Hin)) as H.
      rewrite (clamp100_inside (100 * (1 - w)) ltac:(lra)).
      unfold unitRoundoff in *.
      assert (inject_Z (tenths w) / 10 == inject_Z (tenths w) * (1 # 10))%Q as ->
        by reflexivity.
      lra.
Qed.

(** The percentage is the double nearest to the tenths. *)
Lemma tenth_range (n : Z) :
  0 <= n <= 1000 -> (0 <= inject_Z n / 10 <= 100)%Q.
Proof.
  intros [H0 H1].
  assert (0 <= inject_Z n <= 1000)%Q as [Hq0 Hq1].
  { split; [change 0%Q with (inject_Z 0) | change 1000%Q with (inject_Z 1000)];
      now rewrite <- Zle_Qle. }
  assert (inject_Z n / 10 == inject_Z n * (1 # 10))%Q as -> by reflexivity.
  lra.
Qed.

Lemma percent_near (n : Z) :
  0 <= n <= 1000 ->
  (Qabs (div (inject_Z n) 10 - inject_Z n / 10) <= 100 * unitRoundoff)%Q.
Proof.
  intros Hn. apply Qabs_Qle_condition. unfold div.
  pose proof (tenth_range n Hn) as [H0 H1].
  pose proof (round_near (inject_Z n / 10) H0) as H.
  revert H0 H1 H. generalize (inject_Z n / 10)%Q. intros x H0 H1.
  generalize (round x). intros p H. unfold unitRoundoff in *. lra.
Qed.

Lemma percent_range (n : Z) :
  0 <= n <= 1000 -> (0 <= div (inject_Z n) 10 <= 100)%Q.
Proof.
  intros Hn. unfold div.
  apply round_bounds; [now rewrite round_0 | now rewrite round_100 |].
  now apply tenth_range.
Qed.

End ConfidenceStepFacts.

(** ** Confidence calculator *)

Section ConfidenceFacts.

Import Binary64 Confidence Reference.

Lemma clamp100_cases (x : Q) :
  (Js.clamp100 x ==
     if Qle_bool x 0 then 0 else if Qle_bool 100 x then 100 else x)%Q.
Proof.
  destruct (Qle_bool x 0) eqn:H0.
  - apply Qle_bool_iff in H0. now apply clamp100_low.
  - assert (0 < x)%Q as Hpos.
    { apply Qnot_le_lt. intros H. apply Qle_bool_iff in H. congruence. }
    destruct (Qle_bool 100 x) eqn:H1.
    + apply Qle_bool_iff in H1. now apply clamp100_high.
    + assert (x < 100)%Q as Hlt.
      { apply Qnot_le_lt. intros H. apply Qle_bool_iff in H. congruence. }
      apply clamp100_inside. lra.
Qed.

(** The specification's value is the exact clamped value rounded to a
    whole number of tenths. *)
Lemma specPercent_exact (e l u : Z) :
  specPercent e l u
  = (inject_Z (Qfloor (exactPercent e l u * 10 + (1 # 2))) / 10)%Q.
Proof.
  unfold specPercent, exactPercent. cbn zeta. f_equal. f_equal.
  apply Qfloor_comp. now rewrite clamp100_cases.
Qed.

(** Away from a rounding tie the calculator arrives at the exactly
    rounded tenths. *)
Lemma tenths_rounded (w : Q) :
  (forall k : Z,
     (4000 * unitRoundoff
      < Qabs (Js.clamp100 (100 * (1 - w)) * 10 + (1 # 2) - inject_Z k))%Q) ->
  tenths w = Qfloor (Js.clamp100 (100 * (1 - w)) * 10 + (1 # 2)).
Proof.
  intros Hties.
  destruct (Qlt_le_dec w 0) as [Hneg | Hpos].
  - rewrite (tenths_negative w ltac:(lra)).
    now rewrite (clamp100_high (100 * (1 - w)) ltac:(lra)).
  - destruct (Qlt_le_dec 1 w) as [Hwide | Hin].
    + rewrite (tenths_wide w ltac:(lra)).
      now rewrite (clamp100_low (100 * (1 - w)) ltac:(lra)).
    + pose proof (tenths_inside w (conj Hpos Hin)) as [Hlo Hhi].
      pose proof (clamp100_inside (100 * (1 - w)) ltac:(lra)) as Hc.
      pose proof (Hties (tenths w)) as Hbelow.
      pose proof (Hties (tenths w + 1)) as Habove.
      rewrite inject_Z_plus in Habove. change (inject_Z 1) with 1%Q in Habove.
      rewrite Hc in Hbelow, Habove |- *.
      symmetry. apply Z.le_antisymm.
      * apply Z.lt_succ_r. rewrite Zlt_Qlt.
        eapply Qle_lt_trans; [apply Qfloor_le |].
        unfold Z.succ. rewrite inject_Z_plus. change (inject_Z 1) with 1%Q.
        apply Qnot_le_lt. intros Hno.
        apply (Qlt_not_le _ _ Habove), Qabs_Qle_condition.
        unfold unitRoundoff in *. lra.
      * rewrite <- (Qfloor_Z (tenths w)) at 1. apply Qfloor_resp_le.
        apply Qnot_lt_le. intros Hno.
        apply (Qlt_not_le _ _ Hbelow), Qabs_Qle_condition.
        unfold unitRoundoff in *. lra.
Qed.

(** What the calculator returns for an estimate that is not 0. *)
Lemma calculateConfidencePercentage_tenths (c : Interval) (e : Z) :
  estimate c = Some e -> e <> 0 ->
  exists r,
    calculateConfidencePercentage (Some c) = Some r
    /\ percent r
       = Binary64.div (inject_Z
                (tenths (inject_Z (Js.orNum (upper c) e - Js.orNum (lower c) e)
                         / inject_Z (2 * e)))) 10.
Proof.
  intros He Hnz. unfold calculateConfidencePercentage. rewrite He.
  destruct (Z.eqb_spec e 0) as [-> | _]; [contradiction |].
  eexists. split; [reflexivity |]. cbn [percent].
  unfold tenths, div, mul, sub. reflexivity.
Qed.

(** C2 (as amended). The derivation yields nothing for a missing
    interval or a missing or zero estimate. Otherwise the percentage is
    the double nearest to a whole number of tenths between 0 and 100,
    and it is 100 * (1 - (U - L) / (2 * estimate)), clamped to [0,100]
    and rounded to one decimal, as double-precision arithmetic computes
    it, where L and U are the interval's bounds with a bound that is 0
    or missing replaced by the estimate (so for non-zero bounds it is
    the formula on the interval itself): the tenths and the percentage
    are within 0.05 + 10^-13 of the exact clamped value, and the tenths
    are the exactly rounded ones unless the exact value is within
    10^-13 of a rounding tie. The percentage lies in [0,100], and it is
    100 when lower = upper = estimate. *)
Theorem calculateConfidencePercentage_spec (c : Interval) :
  calculateConfidencePercentage None = None
  /\ (Js.truthy (estimate c) = false ->
      calculateConfidencePercentage (Some c) = None)
  /\ (forall e, estimate c = Some e -> e <> 0 ->
      exists r n,
        calculateConfidencePercentage (Some c) = Some r
        /\ 0 <= n <= 1000
        /\ percent r = Binary64.div (inject_Z n) 10
        /\ evaluates e (Js.orNum (lower c) e) (Js.orNum (upper c) e)
             n (percent r)
        /\ (forall l u, lower c = Some l -> l <> 0 ->
                        upper c = Some u -> u <> 0 ->
                        evaluates e l u n (percent r))
        /\ (0 <= percent r <= 100)%Q
        /\ (lower c = Some e -> upper c = Some e -> (percent r == 100)%Q)).
Proof.
  split; [reflexivity |]. split.
  - unfold calculateConfidencePercentage, Js.truthy.
    destruct (estimate c) as [e |]; [| reflexivity].
    destruct (e =? 0); [reflexivity | discriminate].
  - intros e He Hnz.
    destruct (calculateConfidencePercentage_tenths c e He Hnz) as (r & Hr & Hp).
    set (w := (inject_Z (Js.orNum (upper c) e - Js.orNum (lower c) e)
               / inject_Z (2 * e))%Q) in *.
    pose proof (tenths_range w) as Hn.
    exists r, (tenths w). split; [exact Hr |]. split; [exact Hn |].
    split; [exact Hp |].
    assert (evaluates e (Js.orNum (lower c) e) (Js.orNum (upper c) e)
              (tenths w) (percent r)) as Hev.
    { unfold evaluates.
      change (exactPercent e (Js.orNum (lower c) e) (Js.orNum (upper c) e))
        with (Js.clamp100 (100 * (1 - w))).
      pose proof (tenths_near w) as Hnear.
      pose proof (percent_near (tenths w) Hn) as Hlast.
      apply Qabs_Qle_condition in Hnear. apply Qabs_Qle_condition in Hlast.
      split; [| split].
      - apply Qabs_Qle_condition. unfold unitRoundoff, tolerance in *. lra.
      - rewrite Hp. apply Qabs_Qle_condition.
        unfold unitRoundoff, tolerance in *. lra.
      - intros Hties. rewrite specPercent_exact.
        change (exactPercent e (Js.orNum (lower c) e) (Js.orNum (upper c) e))
          with (Js.clamp100 (100 * (1 - w))).
        rewrite (tenths_rounded w); [reflexivity |].
        intros k. eapply Qle_lt_trans; [| apply Hties].
        unfold unitRoundoff, tolerance. discriminate. }
    split; [exact Hev |]. split; [| split].
    + intros l u Hl Hl0 Hu Hu0. revert Hev. rewrite Hl, Hu. unfold Js.orNum.
      destruct (Z.eqb_spec l 0); [contradiction |].
      now destruct (Z.eqb_spec u 0); [contradiction |].
    + rewrite Hp. now apply percent_range.
    + intros Hl Hu. rewrite Hp. subst w. rewrite Hl, Hu. unfold Js.orNum.
      assert ((if e =? 0 then e else e) = e) as -> by now destruct (e =? 0).
      rewrite Z.sub_diag, (tenths_negative (inject_Z 0 / inject_Z (2 * e))).
      * vm_compute. reflexivity.
      * unfold Qdiv. rewrite Qmult_0_l. apply Qle_refl.
Qed.

Lemma calculateConfidencePercentage_spec_witness :
  exists r n,
    calculateConfidencePercentage (Some Sample.interval) = Some r
    /\ 0 <= n <= 1000
    /\ percent r = Binary64.div (inject_Z n) 10
    /\ (inject_Z n / 10)%Q = specPercent 100 90 110
    /\ (Qabs (percent r - exactPercent 100 90 110) <= (1 # 20) + tolerance)%Q
    /\ (0 <= percent r <= 100)%Q.
Proof.
  destruct (calculateConfidencePercentage_spec Sample.interval) as (_ & _ & H).
  destruct (H 100 eq_refl ltac:(lia))
    as (r & n & Hr & Hn & Hp & _ & Hbounds & Hrange & _).
  destruct (Hbounds 90 110 eq_refl ltac:(lia) eq_refl ltac:(lia))
    as (_ & Hclose & Hexact).
  exists r, n. split; [exact Hr |]. split; [exact Hn |]. split; [exact Hp |].
  split; [| split; [exact Hclose | exact Hrange]].
  apply Hexact. intros k.
  assert (exactPercent 100 90 110 * 10 + (1 # 2) == 1801 # 2)%Q as ->
    by (vm_compute; reflexivity).
  unfold tolerance. apply Qnot_le_lt. intros Hk.
  apply Qabs_Qle_condition in Hk.
  destruct (Z_le_gt_dec k 900) as [Hlow | Hhigh].
  - rewrite Zle_Qle in Hlow. change (inject_Z 900) with 900%Q in Hlow. lra.
  - assert (901 <= k) as Hk' by lia. rewrite Zle_Qle in Hk'.
    change (inject_Z 901) with 901%Q in Hk'. lra.
Defined.

(** C2 as stated fails in two ways. When the lower bound is 0 the code
    takes the estimate for it: for {estimate: 100, lower: 0, upper: 150}
    the formula gives 25 and the code returns 75. And the arithmetic is
    that of doubles: for {estimate: 40, lower: 40, upper: 69} the
    formula gives 63.75, which rounds to 63.8, while the code computes
    63.74999999999999 and returns 63.7. *)
Lemma calculateConfidencePercentage_zero_lower :
  (exists r,
     calculateConfidencePercentage
       (Some {| estimate := Some 100; lower := Some 0; upper := Some 150;
                sampleSize := Some 10 |}) = Some r
     /\ (percent r == 75)%Q
     /\ (specPercent 100 0 150 == 25)%Q
     /\ ~ (percent r == specPercent 100 0 150)%Q)
  /\ (exists r,
        calculateConfidencePercentage
          (Some {| estimate := Some 40; lower := Some 40; upper := Some 69;
                   sampleSize := Some 10 |}) = Some r
        /\ percent r = Binary64.div 637 10
        /\ (exactPercent 40 40 69 == 255 # 4)%Q
        /\ (specPercent 40 40 69 == 638 # 10)%Q
        /\ (Qabs (percent r - specPercent 40 40 69) > 1 # 20)%Q).
Proof.
  split; eexists; (split; [reflexivity |]); cbn [percent].
  - split; [vm_compute; reflexivity |]. split; [reflexivity |].
    vm_compute. discriminate.
  - split; [vm_compute; reflexivity |]. split; [vm_compute; reflexivity |].
    split; vm_compute; reflexivity.
Qed.

End ConfidenceFacts.

(** ** Cross-account aggregator: combined confidence *)

Section AggregateConfidenceFacts.

Import Confidence Aggregator Reference.

Lemma collect_fold sel (accts : list AccountMetrics.t) (acc : Collected) :
  let confs := omap (confidenceOf sel) accts in
  fold_left (fun a d => collect a (confidenceOf sel d)) accts acc =
  {| estimates := estimates acc ++ map c_estimate confs;
     lowers := lowers acc ++ map c_lower confs;
     uppers := uppers acc ++ map c_upper confs;
     sampleSizes := sampleSizes acc ++ map c_sampleSize confs |}.
Proof.
  revert acc. induction accts as [| a accts IH]; intros acc; cbn.
  - rewrite !app_nil_r. now destruct acc.
  - rewrite IH. destruct (confidenceOf sel a) as [c |]; cbn.
    + now rewrite <- !app_assoc.
    + reflexivity.
Qed.

Lemma aggregateConfidence_collectAll sel (accts : list AccountMetrics.t) :
  aggregateConfidence (collectAll sel accts) =
  confidenceOfSum (omap (confidenceOf sel) accts).
Proof.
  unfold collectAll. rewrite collect_fold. cbn.
  unfold aggregateConfidence, confidenceOfSum. cbn.
  destruct (omap (confidenceOf sel) accts); reflexivity.
Qed.

(** Adding fields that are all numbers adds the numbers. *)
Lemma sum_present (zs : list Z) :
  Js.sum (map Some zs) = Some (fold_right Z.add 0 zs).
Proof.
  unfold Js.sum.
  assert (forall a, fold_left Js.add (map Some zs) (Some a) =
                    Some (a + fold_right Z.add 0 zs)) as H.
  { induction zs as [| z zs IH]; intros a; cbn.
    - f_equal. lia.
    - rewrite IH. f_equal. lia. }
  now rewrite H.
Qed.

Lemma firstConfidence_head (accounts : list (string * AddonData.t)) :
  AddonAggregator.firstConfidence accounts =
  head (omap (fun e => AddonCurrent.confidence (AddonData.current (snd e)))
             accounts).
Proof.
  unfold AddonAggregator.firstConfidence, JsArray.find.
  induction accounts as [| e accounts IH]; cbn; [reflexivity |].
  destruct (AddonCurrent.confidence (AddonData.current (snd e))) eqn:E; cbn.
  - exact E.
  - exact IH.
Qed.

(** C1 (as amended). For the core metrics, each of the three combined
    confidence values (requests, bytes, dnsQueries) is derived from the
    interval whose estimate, lower, upper and sampleSize are the sums of
    those fields over the accounts that carry that confidence value (and
    is absent when none does); it is not an average of the accounts'
    percentages. For an add-on, the combined confidence is the confidence
    object of the first account that has one, taken as it is. *)
Theorem aggregate_confidence_spec (accountMetrics : list AccountMetrics.t)
    (threshold : Js.num) (results : list AddonAccount.t) :
  let conf := AggTotals.confidence
                (Aggregate.current (aggregateAccountMetrics accountMetrics)) in
  ConfidenceSet.requests conf =
    confidenceOfSum (omap (confidenceOf ConfidenceSet.requests) accountMetrics)
  /\ ConfidenceSet.bytes conf =
    confidenceOfSum (omap (confidenceOf ConfidenceSet.bytes) accountMetrics)
  /\ ConfidenceSet.dnsQueries conf =
    confidenceOfSum (omap (confidenceOf ConfidenceSet.dnsQueries) accountMetrics)
  /\ match AddonAggregator.aggregateAddon threshold results with
     | Some addon =>
       AddonCurrent.confidence (Addon.current addon) =
       head (omap (fun e => AddonCurrent.confidence (AddonData.current (snd e)))
                  (AddonAggregator.withData results))
     | None => AddonAggregator.withData results = []
     end.
Proof.
  cbn. rewrite !aggregateConfidence_collectAll.
  repeat split.
  unfold AddonAggregator.aggregateAddon.
  destruct (AddonAggregator.withData results) as [| e l] eqn:E.
  - reflexivity.
  - cbn [length]. destruct (Z.ltb_spec 0 (Z.of_nat (S (length l)))); [| lia].
    cbn [Addon.current AddonCurrent.confidence].
    apply firstConfidence_head.
Qed.

(** The specification's example: {100, 90, 110} and {200, 180, 220} give
    the confidence of {300, 270, 330}. *)
Example aggregate_confidence_example :
  ConfidenceSet.requests
    (AggTotals.confidence
       (Aggregate.current
          (aggregateAccountMetrics
             [Sample.accountA; Sample.accountB])))
  = calculateConfidencePercentage
      (Some (mkInterval (Some 300) (Some 270) (Some 330) (Some 30))).
Proof. reflexivity. Qed.

(** Accounts at 100% and at 50% combine to 62.5%, not to their mean 75%. *)
Example aggregate_confidence_not_mean :
  exists r,
    ConfidenceSet.requests
      (AggTotals.confidence
         (Aggregate.current
            (aggregateAccountMetrics
               [Sample.account "a" 100 100 100 10 []; Sample.account "b" 300 150 450 20 []])))
    = Some r
    /\ (percent r == 125 # 2)%Q /\ ~ (percent r == 75)%Q.
Proof.
  eexists. split; [reflexivity |]. cbn [percent].
  split; [vm_compute; reflexivity | vm_compute; discriminate].
Qed.

(** C1 as stated fails for add-ons: with per-account intervals
    {100, 90, 110} and {200, 180, 220} the combined add-on confidence is
    the first account's ({100, 90, 110}), not the one derived from the
    summed interval {300, 270, 330}. *)
Lemma addon_confidence_not_summed :
  exists addon,
    AddonAggregator.aggregateAddon (Some 1000)
      [Sample.addonAccount "a" 100 90 110 10; Sample.addonAccount "b" 200 180 220 20]
    = Some addon
    /\ AddonCurrent.confidence (Addon.current addon) =
       calculateConfidencePercentage
         (Some (mkInterval (Some 100) (Some 90) (Some 110) (Some 10)))
    /\ AddonCurrent.confidence (Addon.current addon) <>
       calculateConfidencePercentage
         (Some (mkInterval (Some 300) (Some 270) (Some 330) (Some 30))).
Proof.
  eexists. split; [reflexivity |]. split; [vm_compute; reflexivity |].
  intros H. vm_compute in H. discriminate H.
Qed.

End AggregateConfidenceFacts.

(** ** Containers: [Map] and [sort] *)

Section JsMapFacts.

Context {V : Type}.
Implicit Types (m : JsMap.t V) (k : string) (v : V).

Lemma get_set_eq k v m : JsMap.get k (JsMap.set k v m) = Some v.
Proof.
  induction m as [| [k' v'] m IH]; cbn.
  - now rewrite String.eqb_refl.
  - destruct (String.eqb_spec k k') as [-> | Hne]; cbn.
    + now rewrite String.eqb_refl.
    + destruct (String.eqb_spec k k'); [contradiction | exact IH].
Qed.

Lemma get_set_ne k k' v m :
  k <> k' -> JsMap.get k' (JsMap.set k v m) = JsMap.get k' m.
Proof.
  intros Hne. induction m as [| [k0 v0] m IH]; cbn.
  - destruct (String.eqb_spec k' k); [congruence | reflexivity].
  - destruct (String.eqb_spec k k0) as [-> | Hk]; cbn.
    + destruct (String.eqb_spec k' k0); [congruence | reflexivity].
    + destruct (String.eqb_spec k' k0); [reflexivity | exact IH].
Qed.

Lemma in_keys_set k k' v m :
  In k' (map fst (JsMap.set k v m)) -> k' = k \/ In k' (map fst m).
Proof.
  induction m as [| [k0 v0] m IH]; cbn.
  - intros [<- | []]. now left.
  - destruct (String.eqb_spec k k0) as [-> | Hk]; cbn.
    + intros [<- | H]; [right; now left | right; now right].
    + intros [<- | H]; [right; now left |].
      destruct (IH H) as [-> | H']; [now left | right; now right].
Qed.

Lemma NoDup_keys_set k v m :
  List.NoDup (map fst m) -> List.NoDup (map fst (JsMap.set k v m)).
Proof.
  induction m as [| [k0 v0] m IH]; cbn; intros Hnd.
  - constructor; [intros [] | constructor].
  - destruct (String.eqb_spec k k0) as [-> | Hk]; cbn; [exact Hnd |].
    apply NoDup_cons_iff in Hnd as [Hnotin Hnd].
    apply NoDup_cons_iff. split; [| now apply IH].
    intros Hin. apply in_keys_set in Hin as [-> | Hin]; [congruence | contradiction].
Qed.

Lemma get_In k v m : JsMap.get k m = Some v -> In (k, v) m.
Proof.
  induction m as [| [k0 v0] m IH]; cbn; [discriminate |].
  destruct (String.eqb_spec k k0) as [-> | Hk].
  - intros [= ->]. now left.
  - intros H. right. now apply IH.
Qed.

Lemma In_get k v m : List.NoDup (map fst m) -> In (k, v) m -> JsMap.get k m = Some v.
Proof.
  induction m as [| [k0 v0] m IH]; cbn; [intros _ [] |].
  intros Hnd. apply NoDup_cons_iff in Hnd as [Hnotin Hnd].
  intros [[= -> ->] | Hin].
  - now rewrite String.eqb_refl.
  - destruct (String.eqb_spec k k0) as [-> | Hk]; [| now apply IH].
    exfalso. apply Hnotin. change k0 with (fst (k0, v)). now apply in_map.
Qed.

End JsMapFacts.

Section JsSortFacts.

Context {A : Type} (cmp : A -> A -> Z).

Let before (a b : A) : Prop := cmp a b <= 0.

Lemma insert_Permutation x (l : list A) :
  Permutation (JsArray.insert cmp x l) (x :: l).
Proof.
  induction l as [| y l IH]; cbn; [reflexivity |].
  destruct (cmp y x <=? 0); [| reflexivity].
  rewrite IH. apply perm_swap.
Qed.

Lemma sort_Permutation (l : list A) : Permutation (JsArray.sort cmp l) l.
Proof.
  unfold JsArray.sort.
  assert (forall acc, Permutation
            (fold_left (fun acc x => JsArray.insert cmp x acc) l acc) (acc ++ l)) as H.
  { induction l as [| x l IH]; intros acc; cbn.
    - now rewrite app_nil_r.
    - rewrite IH, insert_Permutation. apply Permutation_middle. }
  apply (H []).
Qed.

Lemma Sorted_weaken (R1 R2 : A -> A -> Prop) (l : list A) :
  (forall a b, R1 a b -> R2 a b) -> Sorted R1 l -> Sorted R2 l.
Proof.
  intros Hsub. induction 1 as [| a l Hs IH Hhd]; constructor; [exact IH |].
  destruct Hhd; constructor. now apply Hsub.
Qed.

Hypothesis cmp_total : forall a b, 0 < cmp a b -> cmp b a <= 0.

Lemma insert_Sorted x (l : list A) :
  Sorted before l -> Sorted before (JsArray.insert cmp x l).
Proof.
  induction l as [| y l IH]; cbn; intros Hs.
  - repeat constructor.
  - apply Sorted_inv in Hs as [Hs Hhd].
    destruct (Z.leb_spec (cmp y x) 0) as [Hle | Hgt].
    + constructor; [now apply IH |].
      destruct l as [| z l]; cbn.
      * now constructor.
      * destruct (cmp z x <=? 0); constructor;
          [now apply HdRel_inv in Hhd | exact Hle].
    + constructor; [now constructor |].
      constructor. now apply cmp_total.
Qed.

Lemma sort_Sorted (l : list A) : Sorted before (JsArray.sort cmp l).
Proof.
  unfold JsArray.sort.
  assert (forall acc, Sorted before acc ->
            Sorted before (fold_left (fun acc x => JsArray.insert cmp x acc) l acc)) as H.
  { induction l as [| x l IH]; intros acc Hacc; cbn; [exact Hacc |].
    now apply IH, insert_Sorted. }
  apply H. constructor.
Qed.

End JsSortFacts.

(** ** Cross-account aggregator: merged time series *)

Section TimeSeriesFacts.

Import Aggregator Reference.

Lemma fold_mergeAccount (accts : list AccountMetrics.t) (m : JsMap.t Entry.t) :
  fold_left mergeAccount accts m = fold_left mergeEntry (allEntries accts) m.
Proof.
  revert m. induction accts as [| a accts IH]; intros m; cbn; [reflexivity |].
  rewrite fold_left_app, IH. unfold mergeAccount.
  now destruct (AccountMetrics.timeSeries a).
Qed.

Lemma ofMonth_snoc m es e :
  ofMonth m (es ++ [e]) =
  ofMonth m es ++ (if String.eqb (Entry.month e) m then [e] else []).
Proof. unfold ofMonth. rewrite List.filter_app. reflexivity. Qed.

Lemma total_snoc f group e :
  total f (group ++ [e]) = total f group + Js.orZero (f e).
Proof.
  unfold total. induction group as [| x group IH]; cbn; [lia |].
  cbn in IH. rewrite IH. lia.
Qed.

Lemma ofMonth_month m es x : In x (ofMonth m es) -> Entry.month x = m.
Proof.
  unfold ofMonth. intros H. apply List.filter_In in H as [_ H].
  now apply String.eqb_eq in H.
Qed.

Lemma summed_month m es e :
  summed (ofMonth m es) = Some e -> Entry.month e = m.
Proof.
  destruct (ofMonth m es) as [| x group] eqn:E; cbn; [discriminate |].
  intros [= <-]. cbn. apply (ofMonth_month m es). rewrite E. now left.
Qed.

(** After the entries [es] have been merged, the map holds under each
    month the field-by-field sum of that month's entries. *)
Lemma merged_get (es : list Entry.t) (m : string) :
  JsMap.get m (fold_left mergeEntry es []) = summed (ofMonth m es).
Proof.
  revert m. induction es as [| e es IH] using rev_ind; intros m;
    [reflexivity |].
  rewrite fold_left_app. cbn [fold_left].
  pose proof (IH (Entry.month e)) as IHe. pose proof (IH m) as IHm.
  revert IHe IHm. generalize (fold_left mergeEntry es []). intros M IHe IHm.
  unfold mergeEntry. rewrite IHe, ofMonth_snoc.
  destruct (String.eqb_spec (Entry.month e) m) as [<- | Hne].
  - destruct (ofMonth (Entry.month e) es) as [| x group] eqn:E; cbn [summed].
    + rewrite get_set_eq. cbn. unfold total. cbn.
      now rewrite !Z.add_0_r.
    + rewrite get_set_eq. cbn [app summed Js.add Entry.month Entry.timestamp
        Entry.requests Entry.bytes Entry.dnsQueries].
      change (x :: group ++ [e]) with ((x :: group) ++ [e]).
      now rewrite !total_snoc.
  - rewrite app_nil_r.
    destruct (summed (ofMonth (Entry.month e) es));
      rewrite get_set_ne by exact Hne; exact IHm.
Qed.

Lemma merged_NoDup (es : list Entry.t) :
  List.NoDup (map fst (fold_left mergeEntry es [])).
Proof.
  induction es as [| e es IH] using rev_ind; [constructor |].
  rewrite fold_left_app. cbn [fold_left].
  revert IH. generalize (fold_left mergeEntry es []). intros M IH.
  unfold mergeEntry.
  destruct (JsMap.get (Entry.month e) M); now apply NoDup_keys_set.
Qed.

Lemma merged_pair (es : list Entry.t) k v :
  In (k, v) (fold_left mergeEntry es []) <-> summed (ofMonth k es) = Some v.
Proof.
  rewrite <- merged_get. split.
  - apply In_get, merged_NoDup.
  - apply get_In.
Qed.

Lemma merged_values (es : list Entry.t) (v : Entry.t) :
  In v (JsMap.values (fold_left mergeEntry es [])) <->
  exists m, summed (ofMonth m es) = Some v.
Proof.
  unfold JsMap.values. rewrite in_map_iff. split.
  - intros ([k v'] & <- & Hin). exists k. now apply merged_pair.
  - intros (m & Hm). exists (m, v). split; [reflexivity | now apply merged_pair].
Qed.

Lemma merged_months (es : list Entry.t) :
  map Entry.month (JsMap.values (fold_left mergeEntry es [])) =
  map fst (fold_left mergeEntry es []).
Proof.
  unfold JsMap.values. rewrite map_map. apply map_ext_in.
  intros [k v] Hin. cbn. apply merged_pair in Hin. now apply summed_month in Hin.
Qed.

Lemma byTimestamp_total a b : 0 < byTimestamp a b -> byTimestamp b a <= 0.
Proof. unfold byTimestamp. lia. Qed.

(** C3. The merged series holds exactly the per-month sums: an entry is
    in it if and only if it is the field-by-field sum (requests, bytes,
    dnsQueries) of all entries of some month present in the accounts'
    series; each month occurs once; a month with a single entry keeps
    that entry's month, timestamp and counts; and the series is sorted
    ascending by timestamp. *)
Theorem merge_time_series_spec (accountMetrics : list AccountMetrics.t) :
  let all := allEntries accountMetrics in
  let out := Aggregate.timeSeries (aggregateAccountMetrics accountMetrics) in
  (forall e, In e out <-> exists m, summed (ofMonth m all) = Some e)
  /\ List.NoDup (map Entry.month out)
  /\ (forall x, ofMonth (Entry.month x) all = [x] ->
        In {| Entry.month := Entry.month x;
              Entry.timestamp := Entry.timestamp x;
              Entry.requests := Some (Js.orZero (Entry.requests x));
              Entry.bytes := Some (Js.orZero (Entry.bytes x));
              Entry.dnsQueries := Some (Js.orZero (Entry.dnsQueries x)) |} out)
  /\ StronglySorted timestampLe out.
Proof.
  cbn zeta. cbn [Aggregate.timeSeries aggregateAccountMetrics].
  unfold mergeTimeSeries. rewrite fold_mergeAccount.
  set (all := allEntries accountMetrics).
  set (vals := JsMap.values (fold_left mergeEntry all [])).
  assert (forall e, In e (JsArray.sort byTimestamp vals) <->
                    exists m, summed (ofMonth m all) = Some e) as Hin.
  { intros e. rewrite <- merged_values. fold vals.
    split; apply Permutation_in;
      [| symmetry]; apply sort_Permutation. }
  split; [exact Hin |]. split; [| split].
  - apply (Permutation_NoDup (l := map Entry.month vals)).
    + symmetry. apply Permutation_map, sort_Permutation.
    + unfold vals. rewrite merged_months. apply merged_NoDup.
  - intros x Hx. apply Hin. exists (Entry.month x). rewrite Hx. cbn.
    unfold total. cbn. now rewrite !Z.add_0_r.
  - apply Sorted_StronglySorted.
    + intros a b c. unfold timestampLe. lia.
    + apply (Sorted_weaken (fun a b => byTimestamp a b <= 0)).
      * intros a b. unfold timestampLe, byTimestamp. lia.
      * apply sort_Sorted, byTimestamp_total.
Qed.

Lemma merge_time_series_spec_witness :
  In (Sample.entry "2025-02" Sample.feb2025 10)
     (Aggregate.timeSeries
        (aggregateAccountMetrics [Sample.accountA; Sample.accountB])).
Proof.
  destruct (merge_time_series_spec [Sample.accountA; Sample.accountB])
    as (_ & _ & H & _).
  apply (H (Sample.requestsOnly "2025-02" Sample.feb2025 10)).
  reflexivity.
Defined.

(** The specification's example: A has 100 requests in 2025-01, B has 50
    in 2025-01 and 10 in 2025-02. *)
Example merge_time_series_example :
  Aggregate.timeSeries (aggregateAccountMetrics [Sample.accountA; Sample.accountB])
  = [Sample.entry "2025-01" Sample.jan2025 150;
     Sample.entry "2025-02" Sample.feb2025 10].
Proof. reflexivity. Qed.

(** The sort acts: accounts listed the other way round give the same
    chronological series. *)
Example merge_time_series_reordered :
  Aggregate.timeSeries
    (aggregateAccountMetrics
       [Sample.account "B" 1 1 1 1
          [Sample.requestsOnly "2025-02" Sample.feb2025 10;
           Sample.requestsOnly "2025-01" Sample.jan2025 50];
        Sample.accountA])
  = [Sample.entry "2025-01" Sample.jan2025 150;
     Sample.entry "2025-02" Sample.feb2025 10].
Proof. reflexivity. Qed.

End TimeSeriesFacts.
(** ** Strings *)

Section StringFacts.

Lemma append_nil (s : string) : EmptyString +:+ s = s.
Proof. reflexivity. Qed.

Lemma append_cons (c : Ascii.ascii) (a s : string) :
  String c a +:+ s = String c (a +:+ s).
Proof. reflexivity. Qed.


Lemma length_append (a b : string) :
  String.length (a +:+ b) = (String.length a + String.length b)%nat.
Proof.
  induction a as [| x a IH]; [reflexivity |].
  rewrite append_cons. cbn. now rewrite IH.
Qed.

Lemma append_inj_prefix (a a' b b' : string) :
  String.length a = String.length a' ->
  a +:+ b = a' +:+ b' -> a = a' /\ b = b'.
Proof.
  revert a'. induction a as [| x a IH]; intros [| x' a'] Hlen; try discriminate.
  - now rewrite !append_nil.
  - rewrite !append_cons. intros [= -> H]. cbn in Hlen.
    destruct (IH a' ltac:(lia) H) as [-> ->]. now split.
Qed.

Lemma append_inj_suffix (a a' b b' : string) :
  String.length b = String.length b' ->
  a +:+ b = a' +:+ b' -> a = a' /\ b = b'.
Proof.
  intros Hlen H. apply append_inj_prefix; [| exact H].
  apply (f_equal String.length) in H. rewrite !length_append in H. lia.
Qed.

End StringFacts.


(** ** Progressive response builder: the cache completeness gate *)

Section CacheFacts.

Import Progressive CacheReference.

Lemma addonPresent_iff (name : string) (data : Json.t) :
  addonPresent name data = true <->
  present (Json.prop name data)
  /\ present (Json.prop "timeSeries" (Json.prop name data))
  /\ present (Json.prop "perAccountData" (Json.prop name data)).
Proof.
  unfold addonPresent, present.
  destruct (Json.truthy (Json.prop name data)); cbn; [| intuition congruence].
  destruct (Json.truthy (Json.prop "timeSeries" (Json.prop name data))); cbn;
    [| intuition congruence].
  destruct (Json.truthy (Json.prop "perAccountData" (Json.prop name data))); cbn;
    intuition congruence.
Qed.

Lemma cacheIsComplete_iff (config : Config.t) (data : Json.t) :
  cacheIsComplete (Some config) data = true <-> completeFor config data.
Proof.
  unfold completeFor, addons. rewrite !Forall_cons_iff. cbn [fst snd].
  rewrite <- !addonPresent_iff. unfold cacheIsComplete, present.
  destruct (Config.coreEnabled config);
    destruct (Json.truthy (Json.prop "current" data));
    destruct (Config.addonEnabled AppServices.botManagement config);
    destruct (addonPresent "botManagement" data);
    destruct (Config.addonEnabled AppServices.apiShield config);
    destruct (addonPresent "apiShield" data);
    destruct (Config.addonEnabled AppServices.pageShield config);
    destruct (addonPresent "pageShield" data);
    destruct (Config.addonEnabled AppServices.advancedRateLimiting config);
    destruct (addonPresent "advancedRateLimiting" data);
    cbn; split; intros H; try discriminate H; try reflexivity;
    try (repeat split; (congruence || constructor));
    decompose [and] H; intuition congruence.
Qed.

Lemma fresh_phase (body : RequestBody.t) :
  (let phase := Js.orNum (RequestBody.phase body) 1 in
   if phase =? 1 then Fresh 1 else if phase =? 2 then Fresh 2 else Fresh 3)
  = Fresh (requestedPhase body).
Proof.
  unfold requestedPhase, Js.orNum. destruct (RequestBody.phase body) as [p |];
    [| reflexivity].
  destruct p as [| p | p]; cbn; [reflexivity | | reflexivity].
  destruct p as [p | p |]; try reflexivity; destruct p; reflexivity.
Qed.

Lemma served_payload_phase (now : Z) (cachedData : Json.t) :
  Json.prop "phase"
    (Json.with_prop "cacheAge" (cacheAge now cachedData)
       (Json.with_prop "phase" (Json.Str "cached") (Json.prop "data" cachedData)))
  = Json.Str "cached".
Proof.
  unfold Json.with_prop.
  destruct (Json.prop "data" cachedData); cbn;
    rewrite ?get_set_ne by discriminate; rewrite ?get_set_eq; reflexivity.
Qed.

Lemma getMetricsProgressive_cases (key : string) (body : RequestBody.t)
    (now : Z) (kv : KV.store) :
  JsString.truthy key = true ->
  parseAccountIds body <> [] ->
  let cachedData := KV.getSnapshot now (preWarmedKey (parseAccountIds body)) kv in
  let data := Json.prop "data" cachedData in
  getMetricsProgressive (Some key) body now kv =
  if Json.truthy cachedData && Json.truthy data
     && cacheIsComplete (KV.getConfig now "config:default" kv) data
  then Cached (Json.with_prop "cacheAge" (cacheAge now cachedData)
                 (Json.with_prop "phase" (Json.Str "cached") data))
  else Fresh (requestedPhase body).
Proof.
  intros Hkey Hids. cbn zeta. unfold getMetricsProgressive. rewrite Hkey.
  cbn [negb].
  destruct (parseAccountIds body) as [| id ids] eqn:Eids; [contradiction |].
  cbn [length]. destruct (Z.eqb_spec (Z.of_nat (S (length ids))) 0); [lia |].
  rewrite fresh_phase.
  destruct (Json.truthy (KV.getSnapshot now (preWarmedKey (id :: ids)) kv)
            && Json.truthy (Json.prop "data"
                  (KV.getSnapshot now (preWarmedKey (id :: ids)) kv)));
    reflexivity.
Qed.

Lemma complete_iff (configData : option Config.t) (cachedData : Json.t) :
  Json.truthy cachedData && Json.truthy (Json.prop "data" cachedData)
  && cacheIsComplete configData (Json.prop "data" cachedData) = true
  <-> present cachedData /\ present (Json.prop "data" cachedData)
      /\ forall config, configData = Some config ->
                        completeFor config (Json.prop "data" cachedData).
Proof.
  unfold present. rewrite !andb_true_iff.
  destruct configData as [config |].
  - rewrite cacheIsComplete_iff. split.
    + intros [[H1 H2] H3]. split; [exact H1 |]. split; [exact H2 |].
      now intros c [= <-].
    + intros (H1 & H2 & H3). split; [now split | now apply H3].
  - cbn. split.
    + intros [[H1 H2] _]. split; [exact H1 |]. split; [exact H2 |]. discriminate.
    + intros (H1 & H2 & _). split; [now split | reflexivity].
Qed.

(** C4. For a request with an API token and at least one account, the
    stored snapshot is served, marked phase 'cached', exactly when it is
    there with its data and, for the stored configuration if any, is
    complete: [current] is present when the core is enabled, and each
    enabled add-on has its data, [timeSeries] and [perAccountData].
    In every other case the request is answered by the fresh computation
    of the requested phase. *)
Theorem cache_completeness_gate (key : string) (body : RequestBody.t)
    (now : Z) (kv : KV.store) :
  JsString.truthy key = true ->
  parseAccountIds body <> [] ->
  let cachedData := KV.getSnapshot now (preWarmedKey (parseAccountIds body)) kv in
  let data := Json.prop "data" cachedData in
  let complete :=
    present cachedData /\ present data
    /\ forall config, KV.getConfig now "config:default" kv = Some config ->
                      completeFor config data in
  let response := getMetricsProgressive (Some key) body now kv in
  (complete ->
     exists payload, response = Cached payload
                     /\ Json.prop "phase" payload = Json.Str "cached")
  /\ (~ complete -> response = Fresh (requestedPhase body))
  /\ (forall payload, response = Cached payload -> complete).
Proof.
  intros Hkey Hids. cbn zeta.
  rewrite (getMetricsProgressive_cases key body now kv Hkey Hids). cbn zeta.
  pose proof (complete_iff (KV.getConfig now "config:default" kv)
                (KV.getSnapshot now (preWarmedKey (parseAccountIds body)) kv))
    as Hiff.
  destruct (Json.truthy _ && Json.truthy _ && cacheIsComplete _ _).
  - split; [| split].
    + intros _. eexists. split; [reflexivity | apply served_payload_phase].
    + intros Hn. exfalso. apply Hn, Hiff. reflexivity.
    + intros _ _. apply Hiff. reflexivity.
  - split; [| split].
    + intros H. apply Hiff in H. discriminate H.
    + reflexivity.
    + discriminate.
Qed.

(** The specification's example: Bot Management is enabled and the
    snapshot has no [botManagement] data, so the lookup is a miss. *)
Lemma cache_completeness_gate_witness :
  getMetricsProgressive (Some "token") (CacheSample.body ["a"]) 2000
    (CacheSample.store ["a"] CacheSample.coreOnly) = Fresh 3.
Proof.
  refine (proj1 (proj2 (cache_completeness_gate "token" (CacheSample.body ["a"])
                          2000 (CacheSample.store ["a"] CacheSample.coreOnly)
                          eq_refl _)) _).
  - discriminate.
  - intros (_ & _ & H).
    specialize (H (CacheSample.config ["a"]) eq_refl).
    destruct H as [_ H]. apply Forall_inv in H.
    destruct (H eq_refl) as [H1 _]. discriminate H1.
Defined.

Example cache_hit_when_complete :
  exists payload,
    getMetricsProgressive (Some "token") (CacheSample.body ["a"]) 2000
      (CacheSample.store ["a"] CacheSample.withBot) = Cached payload.
Proof. eexists. vm_compute. reflexivity. Qed.

End CacheFacts.

(** ** Pre-warmed snapshot: the key it is stored and looked up under *)

Section PreWarmKeyFacts.

Import Progressive CacheReference.

Lemma filter_all {A} (p : A -> bool) (l : list A) :
  Forall (fun x => p x = true) l -> List.filter p l = l.
Proof.
  induction 1 as [| x l Hx _ IH]; cbn; [reflexivity |].
  now rewrite Hx, IH.
Qed.

Lemma nonBlank_truthy (s : string) :
  JsString.nonBlank s = true -> JsString.truthy s = true.
Proof. destruct s; [discriminate | reflexivity]. Qed.

Lemma parseAccountIds_same (body : RequestBody.t) (ids : list string) :
  RequestBody.accountIds body = Some ids -> ids <> [] ->
  Forall (fun i => JsString.nonBlank i = true) ids ->
  parseAccountIds body = ids.
Proof.
  intros Hids Hne Hall. unfold parseAccountIds. rewrite Hids.
  destruct ids as [| id ids]; [contradiction |].
  apply filter_all. eapply List.Forall_impl; [| exact Hall].
  intros i Hi. cbn beta. now rewrite Hi, (nonBlank_truthy i Hi).
Qed.

Lemma parseAccountIds_filter (body : RequestBody.t) (requested : list string) :
  RequestBody.accountIds body = Some requested -> requested <> [] ->
  parseAccountIds body = List.filter JsString.nonBlank requested.
Proof.
  intros Hids Hne. unfold parseAccountIds. rewrite Hids.
  destruct requested as [| id ids]; [contradiction |].
  apply List.filter_ext. intros i.
  destruct (JsString.nonBlank i) eqn:Hi; [| apply andb_false_r].
  now rewrite (nonBlank_truthy i Hi).
Qed.

Lemma join_length (xs : list string) :
  xs <> [] ->
  (String.length (JsString.join "," xs) + 1)%nat = joinedLength xs.
Proof.
  unfold JsString.join. induction xs as [| x xs IH]; [contradiction |].
  intros _. destruct xs as [| y xs].
  - cbn. lia.
  - change (String.concat "," (x :: y :: xs))
      with (x +:+ "," +:+ String.concat "," (y :: xs)).
    rewrite !length_append. cbn [joinedLength fold_right] in IH |- *.
    specialize (IH ltac:(discriminate)). cbn [String.length]. lia.
Qed.

Lemma joinedLength_filter (p : string -> bool) (xs : list string) :
  (joinedLength (List.filter p xs) <= joinedLength xs)%nat
  /\ (List.Exists (fun x => p x = false) xs ->
      (joinedLength (List.filter p xs) < joinedLength xs)%nat).
Proof.
  induction xs as [| x xs [IHle IHlt]]; cbn [List.filter joinedLength fold_right].
  - split; [lia |]. intros H. inversion H.
  - destruct (p x) eqn:Hx; cbn [joinedLength fold_right]; fold (joinedLength xs);
      fold (joinedLength (List.filter p xs)).
    + split; [lia |]. intros H. inversion H as [? ? Hx' | ? ? Hrest]; subst.
      * congruence.
      * specialize (IHlt Hrest). lia.
    + split; [lia |]. intros _. lia.
Qed.

(** C8 (as amended). The pre-warm job stores the snapshot under
    "pre-warmed:" followed by the configured account IDs joined by ","
    exactly as they are configured (not sorted, blank IDs kept), to
    expire after 6 hours. A progressive request builds its key from the
    IDs it lists with the blank ones dropped, joined in the order of the
    request. So a request whose remaining IDs are the configured list
    finds the snapshot until it expires; a request that lists the
    configured list itself is one of these when no configured ID is
    blank, and when a configured ID is blank it is refused or looks
    under another key. *)
Theorem prewarm_snapshot_found (assemble : Config.t -> list string -> Json.t)
    (key : string) (config : Config.t) (ids : list string)
    (body : RequestBody.t) (now now' : Z) (kv : KV.store) :
  JsString.truthy key = true ->
  KV.getConfig now "config:default" kv = Some config ->
  Config.accounts config = ids ->
  ids <> [] ->
  let kv' := preWarmCache assemble (Some key) now kv in
  let snapshot :=
    Json.Obj [("timestamp", Json.Num now); ("data", assemble config ids)] in
  kv' !! ("pre-warmed:" +:+ JsString.join "," ids)
    = Some (KV.VSnapshot snapshot, Some (now + 6 * 60 * 60 * 1000))
  /\ (forall requested,
        RequestBody.accountIds body = Some requested -> requested <> [] ->
        parseAccountIds body = List.filter JsString.nonBlank requested
        /\ preWarmedKey (parseAccountIds body)
           = "pre-warmed:"
             +:+ JsString.join "," (List.filter JsString.nonBlank requested))
  /\ (parseAccountIds body = ids ->
      (now' < now + 6 * 60 * 60 * 1000 ->
       KV.getSnapshot now' (preWarmedKey (parseAccountIds body)) kv' = snapshot)
      /\ (now + 6 * 60 * 60 * 1000 <= now' ->
          KV.getSnapshot now' (preWarmedKey (parseAccountIds body)) kv'
          = Json.Null))
  /\ (RequestBody.accountIds body = Some ids ->
      Forall (fun i => JsString.nonBlank i = true) ids ->
      parseAccountIds body = ids)
  /\ (RequestBody.accountIds body = Some ids ->
      List.Exists (fun i => JsString.nonBlank i = false) ids ->
      getMetricsProgressive (Some key) body now' kv'
        = BadRequest "Account IDs not configured"
      \/ preWarmedKey (parseAccountIds body) <> preWarmedKey ids).
Proof.
  intros Hkey Hcfg Hacc Hne. cbn zeta.
  split; [| split; [| split; [| split]]].
  - unfold preWarmCache. rewrite Hcfg, Hacc, Hkey. cbn [negb].
    destruct ids as [| id ids]; [contradiction |].
    cbn [length]. destruct (Z.eqb_spec (Z.of_nat (S (length ids))) 0); [lia |].
    unfold KV.put, preWarmedKey. rewrite lookup_insert_eq.
    replace (now + 6 * 60 * 60 * 1000) with (now + 21600000) by lia.
    reflexivity.
  - intros requested Hbody Hreq.
    rewrite (parseAccountIds_filter body requested Hbody Hreq).
    split; reflexivity.
  - intros ->. unfold preWarmCache. rewrite Hcfg, Hacc, Hkey. cbn [negb].
    destruct ids as [| id ids]; [contradiction |].
    cbn [length]. destruct (Z.eqb_spec (Z.of_nat (S (length ids))) 0); [lia |].
    unfold KV.put, KV.getSnapshot, KV.get, preWarmedKey.
    rewrite !lookup_insert_eq.
    replace (now + 6 * 60 * 60 * 1000) with (now + 21600000) by lia.
    split; intros H.
    + destruct (Z.ltb_spec now' (now + 21600000)); [reflexivity | lia].
    + destruct (Z.ltb_spec now' (now + 21600000)); [lia | reflexivity].
  - intros Hbody Hblank. exact (parseAccountIds_same body ids Hbody Hne Hblank).
  - intros Hbody Hblank.
    rewrite (parseAccountIds_filter body ids Hbody Hne).
    destruct (List.filter JsString.nonBlank ids) as [| id rest] eqn:Hfilter.
    + left. unfold getMetricsProgressive.
      rewrite (parseAccountIds_filter body ids Hbody Hne), Hfilter, Hkey.
      reflexivity.
    + right. unfold preWarmedKey. intros Hsame.
      apply (f_equal String.length) in Hsame. rewrite !length_append in Hsame.
      pose proof (join_length (id :: rest) ltac:(discriminate)) as Hkept.
      pose proof (join_length ids Hne) as Hall.
      pose proof (proj2 (joinedLength_filter JsString.nonBlank ids) Hblank) as Hlt.
      rewrite Hfilter in Hlt. lia.
Qed.

(** The snapshot of the configured accounts ["b"; "a"] is found by a
    request that lists them in that order; with the configured accounts
    ["a"; " "], a request that lists the same two IDs looks under
    another key. *)
Lemma prewarm_snapshot_found_witness :
  KV.getSnapshot 5000 (preWarmedKey (parseAccountIds (CacheSample.body ["b"; "a"])))
    CacheSample.preWarmed
  = Json.Obj [("timestamp", Json.Num 1000); ("data", CacheSample.withBot)]
  /\ preWarmedKey (parseAccountIds (CacheSample.body ["a"; " "]))
     <> preWarmedKey ["a"; " "].
Proof.
  split.
  - pose proof (prewarm_snapshot_found (fun _ _ => CacheSample.withBot) "token"
                  (CacheSample.config ["b"; "a"]) ["b"; "a"]
                  (CacheSample.body ["b"; "a"])
                  1000 5000 (CacheSample.configured ["b"; "a"])
                  eq_refl eq_refl eq_refl ltac:(discriminate))
      as (_ & _ & Hfound & Hsame & _).
    apply Hfound; [| lia].
    apply Hsame; [reflexivity | repeat constructor].
  - pose proof (prewarm_snapshot_found (fun _ _ => CacheSample.withBot) "token"
                  (CacheSample.config ["a"; " "]) ["a"; " "]
                  (CacheSample.body ["a"; " "])
                  1000 5000 (CacheSample.configured ["a"; " "])
                  eq_refl eq_refl eq_refl ltac:(discriminate))
      as (_ & _ & _ & _ & Hblank).
    destruct Hblank as [Hrefused | Hkey];
      [reflexivity | right; left; reflexivity | | exact Hkey].
    vm_compute in Hrefused. discriminate Hrefused.
Defined.

(** C8 as stated fails: the key is not built from the sorted IDs. A
    snapshot pre-warmed for the configured accounts ["b"; "a"] sits under
    "pre-warmed:b,a"; a request for the same accounts listed as
    ["a"; "b"] looks under "pre-warmed:a,b", finds nothing and is
    computed afresh. *)
Lemma prewarm_key_not_sorted :
  JsString.sort ["b"; "a"] = ["a"; "b"]
  /\ preWarmedKey ["b"; "a"] = "pre-warmed:b,a"
  /\ preWarmedKey ["b"; "a"] <> preWarmedKey (JsString.sort ["b"; "a"])
  /\ is_Some (CacheSample.preWarmed !! "pre-warmed:b,a")
  /\ KV.getSnapshot 2000
       (preWarmedKey (parseAccountIds (CacheSample.body ["a"; "b"])))
       CacheSample.preWarmed
     = Json.Null
  /\ getMetricsProgressive (Some "token") (CacheSample.body ["a"; "b"]) 2000
       CacheSample.preWarmed
     = Fresh 3.
Proof.
  split; [reflexivity |]. split; [reflexivity |].
  split; [discriminate |]. split; [vm_compute; eauto |].
  split; vm_compute; reflexivity.
Qed.

End PreWarmKeyFacts.

(** ** Threshold evaluator: which alerts are emitted *)

Section ThresholdFacts.

Import Thresholds ThresholdReference.

Lemma evaluate_flat (metrics thresholds : Readings.t) :
  evaluate metrics thresholds =
  (flat_map (fun m => fst (checkMetric (labelOf m) (keyOf m)
                             (fieldOf m metrics) (fieldOf m thresholds))) tracked,
   flat_map (fun m => snd (checkMetric (labelOf m) (keyOf m)
                             (fieldOf m metrics) (fieldOf m thresholds))) tracked).
Proof.
  unfold evaluate.
  assert (forall l acc,
    fold_left
      (fun acc (m : string * string * (Readings.t -> option Q)) =>
         let '(label, key, field) := m in
         let r := checkMetric label key (field metrics) (field thresholds) in
         (fst acc ++ fst r, snd acc ++ snd r)) l acc =
    (fst acc ++ flat_map (fun m => fst (checkMetric (labelOf m) (keyOf m)
                             (fieldOf m metrics) (fieldOf m thresholds))) l,
     snd acc ++ flat_map (fun m => snd (checkMetric (labelOf m) (keyOf m)
                             (fieldOf m metrics) (fieldOf m thresholds))) l)) as H.
  { induction l as [| [[label key] field] l IH]; intros [a d]; cbn.
    - now rewrite !app_nil_r.
    - rewrite IH. cbn. now rewrite <- !app_assoc. }
  now rewrite H.
Qed.

Lemma truthy_true (x : option Q) :
  truthy x = true <-> exists q, x = Some q /\ ~ (q == 0)%Q.
Proof.
  unfold truthy. destruct x as [q |].
  - rewrite negb_true_iff. split.
    + intros H. exists q. split; [reflexivity |].
      intros Heq. apply Qeq_bool_iff in Heq. congruence.
    + intros (q' & [= <-] & Hne). apply not_true_is_false.
      intros Heq. apply Hne. now apply Qeq_bool_iff.
  - split; [discriminate | intros (q & H & _); discriminate].
Qed.

(** What one block contributes. *)
Lemma checkMetric_alerts (label key : string) (current threshold : option Q)
    (a : Alert.t) :
  In a (fst (checkMetric label key current threshold)) <->
  exists c t, current = Some c /\ threshold = Some t
              /\ ~ (c == 0)%Q /\ ~ (t == 0)%Q /\ breached c t
              /\ a = {| Alert.metric := label; Alert.metricKey := key;
                        Alert.current := c; Alert.threshold := t;
                        Alert.percentage := (c / t * 100)%Q |}.
Proof.
  unfold checkMetric, breached.
  destruct current as [c |]; [destruct threshold as [t |] |].
  - destruct (truthy (Some c)) eqn:Hc; [destruct (truthy (Some t)) eqn:Ht |]; cbn.
    + apply truthy_true in Hc as (c' & [= <-] & Hc).
      apply truthy_true in Ht as (t' & [= <-] & Ht).
      destruct (Qle_bool 90 (c / t * 100)) eqn:Hb; cbn.
      * apply Qle_bool_iff in Hb. split.
        -- intros [<- | []]. exists c, t. auto 10.
        -- intros (c' & t' & [= <-] & [= <-] & _ & _ & _ & ->). now left.
      * split; [intros [] |].
        intros (c' & t' & [= <-] & [= <-] & _ & _ & Hb' & _).
        apply Qle_bool_iff in Hb'. congruence.
    + split; [intros [] |].
      intros (c' & t' & _ & [= <-] & _ & Ht' & _).
      assert (truthy (Some t) = true) by (apply truthy_true; eauto). congruence.
    + split; [intros [] |].
      intros (c' & t' & [= <-] & _ & Hc' & _).
      assert (truthy (Some c) = true) by (apply truthy_true; eauto). congruence.
  - cbn. split; [intros [] | intros (c' & t' & _ & H & _); discriminate].
  - cbn. split; [intros [] | intros (c' & t' & H & _); discriminate].
Qed.

Lemma checkMetric_divisions (label key : string) (current threshold : option Q)
    (n d : Q) :
  In (n, d) (snd (checkMetric label key current threshold)) ->
  ~ (n == 0)%Q /\ ~ (d == 0)%Q /\ current = Some n /\ threshold = Some d.
Proof.
  unfold checkMetric.
  destruct current as [c |]; [destruct threshold as [t |] |];
    [| cbn; tauto | cbn; tauto].
  destruct (truthy (Some c)) eqn:Hc; [destruct (truthy (Some t)) eqn:Ht |];
    cbn [andb snd In]; try tauto.
  apply truthy_true in Hc as (c' & [= <-] & Hc).
  apply truthy_true in Ht as (t' & [= <-] & Ht).
  intros [[= <- <-] | []]. auto.
Qed.

Lemma tracked_keys_distinct m1 m2 :
  In m1 tracked -> In m2 tracked -> keyOf m1 = keyOf m2 -> m1 = m2.
Proof.
  unfold tracked. cbn.
  intros H1 H2.
  repeat (destruct H1 as [<- | H1]); try contradiction;
    repeat (destruct H2 as [<- | H2]); try contradiction;
    cbn; intros Hk; try reflexivity; discriminate Hk.
Qed.

(** The request-driven evaluator: a tracked metric whose current value
    and threshold are both present and non-zero yields an alert record
    exactly when current / threshold * 100 >= 90, and that record carries
    the metric's name, both values and the percentage. *)
Lemma alert_iff_breached (metrics thresholds : Readings.t)
    (m : string * string * (Readings.t -> option Q)) (c t : Q) :
  In m tracked ->
  fieldOf m metrics = Some c -> fieldOf m thresholds = Some t ->
  ~ (c == 0)%Q -> ~ (t == 0)%Q ->
  ((exists a, In a (alertsOf metrics thresholds) /\ Alert.metricKey a = keyOf m)
   <-> breached c t)
  /\ (forall a, In a (alertsOf metrics thresholds) -> Alert.metricKey a = keyOf m ->
        a = {| Alert.metric := labelOf m; Alert.metricKey := keyOf m;
               Alert.current := c; Alert.threshold := t;
               Alert.percentage := (c / t * 100)%Q |}).
Proof.
  intros Hm Hc Ht Hc0 Ht0. unfold alertsOf. rewrite evaluate_flat. cbn [fst].
  assert (forall a, In a (flat_map
             (fun m => fst (checkMetric (labelOf m) (keyOf m)
                              (fieldOf m metrics) (fieldOf m thresholds))) tracked) ->
           Alert.metricKey a = keyOf m ->
           breached c t
           /\ a = {| Alert.metric := labelOf m; Alert.metricKey := keyOf m;
                     Alert.current := c; Alert.threshold := t;
                     Alert.percentage := (c / t * 100)%Q |}) as Hown.
  { intros a Hin Hkey. apply in_flat_map in Hin as (m' & Hm' & Hin).
    apply checkMetric_alerts in Hin as (c' & t' & Hc' & Ht' & _ & _ & Hb & ->).
    cbn in Hkey. assert (m' = m) as -> by now apply tracked_keys_distinct.
    rewrite Hc in Hc'. rewrite Ht in Ht'.
    injection Hc' as <-. injection Ht' as <-. now split. }
  split; [split |].
  - intros (a & Hin & Hkey). now apply (Hown a).
  - intros Hb.
    exists {| Alert.metric := labelOf m; Alert.metricKey := keyOf m;
              Alert.current := c; Alert.threshold := t;
              Alert.percentage := (c / t * 100)%Q |}.
    split; [| reflexivity].
    apply in_flat_map. exists m. split; [exact Hm |].
    apply checkMetric_alerts. exists c, t. auto 10.
  - intros a Hin Hkey. now apply (Hown a).
Qed.

Lemma breached_at_90 : breached 90 100.
Proof. unfold breached. vm_compute. discriminate. Qed.

Lemma not_breached_at_89_9 : ~ breached (899 # 10) 100.
Proof. unfold breached. vm_compute. intros H. now apply H. Qed.

(** The boundary: 89.9 of 100 gives no alert, 90.0 of 100 gives one. *)
Example boundary_request_driven :
  alertsOf (ThresholdSample.requestsOnly (899 # 10))
           (ThresholdSample.requestsOnly 100) = []
  /\ exists a,
       alertsOf (ThresholdSample.requestsOnly 90)
                (ThresholdSample.requestsOnly 100) = [a]
       /\ Alert.metricKey a = "requests".
Proof. split; [reflexivity |]. eexists. split; reflexivity. Qed.

(** C5, where the code departs from it: the scheduled check compares
    with [>] against the threshold itself. With 95 requests against a
    threshold of 100 (and even with 100 against 100) it produces no
    alert, where the request-driven evaluator, and the 90% rule, give
    one. *)
Theorem scheduled_check_ignores_90_percent :
  scheduledAlerts (CacheSample.config ["a"]) 0 (ThresholdSample.aggregate 95) = []
  /\ scheduledAlerts (CacheSample.config ["a"]) 0 (ThresholdSample.aggregate 100) = []
  /\ breached 95 100
  /\ (exists a, alertsOf (ThresholdSample.requestsOnly 95)
                         (ThresholdSample.requestsOnly 100) = [a])
  /\ (exists a, scheduledAlerts (CacheSample.config ["a"]) 0
                  (ThresholdSample.aggregate 101) = [a]).
Proof.
  split; [reflexivity |]. split; [reflexivity |].
  split; [unfold breached; vm_compute; discriminate |].
  split; eexists; reflexivity.
Qed.

(** C9. Every division the evaluator makes has a non-zero numerator
    and a non-zero denominator, and a metric whose current value or
    threshold is 0 or missing contributes no alert record. *)
Theorem evaluator_never_divides_by_zero (metrics thresholds : Readings.t) :
  (forall n d, In (n, d) (snd (evaluate metrics thresholds)) ->
               ~ (d == 0)%Q /\ ~ (n == 0)%Q)
  /\ (forall m, In m tracked ->
        truthy (fieldOf m metrics) = false \/ truthy (fieldOf m thresholds) = false ->
        forall a, In a (alertsOf metrics thresholds) ->
                  Alert.metricKey a <> keyOf m).
Proof.
  unfold alertsOf. rewrite evaluate_flat. cbn [fst snd]. split.
  - intros n d Hin. apply in_flat_map in Hin as (m & _ & Hin).
    apply checkMetric_divisions in Hin. tauto.
  - intros m Hm Hfalsy a Hin Hkey.
    apply in_flat_map in Hin as (m' & Hm' & Hin).
    apply checkMetric_alerts in Hin as (c & t & Hc & Ht & Hc0 & Ht0 & _ & ->).
    cbn in Hkey. assert (m' = m) as -> by now apply tracked_keys_distinct.
    assert (truthy (fieldOf m metrics) = true)
      by (apply truthy_true; eauto).
    assert (truthy (fieldOf m thresholds) = true)
      by (apply truthy_true; eauto).
    destruct Hfalsy; congruence.
Qed.

Lemma evaluator_never_divides_by_zero_witness :
  List.Forall (fun a => Alert.metricKey a <> "zones")
    (alertsOf (ThresholdSample.zonesAndRequests 0 95)
              (ThresholdSample.zonesAndRequests 0 100)).
Proof.
  apply List.Forall_forall. intros a.
  refine (proj2 (evaluator_never_divides_by_zero
                   (ThresholdSample.zonesAndRequests 0 95)
                   (ThresholdSample.zonesAndRequests 0 100))
                ("Enterprise Zones", "zones", Readings.zones) _ _ a).
  - now left.
  - left. reflexivity.
Defined.

End ThresholdFacts.

(** ** Per-account fetcher: accounts without enterprise zones *)

Section FetcherFacts.

Import Fetcher FetcherReference.

Variable queryAnalytics :
  Env.t -> string -> option string -> list EnterpriseZone.t ->
  Exec.M AccountMetrics.t.

Lemma fetchAccountName_returns (env : Env.t) (accountId : string) (w : World.t) :
  exists name,
    fetchAccountName env accountId w =
    (Exec.Returned name, World.call (Call.AccountLookup accountId) w).
Proof.
  unfold fetchAccountName, Exec.catch, Exec.bind, Exec.request.
  destruct (Env.accountsApi env accountId) as [| ok [data |]]; cbn;
    try (now eexists).
  destruct (AccountBody.result_name data) as [name |]; cbn; [| now eexists].
  destruct (ok && JsString.truthy name); cbn; now eexists.
Qed.

Lemma fetchEnterpriseZones_world (env : Env.t) (accountId : string) (w : World.t) :
  fetchEnterpriseZones env accountId w =
  (fst (fetchEnterpriseZones env accountId {| World.kv := World.kv w; World.calls := [] |}),
   World.call (Call.ZoneList accountId) w).
Proof.
  unfold fetchEnterpriseZones, Exec.bind, Exec.request.
  destruct (Env.zonesApi env) as [| ok [data |]]; cbn; try reflexivity.
  destruct ok; cbn; [| reflexivity].
  destruct data as [| [| | result]]; try reflexivity.
  destruct (ZonesBody.objects result); reflexivity.
Qed.

Lemma emptyMetrics_allZero accountId accountName :
  allZero (emptyMetrics accountId accountName).
Proof. unfold allZero. cbn. tauto. Qed.

(** The run of [fetchAccountMetrics] once the current-month cache has
    missed and zone discovery has given no zone. *)
Lemma fetchAccountMetrics_no_zones (env : Env.t) (accountId : string)
    (w : World.t) :
  currentMonthMiss env accountId (World.kv w) ->
  discoveredZones env accountId (World.kv w) = Exec.Returned [] ->
  exists name w',
    fetchAccountMetrics queryAnalytics env accountId w =
      (Exec.Returned (emptyMetrics accountId name), w')
    /\ World.kv w' = World.kv w
    /\ (World.calls w' = World.calls w ++ [Call.AccountLookup accountId]
        \/ World.calls w' =
           World.calls w ++ [Call.AccountLookup accountId; Call.ZoneList accountId]).
Proof.
  unfold currentMonthMiss, discoveredZones. intros Hmiss Hzones.
  destruct (fetchAccountName_returns env accountId w) as [name Hname].
  exists name. unfold fetchAccountMetrics, Exec.bind at 1. rewrite Hname.
  unfold Exec.bind at 1, Exec.kvGet at 1. cbn [World.call World.kv].
  rewrite Hmiss. unfold Exec.bind at 1, Exec.kvGet at 1. cbn [World.call World.kv].
  destruct (KV.getZones _ _ (World.kv w)) as [zones |].
  - injection Hzones as ->. eexists. cbn. split; [reflexivity |].
    split; [reflexivity | now left].
  - unfold Exec.bind. rewrite fetchEnterpriseZones_world. cbn [World.call World.kv].
    rewrite Hzones. cbn. eexists. split; [reflexivity |].
    split; [reflexivity |]. right. cbn.
    now rewrite <- (app_assoc (World.calls w) [_] [_]).
Qed.

(** C7 (as amended). When the current-month cache does not answer and
    the zone list of the account (cached or just fetched) is empty, the
    fetcher returns a record whose current and previous totals are all
    0, whose time series is empty and whose two zone lists are empty; it
    does not throw, leaves the store as it was, and its only external
    requests are the account-name lookup and, unless the zone list was
    cached, the zone list itself: no analytics query is added. *)
Theorem zero_zone_account (env : Env.t) (accountId : string) (w : World.t) :
  currentMonthMiss env accountId (World.kv w) ->
  discoveredZones env accountId (World.kv w) = Exec.Returned [] ->
  exists r w',
    fetchAccountMetrics queryAnalytics env accountId w = (Exec.Returned r, w')
    /\ AccountMetrics.accountId r = accountId
    /\ allZero r
    /\ World.kv w' = World.kv w
    /\ analyticsCalls w' = analyticsCalls w
    /\ exists made,
         World.calls w' = World.calls w ++ made
         /\ Forall (fun c => c = Call.AccountLookup accountId
                             \/ c = Call.ZoneList accountId) made.
Proof.
  intros Hmiss Hzones.
  destruct (fetchAccountMetrics_no_zones env accountId w Hmiss Hzones)
    as (name & w' & Hrun & Hkv & Hcalls).
  exists (emptyMetrics accountId name), w'.
  split; [exact Hrun |]. split; [reflexivity |].
  split; [apply emptyMetrics_allZero |]. split; [exact Hkv |].
  unfold analyticsCalls.
  destruct Hcalls as [-> | ->]; rewrite List.filter_app; cbn;
    (split; [now rewrite app_nil_r |]);
    eexists; (split; [reflexivity |]).
  - constructor; [now left | constructor].
  - constructor; [now left |]. constructor; [now right | constructor].
Qed.

End FetcherFacts.

Section FetcherExamples.

Import Fetcher FetcherReference.

(** An account whose only zone is on a free plan has no eligible zone. *)
Lemma zero_zone_account_witness :
  exists r w',
    fetchAccountMetrics FetcherSample.queryAnalytics
      (FetcherSample.env
         (Http.Response true
            (Some (ZonesBody.ofZones [FetcherSample.freeZone]))))
      "acct" ThresholdSample.emptyWorld = (Exec.Returned r, w')
    /\ allZero r
    /\ analyticsCalls w' = [].
Proof.
  destruct (zero_zone_account FetcherSample.queryAnalytics
              (FetcherSample.env
                 (Http.Response true
                    (Some (ZonesBody.ofZones [FetcherSample.freeZone]))))
              "acct" ThresholdSample.emptyWorld eq_refl eq_refl)
    as (r & w' & Hrun & _ & Hzero & _ & Hcalls & _).
  exists r, w'. split; [exact Hrun |]. split; [exact Hzero | exact Hcalls].
Defined.

(** C7 as stated fails: the current-month cache is looked at before the
    zones. An account whose only zone is on a free plan, so that its
    eligible zone list is empty, but for which a record of 500 requests
    was cached five minutes ago, gets that record, not the all-zero
    one. *)
Lemma zero_zone_account_served_from_cache :
  discoveredZones FetcherSample.freeOnlyLater "acct"
    (World.kv FetcherSample.recentlyCached) = Exec.Returned []
  /\ fetchAccountMetrics FetcherSample.queryAnalytics FetcherSample.freeOnlyLater
       "acct" FetcherSample.recentlyCached
     = (Exec.Returned FetcherSample.busy,
        World.call (Call.AccountLookup "acct") FetcherSample.recentlyCached)
  /\ Totals.requests (AccountMetrics.current FetcherSample.busy) = Some 500
  /\ ~ allZero FetcherSample.busy.
Proof.
  split; [vm_compute; reflexivity |]. split; [vm_compute; reflexivity |].
  split; [reflexivity |]. intros (H & _). discriminate H.
Qed.

(** C10 (as amended). When the zone-list response has a JSON body and
    is not OK, or is OK with a body that is not [null] and whose result
    is missing or falsy, [fetchEnterpriseZones] returns the empty list
    and throws nothing; a per-account fetch that reaches zone discovery
    without a cached zone list then returns the all-zero record. *)
Theorem failed_zone_lookup_gives_empty
    (queryAnalytics : Env.t -> string -> option string ->
                      list EnterpriseZone.t -> Exec.M AccountMetrics.t)
    (env : Env.t) (accountId : string) (w : World.t)
    (ok : bool) (data : ZonesBody.t) :
  Env.zonesApi env = Http.Response ok (Some data) ->
  ok = false \/ data = ZonesBody.Value ZonesBody.Falsy ->
  fetchEnterpriseZones env accountId w =
    (Exec.Returned [], World.call (Call.ZoneList accountId) w)
  /\ (currentMonthMiss env accountId (World.kv w) ->
      KV.getZones (JsDate.getTime (Env.now env)) ("zones:" +:+ accountId)
        (World.kv w) = None ->
      exists r w',
        fetchAccountMetrics queryAnalytics env accountId w = (Exec.Returned r, w')
        /\ allZero r
        /\ analyticsCalls w' = analyticsCalls w).
Proof.
  intros Hapi Hfail.
  assert (forall w0, fetchEnterpriseZones env accountId w0 =
                     (Exec.Returned [], World.call (Call.ZoneList accountId) w0))
    as Hzones.
  { intros w0. unfold fetchEnterpriseZones, Exec.bind, Exec.request.
    rewrite Hapi. destruct Hfail as [-> | ->].
    - reflexivity.
    - now destruct ok. }
  split; [apply Hzones |].
  intros Hmiss Hnocache.
  destruct (fetchAccountMetrics_no_zones queryAnalytics env accountId w Hmiss)
    as (name & w' & Hrun & _ & Hcalls).
  { unfold discoveredZones. rewrite Hnocache, Hzones. reflexivity. }
  exists (emptyMetrics accountId name), w'.
  split; [exact Hrun |]. split; [apply emptyMetrics_allZero |].
  unfold analyticsCalls.
  destruct Hcalls as [-> | ->]; rewrite List.filter_app; cbn;
    now rewrite app_nil_r.
Qed.

End FetcherExamples.
(** ** Month keys *)

Section MonthKeyFacts.







(** Two instants of one calendar month are less than 45 days apart. *)
Lemma same_month_within_ttl (d d' : JsDate.t) :
  JsDate.valid d -> JsDate.valid d' ->
  JsDate.year d = JsDate.year d' -> JsDate.month d = JsDate.month d' ->
  JsDate.getTime d' < JsDate.getTime d + Thresholds.markerTtl * 1000.
Proof.
  intros (_ & _ & Hd & Hh & Hmi & Hs & Hms) (_ & _ & Hd' & Hh' & Hmi' & Hs' & Hms')
         Hyear Hmonth.
  unfold JsDate.getTime, JsDate.daysFromCivil, Thresholds.markerTtl.
  rewrite Hyear, Hmonth.
  set (y' := if JsDate.month d' + 1 <=? 2 then JsDate.year d' - 1 else JsDate.year d').
  generalize ((153 * ((JsDate.month d' + 1 + 9) mod 12) + 2) / 5).
  generalize (y' / 400). intros era.
  generalize ((y' - era * 400) / 4). generalize ((y' - era * 400) / 100).
  intros. lia.
Qed.

End MonthKeyFacts.

(** ** Notifier: one notification per metric and month *)

Section DedupFacts.

Import Thresholds ThresholdReference.

Example getTime_jan2025 :
  JsDate.getTime (JsDate.mk 2025 0 1 0 0 0 0) = Sample.jan2025.
Proof. reflexivity. Qed.

Example markerTtl_is_45_days : markerTtl = 45 * 24 * 60 * 60.
Proof. reflexivity. Qed.

(** *** Marker keys *)

Lemma alertKey_inj_metric accounts mk mk' m :
  alertKey accounts mk m = alertKey accounts mk' m -> mk = mk'.
Proof.
  unfold alertKey. intros H.
  apply (inj (String.app _)) in H. apply (inj (String.app _)) in H.
  apply (inj (String.app _)) in H.
  now apply append_inj_suffix in H as [H _].
Qed.


Lemma byCodeUnits_le (a b : string) :
  JsString.byCodeUnits a b <= 0 <-> String.le a b.
Proof.
  unfold JsString.byCodeUnits, String.le.
  destruct (String.eqb_spec a b) as [-> | Hne].
  - split; [intros _ | lia]. apply Is_true_true.
    destruct (String.leb_total b b) as [H | H]; exact H.
  - destruct (String.leb a b); cbn; split; intros H;
      first [lia | exact I | contradiction].
Qed.

Lemma sort_sorted (accounts : list string) :
  Sorted String.le (JsString.sort accounts).
Proof.
  apply (Sorted_weaken (fun a b => JsString.byCodeUnits a b <= 0)).
  - intros a b. apply byCodeUnits_le.
  - apply sort_Sorted. intros a b Hab.
    apply byCodeUnits_le.
    destruct (total String.le b a) as [H | H]; [exact H |].
    apply byCodeUnits_le in H. lia.
Qed.

(** The key depends on the set of accounts, not on their order. *)
Lemma alertKey_permutation accounts accounts' mk m :
  Permutation accounts accounts' ->
  alertKey accounts mk m = alertKey accounts' mk m.
Proof.
  intros Hperm. unfold alertKey. do 3 f_equal.
  apply (Sorted_unique String.le); try apply sort_sorted.
  unfold JsString.sort.
  now rewrite !sort_Permutation.
Qed.

(** *** The selection loop *)

Lemma hasMarker_mark_other d accounts kv (a b : Alert.t) :
  Alert.metricKey a <> Alert.metricKey b ->
  KV.hasMarker (JsDate.getTime d) (keyAt d accounts b) (mark d accounts kv a) =
  KV.hasMarker (JsDate.getTime d) (keyAt d accounts b) kv.
Proof.
  intros Hne. unfold KV.hasMarker, KV.get, mark, KV.put.
  rewrite lookup_insert_ne; [reflexivity |].
  unfold keyAt. intros H. now apply alertKey_inj_metric in H.
Qed.

Let step (d : JsDate.t) (accounts : list string)
    (st : list Alert.t * KV.store) (alert : Alert.t) : list Alert.t * KV.store :=
  let '(newAlerts, kv) := st in
  let key := alertKey accounts (Alert.metricKey alert) (JsDate.monthKey d) in
  if KV.hasMarker (JsDate.getTime d) key kv
  then (newAlerts, kv)
  else (newAlerts ++ [alert],
        KV.put (JsDate.getTime d) key (KV.VText "true") markerTtl kv).

Lemma step_eq d accounts (acc : list Alert.t) (kv : KV.store) (a : Alert.t) :
  step d accounts (acc, kv) a =
  if unmarked d accounts kv a then (acc ++ [a], mark d accounts kv a)
  else (acc, kv).
Proof.
  unfold step, unmarked, mark, keyAt.
  now destruct (KV.hasMarker _ _ kv).
Qed.

Lemma selectNew_fold d accounts (alerts acc : list Alert.t) (kv : KV.store) :
  List.NoDup (map Alert.metricKey alerts) ->
  fold_left (step d accounts) alerts (acc, kv) =
  (acc ++ List.filter (unmarked d accounts kv) alerts,
   fold_left (mark d accounts) (List.filter (unmarked d accounts kv) alerts) kv).
Proof.
  revert acc kv. induction alerts as [| a rest IH]; intros acc kv Hnd.
  - cbn. now rewrite app_nil_r.
  - cbn [map] in Hnd. apply NoDup_cons_iff in Hnd as [Hnotin Hnd].
    cbn [fold_left List.filter]. rewrite step_eq.
    destruct (unmarked d accounts kv a) eqn:Eun.
    + rewrite (IH _ _ Hnd).
      assert (List.filter (unmarked d accounts (mark d accounts kv a)) rest =
              List.filter (unmarked d accounts kv) rest) as ->.
      { apply List.filter_ext_in. intros b Hb. unfold unmarked.
        rewrite hasMarker_mark_other; [reflexivity |].
        intros Heq. apply Hnotin. rewrite Heq. now apply in_map. }
      cbn [fold_left]. now rewrite <- app_assoc.
    + apply IH, Hnd.
Qed.

Lemma selectNew_eq d accounts (alerts : list Alert.t) (kv : KV.store) :
  List.NoDup (map Alert.metricKey alerts) ->
  selectNew d accounts alerts kv =
  (List.filter (unmarked d accounts kv) alerts,
   fold_left (mark d accounts) (List.filter (unmarked d accounts kv) alerts) kv).
Proof.
  intros Hnd. change (selectNew d accounts alerts kv)
    with (fold_left (step d accounts) alerts ([], kv)).
  now rewrite selectNew_fold.
Qed.

Lemma fold_mark_lookup d accounts (new : list Alert.t) (kv : KV.store) (k : string) :
  fold_left (mark d accounts) new kv !! k =
  if existsb (fun a => String.eqb (keyAt d accounts a) k) new
  then Some (markerAt d) else kv !! k.
Proof.
  revert kv. induction new as [| b new IH]; intros kv; [reflexivity |].
  cbn [fold_left existsb]. rewrite IH.
  destruct (existsb _ new); [now rewrite orb_true_r |].
  rewrite orb_false_r. unfold mark, KV.put.
  destruct (String.eqb_spec (keyAt d accounts b) k) as [-> | Hne].
  - now rewrite lookup_insert_eq.
  - now rewrite lookup_insert_ne.
Qed.

Lemma checkMetric_short (label key : string) (current threshold : option Q) :
  fst (checkMetric label key current threshold) = []
  \/ exists a, fst (checkMetric label key current threshold) = [a].
Proof.
  unfold checkMetric.
  destruct current as [c |]; [destruct threshold as [t |] |]; cbn; auto.
  destruct (negb (Qeq_bool c 0) && negb (Qeq_bool t 0)); cbn; auto.
  destruct (Qle_bool 90 (c / t * 100)); cbn; eauto.
Qed.

Lemma alertsOf_keys_NoDup (metrics thresholds : Readings.t) :
  List.NoDup (map Alert.metricKey (alertsOf metrics thresholds)).
Proof.
  unfold alertsOf. rewrite evaluate_flat. cbn [fst].
  assert (List.NoDup (map keyOf tracked)) as Hnd.
  { unfold tracked. cbn. repeat constructor; cbn; intuition discriminate. }
  revert Hnd. generalize tracked. intros l.
  induction l as [| m l IH]; cbn [flat_map map]; intros Hnd; [constructor |].
  apply NoDup_cons_iff in Hnd as [Hnotin Hnd]. rewrite map_app.
  pose proof (checkMetric_short (labelOf m) (keyOf m)
                (fieldOf m metrics) (fieldOf m thresholds)) as Hshort.
  assert (forall a, In a (fst (checkMetric (labelOf m) (keyOf m)
                                (fieldOf m metrics) (fieldOf m thresholds))) ->
                    Alert.metricKey a = keyOf m) as Hkey.
  { intros a Ha. apply checkMetric_alerts in Ha as (c & t & _ & _ & _ & _ & _ & ->).
    reflexivity. }
  assert (forall k, In k (map Alert.metricKey
                            (flat_map (fun m => fst (checkMetric (labelOf m) (keyOf m)
                                 (fieldOf m metrics) (fieldOf m thresholds))) l)) ->
                    In k (map keyOf l)) as Hrest.
  { intros k Hk. apply in_map_iff in Hk as (a & <- & Ha).
    apply in_flat_map in Ha as (m' & Hm' & Ha).
    apply checkMetric_alerts in Ha as (c & t & _ & _ & _ & _ & _ & ->). cbn.
    now apply in_map. }
  revert Hkey Hshort.
  generalize (fst (checkMetric (labelOf m) (keyOf m)
                     (fieldOf m metrics) (fieldOf m thresholds))).
  intros own Hkey [-> | [a ->]].
  - cbn. now apply IH.
  - cbn. apply NoDup_cons_iff. split; [| now apply IH].
    intros Hin. apply Hrest in Hin. rewrite (Hkey a) in Hin by now left.
    contradiction.
Qed.

(** *** One run of the evaluator *)

Lemma filter_none {A} (p : A -> bool) (l : list A) :
  (forall x, In x l -> p x = false) -> List.filter p l = [].
Proof.
  induction l as [| x l IH]; cbn; intros H; [reflexivity |].
  rewrite (H x) by now left. apply IH. intros y Hy. apply H. now right.
Qed.


Lemma checkThresholds_run slack origin d body url (w : World.t) :
  CheckBody.forceTest body = false ->
  webhookOf body = Some url ->
  let alerts := alertsOf (CheckBody.metrics body) (CheckBody.thresholds body) in
  let new := List.filter (unmarked d (accountsOf body) (World.kv w)) alerts in
  snd (checkThresholds slack origin d body w) =
  {| World.kv := fold_left (mark d (accountsOf body)) new (World.kv w);
     World.calls := World.calls w ++ posted url new |}.
Proof.
  intros Hforce Hurl. cbn zeta. unfold checkThresholds. rewrite Hforce, Hurl.
  pose proof (alertsOf_keys_NoDup (CheckBody.metrics body) (CheckBody.thresholds body))
    as Hnd.
  revert Hnd.
  generalize (alertsOf (CheckBody.metrics body) (CheckBody.thresholds body)).
  intros alerts Hnd.
  destruct alerts as [| a0 rest].
  - cbn. destruct w. cbn. now rewrite app_nil_r.
  - cbn [length]. destruct (Z.ltb_spec 0 (Z.of_nat (S (length rest)))); [| lia].
    unfold Exec.catch, Exec.bind at 1.
    rewrite (selectNew_eq d (accountsOf body) (a0 :: rest) (World.kv w) Hnd).
    destruct (List.filter (unmarked d (accountsOf body) (World.kv w)) (a0 :: rest))
      as [| n new'].
    + cbn. now rewrite app_nil_r.
    + cbn [length]. destruct (Z.ltb_spec 0 (Z.of_nat (S (length new')))); [| lia].
      unfold sendSlackAlert, Exec.bind, Exec.request, Exec.ret, Exec.throw.
      cbn [World.call World.setKv World.kv World.calls posted].
      destruct (slack url) as [| ok b]; [reflexivity |].
      destruct ok; reflexivity.
Qed.

Lemma monthKey_sameMonth (d d' : JsDate.t) :
  sameMonth d d' -> JsDate.monthKey d = JsDate.monthKey d'.
Proof. intros [Hy Hm]. unfold JsDate.monthKey. now rewrite Hy, Hm. Qed.


Lemma marked_lookup d accounts (new : list Alert.t) (kv : KV.store) (a : Alert.t) :
  In a new ->
  fold_left (mark d accounts) new kv !! keyAt d accounts a = Some (markerAt d).
Proof.
  intros Hin. rewrite fold_mark_lookup.
  assert (existsb (fun b => String.eqb (keyAt d accounts b) (keyAt d accounts a)) new
          = true) as ->; [| reflexivity].
  apply existsb_exists. exists a. split; [exact Hin | apply String.eqb_refl].
Qed.



End DedupFacts.

Section DedupExamples.

Import Thresholds ThresholdReference.


(** The three runs, computed: one message in January, none at the second
    January run, one again in February; the January marker sits under
    the key of the sorted accounts. *)
Example deduplication_computed :
  length (World.calls DedupSample.w1) = 1%nat
  /\ length (World.calls DedupSample.w2) = 1%nat
  /\ length (World.calls DedupSample.w3) = 2%nat
  /\ is_Some (World.kv DedupSample.w1 !! "alert-sent:a-b:requests:2025-01")
  /\ is_Some (World.kv DedupSample.w3 !! "alert-sent:a-b:requests:2025-02").
Proof.
  split; [vm_compute; reflexivity |].
  split; [vm_compute; reflexivity |]. split; [vm_compute; reflexivity |].
  split; vm_compute; eauto.
Qed.

(** The scheduled check hands [sendSlackAlert] its arguments in another
    order than the function declares them, so the call throws before any
    request is made: whatever the alerts, it posts nothing and writes no
    marker. *)
Lemma scheduledNotify_posts_nothing slack now config accountIds
    (alerts : list ScheduledAlert.t) (w : World.t) :
  scheduledNotify slack now config accountIds alerts w = (Exec.Returned tt, w).
Proof.
  unfold scheduledNotify, Exec.catch, Exec.bind, Exec.kvGet, Exec.ret.
  destruct (Z.of_nat (length alerts) =? 0); [reflexivity |].
  destruct (KV.hasMarker _ _ (World.kv w)); reflexivity.
Qed.

End DedupExamples.

Section ZoneLookupExamples.

Import Fetcher FetcherReference.

(** A 503 whose body is [null], and a 200 whose body has no result. *)
Lemma failed_zone_lookup_gives_empty_witness :
  fetchEnterpriseZones
    (FetcherSample.env (Http.Response false (Some ZonesBody.Null)))
    "acct" ThresholdSample.emptyWorld
  = (Exec.Returned [],
     World.call (Call.ZoneList "acct") ThresholdSample.emptyWorld)
  /\ (exists r w',
        fetchAccountMetrics FetcherSample.queryAnalytics
          (FetcherSample.env
             (Http.Response true (Some (ZonesBody.Value ZonesBody.Falsy))))
          "acct" ThresholdSample.emptyWorld = (Exec.Returned r, w')
        /\ allZero r
        /\ analyticsCalls w' = analyticsCalls ThresholdSample.emptyWorld).
Proof.
  split.
  - exact (proj1 (failed_zone_lookup_gives_empty FetcherSample.queryAnalytics
                    (FetcherSample.env
                       (Http.Response false (Some ZonesBody.Null)))
                    "acct" ThresholdSample.emptyWorld false ZonesBody.Null
                    eq_refl (or_introl eq_refl))).
  - exact (proj2 (failed_zone_lookup_gives_empty FetcherSample.queryAnalytics
                    (FetcherSample.env
                       (Http.Response true
                          (Some (ZonesBody.Value ZonesBody.Falsy))))
                    "acct" ThresholdSample.emptyWorld true
                    (ZonesBody.Value ZonesBody.Falsy)
                    eq_refl (or_intror eq_refl))
             eq_refl eq_refl).
Defined.

(** C10 as stated fails: [fetchEnterpriseZones] is not total over
    upstream failures. A zone-list response that is not OK and whose
    body is not JSON (an HTML error page) makes it throw, and so does an
    OK response that carries no result array because its body is [null]
    or because its result is a string; the per-account fetch fails with
    it instead of returning the all-zero record. *)
Lemma zone_lookup_throws_on_unparsable_body :
  (exists e, fst (fetchEnterpriseZones FetcherSample.badGateway "acct"
                    ThresholdSample.emptyWorld) = Exec.Thrown e)
  /\ (exists e, fst (fetchAccountMetrics FetcherSample.queryAnalytics
                       FetcherSample.badGateway "acct"
                       ThresholdSample.emptyWorld) = Exec.Thrown e)
  /\ (exists e, fst (fetchEnterpriseZones FetcherSample.nullBody "acct"
                       ThresholdSample.emptyWorld) = Exec.Thrown e)
  /\ (exists e, fst (fetchAccountMetrics FetcherSample.queryAnalytics
                       FetcherSample.nullBody "acct"
                       ThresholdSample.emptyWorld) = Exec.Thrown e)
  /\ (exists e, fst (fetchEnterpriseZones FetcherSample.textResult "acct"
                       ThresholdSample.emptyWorld) = Exec.Thrown e)
  /\ (exists e, fst (fetchAccountMetrics FetcherSample.queryAnalytics
                       FetcherSample.textResult "acct"
                       ThresholdSample.emptyWorld) = Exec.Thrown e).
Proof. repeat split; eexists; vm_compute; reflexivity. Qed.

End ZoneLookupExamples.
(** ** Settled promises *)

Section SettledFacts.

Context {A : Type}.

Lemma settle_cons (p : Exec.M A) (rest : list (Exec.M A)) (w : World.t) :
  Settled.settle (p :: rest) w =
  (fst (p w) :: fst (Settled.settle rest (snd (p w))),
   snd (Settled.settle rest (snd (p w)))).
Proof.
  cbn. destruct (p w) as [r w']. cbn.
  now destruct (Settled.settle rest w').
Qed.

Lemma settle_length (ps : list (Exec.M A)) (w : World.t) :
  length (fst (Settled.settle ps w)) = length ps.
Proof.
  revert w. induction ps as [| p ps IH]; intros w; [reflexivity |].
  rewrite settle_cons. cbn. now rewrite IH.
Qed.

Lemma allSettled_run (ps : list (Exec.M A)) (w : World.t) :
  Settled.allSettled ps w =
  (Exec.Returned (fst (Settled.settle ps w)), snd (Settled.settle ps w)).
Proof. unfold Settled.allSettled. now destruct (Settled.settle ps w). Qed.

Lemma fulfilled_cons (r : Exec.result A) (rs : list (Exec.result A)) :
  Settled.fulfilled (r :: rs) =
  match r with
  | Exec.Returned a => a :: Settled.fulfilled rs
  | Exec.Thrown _ => Settled.fulfilled rs
  end.
Proof. now destruct r. Qed.

Lemma fulfilled_nil_iff (rs : list (Exec.result A)) :
  Settled.fulfilled rs = [] <-> List.Forall Settled.rejected rs.
Proof.
  induction rs as [| r rs IH]; [split; [constructor | reflexivity] |].
  rewrite fulfilled_cons. destruct r as [a | e].
  - split; [discriminate |]. intros H. inversion H as [| ? ? Hr _]. destruct Hr.
  - rewrite IH. split.
    + intros H. constructor; [exact I | exact H].
    + intros H. now inversion H.
Qed.

Lemma fulfilled_length (rs : list (Exec.result A)) :
  (length (Settled.fulfilled rs) <= length rs)%nat.
Proof.
  induction rs as [| r rs IH]; [reflexivity |].
  rewrite fulfilled_cons. destruct r; cbn; lia.
Qed.

Lemma fulfilled_all (l : list A) :
  Settled.fulfilled (map Exec.Returned l) = l.
Proof.
  induction l as [| a l IH]; [reflexivity |].
  cbn [map]. rewrite fulfilled_cons. now rewrite IH.
Qed.

End SettledFacts.


Section SettledMapFacts.

Context {X A B : Type}.

Lemma then_run (m : Exec.M A) (g : A -> B) (w : World.t) :
  (a <- m ;; Exec.ret (g a))%exec w =
  (SettledReference.mapResult g (fst (m w)), snd (m w)).
Proof. unfold Exec.bind. now destruct (m w) as [[a | e] w1]. Qed.

Lemma settle_then (f : X -> Exec.M A) (g : A -> B) (l : list X) (w : World.t) :
  Settled.settle
    (map (fun x => (a <- f x ;; Exec.ret (g a))%exec) l) w =
  (map (SettledReference.mapResult g) (fst (Settled.settle (map f l) w)),
   snd (Settled.settle (map f l) w)).
Proof.
  revert w. induction l as [| x l IH]; intros w; [reflexivity |].
  cbn [map]. rewrite !settle_cons, then_run. cbn [fst snd].
  rewrite IH. reflexivity.
Qed.

Lemma fulfilled_mapResult (g : A -> B) (rs : list (Exec.result A)) :
  Settled.fulfilled (map (SettledReference.mapResult g) rs) =
  map g (Settled.fulfilled rs).
Proof.
  induction rs as [| r rs IH]; [reflexivity |].
  cbn [map]. rewrite !fulfilled_cons. destruct r; cbn; now rewrite IH.
Qed.

End SettledMapFacts.

(** ** Zone counts: the first phase and the zone listing *)

Section ZoneCountFacts.

Import Fetcher HandlerReference.

Lemma call_calls (c : Call.t) (w : World.t) :
  World.call c w = {| World.kv := World.kv w; World.calls := World.calls w ++ [c] |}.
Proof. reflexivity. Qed.

Lemma fetchEnterpriseZones_lookup (env : Env.t) (accountId : string) (w : World.t) :
  fetchEnterpriseZones env accountId w =
  (zoneLookup env accountId, World.call (Call.ZoneList accountId) w).
Proof.
  unfold zoneLookup, fetchEnterpriseZones, Exec.bind, Exec.request.
  destruct (Env.zonesApi env) as [| ok [data |]]; cbn; try reflexivity.
  destruct ok; cbn; [| reflexivity].
  destruct data as [| [| | result]]; try reflexivity.
  destruct (ZonesBody.objects result); reflexivity.
Qed.

Lemma settle_zones (env : Env.t) (accountIds : list string) (w : World.t) :
  Settled.settle (map (fetchEnterpriseZones env) accountIds) w =
  (map (zoneLookup env) accountIds,
   {| World.kv := World.kv w;
      World.calls := World.calls w ++ map Call.ZoneList accountIds |}).
Proof.
  revert w. induction accountIds as [| id ids IH]; intros w.
  - cbn. rewrite app_nil_r. now destruct w.
  - cbn [map]. rewrite settle_cons, fetchEnterpriseZones_lookup.
    cbn [fst snd]. rewrite IH. cbn. now rewrite <- app_assoc.
Qed.

Lemma collectZones_run (env : Env.t) (accountIds : list string)
    (acc : list EnterpriseZone.t) (w : World.t) :
  Api.collectZones env accountIds acc w =
  (Exec.Returned (acc ++ concat (Settled.fulfilled (map (zoneLookup env) accountIds))),
   {| World.kv := World.kv w;
      World.calls := World.calls w ++ map Call.ZoneList accountIds |}).
Proof.
  revert acc w. induction accountIds as [| id ids IH]; intros acc w.
  - cbn. rewrite !app_nil_r. now destruct w.
  - cbn [Api.collectZones map]. unfold Exec.bind at 1, Exec.catch, Exec.bind at 1.
    rewrite fetchEnterpriseZones_lookup, fulfilled_cons.
    destruct (zoneLookup env id) as [zones | e].
    + destruct (0 <? Z.of_nat (length zones)) eqn:Hlen; cbn; rewrite IH; cbn;
        rewrite <- ?app_assoc; [reflexivity |].
      apply Z.ltb_ge in Hlen. destruct zones; [reflexivity | cbn in Hlen; lia].
    + cbn. rewrite IH. cbn. now rewrite <- app_assoc.
Qed.

(** X1. For a request with a token and at least one account, the zone
    count of the first loading phase and the zone listing agree: both
    end without throwing, whatever each account's zone lookup does, in
    the same world; the zone count of phase 1 is the [total] of the zone
    listing, which is also its [enterprise] count and the number of zones
    it lists; neither writes to the store. *)
Theorem phase1_zone_count_matches_zone_listing (env : Env.t)
    (apiKey : option string) (body : RequestBody.t) (w : World.t) :
  Api.tokenMissing apiKey = false ->
  Progressive.parseAccountIds body <> [] ->
  exists p z w',
    Api.fetchPhase1Data env (Progressive.parseAccountIds body) w
      = (Exec.Returned p, w')
    /\ Api.getZones env apiKey body w = (Exec.Returned (Api.Ok z), w')
    /\ Phase1.zonesCount p = ZonesResponse.total z
    /\ ZonesResponse.enterprise z = ZonesResponse.total z
    /\ ZonesResponse.total z = Z.of_nat (length (ZonesResponse.zones z))
    /\ Phase1.loading p = true
    /\ World.kv w' = World.kv w.
Proof.
  intros Htoken Hids.
  unfold Api.fetchPhase1Data, Api.getZones. rewrite Htoken.
  destruct (Progressive.parseAccountIds body) as [| id ids] eqn:E;
    [now destruct Hids |].
  replace (Z.of_nat (length (id :: ids)) =? 0) with false
    by (symmetry; apply Z.eqb_neq; cbn [length]; lia).
  unfold Exec.bind. rewrite allSettled_run, settle_zones, collectZones_run.
  cbn [fst snd Exec.ret app].
  do 3 eexists. split; [reflexivity |]. split; [reflexivity |].
  cbn. rewrite length_map. repeat split; reflexivity.
Qed.

Lemma phase1_zone_count_matches_zone_listing_witness :
  exists p z w',
    Api.fetchPhase1Data HandlerSample.threeZones ["a"; "c"; "b"]
      ThresholdSample.emptyWorld = (Exec.Returned p, w')
    /\ Api.getZones HandlerSample.threeZones (Some "token")
         (HandlerSample.body ["a"; "c"; "b"]) ThresholdSample.emptyWorld
       = (Exec.Returned (Api.Ok z), w')
    /\ Phase1.zonesCount p = 3
    /\ ZonesResponse.total z = 3.
Proof.
  destruct (phase1_zone_count_matches_zone_listing HandlerSample.threeZones
              (Some "token") (HandlerSample.body ["a"; "c"; "b"])
              ThresholdSample.emptyWorld eq_refl)
    as (p & z & w' & H1 & H2 & _).
  { discriminate. }
  exists p, z, w'. split; [exact H1 |]. split; [exact H2 |].
  vm_compute in H1, H2. injection H1 as <- _. injection H2 as <- _.
  split; reflexivity.
Defined.

End ZoneCountFacts.
(** ** Aggregates of records without a time series *)

Section AggregateShapeFacts.

Import Aggregator.

Lemma sumOrZero_fold {A} (f : A -> Js.num) (l : list A) (z : Z) :
  fold_left (fun total a => total + Js.orZero (f a)) l z =
  z + sumOrZero f l.
Proof.
  unfold sumOrZero. revert z. induction l as [| a l IH]; intros z; cbn [fold_left].
  - lia.
  - rewrite IH, (IH (0 + _)). lia.
Qed.

Lemma sumOrZero_cons {A} (f : A -> Js.num) (a : A) (l : list A) :
  sumOrZero f (a :: l) = Js.orZero (f a) + sumOrZero f l.
Proof. unfold sumOrZero at 1. cbn [fold_left]. now rewrite sumOrZero_fold. Qed.

Lemma sumOrZero_app {A} (f : A -> Js.num) (l l' : list A) :
  sumOrZero f (l ++ l') = sumOrZero f l + sumOrZero f l'.
Proof.
  induction l as [| a l IH]; [reflexivity |].
  cbn [app]. rewrite !sumOrZero_cons, IH. lia.
Qed.

Lemma sumOrZero_map {A B} (f : B -> Js.num) (g : A -> B) (l : list A) :
  sumOrZero f (map g l) = sumOrZero (fun a => f (g a)) l.
Proof.
  induction l as [| a l IH]; [reflexivity |].
  cbn [map]. now rewrite !sumOrZero_cons, IH.
Qed.

Lemma sumOrZero_ext {A} (f g : A -> Js.num) (l : list A) :
  (forall a, In a l -> Js.orZero (f a) = Js.orZero (g a)) ->
  sumOrZero f l = sumOrZero g l.
Proof.
  induction l as [| a l IH]; intros H; [reflexivity |].
  rewrite !sumOrZero_cons, H, IH; [reflexivity | | now left].
  intros b Hb. apply H. now right.
Qed.

Lemma collectAll_map sel (g : AccountMetrics.t -> AccountMetrics.t)
    (l : list AccountMetrics.t) :
  (forall a, AccountMetrics.current (g a) = AccountMetrics.current a) ->
  collectAll sel (map g l) = collectAll sel l.
Proof.
  intros Hg. unfold collectAll. generalize noneCollected.
  induction l as [| a l IH]; intros acc; [reflexivity |].
  cbn [map fold_left]. rewrite IH. unfold confidenceOf. now rewrite Hg.
Qed.

Lemma concatZones_fold (f : AccountMetrics.t -> Breakdown.t)
    (l : list AccountMetrics.t) (zs : list Zone.t) :
  fold_left (fun zs accountData =>
               match Breakdown.zones (f accountData) with
               | Some l => zs ++ l
               | None => zs
               end) l zs =
  zs ++ concatZones f l.
Proof.
  unfold concatZones. revert zs. induction l as [| a l IH]; intros zs; cbn [fold_left].
  - now rewrite app_nil_r.
  - rewrite IH, (IH (match _ with Some _ => _ | None => _ end)).
    destruct (Breakdown.zones (f a)); cbn; now rewrite ?app_assoc.
Qed.

Lemma concatZones_cons (f : AccountMetrics.t -> Breakdown.t)
    (a : AccountMetrics.t) (l : list AccountMetrics.t) :
  concatZones f (a :: l) =
  match Breakdown.zones (f a) with Some zs => zs | None => [] end
  ++ concatZones f l.
Proof.
  unfold concatZones at 1. cbn [fold_left]. rewrite concatZones_fold.
  now destruct (Breakdown.zones (f a)).
Qed.

Lemma concatZones_map (f : AccountMetrics.t -> Breakdown.t)
    (g : AccountMetrics.t -> AccountMetrics.t) (l : list AccountMetrics.t) :
  (forall a, f (g a) = f a) ->
  concatZones f (map g l) = concatZones f l.
Proof.
  intros Hg. induction l as [| a l IH]; [reflexivity |].
  cbn [map]. now rewrite !concatZones_cons, Hg, IH.
Qed.

Lemma aggregateBreakdown_map (f : AccountMetrics.t -> Breakdown.t)
    (g : AccountMetrics.t -> AccountMetrics.t) (l : list AccountMetrics.t) :
  (forall a, f (g a) = f a) ->
  aggregateBreakdown f (map g l) = aggregateBreakdown f l.
Proof.
  intros Hg. unfold aggregateBreakdown.
  rewrite !sumOrZero_map, concatZones_map by exact Hg.
  f_equal; apply sumOrZero_ext; intros a _; now rewrite Hg.
Qed.

(** Accounts whose series are empty merge into an empty series. *)
Lemma mergeTimeSeries_empty (l : list AccountMetrics.t) :
  List.Forall (fun a => AccountMetrics.timeSeries a = Some []) l ->
  mergeTimeSeries l = [].
Proof.
  intros H. unfold mergeTimeSeries.
  assert (fold_left mergeAccount l [] = []) as ->; [| reflexivity].
  generalize (@nil (string * Entry.t)) as m.
  induction H as [| a l Ha _ IH]; intros m; [reflexivity |].
  cbn [fold_left]. unfold mergeAccount at 2. rewrite Ha. cbn [fold_left].
  apply IH.
Qed.

End AggregateShapeFacts.

(** ** The second loading phase and the one-shot metrics handler *)

Section HandlerFacts.

Import Aggregator HandlerReference.

Variable queryAnalytics :
  Env.t -> string -> option string -> list EnterpriseZone.t ->
  Exec.M AccountMetrics.t.

(** X2. The second loading phase never throws, and answers as the full
    aggregation would, less the history: with the world the per-account
    fetches leave, [loading] set, an empty time series, and the current
    totals (confidence included), previous totals and both zone
    breakdowns of the aggregate of the accounts whose fetch succeeded;
    its per-account records are theirs with the time series emptied.
    When every fetch fails this is the aggregate of no account, not an
    error. *)
Theorem phase2_is_aggregate_without_history (env : Env.t)
    (accountIds : list string) (w : World.t) :
  exists p,
    Api.fetchPhase2Data queryAnalytics env accountIds w =
      (Exec.Returned p, snd (coreResults queryAnalytics env accountIds w))
    /\ Phase2.loading p = true
    /\ Aggregate.timeSeries (Phase2.aggregated p) = []
    /\ Aggregate.current (Phase2.aggregated p) =
       Aggregate.current
         (aggregateAccountMetrics (successfulMetrics queryAnalytics env accountIds w))
    /\ Aggregate.previous (Phase2.aggregated p) =
       Aggregate.previous
         (aggregateAccountMetrics (successfulMetrics queryAnalytics env accountIds w))
    /\ Aggregate.zoneBreakdown (Phase2.aggregated p) =
       Aggregate.zoneBreakdown
         (aggregateAccountMetrics (successfulMetrics queryAnalytics env accountIds w))
    /\ Aggregate.previousMonthZoneBreakdown (Phase2.aggregated p) =
       Aggregate.previousMonthZoneBreakdown
         (aggregateAccountMetrics (successfulMetrics queryAnalytics env accountIds w))
    /\ Aggregate.perAccountData (Phase2.aggregated p) =
       map Api.stripTimeSeries (successfulMetrics queryAnalytics env accountIds w).
Proof.
  unfold Api.fetchPhase2Data, Exec.bind at 1, successfulMetrics, coreResults.
  rewrite allSettled_run,
    (settle_then (Fetcher.fetchAccountMetrics queryAnalytics env)
                 Api.stripTimeSeries).
  cbn [fst snd Exec.ret]. rewrite fulfilled_mapResult.
  set (ok := Settled.fulfilled _).
  eexists. split; [reflexivity |]. cbn [Phase2.loading Phase2.aggregated].
  split; [reflexivity |].
  split.
  { cbn. apply mergeTimeSeries_empty, List.Forall_forall.
    intros a Ha. apply in_map_iff in Ha as (b & <- & _). reflexivity. }
  unfold aggregateAccountMetrics. cbn [Aggregate.current Aggregate.previous
    Aggregate.zoneBreakdown Aggregate.previousMonthZoneBreakdown
    Aggregate.perAccountData].
  rewrite !sumOrZero_map, !collectAll_map, !aggregateBreakdown_map
    by reflexivity.
  repeat split; reflexivity.
Qed.

Lemma nonempty_length {A} (l : list A) :
  l <> [] -> (Z.of_nat (length l) =? 0) = false.
Proof. intros H. apply Z.eqb_neq. destruct l; [now destruct H | cbn; lia]. Qed.

(** X3. For a request with a token and at least one account,
    [getMetrics] never throws: it answers 500 ("Failed to fetch metrics
    from any account") exactly when the fetch of every account failed,
    and otherwise 200 with the aggregate of the accounts that succeeded,
    listed in request order in its per-account data; a failed account is
    left out, it does not fail the request. *)
Theorem getMetrics_fails_only_when_every_account_fails (env : Env.t)
    (apiKey : option string) (body : RequestBody.t) (w : World.t) :
  Api.tokenMissing apiKey = false ->
  Progressive.parseAccountIds body <> [] ->
  exists answer,
    Api.getMetrics queryAnalytics env apiKey body w =
      (Exec.Returned answer,
       snd (coreResults queryAnalytics env (Progressive.parseAccountIds body) w))
    /\ (answer = Api.ServerError "Failed to fetch metrics from any account"
        <-> List.Forall Settled.rejected
              (fst (coreResults queryAnalytics env
                      (Progressive.parseAccountIds body) w)))
    /\ (answer <> Api.ServerError "Failed to fetch metrics from any account" ->
        exists aggregated,
          answer = Api.Ok aggregated
          /\ aggregated =
             aggregateAccountMetrics
               (successfulMetrics queryAnalytics env
                  (Progressive.parseAccountIds body) w)
          /\ Aggregate.perAccountData aggregated =
             successfulMetrics queryAnalytics env
               (Progressive.parseAccountIds body) w
          /\ (length (Aggregate.perAccountData aggregated)
              <= length (Progressive.parseAccountIds body))%nat).
Proof.
  intros Htoken Hids.
  unfold Api.getMetrics. rewrite Htoken, (nonempty_length _ Hids).
  unfold Exec.bind, successfulMetrics, coreResults.
  rewrite allSettled_run. cbn [fst snd].
  set (results := fst (Settled.settle _ w)).
  assert (length results = length (Progressive.parseAccountIds body)) as Hlen.
  { unfold results. now rewrite settle_length, length_map. }
  destruct (Settled.fulfilled results) as [| a ok] eqn:Hok.
  - cbn. eexists. split; [reflexivity |].
    split; [| intros H; now destruct H].
    split; [intros _; now apply fulfilled_nil_iff | reflexivity].
  - replace (Z.of_nat (length (a :: ok)) =? 0) with false
      by (symmetry; apply Z.eqb_neq; cbn [length]; lia).
    cbn [Exec.ret]. eexists. split; [reflexivity |].
    split.
    + split; [discriminate |]. intros H. apply fulfilled_nil_iff in H.
      rewrite H in Hok. discriminate.
    + intros _. eexists. split; [reflexivity |]. split; [reflexivity |].
      split; [reflexivity |]. cbn [Aggregate.perAccountData aggregateAccountMetrics].
      rewrite <- Hok, <- Hlen. apply fulfilled_length.
Qed.

End HandlerFacts.

Section ZeroZoneHandlerFacts.

Import Aggregator Fetcher FetcherReference HandlerReference.

Variable queryAnalytics :
  Env.t -> string -> option string -> list EnterpriseZone.t ->
  Exec.M AccountMetrics.t.

Lemma settle_without_zones (env : Env.t) (accountIds : list string) (w : World.t) :
  (forall id, In id accountIds ->
              currentMonthMiss env id (World.kv w)
              /\ discoveredZones env id (World.kv w) = Exec.Returned []) ->
  exists records w',
    coreResults queryAnalytics env accountIds w = (map Exec.Returned records, w')
    /\ Forall2 emptyRecord accountIds records
    /\ World.kv w' = World.kv w
    /\ analyticsCalls w' = analyticsCalls w.
Proof.
  unfold coreResults. revert w.
  induction accountIds as [| id ids IH]; intros w H.
  - exists [], w. cbn. repeat split; constructor.
  - destruct (H id (or_introl eq_refl)) as [Hmiss Hzones].
    destruct (fetchAccountMetrics_no_zones queryAnalytics env id w Hmiss Hzones)
      as (name & w1 & Hrun & Hkv & Hcalls).
    destruct (IH w1) as (records & w' & Hrest & Hall & Hkv' & Hcalls').
    { intros id' Hin. rewrite Hkv. apply H. now right. }
    exists (emptyMetrics id name :: records), w'.
    cbn [map]. rewrite settle_cons, Hrun. cbn [fst snd]. rewrite Hrest.
    split; [reflexivity |].
    split; [constructor; [now exists name | exact Hall] |].
    split; [congruence |]. rewrite Hcalls'. unfold analyticsCalls.
    destruct Hcalls as [-> | ->]; rewrite List.filter_app; cbn;
      now rewrite app_nil_r.
Qed.

Lemma collectAll_without_confidence sel (l : list AccountMetrics.t) :
  List.Forall (fun a => Totals.confidence (AccountMetrics.current a) = None) l ->
  collectAll sel l = noneCollected.
Proof.
  unfold collectAll. generalize noneCollected.
  induction 1 as [| a l Ha _ IH]; [reflexivity |].
  cbn [fold_left]. unfold confidenceOf at 2. rewrite Ha. exact IH.
Qed.

Lemma sumOrZero_zero {A} (f : A -> Js.num) (l : list A) :
  List.Forall (fun a => f a = Some 0) l -> sumOrZero f l = 0.
Proof.
  induction 1 as [| a l Ha _ IH]; [reflexivity |].
  now rewrite sumOrZero_cons, Ha, IH.
Qed.

Lemma concatZones_empty (f : AccountMetrics.t -> Breakdown.t)
    (l : list AccountMetrics.t) :
  List.Forall (fun a => Breakdown.zones (f a) = Some []) l -> concatZones f l = [].
Proof.
  induction 1 as [| a l Ha _ IH]; [reflexivity |].
  now rewrite concatZones_cons, Ha, IH.
Qed.

Lemma aggregate_of_empty_records (accountIds : list string)
    (records : list AccountMetrics.t) :
  Forall2 emptyRecord accountIds records ->
  aggregateAccountMetrics records = zeroAggregate records
  /\ map AccountMetrics.accountId records = accountIds
  /\ List.Forall allZero records.
Proof.
  intros H.
  assert (List.Forall (fun r => exists id name, r = emptyMetrics id name) records)
    as Hall.
  { induction H as [| id r ids rs [name ->] _ IH]; constructor;
      [now exists id, name | exact IH]. }
  split; [| split].
  - unfold aggregateAccountMetrics, zeroAggregate, aggregateBreakdown.
    rewrite !collectAll_without_confidence, !sumOrZero_zero, !concatZones_empty,
      mergeTimeSeries_empty;
      try reflexivity;
      (eapply List.Forall_impl; [| exact Hall]);
      intros r (id & name & ->); reflexivity.
  - clear Hall. induction H as [| id r ids rs [name ->] _ IH]; [reflexivity |].
    cbn. now rewrite IH.
  - eapply List.Forall_impl; [| exact Hall].
    intros r (id & name & ->). apply emptyMetrics_allZero.
Qed.

(** X4. When no account of a request has an enterprise zone (for each,
    the current-month cache misses and its zone list, cached or looked
    up, is empty), [getMetrics] answers 200, not an error: the aggregate
    has all totals 0, no confidence, an empty time series and empty zone
    lists, and one all-zero record per requested account, in order. The
    store is left as it was and no analytics query is made. *)
Theorem getMetrics_without_enterprise_zones (env : Env.t)
    (apiKey : option string) (body : RequestBody.t) (w : World.t) :
  Api.tokenMissing apiKey = false ->
  Progressive.parseAccountIds body <> [] ->
  (forall id, In id (Progressive.parseAccountIds body) ->
              currentMonthMiss env id (World.kv w)
              /\ discoveredZones env id (World.kv w) = Exec.Returned []) ->
  exists records w',
    Api.getMetrics queryAnalytics env apiKey body w =
      (Exec.Returned (Api.Ok (zeroAggregate records)), w')
    /\ map AccountMetrics.accountId records = Progressive.parseAccountIds body
    /\ List.Forall allZero records
    /\ World.kv w' = World.kv w
    /\ analyticsCalls w' = analyticsCalls w.
Proof.
  intros Htoken Hids Hzones.
  destruct (settle_without_zones env _ w Hzones)
    as (records & w' & Hrun & Hall & Hkv & Hcalls).
  destruct (aggregate_of_empty_records _ _ Hall) as (Hagg & Hmap & Hzero).
  exists records, w'.
  unfold Api.getMetrics. rewrite Htoken, (nonempty_length _ Hids).
  unfold Exec.bind. rewrite allSettled_run.
  unfold coreResults in Hrun. rewrite Hrun. cbn [fst snd].
  rewrite fulfilled_all.
  assert (records <> []) as Hne.
  { intros ->. apply Hids. now rewrite <- Hmap. }
  rewrite (nonempty_length _ Hne), Hagg. cbn [Exec.ret].
  repeat split; assumption.
Qed.

End ZeroZoneHandlerFacts.

Section HandlerExamples.

Import FetcherReference HandlerReference.

Lemma getMetrics_without_enterprise_zones_witness :
  exists records w',
    Api.getMetrics FetcherSample.queryAnalytics HandlerSample.noEnterpriseZone
      (Some "token") (HandlerSample.body ["acct"; "other"])
      ThresholdSample.emptyWorld =
      (Exec.Returned (Api.Ok (zeroAggregate records)), w')
    /\ map AccountMetrics.accountId records = ["acct"; "other"]
    /\ analyticsCalls w' = [].
Proof.
  destruct (getMetrics_without_enterprise_zones FetcherSample.queryAnalytics
              HandlerSample.noEnterpriseZone (Some "token")
              (HandlerSample.body ["acct"; "other"])
              ThresholdSample.emptyWorld eq_refl)
    as (records & w' & Hrun & Hmap & _ & _ & Hcalls).
  { discriminate. }
  { intros id [<- | [<- | []]]; split; reflexivity. }
  exists records, w'. split; [exact Hrun |]. split; [exact Hmap | exact Hcalls].
Defined.

Lemma getMetrics_fails_only_when_every_account_fails_witness :
  exists answer,
    fst (Api.getMetrics FetcherSample.queryAnalytics FetcherSample.badGateway
           (Some "token") (HandlerSample.body ["a"; "b"])
           ThresholdSample.emptyWorld) = Exec.Returned answer
    /\ answer = Api.ServerError "Failed to fetch metrics from any account".
Proof.
  destruct (getMetrics_fails_only_when_every_account_fails
              FetcherSample.queryAnalytics FetcherSample.badGateway (Some "token")
              (HandlerSample.body ["a"; "b"]) ThresholdSample.emptyWorld eq_refl)
    as (answer & Hrun & Hiff & _).
  { discriminate. }
  exists answer. rewrite Hrun. split; [reflexivity |].
  apply Hiff. vm_compute. repeat constructor.
Defined.

End HandlerExamples.
(** ** Cache status and stored configuration *)

Section StoreFacts.

Import Progressive.

Lemma prop_with_prop (k : string) (x v : Json.t) :
  Json.prop k (Json.with_prop k x v) = x.
Proof.
  unfold Json.with_prop. destruct v; cbn; rewrite ?String.eqb_refl; try reflexivity.
  now rewrite get_set_eq.
Qed.

(** X5. Whenever a progressive request is answered from the pre-warmed
    snapshot, the cache-status handler, asked at the same instant for
    the same accounts, reports that the snapshot exists, with the age
    the served answer carries as [cacheAge]; it changes nothing. So a
    status saying the snapshot does not exist means the request is
    computed afresh. *)
Theorem cache_status_agrees_with_served_snapshot (apiKey : option string)
    (body : RequestBody.t) (now : Z) (w : World.t) (payload : Json.t) :
  getMetricsProgressive apiKey body now (World.kv w) = Cached payload ->
  exists status,
    Api.getCacheStatus now body w = (Exec.Returned status, w)
    /\ CacheStatus.exists_ status = true
    /\ CacheStatus.age status = Json.prop "cacheAge" payload
    /\ CacheStatus.accountIds status = parseAccountIds body.
Proof.
  intros Hserved.
  unfold Api.getCacheStatus, Exec.bind, Exec.kvGet. cbn [Exec.ret].
  eexists. split; [reflexivity |]. cbn [CacheStatus.exists_ CacheStatus.age
    CacheStatus.accountIds].
  assert (exists key, apiKey = Some key /\ JsString.truthy key = true
                      /\ parseAccountIds body <> []) as (key & -> & Hkey & Hids).
  { unfold getMetricsProgressive in Hserved.
    destruct apiKey as [key |]; [| discriminate]. exists key.
    destruct (JsString.truthy key); [| discriminate].
    destruct (parseAccountIds body); [discriminate |]. now repeat split. }
  rewrite (getMetricsProgressive_cases key body now (World.kv w) Hkey Hids)
    in Hserved.
  cbn zeta in Hserved.
  destruct (Json.truthy (KV.getSnapshot now (preWarmedKey (parseAccountIds body))
                           (World.kv w))) eqn:Hthere;
    [| discriminate].
  destruct (_ && _ && _) in Hserved; [| discriminate].
  injection Hserved as <-. rewrite prop_with_prop.
  repeat split; reflexivity.
Qed.

Lemma cache_status_agrees_with_served_snapshot_witness :
  exists status,
    fst (Api.getCacheStatus 2000 (CacheSample.body ["a"])
           {| World.kv := CacheSample.store ["a"] CacheSample.withBot;
              World.calls := [] |}) = Exec.Returned status
    /\ CacheStatus.exists_ status = true
    /\ CacheStatus.age status = Json.Num 1000.
Proof.
  destruct (cache_status_agrees_with_served_snapshot (Some "token")
              (CacheSample.body ["a"]) 2000
              {| World.kv := CacheSample.store ["a"] CacheSample.withBot;
                 World.calls := [] |}
              _ eq_refl)
    as (status & Hrun & Hexists & Hage & _).
  exists status. rewrite Hrun. split; [reflexivity |].
  split; [exact Hexists |]. rewrite Hage. reflexivity.
Defined.

(** X6. A configuration saved for a user is what [getConfig] returns for
    that user afterwards, at any later instant (it is stored without a
    lifetime), provided the user id is absent (both handlers then use
    'default') or not the empty string. Saving answers success, adds no
    external request and leaves every other key of the store as it was. *)
Theorem saved_config_is_returned (userId : option string) (config : Config.t)
    (w : World.t) :
  userId <> Some EmptyString ->
  exists w',
    Api.saveConfig {| ConfigBody.userId := userId;
                      ConfigBody.config := Some config |} w
      = (Exec.Returned (Api.Ok true), w')
    /\ (forall now, Api.getConfig now userId w' = (Exec.Returned (Some config), w'))
    /\ World.calls w' = World.calls w
    /\ (forall key,
          key <> "config:" +:+ match userId with Some u => u | None => "default" end ->
          World.kv w' !! key = World.kv w !! key).
Proof.
  intros Huser.
  exists (World.setKv
            (Api.putForever
               ("config:" +:+ match userId with Some u => u | None => "default" end)
               (KV.VConfig config) (World.kv w)) w).
  split; [reflexivity |]. split; [| split; [reflexivity |]].
  - intros now. unfold Api.getConfig, Exec.kvGet. f_equal. f_equal.
    assert (match userId with
            | Some u => if JsString.truthy u then u else "default"
            | None => "default"
            end = match userId with Some u => u | None => "default" end) as ->.
    { destruct userId as [[| c u] |]; [now destruct Huser | reflexivity ..]. }
    cbn [World.kv World.setKv].
    unfold KV.getConfig, KV.get, Api.putForever. now rewrite lookup_insert_eq.
  - intros key Hkey. cbn [World.kv World.setKv].
    unfold Api.putForever. now rewrite lookup_insert_ne.
Qed.

Lemma saved_config_is_returned_witness :
  exists w',
    Api.saveConfig {| ConfigBody.userId := Some "team";
                      ConfigBody.config := Some ConfigSample.saved |}
      ConfigSample.world = (Exec.Returned (Api.Ok true), w')
    /\ Api.getConfig 0 (Some "team") w' = (Exec.Returned (Some ConfigSample.saved), w')
    /\ World.kv w' !! "config:default" = World.kv ConfigSample.world !! "config:default".
Proof.
  destruct (saved_config_is_returned (Some "team") ConfigSample.saved
              ConfigSample.world)
    as (w' & Hsave & Hget & _ & Hother).
  { discriminate. }
  exists w'. split; [exact Hsave |]. split; [apply Hget |].
  apply Hother. discriminate.
Defined.

End StoreFacts.
(** ** Cross-account aggregator: consistency and account order *)

Section AggregateInvariantFacts.

Import Aggregator Invariant.

Lemma zoneSum_app (f : Zone.t -> Js.num) (l l' : list Zone.t) :
  zoneSum f (l ++ l') = zoneSum f l + zoneSum f l'.
Proof.
  unfold zoneSum. induction l as [| z l IH]; cbn; [reflexivity |].
  cbn in IH. rewrite IH. lia.
Qed.

Lemma primaries_app (l l' : list Zone.t) :
  primaries (l ++ l') = primaries l + primaries l'.
Proof. unfold primaries. rewrite List.filter_app, length_app. lia. Qed.

Lemma concatZones_zonesOf (f : AccountMetrics.t -> Breakdown.t)
    (a : AccountMetrics.t) (l : list AccountMetrics.t) :
  concatZones f (a :: l) = zonesOf (f a) ++ concatZones f l.
Proof. apply concatZones_cons. Qed.

(** X7. Aggregation keeps the records consistent: when in every account
    each current total (requests, bytes, DNS queries) is the sum of that
    figure over the account's zones, its primary count is the number of
    its primary zones and its primary and secondary counts add up to its
    number of zones, the same holds of the aggregate and its combined
    zone list. *)
Theorem aggregate_keeps_totals_consistent (accountMetrics : list AccountMetrics.t) :
  List.Forall Invariant.account accountMetrics ->
  Invariant.aggregate (aggregateAccountMetrics accountMetrics).
Proof.
  unfold Invariant.aggregate, aggregateAccountMetrics, aggregateBreakdown.
  cbn [Aggregate.current Aggregate.zoneBreakdown AggTotals.requests AggTotals.bytes
       AggTotals.dnsQueries AggBreakdown.zones AggBreakdown.primary
       AggBreakdown.secondary].
  induction 1 as [| a l Ha _ IH].
  - cbn. repeat split; reflexivity.
  - destruct Ha as (Hr & Hb & Hd & Hp & Hc).
    destruct IH as (IHr & IHb & IHd & IHp & IHc).
    rewrite !sumOrZero_cons, concatZones_zonesOf, !zoneSum_app, primaries_app,
      length_app, IHr, IHb, IHd, IHp.
    repeat split; lia.
Qed.

Lemma aggregate_keeps_totals_consistent_witness :
  Invariant.aggregate
    (aggregateAccountMetrics [InvariantSample.accountA; InvariantSample.accountB])
  /\ AggTotals.requests
       (Aggregate.current
          (aggregateAccountMetrics
             [InvariantSample.accountA; InvariantSample.accountB])) = 145.
Proof.
  split; [| reflexivity].
  apply aggregate_keeps_totals_consistent.
  repeat constructor.
Defined.

End AggregateInvariantFacts.

Section AggregateOrderFacts.

Import Aggregator Reference.

Lemma add_swap (a x y : Js.num) : Js.add (Js.add a x) y = Js.add (Js.add a y) x.
Proof.
  destruct a, x, y; cbn; try reflexivity. f_equal. lia.
Qed.

Lemma fold_add_Permutation (xs ys : list Js.num) :
  Permutation xs ys ->
  forall a, fold_left Js.add xs a = fold_left Js.add ys a.
Proof.
  induction 1 as [| x xs ys _ IH | x y xs | xs ys zs _ IH1 _ IH2]; intros a; cbn.
  - reflexivity.
  - apply IH.
  - now rewrite add_swap.
  - now rewrite IH1.
Qed.

Lemma sum_Permutation (xs ys : list Js.num) :
  Permutation xs ys -> Js.sum xs = Js.sum ys.
Proof. intros H. unfold Js.sum. now apply fold_add_Permutation. Qed.

Lemma confidenceOfSum_Permutation (cs cs' : list Confidence.Confidence) :
  Permutation cs cs' -> confidenceOfSum cs = confidenceOfSum cs'.
Proof.
  intros H. unfold confidenceOfSum.
  destruct cs as [| c cs], cs' as [| c' cs'].
  - reflexivity.
  - now apply Permutation_nil in H.
  - symmetry in H. now apply Permutation_nil in H.
  - unfold summedInterval.
    rewrite (sum_Permutation _ _ (Permutation_map Confidence.c_estimate H)),
      (sum_Permutation _ _ (Permutation_map Confidence.c_lower H)),
      (sum_Permutation _ _ (Permutation_map Confidence.c_upper H)),
      (sum_Permutation _ _ (Permutation_map Confidence.c_sampleSize H)).
    reflexivity.
Qed.

Lemma omap_Permutation_list {A B} (f : A -> option B) (l l' : list A) :
  Permutation l l' -> Permutation (omap f l) (omap f l').
Proof.
  induction 1 as [| x xs ys _ IH | x y xs | xs ys zs _ IH1 _ IH2]; cbn.
  - constructor.
  - destruct (f x); [now constructor | exact IH].
  - destruct (f x), (f y); try reflexivity. apply perm_swap.
  - now transitivity (omap f ys).
Qed.

Lemma sumOrZero_Permutation {A} (f : A -> Js.num) (l l' : list A) :
  Permutation l l' -> sumOrZero f l = sumOrZero f l'.
Proof.
  induction 1 as [| x xs ys _ IH | x y xs | xs ys zs _ IH1 _ IH2].
  - reflexivity.
  - now rewrite !sumOrZero_cons, IH.
  - rewrite !sumOrZero_cons. lia.
  - now rewrite IH1.
Qed.

Lemma concatZones_Permutation (f : AccountMetrics.t -> Breakdown.t)
    (l l' : list AccountMetrics.t) :
  Permutation l l' -> Permutation (concatZones f l) (concatZones f l').
Proof.
  induction 1 as [| x xs ys _ IH | x y xs | xs ys zs _ IH1 _ IH2].
  - reflexivity.
  - rewrite !concatZones_cons. now apply Permutation_app_head.
  - rewrite !concatZones_cons, !app_assoc.
    apply Permutation_app_tail, Permutation_app_comm.
  - now transitivity (concatZones f ys).
Qed.

Lemma allEntries_Permutation (l l' : list AccountMetrics.t) :
  Permutation l l' -> Permutation (allEntries l) (allEntries l').
Proof.
  induction 1 as [| x xs ys _ IH | x y xs | xs ys zs _ IH1 _ IH2]; cbn.
  - constructor.
  - now apply Permutation_app_head.
  - rewrite !app_assoc. apply Permutation_app_tail, Permutation_app_comm.
  - now transitivity (allEntries ys).
Qed.

Lemma ofMonth_Permutation (m : string) (es es' : list Entry.t) :
  Permutation es es' -> Permutation (ofMonth m es) (ofMonth m es').
Proof.
  unfold ofMonth.
  induction 1 as [| x xs ys _ IH | x y xs | xs ys zs _ IH1 _ IH2]; cbn.
  - constructor.
  - destruct (String.eqb _ m); [now constructor | exact IH].
  - destruct (String.eqb (Entry.month x) m), (String.eqb (Entry.month y) m);
      try reflexivity. apply perm_swap.
  - now transitivity (List.filter (fun x => String.eqb (Entry.month x) m) ys).
Qed.

Lemma total_Permutation (f : Entry.t -> Js.num) (es es' : list Entry.t) :
  Permutation es es' -> total f es = total f es'.
Proof.
  unfold total.
  induction 1 as [| x xs ys _ IH | x y xs | xs ys zs _ IH1 _ IH2]; cbn.
  - reflexivity.
  - now rewrite IH.
  - lia.
  - now rewrite IH1.
Qed.

Lemma timeSeries_In (l : list AccountMetrics.t) (e : Entry.t) :
  In e (mergeTimeSeries l) <-> exists m, summed (ofMonth m (allEntries l)) = Some e.
Proof.
  unfold mergeTimeSeries. rewrite fold_mergeAccount, <- merged_values.
  split; apply Permutation_in; [| symmetry]; apply sort_Permutation.
Qed.

(** X8. The order in which the accounts are aggregated does not matter
    for any figure: two lists of the same per-account records in
    different orders give the same current totals with the same three
    combined confidence values, the same previous totals and the same
    primary and secondary counts; the same zones up to order; and, for
    every month of the merged time series, an entry of that month with
    the same requests, bytes and DNS queries. *)
Theorem aggregation_ignores_account_order (l l' : list AccountMetrics.t) :
  Permutation l l' ->
  Aggregate.current (aggregateAccountMetrics l)
    = Aggregate.current (aggregateAccountMetrics l')
  /\ Aggregate.previous (aggregateAccountMetrics l)
     = Aggregate.previous (aggregateAccountMetrics l')
  /\ AggBreakdown.primary (Aggregate.zoneBreakdown (aggregateAccountMetrics l))
     = AggBreakdown.primary (Aggregate.zoneBreakdown (aggregateAccountMetrics l'))
  /\ AggBreakdown.secondary (Aggregate.zoneBreakdown (aggregateAccountMetrics l))
     = AggBreakdown.secondary (Aggregate.zoneBreakdown (aggregateAccountMetrics l'))
  /\ Permutation
       (AggBreakdown.zones (Aggregate.zoneBreakdown (aggregateAccountMetrics l)))
       (AggBreakdown.zones (Aggregate.zoneBreakdown (aggregateAccountMetrics l')))
  /\ forall e,
       In e (Aggregate.timeSeries (aggregateAccountMetrics l)) ->
       exists e',
         In e' (Aggregate.timeSeries (aggregateAccountMetrics l'))
         /\ Entry.month e' = Entry.month e
         /\ Entry.requests e' = Entry.requests e
         /\ Entry.bytes e' = Entry.bytes e
         /\ Entry.dnsQueries e' = Entry.dnsQueries e.
Proof.
  intros H. unfold aggregateAccountMetrics, aggregateBreakdown.
  cbn [Aggregate.current Aggregate.previous Aggregate.zoneBreakdown
       Aggregate.timeSeries AggBreakdown.primary AggBreakdown.secondary
       AggBreakdown.zones].
  rewrite !aggregateConfidence_collectAll.
  rewrite !(sumOrZero_Permutation _ l l' H).
  rewrite !(confidenceOfSum_Permutation _ _ (omap_Permutation_list _ l l' H)).
  split; [reflexivity |]. split; [reflexivity |]. split; [reflexivity |].
  split; [reflexivity |]. split; [now apply concatZones_Permutation |].
  intros e He. apply timeSeries_In in He as (m & Hm).
  pose proof (ofMonth_Permutation m _ _ (allEntries_Permutation _ _ H)) as Hperm.
  destruct (ofMonth m (allEntries l)) as [| x group] eqn:E; [discriminate |].
  destruct (ofMonth m (allEntries l')) as [| x' group'] eqn:E';
    [symmetry in Hperm; now apply Permutation_nil in Hperm |].
  injection Hm as <-.
  exists {| Entry.month := Entry.month x';
            Entry.timestamp := Entry.timestamp x';
            Entry.requests := Some (total Entry.requests (x' :: group'));
            Entry.bytes := Some (total Entry.bytes (x' :: group'));
            Entry.dnsQueries := Some (total Entry.dnsQueries (x' :: group')) |}.
  split.
  - apply timeSeries_In. exists m. now rewrite E'.
  - cbn [Entry.month Entry.requests Entry.bytes Entry.dnsQueries].
    rewrite (ofMonth_month m (allEntries l) x) by (rewrite E; now left).
    rewrite (ofMonth_month m (allEntries l') x') by (rewrite E'; now left).
    rewrite !(total_Permutation _ _ _ Hperm). repeat split; reflexivity.
Qed.

Lemma aggregation_ignores_account_order_witness :
  Aggregate.current (aggregateAccountMetrics [Sample.accountA; Sample.accountB])
  = Aggregate.current (aggregateAccountMetrics [Sample.accountB; Sample.accountA]).
Proof.
  apply (aggregation_ignores_account_order [Sample.accountA; Sample.accountB]
           [Sample.accountB; Sample.accountA]).
  apply perm_swap.
Defined.

End AggregateOrderFacts.
(** ** Per-account fetcher: the current-month block *)

Section AnalyticsFacts.

Import Analytics AnalyticsReference Invariant.

Lemma zoneSum_snoc (f : Zone.t -> Js.num) (l : list Zone.t) (z : Zone.t) :
  zoneSum f (l ++ [z]) = zoneSum f l + Js.orZero (f z).
Proof. rewrite zoneSum_app. unfold zoneSum. cbn. lia. Qed.

(** What the zone loop adds to its state. *)
Lemma processZones_fold (enterpriseZones : list EnterpriseZone.t)
    (zones : list ZoneStats.t) (st : CurrentMonth.t) :
  exists added,
    CurrentMonth.zoneMetrics (fold_left (addZone enterpriseZones) zones st)
      = CurrentMonth.zoneMetrics st ++ added
    /\ CurrentMonth.requests (fold_left (addZone enterpriseZones) zones st)
       = CurrentMonth.requests st + zoneSum Zone.requests added
    /\ CurrentMonth.bytes (fold_left (addZone enterpriseZones) zones st)
       = CurrentMonth.bytes st + zoneSum Zone.bytes added
    /\ map Zone.zoneTag added = map ZoneStats.zoneTag zones
    /\ List.Forall
         (fun z => Zone.isPrimary z
                   = (SECONDARY_ZONE_THRESHOLD <=? Js.orZero (Zone.bytes z)))
         added.
Proof.
  revert st. induction zones as [| zone zones IH]; intros st.
  - exists []. cbn. rewrite app_nil_r. repeat split; try lia. constructor.
  - cbn [fold_left]. destruct (IH (addZone enterpriseZones st zone))
      as (added & Hz & Hr & Hb & Htags & Hprim).
    eexists (_ :: added). rewrite Hz, Hr, Hb.
    cbn [addZone CurrentMonth.zoneMetrics CurrentMonth.requests CurrentMonth.bytes].
    rewrite <- app_assoc. split; [reflexivity |].
    unfold zoneSum. cbn [map fold_right Zone.requests Zone.bytes Zone.zoneTag].
    assert (forall n, Js.orZero (Some n) = n) as Hor
      by (intros n; unfold Js.orZero, Js.orNum; destruct (Z.eqb_spec n 0); lia).
    rewrite !Hor. split; [lia |]. split; [lia |].
    split; [now rewrite Htags |].
    constructor; [| exact Hprim]. cbn [Zone.isPrimary Zone.bytes]. now rewrite Hor.
Qed.

Lemma dnsResult_run (aenv : AnalyticsEnv.t) (zoneTag : string) (w : World.t) :
  Exec.catch (r <- dnsResult aenv zoneTag ;; Exec.ret (Some r))%exec
             (fun _ => Exec.ret None) w =
  (Exec.Returned
     match AnalyticsEnv.dnsApi aenv zoneTag with
     | Http.NetworkError | Http.Response _ None => None
     | Http.Response true (Some (Some queryData)) =>
       Some (Js.orZero (DnsTotals.count queryData), DnsTotals.confidence queryData)
     | Http.Response _ (Some _) => Some (0, None)
     end,
   World.call (Call.Analytics "DnsTotals") w).
Proof.
  unfold Exec.catch, Exec.bind, dnsResult, Exec.request.
  destruct (AnalyticsEnv.dnsApi aenv zoneTag) as [| ok [[queryData |] |]];
    try destruct ok; reflexivity.
Qed.

Lemma fetchDns_run (aenv : AnalyticsEnv.t) (zoneMetrics : list Zone.t)
    (total : Z) (conf : Aggregator.Collected) (done : list Zone.t) (w : World.t) :
  exists conf',
    fetchDns aenv zoneMetrics total conf done w =
    (Exec.Returned
       (total + fold_right Z.add 0
                  (map (fun z => dnsCount aenv (Zone.zoneTag z)) zoneMetrics),
        conf',
        done ++ map (fun z => withDns z (dnsCount aenv (Zone.zoneTag z)))
                    zoneMetrics),
     {| World.kv := World.kv w;
        World.calls := World.calls w ++ dnsCalls zoneMetrics |}).
Proof.
  revert total conf done w.
  induction zoneMetrics as [| z zs IH]; intros total conf done w.
  - exists conf. cbn. rewrite !app_nil_r, Z.add_0_r. now destruct w.
  - cbn [fetchDns]. unfold Exec.bind at 1. rewrite dnsResult_run.
    unfold dnsCalls. cbn [map fold_right].
    pose proof (eq_refl (dnsCount aenv (Zone.zoneTag z))) as Hc.
    unfold dnsCount at 2 in Hc.
    destruct (AnalyticsEnv.dnsApi aenv (Zone.zoneTag z))
      as [| ok [[queryData |] |]]; try destruct ok;
      match goal with
      | |- context [fetchDns aenv zs ?t ?c ?d ?w1] =>
        destruct (IH t c d w1) as (conf' & ->)
      end;
      exists conf'; rewrite Hc; cbn [World.call World.kv World.calls];
      rewrite <- !app_assoc; cbn [app];
      rewrite ?Z.add_0_l, ?Z.add_0_r, ?Z.add_assoc; reflexivity.
Qed.

(** The record a run of the analytics path returns, and the cache entry
    it leaves. *)
Lemma queryAnalytics_returned (aenv : AnalyticsEnv.t) (env : Env.t)
    (accountId : string) (accountName : option string)
    (enterpriseZones : list EnterpriseZone.t) (w w' : World.t)
    (r : AccountMetrics.t) :
  queryAnalytics aenv env accountId accountName enterpriseZones w
    = (Exec.Returned r, w') ->
  exists zones,
    AnalyticsEnv.zoneStats aenv accountId = Http.Response true (Some zones)
    /\ zones <> []
    /\ AccountMetrics.accountId r = accountId
    /\ Totals.requests (AccountMetrics.current r)
       = Some (CurrentMonth.requests (processZones enterpriseZones zones))
    /\ Totals.bytes (AccountMetrics.current r)
       = Some (CurrentMonth.bytes (processZones enterpriseZones zones))
    /\ Totals.dnsQueries (AccountMetrics.current r)
       = Some (fold_right Z.add 0
                 (map (fun z => dnsCount aenv (Zone.zoneTag z))
                      (CurrentMonth.zoneMetrics (processZones enterpriseZones zones))))
    /\ AccountMetrics.zoneBreakdown r
       = (let zoneMetrics :=
            map (fun z => withDns z (dnsCount aenv (Zone.zoneTag z)))
                (CurrentMonth.zoneMetrics (processZones enterpriseZones zones)) in
          {| Breakdown.primary := Some (primaryCount zoneMetrics);
             Breakdown.secondary := Some (secondaryCount zoneMetrics);
             Breakdown.zones := Some zoneMetrics |})
    /\ World.kv w' !! Fetcher.currentMonthCacheKey (Env.now env) accountId
       = Some (KV.VCurrentMonth
                 {| CurrentMonthCache.version := Some Fetcher.CACHE_VERSION;
                    CurrentMonthCache.cachedAt := Some (JsDate.getTime (Env.now env));
                    CurrentMonthCache.data := r |},
               Some (JsDate.getTime (Env.now env) + 600 * 1000)).
Proof.
  unfold queryAnalytics. unfold Exec.bind at 1, Exec.request.
  destruct (AnalyticsEnv.zoneStats aenv accountId) as [| ok [zones |]];
    try discriminate.
  destruct ok; cbn [negb]; [| discriminate].
  destruct (Z.eqb_spec (Z.of_nat (length zones)) 0) as [| Hlen]; [discriminate |].
  unfold Exec.bind at 1.
  destruct (fetchDns_run aenv
              (CurrentMonth.zoneMetrics (processZones enterpriseZones zones))
              0 Aggregator.noneCollected []
              (World.call (Call.Analytics "GetEnterpriseZoneStats") w))
    as (conf' & ->).
  unfold Exec.bind at 1.
  destruct (AnalyticsEnv.previousMonth aenv accountId enterpriseZones _)
    as [[[previousMonthStats prevZoneMetrics] | e] w1]; [| discriminate].
  unfold Exec.bind at 1.
  destruct (AnalyticsEnv.historical aenv accountId w1)
    as [[historicalData | e] w2]; [| discriminate].
  unfold Exec.bind, Exec.kvPut, Exec.ret.
  intros [= <- <-]. exists zones.
  split; [reflexivity |]. split; [intros ->; now apply Hlen |].
  cbn [AccountMetrics.accountId AccountMetrics.current AccountMetrics.zoneBreakdown
       Totals.requests Totals.bytes Totals.dnsQueries app World.kv World.setKv].
  repeat (split; [reflexivity |]).
  unfold KV.put. now rewrite lookup_insert_eq.
Qed.

Lemma queryAnalytics_returns (aenv : AnalyticsEnv.t) (env : Env.t)
    (accountId : string) (accountName : option string)
    (enterpriseZones : list EnterpriseZone.t) (zones : list ZoneStats.t)
    (w : World.t) :
  AnalyticsEnv.zoneStats aenv accountId = Http.Response true (Some zones) ->
  zones <> [] ->
  returns (AnalyticsEnv.previousMonth aenv accountId enterpriseZones) ->
  returns (AnalyticsEnv.historical aenv accountId) ->
  exists r w',
    queryAnalytics aenv env accountId accountName enterpriseZones w
      = (Exec.Returned r, w').
Proof.
  intros Hstats Hne Hprev Hhist.
  unfold queryAnalytics. unfold Exec.bind at 1, Exec.request. rewrite Hstats.
  cbn [negb]. rewrite (nonempty_length _ Hne).
  unfold Exec.bind at 1.
  destruct (fetchDns_run aenv
              (CurrentMonth.zoneMetrics (processZones enterpriseZones zones))
              0 Aggregator.noneCollected []
              (World.call (Call.Analytics "GetEnterpriseZoneStats") w))
    as (conf' & ->).
  unfold Exec.bind at 1.
  match goal with
  | |- context [AnalyticsEnv.previousMonth aenv accountId enterpriseZones ?w0] =>
    destruct (Hprev w0) as ([previousMonthStats prevZoneMetrics] & w1 & ->)
  end.
  unfold Exec.bind at 1. destruct (Hhist w1) as (historicalData & w2 & ->).
  unfold Exec.bind, Exec.kvPut, Exec.ret. now eexists _, _.
Qed.

Lemma orZero_some (n : Z) : Js.orZero (Some n) = n.
Proof. unfold Js.orZero, Js.orNum. destruct (Z.eqb_spec n 0); lia. Qed.

Lemma zoneSum_withDns_other (f : Zone.t -> Js.num) (count : Zone.t -> Z)
    (l : list Zone.t) :
  (forall z n, f (withDns z n) = f z) ->
  zoneSum f (map (fun z => withDns z (count z)) l) = zoneSum f l.
Proof.
  intros Hf. unfold zoneSum. rewrite map_map. f_equal.
  apply map_ext. intros z. now rewrite Hf.
Qed.

Lemma zoneSum_withDns (count : Zone.t -> Z) (l : list Zone.t) :
  zoneSum Zone.dnsQueries (map (fun z => withDns z (count z)) l)
  = fold_right Z.add 0 (map count l).
Proof.
  unfold zoneSum. rewrite map_map. f_equal.
  apply map_ext. intros z. cbn [withDns Zone.dnsQueries]. apply orZero_some.
Qed.

Lemma filter_split_length {A} (p : A -> bool) (l : list A) :
  Z.of_nat (length (List.filter p l))
  + Z.of_nat (length (List.filter (fun x => negb (p x)) l))
  = Z.of_nat (length l).
Proof.
  induction l as [| a l IH]; [reflexivity |].
  cbn [List.filter]. destruct (p a); cbn [negb length]; lia.
Qed.

(** The facts about the zone metrics of a returned record that the two
    theorems below share. *)
Lemma returned_zone_metrics (aenv : AnalyticsEnv.t) (env : Env.t)
    (accountId : string) (accountName : option string)
    (enterpriseZones : list EnterpriseZone.t) (w w' : World.t)
    (r : AccountMetrics.t) :
  queryAnalytics aenv env accountId accountName enterpriseZones w
    = (Exec.Returned r, w') ->
  exists zones added,
    AnalyticsEnv.zoneStats aenv accountId = Http.Response true (Some zones)
    /\ zonesOf (AccountMetrics.zoneBreakdown r)
       = map (fun z => withDns z (dnsCount aenv (Zone.zoneTag z))) added
    /\ map Zone.zoneTag added = map ZoneStats.zoneTag zones
    /\ List.Forall
         (fun z => Zone.isPrimary z
                   = (SECONDARY_ZONE_THRESHOLD <=? Js.orZero (Zone.bytes z)))
         added
    /\ Invariant.account r.
Proof.
  intros Hrun.
  destruct (queryAnalytics_returned _ _ _ _ _ _ _ _ Hrun)
    as (zones & Hstats & _ & _ & Hr & Hb & Hd & Hz & _).
  destruct (processZones_fold enterpriseZones zones
              {| CurrentMonth.requests := 0; CurrentMonth.bytes := 0;
                 CurrentMonth.requestsConfidence := Aggregator.noneCollected;
                 CurrentMonth.bytesConfidence := Aggregator.noneCollected;
                 CurrentMonth.zoneMetrics := [] |})
    as (added & Hzm & Hreq & Hbytes & Htags & Hprim).
  fold (processZones enterpriseZones zones) in Hzm, Hreq, Hbytes.
  cbn [CurrentMonth.zoneMetrics CurrentMonth.requests CurrentMonth.bytes app]
    in Hzm, Hreq, Hbytes.
  rewrite Hzm in Hd, Hz. rewrite Hreq in Hr. rewrite Hbytes in Hb.
  exists zones, added. split; [exact Hstats |].
  cbn zeta in Hz.
  split; [now rewrite Hz |]. split; [exact Htags |]. split; [exact Hprim |].
  unfold Invariant.account. cbn zeta. rewrite Hr, Hb, Hd, Hz.
  cbn [zonesOf Breakdown.zones Breakdown.primary Breakdown.secondary].
  rewrite !orZero_some, zoneSum_withDns.
  rewrite !zoneSum_withDns_other by reflexivity.
  split; [lia |]. split; [lia |]. split; [reflexivity |].
  split; [reflexivity |].
  unfold primaryCount, secondaryCount. apply filter_split_length.
Qed.

(** X9. When the analytics service answers OK with at least one zone
    (and the previous-month block and the history lookup end normally),
    the fetcher returns a record that is consistent: its current
    requests, bytes and DNS queries are the sums of those figures over
    the zones of its breakdown, which lists the zones the service
    reported, once each and in that order; a zone is primary exactly
    when its bytes reach 50 GiB (53 687 091 200), and the primary and
    secondary counts add up to the number of zones. *)
Theorem analytics_record_is_consistent (aenv : AnalyticsEnv.t) (env : Env.t)
    (accountId : string) (accountName : option string)
    (enterpriseZones : list EnterpriseZone.t) (zones : list ZoneStats.t)
    (w : World.t) :
  AnalyticsEnv.zoneStats aenv accountId = Http.Response true (Some zones) ->
  zones <> [] ->
  returns (AnalyticsEnv.previousMonth aenv accountId enterpriseZones) ->
  returns (AnalyticsEnv.historical aenv accountId) ->
  exists r w',
    queryAnalytics aenv env accountId accountName enterpriseZones w
      = (Exec.Returned r, w')
    /\ Invariant.account r
    /\ map Zone.zoneTag (zonesOf (AccountMetrics.zoneBreakdown r))
       = map ZoneStats.zoneTag zones
    /\ List.Forall
         (fun z => Zone.isPrimary z = true
                   <-> 53687091200 <= Js.orZero (Zone.bytes z))
         (zonesOf (AccountMetrics.zoneBreakdown r)).
Proof.
  intros Hstats Hne Hprev Hhist.
  destruct (queryAnalytics_returns aenv env accountId accountName enterpriseZones
              zones w Hstats Hne Hprev Hhist) as (r & w' & Hrun).
  exists r, w'. split; [exact Hrun |].
  destruct (returned_zone_metrics _ _ _ _ _ _ _ _ Hrun)
    as (zones' & added & Hstats' & Hz & Htags & Hprim & Hinv).
  rewrite Hstats in Hstats'. injection Hstats' as <-.
  split; [exact Hinv |]. rewrite Hz. split.
  - rewrite map_map. exact Htags.
  - apply List.Forall_forall. intros z Hin.
    apply in_map_iff in Hin as (z0 & <- & Hin0).
    rewrite List.Forall_forall in Hprim. cbn [withDns Zone.isPrimary Zone.bytes].
    rewrite (Hprim z0 Hin0). unfold SECONDARY_ZONE_THRESHOLD.
    change (50 * 1024 ^ 3) with 53687091200. apply Z.leb_le.
Qed.

(** X10. A failing DNS query fails neither the fetch nor the other
    zones: under the same conditions, whatever each zone's DNS query
    does, every zone of the returned record carries the DNS count its
    own query reported, and 0 when that query was rejected, answered
    with a body that is not JSON, was not OK or reported no totals; the
    account's DNS total is the sum of these. *)
Theorem dns_failure_counts_as_zero (aenv : AnalyticsEnv.t) (env : Env.t)
    (accountId : string) (accountName : option string)
    (enterpriseZones : list EnterpriseZone.t) (zones : list ZoneStats.t)
    (w : World.t) :
  AnalyticsEnv.zoneStats aenv accountId = Http.Response true (Some zones) ->
  zones <> [] ->
  returns (AnalyticsEnv.previousMonth aenv accountId enterpriseZones) ->
  returns (AnalyticsEnv.historical aenv accountId) ->
  exists r w',
    queryAnalytics aenv env accountId accountName enterpriseZones w
      = (Exec.Returned r, w')
    /\ List.Forall
         (fun z => Zone.dnsQueries z = Some (dnsCount aenv (Zone.zoneTag z))
                   /\ (dnsFailed aenv (Zone.zoneTag z) ->
                       Zone.dnsQueries z = Some 0))
         (zonesOf (AccountMetrics.zoneBreakdown r))
    /\ Totals.dnsQueries (AccountMetrics.current r)
       = Some (fold_right Z.add 0
                 (map (fun z => dnsCount aenv (Zone.zoneTag z))
                      (zonesOf (AccountMetrics.zoneBreakdown r)))).
Proof.
  intros Hstats Hne Hprev Hhist.
  destruct (queryAnalytics_returns aenv env accountId accountName enterpriseZones
              zones w Hstats Hne Hprev Hhist) as (r & w' & Hrun).
  exists r, w'. split; [exact Hrun |].
  destruct (queryAnalytics_returned _ _ _ _ _ _ _ _ Hrun)
    as (zones' & _ & _ & _ & _ & _ & Hd & Hz & _).
  rewrite Hz, Hd. cbn zeta. cbn [zonesOf Breakdown.zones]. split.
  - apply List.Forall_forall. intros z Hin.
    apply in_map_iff in Hin as (z0 & <- & _).
    cbn [withDns Zone.dnsQueries Zone.zoneTag]. split; [reflexivity |].
    unfold dnsFailed, dnsCount.
    destruct (AnalyticsEnv.dnsApi aenv (Zone.zoneTag z0))
      as [| [] [[queryData |] |]]; intros H; now try destruct H.
  - rewrite map_map. reflexivity.
Qed.

End AnalyticsFacts.

Section CurrentMonthCacheFacts.

Import Fetcher Analytics AnalyticsReference.

Lemma currentMonthCacheKey_sameHour (d d' : JsDate.t) (accountId : string) :
  sameHour d d' -> currentMonthCacheKey d' accountId = currentMonthCacheKey d accountId.
Proof.
  intros (Hy & Hm & Hd & Hh). unfold currentMonthCacheKey.
  now rewrite Hy, Hm, Hd, Hh.
Qed.

(** X11. The record a fetch computes from the analytics service is
    served again from the current-month cache: a later fetch of the same
    account, at an instant of the same hour of the same day and less
    than 10 minutes after the first, with the cache entry still in the
    store, returns that same record; its only external request is the
    account-name lookup (no zone list, no analytics query) and it writes
    nothing. *)
Theorem current_month_cache_serves_recent_record (aenv : AnalyticsEnv.t)
    (env : Env.t) (accountId : string) (accountName : option string)
    (enterpriseZones : list EnterpriseZone.t) (w w1 : World.t)
    (r : AccountMetrics.t)
    (queryAnalytics' : Env.t -> string -> option string ->
                       list EnterpriseZone.t -> Exec.M AccountMetrics.t)
    (env' : Env.t) (w2 : World.t) :
  queryAnalytics aenv env accountId accountName enterpriseZones w
    = (Exec.Returned r, w1) ->
  sameHour (Env.now env) (Env.now env') ->
  JsDate.getTime (Env.now env) <> 0 ->
  JsDate.getTime (Env.now env') < JsDate.getTime (Env.now env) + 10 * 60 * 1000 ->
  World.kv w2 !! currentMonthCacheKey (Env.now env) accountId
    = World.kv w1 !! currentMonthCacheKey (Env.now env) accountId ->
  fetchAccountMetrics queryAnalytics' env' accountId w2
    = (Exec.Returned r, World.call (Call.AccountLookup accountId) w2).
Proof.
  intros Hrun Hhour Hnonzero Hrecent Hstore.
  destruct (queryAnalytics_returned _ _ _ _ _ _ _ _ Hrun)
    as (_ & _ & _ & _ & _ & _ & _ & _ & Hcached).
  rewrite <- Hstore in Hcached.
  destruct (fetchAccountName_returns env' accountId w2) as [name Hname].
  unfold fetchAccountMetrics, Exec.bind at 1. rewrite Hname.
  unfold Exec.bind at 1, Exec.kvGet at 1. cbn [World.call World.kv].
  rewrite (currentMonthCacheKey_sameHour _ _ _ Hhour).
  unfold KV.getCurrentMonth, KV.get. rewrite Hcached.
  replace (JsDate.getTime (Env.now env') <? JsDate.getTime (Env.now env) + 600 * 1000)
    with true by (symmetry; apply Z.ltb_lt; lia).
  unfold freshCurrentMonth.
  cbn [CurrentMonthCache.cachedAt CurrentMonthCache.version CurrentMonthCache.data].
  replace (JsDate.getTime (Env.now env) =? 0) with false
    by (symmetry; now apply Z.eqb_neq).
  replace (JsDate.getTime (Env.now env') - JsDate.getTime (Env.now env)
           <? 10 * 60 * 1000) with true by (symmetry; apply Z.ltb_lt; lia).
  reflexivity.
Qed.

End CurrentMonthCacheFacts.

Section AnalyticsExamples.

Import Analytics AnalyticsReference Invariant.

Lemma sample_returns {A} (a : A) : returns (Exec.ret a).
Proof. intros w. now exists a, w. Qed.

Lemma analytics_record_is_consistent_witness :
  exists r w',
    queryAnalytics AnalyticsSample.aenv AnalyticsSample.env "a" (Some "Acme")
      AnalyticsSample.zones ThresholdSample.emptyWorld = (Exec.Returned r, w')
    /\ Invariant.account r
    /\ map Zone.zoneTag (zonesOf (AccountMetrics.zoneBreakdown r)) = ["z1"; "z3"].
Proof.
  destruct (analytics_record_is_consistent AnalyticsSample.aenv
              AnalyticsSample.env "a" (Some "Acme") AnalyticsSample.zones
              _ ThresholdSample.emptyWorld eq_refl)
    as (r & w' & Hrun & Hinv & Htags & _).
  { discriminate. }
  { apply sample_returns. }
  { apply sample_returns. }
  exists r, w'. split; [exact Hrun |]. split; [exact Hinv | exact Htags].
Defined.

Lemma dns_failure_counts_as_zero_witness :
  exists r w',
    queryAnalytics AnalyticsSample.aenv AnalyticsSample.env "a" (Some "Acme")
      AnalyticsSample.zones ThresholdSample.emptyWorld = (Exec.Returned r, w')
    /\ Totals.dnsQueries (AccountMetrics.current r) = Some 7
    /\ map Zone.dnsQueries (zonesOf (AccountMetrics.zoneBreakdown r))
       = [Some 7; Some 0].
Proof.
  destruct (dns_failure_counts_as_zero AnalyticsSample.aenv
              AnalyticsSample.env "a" (Some "Acme") AnalyticsSample.zones
              _ ThresholdSample.emptyWorld eq_refl)
    as (r & w' & Hrun & _ & Htotal).
  { discriminate. }
  { apply sample_returns. }
  { apply sample_returns. }
  exists r, w'. split; [exact Hrun |].
  vm_compute in Hrun. injection Hrun as <- _. split; reflexivity.
Defined.

Lemma current_month_cache_serves_recent_record_witness :
  exists r w1,
    queryAnalytics AnalyticsSample.aenv AnalyticsSample.env "a" (Some "Acme")
      AnalyticsSample.zones ThresholdSample.emptyWorld = (Exec.Returned r, w1)
    /\ Fetcher.fetchAccountMetrics FetcherSample.queryAnalytics
         AnalyticsSample.later "a" w1
       = (Exec.Returned r, World.call (Call.AccountLookup "a") w1).
Proof.
  destruct (queryAnalytics_returns AnalyticsSample.aenv AnalyticsSample.env "a"
              (Some "Acme") AnalyticsSample.zones _ ThresholdSample.emptyWorld
              eq_refl)
    as (r & w1 & Hrun).
  { discriminate. }
  { apply sample_returns. }
  { apply sample_returns. }
  exists r, w1. split; [exact Hrun |].
  apply (current_month_cache_serves_recent_record _ _ _ _ _ _ _ _
           FetcherSample.queryAnalytics AnalyticsSample.later w1 Hrun).
  - repeat split; reflexivity.
  - vm_compute. discriminate.
  - vm_compute. reflexivity.
  - reflexivity.
Defined.

End AnalyticsExamples.
(** ** Zone-based add-ons of one account *)

Section AddonCalcFacts.

Import AddonCalc AddonReference Invariant.

Variable getHistoricalAddonData : string -> string -> Exec.M (list AddonEntry.t).

Lemma totalRequests_fold (zs : list AddonZone.t) (z : Z) :
  fold_left (fun sum zone => sum + Js.orZero (AddonZone.requests zone)) zs z
  = z + totalRequests zs.
Proof.
  unfold totalRequests. revert z. induction zs as [| a zs IH]; intros z; cbn [fold_left].
  - lia.
  - rewrite IH, (IH (0 + _)). lia.
Qed.

Lemma totalRequests_selected (l : list Zone.t) :
  totalRequests (map toAddonZone l) = zoneSum Zone.requests l.
Proof.
  induction l as [| z l IH]; [reflexivity |].
  unfold totalRequests. cbn [map fold_left]. rewrite totalRequests_fold, IH.
  unfold zoneSum. cbn [map fold_right toAddonZone AddonZone.requests].
  rewrite orZero_some. lia.
Qed.

Lemma selectZones_covered (zones : list string) (accountData : AccountMetrics.t) :
  selectZones zones (AccountMetrics.zoneBreakdown accountData)
  = map toAddonZone (coveredZones zones accountData).
Proof. reflexivity. Qed.

Lemma covered_none (accountData : AccountMetrics.t) :
  coveredZones [] accountData = [].
Proof. unfold coveredZones. apply filter_none. reflexivity. Qed.

(** The run when the add-on does not apply: nothing is read or written. *)
Lemma calculate_inapplicable (now : JsDate.t) (accountData : AccountMetrics.t)
    (addonConfig : option AddonConfig.t) (addonType : string) (w : World.t) :
  applicable addonConfig accountData = false ->
  calculateZoneBasedAddonForAccount getHistoricalAddonData now accountData
    addonConfig addonType w = (Exec.Returned None, w).
Proof.
  unfold applicable, calculateZoneBasedAddonForAccount, configuredZones.
  destruct addonConfig as [cfg |]; [| reflexivity].
  destruct (AddonConfig.enabled cfg) as [[|] |]; try reflexivity.
  destruct (AddonConfig.zones cfg) as [[| zone zones] |]; try reflexivity.
  rewrite selectZones_covered, length_map.
  destruct (Z.of_nat (length (coveredZones (zone :: zones) accountData)) =? 0);
    [reflexivity | discriminate].
Qed.

(** The run when it applies, given what the history lookup does. *)
Lemma calculate_applicable (now : JsDate.t) (accountData : AccountMetrics.t)
    (addonConfig : option AddonConfig.t) (addonType : string) (w w1 : World.t)
    (historicalData : list AddonEntry.t) :
  applicable addonConfig accountData = true ->
  getHistoricalAddonData (AccountMetrics.accountId accountData) addonType w
    = (Exec.Returned historicalData, w1) ->
  calculateZoneBasedAddonForAccount getHistoricalAddonData now accountData
    addonConfig addonType w =
  (let zones := configuredZones addonConfig in
   let currentZones := map toAddonZone (coveredZones zones accountData) in
   let previousZones := map toAddonZone (coveredPrevious zones accountData) in
   (Exec.Returned
      (Some {| AddonData.current :=
                 {| AddonCurrent.requests := Some (totalRequests currentZones);
                    AddonCurrent.zones := currentZones;
                    AddonCurrent.confidence :=
                      Aggregator.confidenceOf ConfidenceSet.requests accountData |};
               AddonData.previous :=
                 {| AddonPrevious.requests := Some (totalRequests previousZones);
                    AddonPrevious.zones := previousZones |};
               AddonData.timeSeries :=
                 Some (JsArray.sort AddonAggregator.byTimestamp
                         (historicalData
                          ++ [previousEntry now (totalRequests previousZones);
                              currentEntry now (totalRequests currentZones)])) |}),
    if (2 <=? JsDate.date now) && (0 <? totalRequests previousZones)
    then World.setKv
           (KV.put (JsDate.getTime now)
                   (monthlyKey addonType (AccountMetrics.accountId accountData) now)
                   (monthlyStats (totalRequests previousZones) previousZones)
                   31536000 (World.kv w1)) w1
    else w1)).
Proof.
  unfold applicable, calculateZoneBasedAddonForAccount, configuredZones.
  destruct addonConfig as [cfg |]; [| discriminate].
  destruct (AddonConfig.enabled cfg) as [[|] |]; try discriminate.
  destruct (AddonConfig.zones cfg) as [[| zone zones] |].
  - now rewrite covered_none.
  - rewrite selectZones_covered, length_map. intros Happ Hhist.
    destruct (Z.of_nat (length (coveredZones (zone :: zones) accountData)) =? 0);
      [discriminate |].
    unfold Exec.bind at 1. rewrite Hhist. cbn zeta.
    change (selectZones (zone :: zones)
              (AccountMetrics.previousMonthZoneBreakdown accountData))
      with (map toAddonZone (coveredPrevious (zone :: zones) accountData)).
    unfold Exec.bind.
    destruct ((2 <=? JsDate.date now)
              && (0 <? totalRequests
                         (map toAddonZone
                              (coveredPrevious (zone :: zones) accountData))));
      reflexivity.
  - now rewrite covered_none.
Qed.

(** X12. An add-on that does not apply to an account is told apart from
    one that applies with no traffic. When the add-on is missing, not
    enabled, has no configured zone or none of its configured zones is
    in the account's current zone breakdown, the calculation returns
    null and neither reads the history nor writes anything. In every
    other case, once the history lookup has returned, it returns data:
    the account's zones that are configured, in order, their requests
    summed (0 when they had no traffic), and as confidence the account's
    own HTTP-requests confidence; it sends no external request. *)
Theorem addon_null_only_when_inapplicable (now : JsDate.t)
    (accountData : AccountMetrics.t) (addonConfig : option AddonConfig.t)
    (addonType : string) (w : World.t) :
  (applicable addonConfig accountData = false ->
   calculateZoneBasedAddonForAccount getHistoricalAddonData now accountData
     addonConfig addonType w = (Exec.Returned None, w))
  /\ (applicable addonConfig accountData = true ->
      forall historicalData w1,
        getHistoricalAddonData (AccountMetrics.accountId accountData) addonType w
          = (Exec.Returned historicalData, w1) ->
        exists data w',
          calculateZoneBasedAddonForAccount getHistoricalAddonData now accountData
            addonConfig addonType w = (Exec.Returned (Some data), w')
          /\ map AddonZone.zoneId (AddonCurrent.zones (AddonData.current data))
             = map Zone.zoneTag
                   (coveredZones (configuredZones addonConfig) accountData)
          /\ AddonCurrent.zones (AddonData.current data) <> []
          /\ AddonCurrent.requests (AddonData.current data)
             = Some (zoneSum Zone.requests
                       (coveredZones (configuredZones addonConfig) accountData))
          /\ AddonPrevious.requests (AddonData.previous data)
             = Some (zoneSum Zone.requests
                       (coveredPrevious (configuredZones addonConfig) accountData))
          /\ AddonCurrent.confidence (AddonData.current data)
             = Aggregator.confidenceOf ConfidenceSet.requests accountData
          /\ World.calls w' = World.calls w1).
Proof.
  split; [apply calculate_inapplicable |].
  intros Happ historicalData w1 Hhist.
  rewrite (calculate_applicable now accountData addonConfig addonType w w1
             historicalData Happ Hhist).
  cbn zeta. eexists _, _. split; [reflexivity |].
  cbn [AddonData.current AddonData.previous AddonCurrent.zones
       AddonCurrent.requests AddonCurrent.confidence AddonPrevious.requests].
  rewrite !totalRequests_selected, map_map.
  split; [reflexivity |]. split.
  - unfold applicable in Happ.
    destruct addonConfig as [cfg |]; [| discriminate].
    destruct (AddonConfig.enabled cfg) as [[|] |]; try discriminate.
    destruct (coveredZones _ accountData); [discriminate | discriminate].
  - split; [reflexivity |]. split; [reflexivity |]. split; [reflexivity |].
    now destruct (_ && _).
Qed.

(** A run that returns data went through the history lookup. *)
Lemma calculate_returned (now : JsDate.t) (accountData : AccountMetrics.t)
    (addonConfig : option AddonConfig.t) (addonType : string) (w w' : World.t)
    (data : AddonData.t) :
  calculateZoneBasedAddonForAccount getHistoricalAddonData now accountData
    addonConfig addonType w = (Exec.Returned (Some data), w') ->
  applicable addonConfig accountData = true
  /\ exists historicalData w1,
       getHistoricalAddonData (AccountMetrics.accountId accountData) addonType w
         = (Exec.Returned historicalData, w1).
Proof.
  intros Hrun.
  destruct (applicable addonConfig accountData) eqn:Happ.
  - split; [reflexivity |].
    destruct (getHistoricalAddonData (AccountMetrics.accountId accountData)
                addonType w) as [[historicalData | e] w1] eqn:Hhist;
      [now exists historicalData, w1 |].
    exfalso. revert Hrun Happ.
    unfold applicable, calculateZoneBasedAddonForAccount, configuredZones.
    destruct addonConfig as [cfg |]; [| discriminate].
    destruct (AddonConfig.enabled cfg) as [[|] |]; try discriminate.
    destruct (AddonConfig.zones cfg) as [[| zone zones] |]; try discriminate.
    destruct (_ =? 0); [discriminate |].
    unfold Exec.bind at 1. rewrite Hhist. discriminate.
  - rewrite calculate_inapplicable in Hrun by exact Happ. discriminate.
Qed.

Lemma zoneSum_filter_le (p : Zone.t -> bool) (l : list Zone.t) :
  List.Forall (fun z => 0 <= Js.orZero (Zone.requests z)) l ->
  0 <= zoneSum Zone.requests (List.filter p l) <= zoneSum Zone.requests l.
Proof.
  unfold zoneSum. induction 1 as [| z l Hz _ IH]; cbn [List.filter map fold_right].
  - lia.
  - destruct (p z); cbn [map fold_right]; lia.
Qed.

(** X13. An add-on never reports more requests for an account than the
    account has: if the account's current requests are the sum of its
    zones' requests and no zone has a negative count, the add-on's
    current requests, when it returns data, lie between 0 and the
    account's current requests. *)
Theorem addon_usage_within_account_requests (now : JsDate.t)
    (accountData : AccountMetrics.t) (addonConfig : option AddonConfig.t)
    (addonType : string) (w w' : World.t) (data : AddonData.t) :
  Js.orZero (Totals.requests (AccountMetrics.current accountData))
    = zoneSum Zone.requests (zonesOf (AccountMetrics.zoneBreakdown accountData)) ->
  List.Forall (fun z => 0 <= Js.orZero (Zone.requests z))
              (zonesOf (AccountMetrics.zoneBreakdown accountData)) ->
  calculateZoneBasedAddonForAccount getHistoricalAddonData now accountData
    addonConfig addonType w = (Exec.Returned (Some data), w') ->
  0 <= Js.orZero (AddonCurrent.requests (AddonData.current data))
    <= Js.orZero (Totals.requests (AccountMetrics.current accountData)).
Proof.
  intros Htotal Hzones Hrun.
  destruct (calculate_returned _ _ _ _ _ _ _ Hrun)
    as (Happ & historicalData & w1 & Hhist).
  rewrite (calculate_applicable now accountData addonConfig addonType w w1
             historicalData Happ Hhist) in Hrun.
  cbn zeta in Hrun. injection Hrun as <- _.
  cbn [AddonData.current AddonCurrent.requests].
  rewrite orZero_some, totalRequests_selected, Htotal.
  now apply zoneSum_filter_le.
Qed.

Lemma days_month_step (y m : Z) :
  1 <= m <= 11 -> JsDate.daysFromCivil y m 1 < JsDate.daysFromCivil y (m + 1) 1.
Proof.
  intros Hm. unfold JsDate.daysFromCivil.
  destruct (Z.leb_spec m 2), (Z.leb_spec (m + 1) 2);
    Z.div_mod_to_equations; lia.
Qed.

Lemma days_year_step (y : Z) :
  JsDate.daysFromCivil (y - 1) 12 1 < JsDate.daysFromCivil y 1 1.
Proof.
  unfold JsDate.daysFromCivil.
  destruct (Z.leb_spec 12 2), (Z.leb_spec 1 2); try lia;
    Z.div_mod_to_equations; lia.
Qed.

Lemma startOfMonth_previous (y m : Z) :
  0 <= m <= 11 ->
  Calendar.startOfMonth y (m - 1)
  = Calendar.startOfMonth (if m =? 0 then y - 1 else y)
                          (if m =? 0 then 11 else m - 1).
Proof.
  intros Hm. unfold Calendar.startOfMonth.
  destruct (Z.eqb_spec m 0) as [-> | Hne];
    f_equal; Z.div_mod_to_equations; lia.
Qed.

Lemma startOfMonth_in_range (y m : Z) :
  0 <= m <= 11 ->
  Calendar.startOfMonth y m
  = {| JsDate.year := y; JsDate.month := m; JsDate.date := 1;
       JsDate.hours := 0; JsDate.minutes := 0; JsDate.seconds := 0;
       JsDate.milliseconds := 0 |}.
Proof.
  intros Hm. unfold Calendar.startOfMonth. f_equal; Z.div_mod_to_equations; lia.
Qed.

Lemma previousMonth_key (now : JsDate.t) :
  0 <= JsDate.month now <= 11 ->
  JsDate.monthKey (Calendar.previousMonthStart now) = monthKeyOf (monthBefore now).
Proof.
  intros Hm. unfold Calendar.previousMonthStart, monthBefore.
  rewrite startOfMonth_previous by exact Hm.
  destruct (Z.eqb_spec (JsDate.month now) 0).
  - now rewrite startOfMonth_in_range by lia.
  - now rewrite startOfMonth_in_range by lia.
Qed.

Lemma previous_before_current (now : JsDate.t) :
  0 <= JsDate.month now <= 11 ->
  JsDate.getTime (Calendar.previousMonthStart now)
  < JsDate.getTime (Calendar.currentMonthStart now).
Proof.
  intros Hm. unfold Calendar.previousMonthStart, Calendar.currentMonthStart.
  rewrite startOfMonth_previous, (startOfMonth_in_range _ (JsDate.month now))
    by exact Hm.
  destruct (Z.eqb_spec (JsDate.month now) 0) as [E | Hne].
  - rewrite startOfMonth_in_range by lia. unfold JsDate.getTime.
    cbn [JsDate.year JsDate.month JsDate.date JsDate.hours JsDate.minutes
         JsDate.seconds JsDate.milliseconds].
    rewrite E. change (11 + 1) with 12. change (0 + 1) with 1.
    pose proof (days_year_step (JsDate.year now)). lia.
  - rewrite startOfMonth_in_range by lia. unfold JsDate.getTime.
    cbn [JsDate.year JsDate.month JsDate.date JsDate.hours JsDate.minutes
         JsDate.seconds JsDate.milliseconds].
    pose proof (days_month_step (JsDate.year now) (JsDate.month now)) as H.
    replace (JsDate.month now - 1 + 1) with (JsDate.month now) by lia.
    specialize (H ltac:(lia)). lia.
Qed.

(** X14. The previous month's add-on usage of an account is stored only
    from the 2nd day of the month on, and only when it is positive: on
    the 1st, or with no usage the month before, the calculation leaves
    the store as the history lookup left it. Otherwise it writes one
    key, [monthly-<type>-stats:<account>:<YYYY-MM>] for the calendar
    month before the current one (December of the year before, in
    January), holding that month's total and zones, to expire one year
    (31 536 000 seconds) later. *)
Theorem addon_previous_month_storage (now : JsDate.t)
    (accountData : AccountMetrics.t) (addonConfig : option AddonConfig.t)
    (addonType : string) (w w1 w' : World.t)
    (historicalData : list AddonEntry.t) (data : AddonData.t) :
  0 <= JsDate.month now <= 11 ->
  getHistoricalAddonData (AccountMetrics.accountId accountData) addonType w
    = (Exec.Returned historicalData, w1) ->
  calculateZoneBasedAddonForAccount getHistoricalAddonData now accountData
    addonConfig addonType w = (Exec.Returned (Some data), w') ->
  (JsDate.date now < 2
   \/ Js.orZero (AddonPrevious.requests (AddonData.previous data)) <= 0 ->
   World.kv w' = World.kv w1)
  /\ (2 <= JsDate.date now
      /\ 0 < Js.orZero (AddonPrevious.requests (AddonData.previous data)) ->
      World.kv w' =
      <[kvPrefix addonType +:+ ":" +:+ AccountMetrics.accountId accountData
        +:+ ":" +:+ monthKeyOf (monthBefore now)
        := (monthlyStats
              (Js.orZero (AddonPrevious.requests (AddonData.previous data)))
              (AddonPrevious.zones (AddonData.previous data)),
            Some (JsDate.getTime now + 31536000 * 1000))]> (World.kv w1)).
Proof.
  intros Hm Hhist Hrun.
  destruct (calculate_returned _ _ _ _ _ _ _ Hrun) as (Happ & _).
  rewrite (calculate_applicable now accountData addonConfig addonType w w1
             historicalData Happ Hhist) in Hrun.
  cbn zeta in Hrun. injection Hrun as <- <-.
  cbn [AddonData.previous AddonPrevious.requests AddonPrevious.zones].
  rewrite orZero_some.
  destruct (Z.leb_spec 2 (JsDate.date now)) as [Hday | Hday];
    destruct (Z.ltb_spec 0
                (totalRequests
                   (map toAddonZone
                        (coveredPrevious (configuredZones addonConfig) accountData))))
      as [Hpos | Hpos]; cbn [andb]; split; intros H; try lia; try reflexivity.
  cbn [World.kv World.setKv]. unfold KV.put, monthlyKey.
  now rewrite previousMonth_key.
Qed.

Lemma addonByTimestamp_total (a b : AddonEntry.t) :
  0 < AddonAggregator.byTimestamp a b -> AddonAggregator.byTimestamp b a <= 0.
Proof. unfold AddonAggregator.byTimestamp. lia. Qed.

(** X15. The time series an add-on calculation returns is sorted by
    timestamp, oldest first, and holds exactly the entries of the history
    lookup plus one entry for the previous month and one for the current
    month (an entry the history already has for one of these months is
    kept beside it, not merged). The previous month's entry is dated
    strictly before the current month's, and carries the key of the
    calendar month before the current one. *)
Theorem addon_series_is_sorted (now : JsDate.t)
    (accountData : AccountMetrics.t) (addonConfig : option AddonConfig.t)
    (addonType : string) (w w1 w' : World.t)
    (historicalData : list AddonEntry.t) (data : AddonData.t) :
  0 <= JsDate.month now <= 11 ->
  getHistoricalAddonData (AccountMetrics.accountId accountData) addonType w
    = (Exec.Returned historicalData, w1) ->
  calculateZoneBasedAddonForAccount getHistoricalAddonData now accountData
    addonConfig addonType w = (Exec.Returned (Some data), w') ->
  exists timeSeries previous current,
    AddonData.timeSeries data = Some timeSeries
    /\ previous
       = previousEntry now
           (Js.orZero (AddonPrevious.requests (AddonData.previous data)))
    /\ current
       = currentEntry now
           (Js.orZero (AddonCurrent.requests (AddonData.current data)))
    /\ StronglySorted byTime timeSeries
    /\ Permutation timeSeries (historicalData ++ [previous; current])
    /\ AddonEntry.timestamp previous < AddonEntry.timestamp current
    /\ AddonEntry.month previous = monthKeyOf (monthBefore now).
Proof.
  intros Hm Hhist Hrun.
  destruct (calculate_returned _ _ _ _ _ _ _ Hrun) as (Happ & _).
  rewrite (calculate_applicable now accountData addonConfig addonType w w1
             historicalData Happ Hhist) in Hrun.
  cbn zeta in Hrun. injection Hrun as <- _.
  cbn [AddonData.timeSeries AddonData.previous AddonData.current
       AddonPrevious.requests AddonCurrent.requests].
  rewrite !orZero_some.
  eexists _, _, _. split; [reflexivity |]. split; [reflexivity |].
  split; [reflexivity |]. split; [| split; [| split]].
  - apply Sorted_StronglySorted.
    + intros a b c. unfold byTime. lia.
    + apply (Sorted_weaken (fun a b => AddonAggregator.byTimestamp a b <= 0)).
      * intros a b. unfold byTime, AddonAggregator.byTimestamp. lia.
      * apply sort_Sorted, addonByTimestamp_total.
  - apply sort_Permutation.
  - cbn [previousEntry currentEntry AddonEntry.timestamp].
    now apply previous_before_current.
  - cbn [previousEntry AddonEntry.month]. now apply previousMonth_key.
Qed.

End AddonCalcFacts.

Section AddonCalcExamples.

Import AddonCalc AddonReference Invariant.

(** A configured zone without traffic gives usage 0, not null. *)
Lemma addon_null_only_when_inapplicable_witness :
  exists data,
    fst (calculateZoneBasedAddonForAccount AddonSample.noHistory AddonSample.jan15
           AddonSample.quiet (Some AddonSample.config) "api-shield"
           ThresholdSample.emptyWorld) = Exec.Returned (Some data)
    /\ AddonCurrent.requests (AddonData.current data) = Some 0.
Proof.
  destruct (proj2 (addon_null_only_when_inapplicable AddonSample.noHistory
                     AddonSample.jan15 AddonSample.quiet (Some AddonSample.config)
                     "api-shield" ThresholdSample.emptyWorld)
              eq_refl [] ThresholdSample.emptyWorld eq_refl)
    as (data & w' & Hrun & _ & _ & Hrequests & _).
  exists data. rewrite Hrun. split; [reflexivity | exact Hrequests].
Defined.

Lemma addon_usage_within_account_requests_witness :
  exists data w',
    calculateZoneBasedAddonForAccount AddonSample.noHistory AddonSample.jan15
      AddonSample.account (Some AddonSample.config) "api-shield"
      ThresholdSample.emptyWorld = (Exec.Returned (Some data), w')
    /\ 0 <= Js.orZero (AddonCurrent.requests (AddonData.current data)) <= 105.
Proof.
  destruct (calculateZoneBasedAddonForAccount AddonSample.noHistory
              AddonSample.jan15 AddonSample.account (Some AddonSample.config)
              "api-shield" ThresholdSample.emptyWorld)
    as [[[data |] | e] w'] eqn:Hrun;
    try (vm_compute in Hrun; discriminate Hrun).
  exists data, w'. split; [reflexivity |].
  apply (addon_usage_within_account_requests AddonSample.noHistory
           AddonSample.jan15 AddonSample.account (Some AddonSample.config)
           "api-shield" ThresholdSample.emptyWorld w' data).
  - reflexivity.
  - repeat constructor; vm_compute; discriminate.
  - exact Hrun.
Defined.

(** In January the previous month is December of the year before. *)
Lemma addon_previous_month_storage_witness :
  exists data w',
    calculateZoneBasedAddonForAccount AddonSample.noHistory AddonSample.jan15
      AddonSample.account (Some AddonSample.config) "api-shield"
      ThresholdSample.emptyWorld = (Exec.Returned (Some data), w')
    /\ World.kv w' =
       <["monthly-api-shield-stats:A:2024-12" :=
           (monthlyStats 60 (AddonPrevious.zones (AddonData.previous data)),
            Some (JsDate.getTime AddonSample.jan15 + 31536000 * 1000))]> ∅.
Proof.
  destruct (calculateZoneBasedAddonForAccount AddonSample.noHistory
              AddonSample.jan15 AddonSample.account (Some AddonSample.config)
              "api-shield" ThresholdSample.emptyWorld)
    as [[[data |] | e] w'] eqn:Hrun;
    try (vm_compute in Hrun; discriminate Hrun).
  exists data, w'. split; [reflexivity |].
  pose proof (proj2 (addon_previous_month_storage AddonSample.noHistory
                       AddonSample.jan15 AddonSample.account
                       (Some AddonSample.config) "api-shield"
                       ThresholdSample.emptyWorld ThresholdSample.emptyWorld w'
                       [] data ltac:(cbn; lia) eq_refl Hrun)) as Hstored.
  assert (Js.orZero (AddonPrevious.requests (AddonData.previous data)) = 60) as E.
  { vm_compute in Hrun. injection Hrun as <- _. reflexivity. }
  rewrite E in Hstored. apply Hstored. cbn. lia.
Defined.

Lemma addon_series_is_sorted_witness :
  exists data w',
    calculateZoneBasedAddonForAccount AddonSample.noHistory AddonSample.jan15
      AddonSample.account (Some AddonSample.config) "api-shield"
      ThresholdSample.emptyWorld = (Exec.Returned (Some data), w')
    /\ exists timeSeries,
         AddonData.timeSeries data = Some timeSeries
         /\ map AddonEntry.month timeSeries = ["2024-12"; "2025-01"].
Proof.
  destruct (calculateZoneBasedAddonForAccount AddonSample.noHistory
              AddonSample.jan15 AddonSample.account (Some AddonSample.config)
              "api-shield" ThresholdSample.emptyWorld)
    as [[[data |] | e] w'] eqn:Hrun;
    try (vm_compute in Hrun; discriminate Hrun).
  exists data, w'. split; [reflexivity |].
  destruct (addon_series_is_sorted AddonSample.noHistory AddonSample.jan15
              AddonSample.account (Some AddonSample.config) "api-shield"
              ThresholdSample.emptyWorld ThresholdSample.emptyWorld w' [] data
              ltac:(cbn; lia) eq_refl Hrun)
    as (timeSeries & previous & current & Hseries & _).
  exists timeSeries. split; [exact Hseries |].
  vm_compute in Hrun. injection Hrun as <- _.
  injection Hseries as <-. reflexivity.
Defined.

End AddonCalcExamples.
(** ** The phase-3 response *)

Section Phase3Facts.

Import Builder AnalyticsReference HandlerReference.

Context {B : Type}.

Variable queryAnalytics :
  Env.t -> string -> option string -> list EnterpriseZone.t ->
  Exec.M AccountMetrics.t.

Variable botBlock : option Config.t -> list string -> Exec.M (option B).

Lemma addonBlock_without_core getHistoricalAddonData now config sel addonType
    (w : World.t) :
  addonBlock getHistoricalAddonData now config sel addonType [] w
  = (Exec.Returned None, w).
Proof. unfold addonBlock. cbn [length]. now rewrite andb_false_r. Qed.

(** X16. The zone-based add-ons depend on the core: when the stored
    configuration switches the core off, or the fetch of every account
    fails, phase 3 still answers (provided the Bot Management block ends
    normally) but its response has no core metrics and none of API
    Shield, Page Shield and Advanced Rate Limiting, whatever their own
    switches say; the add-on history is not even read (the run is the
    same for every history lookup). *)
Theorem phase3_addons_need_core
    (getHistoricalAddonData : string -> string -> Exec.M (list AddonEntry.t))
    (env : Env.t) (accountIds : list string) (w : World.t) :
  coreNotDisabled
    (KV.getConfig (JsDate.getTime (Env.now env)) "config:default" (World.kv w))
    = false
  \/ List.Forall Settled.rejected (fst (coreResults queryAnalytics env accountIds w)) ->
  returns (botBlock
             (KV.getConfig (JsDate.getTime (Env.now env)) "config:default"
                (World.kv w))
             accountIds) ->
  exists response w',
    phase3 queryAnalytics getHistoricalAddonData botBlock env accountIds w
      = (Exec.Returned response, w')
    /\ Phase3.core response = None
    /\ Phase3.apiShield response = None
    /\ Phase3.pageShield response = None
    /\ Phase3.advancedRateLimiting response = None
    /\ forall otherHistory,
         phase3 queryAnalytics otherHistory botBlock env accountIds w
           = (Exec.Returned response, w').
Proof.
  intros Hcore Hbot.
  set (config := KV.getConfig (JsDate.getTime (Env.now env)) "config:default"
                   (World.kv w)) in *.
  assert (exists w0,
            (if coreNotDisabled config then
               (accountMetricsResults <-
                  Settled.allSettled
                    (map (Fetcher.fetchAccountMetrics queryAnalytics env) accountIds) ;;
                Exec.ret (Settled.fulfilled accountMetricsResults))%exec
             else Exec.ret []) w = (Exec.Returned [], w0)) as (w0 & Hsuccessful).
  { destruct (coreNotDisabled config).
    - destruct Hcore as [Hoff | Hfailed]; [discriminate |].
      unfold Exec.bind. rewrite allSettled_run.
      unfold coreResults in Hfailed. apply fulfilled_nil_iff in Hfailed.
      rewrite Hfailed. now eexists.
    - now exists w. }
  destruct (Hbot w0) as (bot & w1 & Hbotrun).
  exists {| Phase3.core := None; Phase3.botManagement := bot;
            Phase3.apiShield := None; Phase3.pageShield := None;
            Phase3.advancedRateLimiting := None |}, w1.
  assert (forall history,
            phase3 queryAnalytics history botBlock env accountIds w
            = (Exec.Returned
                 {| Phase3.core := None; Phase3.botManagement := bot;
                    Phase3.apiShield := None; Phase3.pageShield := None;
                    Phase3.advancedRateLimiting := None |}, w1)) as Hrun.
  { intros history. unfold phase3.
    unfold Exec.bind at 1, Exec.kvGet. fold config.
    unfold Exec.bind at 1. rewrite Hsuccessful.
    unfold Exec.bind at 1. rewrite Hbotrun.
    unfold Exec.bind. rewrite !addonBlock_without_core. reflexivity. }
  split; [apply Hrun |]. repeat (split; [reflexivity |]). exact Hrun.
Qed.

End Phase3Facts.

Section Phase3Examples.

Import Builder.

(** With the core switched off, an enabled API Shield is left out. *)
Lemma phase3_addons_need_core_witness :
  exists response w',
    phase3 FetcherSample.queryAnalytics AddonSample.noHistory BuilderSample.noBot
      AnalyticsSample.env ["a"] BuilderSample.world = (Exec.Returned response, w')
    /\ Phase3.apiShield response = None.
Proof.
  destruct (phase3_addons_need_core FetcherSample.queryAnalytics
              BuilderSample.noBot AddonSample.noHistory AnalyticsSample.env ["a"]
              BuilderSample.world)
    as (response & w' & Hrun & _ & Hshield & _).
  { left. reflexivity. }
  { intros w. now exists None, w. }
  exists response, w'. split; [exact Hrun | exact Hshield].
Defined.

End Phase3Examples.
(** ** Threshold notifier: tests, failed deliveries and the scheduled check *)

Section NotifyFacts.

Import Thresholds ThresholdReference NotifyReference.

(** X17. A forced test bypasses the threshold logic: with a webhook
    configured it sends exactly one request, the test message, whatever
    the metrics, the thresholds and the markers are; it reads and writes
    no marker (the store is unchanged) and posts no alert. It reports
    success whenever the request could be sent, also when the webhook
    answers with an error status, and failure only when the request
    itself is rejected. *)
Theorem forced_test_bypasses_thresholds (slack : string -> Http.outcome unit)
    (origin : string) (now : JsDate.t) (body : CheckBody.t) (url : string)
    (w : World.t) :
  CheckBody.forceTest body = true ->
  webhookOf body = Some url ->
  checkThresholds slack origin now body w =
  (Exec.Returned (TestResponse (testSucceeded (slack url))),
   {| World.kv := World.kv w;
      World.calls := World.calls w ++ [Call.SlackTest url] |}).
Proof.
  intros Hforce Hurl. unfold checkThresholds. rewrite Hforce, Hurl.
  unfold Exec.bind, Exec.request. now destruct (slack url).
Qed.

Lemma forced_test_bypasses_thresholds_witness :
  checkThresholds NotifySample.gone DedupSample.origin DedupSample.jan10
    NotifySample.testBody ThresholdSample.emptyWorld =
  (Exec.Returned (TestResponse true),
   {| World.kv := ∅; World.calls := [Call.SlackTest DedupSample.url] |}).
Proof.
  exact (forced_test_bypasses_thresholds NotifySample.gone DedupSample.origin
           DedupSample.jan10 NotifySample.testBody DedupSample.url
           ThresholdSample.emptyWorld eq_refl eq_refl).
Defined.

(** The answer of a run whose message the webhook does not accept. *)
Lemma checkThresholds_refused slack origin d body url (w : World.t) :
  CheckBody.forceTest body = false ->
  webhookOf body = Some url ->
  selected d body (World.kv w) <> [] ->
  refused (slack url) ->
  exists message,
    fst (checkThresholds slack origin d body w) =
    Exec.Returned (CheckResponse (alerts body) true (Some false) None (Some message)).
Proof.
  intros Hforce Hurl Hnew Hrefused. unfold checkThresholds. rewrite Hforce, Hurl.
  pose proof (alertsOf_keys_NoDup (CheckBody.metrics body) (CheckBody.thresholds body))
    as Hnd.
  unfold selected, alerts in *. revert Hnd Hnew.
  generalize (alertsOf (CheckBody.metrics body) (CheckBody.thresholds body)).
  intros all Hnd Hnew.
  destruct all as [| a0 rest]; [now destruct Hnew |].
  cbn [length]. destruct (Z.ltb_spec 0 (Z.of_nat (S (length rest)))); [| lia].
  unfold Exec.catch, Exec.bind at 1.
  rewrite (selectNew_eq d (accountsOf body) (a0 :: rest) (World.kv w) Hnd).
  destruct (List.filter (unmarked d (accountsOf body) (World.kv w)) (a0 :: rest))
    as [| n new']; [now destruct Hnew |].
  cbn [length]. destruct (Z.ltb_spec 0 (Z.of_nat (S (length new')))); [| lia].
  unfold sendSlackAlert, Exec.bind, Exec.request, Exec.ret, Exec.throw.
  destruct (slack url) as [| ok b]; [now eexists |].
  cbn in Hrefused. subst ok. now eexists.
Qed.

(** X18. An alert whose delivery failed is not sent again that month.
    When a run selects alerts and the webhook does not accept the message
    (the request is rejected, or answered with an error status), the
    answer reports all breached alerts with [slackSent] false and the
    error; one post was attempted; but the markers written before the
    post stay, so that a later run in the same calendar month, whatever
    the webhook does then, selects and posts none of the alerts of the
    failed post. *)
Theorem failed_delivery_is_not_retried (slack slack' : string -> Http.outcome unit)
    (origin : string) (body : CheckBody.t) (url : string) (d1 d2 : JsDate.t)
    (w : World.t) :
  CheckBody.forceTest body = false ->
  webhookOf body = Some url ->
  JsDate.valid d1 -> JsDate.valid d2 -> sameMonth d1 d2 ->
  selected d1 body (World.kv w) <> [] ->
  refused (slack url) ->
  (exists message,
     fst (checkThresholds slack origin d1 body w) =
     Exec.Returned (CheckResponse (alerts body) true (Some false) None
                      (Some message)))
  /\ World.calls (snd (checkThresholds slack origin d1 body w))
     = World.calls w ++ [Call.SlackPost url (selected d1 body (World.kv w))]
  /\ (forall a,
        In a (selected d1 body (World.kv w)) ->
        ~ In a (selected d2 body
                  (World.kv (snd (checkThresholds slack origin d1 body w)))))
  /\ World.calls
       (snd (checkThresholds slack' origin d2 body
               (snd (checkThresholds slack origin d1 body w))))
     = World.calls (snd (checkThresholds slack origin d1 body w))
       ++ posted url
            (selected d2 body
               (World.kv (snd (checkThresholds slack origin d1 body w)))).
Proof.
  intros Hforce Hurl Hv1 Hv2 Hmonth Hnew Hrefused.
  split; [now apply (checkThresholds_refused slack origin d1 body url w) |].
  rewrite (checkThresholds_run slack' origin d2 body url _ Hforce Hurl).
  rewrite (checkThresholds_run slack origin d1 body url w Hforce Hurl).
  cbn zeta. cbn [World.calls World.kv]. fold (alerts body).
  fold (selected d1 body (World.kv w)).
  split; [| split; [| reflexivity]].
  - unfold posted. destruct (selected d1 body (World.kv w)); [now destruct Hnew |].
    reflexivity.
  - intros a Ha Hin. unfold selected in Hin at 1.
    apply List.filter_In in Hin as [_ Hunmarked].
    unfold unmarked, KV.hasMarker, KV.get in Hunmarked.
    assert (keyAt d2 (accountsOf body) a = keyAt d1 (accountsOf body) a) as Hkey.
    { unfold keyAt. now rewrite (monthKey_sameMonth d1 d2 Hmonth). }
    rewrite Hkey, (marked_lookup d1 (accountsOf body) _ (World.kv w) a Ha)
      in Hunmarked.
    unfold markerAt in Hunmarked.
    pose proof (same_month_within_ttl d1 d2 Hv1 Hv2 (proj1 Hmonth) (proj2 Hmonth))
      as Httl. unfold markerTtl in Httl.
    destruct (Z.ltb_spec (JsDate.getTime d2) (JsDate.getTime d1 + 3888000 * 1000));
      [discriminate | lia].
Qed.

Lemma failed_delivery_is_not_retried_witness :
  World.calls
    (snd (checkThresholds ThresholdSample.delivered DedupSample.origin
            DedupSample.jan20 DedupSample.body
            (snd (checkThresholds NotifySample.gone DedupSample.origin
                    DedupSample.jan10 DedupSample.body
                    ThresholdSample.emptyWorld))))
  = [Call.SlackPost DedupSample.url DedupSample.alerts].
Proof.
  destruct (failed_delivery_is_not_retried NotifySample.gone
              ThresholdSample.delivered DedupSample.origin DedupSample.body
              DedupSample.url DedupSample.jan10 DedupSample.jan20
              ThresholdSample.emptyWorld eq_refl eq_refl)
    as (_ & _ & _ & Hcalls).
  - vm_compute. repeat split; discriminate.
  - vm_compute. repeat split; discriminate.
  - split; reflexivity.
  - vm_compute. discriminate.
  - reflexivity.
  - rewrite Hcalls. vm_compute. reflexivity.
Defined.

(** X19. The scheduled check never notifies: whatever the configured
    thresholds, the zone count and the aggregated usage are, and whether
    or not this month's marker is there, the notification step that ends
    the check sends no request and writes no marker; the exception its
    call of [sendSlackAlert] raises (the arguments are passed in another
    order than the function takes them) is swallowed and the check ends
    normally. *)
Theorem scheduled_check_never_notifies (slack : string -> Http.outcome unit)
    (now : JsDate.t) (config : Config.t) (accountIds : list string)
    (totalZones : Z) (aggregated : Aggregate.t) (w : World.t) :
  scheduledNotify slack now config accountIds
    (scheduledAlerts config totalZones aggregated) w = (Exec.Returned tt, w)
  /\ forall alerts,
       sendSlackAlert slack
         (Text (match Config.slackWebhook config with
                | Some url => url
                | None => EmptyString
                end))
         (ScheduledAlerts alerts) (Texts accountIds) w
       = (Exec.Thrown "alerts.map is not a function", w).
Proof.
  split; [apply scheduledNotify_posts_nothing | reflexivity].
Qed.

End NotifyFacts.
(** ** From the pre-warm job to the progressive handler *)

Section PreWarmServeFacts.

Import Progressive CacheReference.

Lemma prop_timestamp (now : Z) (data : Json.t) :
  Json.prop "timestamp" (Json.Obj [("timestamp", Json.Num now); ("data", data)])
  = Json.Num now.
Proof. reflexivity. Qed.

(** X20. A snapshot the pre-warm job has stored is served to the
    dashboard for six hours. If the job runs at [now] for the configured
    accounts and the data it assembles is complete for the stored
    configuration, then a progressive request that lists the same
    accounts in the same order, made before [now] + 6 hours while that
    configuration is still stored, is answered from the snapshot: the
    assembled data with [phase] 'cached' and [cacheAge] the time since
    the job ran, whatever phase was asked for. From [now] + 6 hours on
    the snapshot has expired and the requested phase is computed afresh. *)
Theorem prewarmed_snapshot_is_served (assemble : Config.t -> list string -> Json.t)
    (key : string) (config : Config.t) (ids : list string)
    (body : RequestBody.t) (now now' : Z) (kv : KV.store) :
  JsString.truthy key = true ->
  KV.getConfig now "config:default" kv = Some config ->
  KV.getConfig now' "config:default" kv = Some config ->
  Config.accounts config = ids ->
  RequestBody.accountIds body = Some ids ->
  ids <> [] ->
  Forall (fun i => JsString.nonBlank i = true) ids ->
  present (assemble config ids) ->
  completeFor config (assemble config ids) ->
  (now' < now + 6 * 60 * 60 * 1000 ->
   getMetricsProgressive (Some key) body now'
     (preWarmCache assemble (Some key) now kv)
   = Cached (Json.with_prop "cacheAge" (Json.Num (now' - now))
               (Json.with_prop "phase" (Json.Str "cached")
                  (assemble config ids))))
  /\ (now + 6 * 60 * 60 * 1000 <= now' ->
      getMetricsProgressive (Some key) body now'
        (preWarmCache assemble (Some key) now kv)
      = Fresh (requestedPhase body)).
Proof.
  intros Hkey Hcfg Hcfg' Hacc Hbody Hne Hblank Hdata Hcomplete.
  pose proof (parseAccountIds_same body ids Hbody Hne Hblank) as Hparse.
  assert (parseAccountIds body <> []) as Hids by now rewrite Hparse.
  rewrite (getMetricsProgressive_cases key body now' _ Hkey Hids). cbn zeta.
  rewrite Hparse.
  assert (preWarmCache assemble (Some key) now kv
          = KV.put now (preWarmedKey ids)
              (KV.VSnapshot (Json.Obj [("timestamp", Json.Num now);
                                       ("data", assemble config ids)]))
              (6 * 60 * 60) kv) as ->.
  { unfold preWarmCache. rewrite Hcfg, Hacc, Hkey. cbn [negb].
    now rewrite (nonempty_length _ Hne). }
  assert (KV.getConfig now' "config:default"
            (KV.put now (preWarmedKey ids)
               (KV.VSnapshot (Json.Obj [("timestamp", Json.Num now);
                                        ("data", assemble config ids)]))
               (6 * 60 * 60) kv) = Some config) as ->.
  { rewrite <- Hcfg'. unfold KV.getConfig, KV.get, KV.put.
    rewrite lookup_insert_ne; [reflexivity |].
    unfold preWarmedKey. intros E. discriminate E. }
  unfold KV.getSnapshot, KV.get, KV.put. rewrite lookup_insert_eq.
  replace (now + 6 * 60 * 60 * 1000) with (now + 21600000) by lia.
  split; intros Htime.
  - destruct (Z.ltb_spec now' (now + 21600000)); [| lia].
    change (Json.prop "data"
              (Json.Obj [("timestamp", Json.Num now); ("data", assemble config ids)]))
      with (assemble config ids).
    unfold cacheAge. rewrite prop_timestamp.
    assert (Json.truthy (Json.Obj [("timestamp", Json.Num now);
                                   ("data", assemble config ids)])
            && Json.truthy (assemble config ids)
            && cacheIsComplete (Some config) (assemble config ids) = true) as ->;
      [| reflexivity].
    rewrite Hdata. cbn [Json.truthy andb].
    now apply cacheIsComplete_iff.
  - destruct (Z.ltb_spec now' (now + 21600000)); [lia |]. reflexivity.
Qed.

Lemma prewarmed_snapshot_is_served_witness :
  getMetricsProgressive (Some "token") (CacheSample.body ["b"; "a"]) 5000
    CacheSample.preWarmed
  = Cached (Json.with_prop "cacheAge" (Json.Num 4000)
              (Json.with_prop "phase" (Json.Str "cached") CacheSample.withBot)).
Proof.
  refine (proj1 (prewarmed_snapshot_is_served (fun _ _ => CacheSample.withBot)
                   "token" (CacheSample.config ["b"; "a"]) ["b"; "a"]
                   (CacheSample.body ["b"; "a"]) 1000 5000
                   (CacheSample.configured ["b"; "a"])
                   eq_refl eq_refl eq_refl eq_refl eq_refl _ _ eq_refl _) _).
  - discriminate.
  - repeat constructor.
  - apply cacheIsComplete_iff. reflexivity.
  - lia.
Defined.

End PreWarmServeFacts.
(** ** Account names and marker keys *)

Section AccountNameFacts.

Import Fetcher.

(** X21. The account-name lookup is best effort: it sends one request
    and never throws; it returns a name exactly when the response is OK,
    its body parses and carries a non-empty name, and null in every other
    case (rejected request, body that is not JSON, error status, missing
    or empty name). It leaves the store alone. *)
Theorem account_name_lookup_is_best_effort (env : Env.t) (accountId : string)
    (w : World.t) :
  exists name,
    fetchAccountName env accountId w
      = (Exec.Returned name,
         {| World.kv := World.kv w;
            World.calls := World.calls w ++ [Call.AccountLookup accountId] |})
    /\ forall n,
         name = Some n <->
         exists body,
           Env.accountsApi env accountId = Http.Response true (Some body)
           /\ AccountBody.result_name body = Some n
           /\ JsString.truthy n = true.
Proof.
  unfold fetchAccountName, Exec.catch, Exec.bind, Exec.request.
  destruct (Env.accountsApi env accountId) as [| ok [data |]] eqn:Hapi;
    cbn [World.call].
  - exists None. split; [reflexivity |]. intros n. split; [discriminate |].
    intros (body & Hbody & _). discriminate.
  - destruct (AccountBody.result_name data) as [name |] eqn:Hname.
    + destruct ok, (JsString.truthy name) eqn:Htruthy; cbn [andb].
      * exists (Some name). split; [reflexivity |]. intros n. split.
        -- intros [= <-]. now exists data.
        -- intros (body & [= <-] & Hn & _). congruence.
      * exists None. split; [reflexivity |]. intros n. split; [discriminate |].
        intros (body & [= <-] & Hn & Ht). congruence.
      * exists None. split; [reflexivity |]. intros n. split; [discriminate |].
        intros (body & Hbody & _). discriminate.
      * exists None. split; [reflexivity |]. intros n. split; [discriminate |].
        intros (body & Hbody & _). discriminate.
    + exists None. split; [reflexivity |]. intros n. split; [discriminate |].
      intros (body & Hbody & Hn & _).
      destruct ok; [| discriminate]. injection Hbody as <-. congruence.
  - exists None. split; [reflexivity |]. intros n. split; [discriminate |].
    intros (body & Hbody & _). discriminate.
Qed.

End AccountNameFacts.

Section AlertKeyFacts.

Import Thresholds AlertKeyReference.

Lemma append_dash (r : string) : "-" +:+ r = String dash r.
Proof. reflexivity. Qed.

Lemma dashFree_no_split (s s' r : string) :
  dashFree s -> s <> s' +:+ String dash r.
Proof.
  revert s'. induction s as [| c s IH]; intros s' Hfree E.
  - destruct s'; discriminate E.
  - destruct Hfree as [Hc Hfree]. destruct s' as [| c' s'].
    + rewrite append_nil in E. injection E as Ec _. contradiction.
    + rewrite append_cons in E. injection E as _ E. now apply (IH s').
Qed.

Lemma split_at_dash (s s' r r' : string) :
  dashFree s -> dashFree s' ->
  s +:+ String dash r = s' +:+ String dash r' -> s = s' /\ r = r'.
Proof.
  revert s'. induction s as [| c s IH]; intros s' Hs Hs' E.
  - destruct s' as [| c' s'].
    + rewrite !append_nil in E. injection E as ->. now split.
    + rewrite append_nil, append_cons in E. injection E as Ec _.
      destruct Hs' as [Hc' _]. congruence.
  - destruct Hs as [Hc Hs]. destruct s' as [| c' s'].
    + rewrite append_nil, append_cons in E. injection E as Ec _. congruence.
    + destruct Hs' as [Hc' Hs']. rewrite !append_cons in E.
      injection E as -> E. destruct (IH s' Hs Hs' E) as [-> ->]. now split.
Qed.

Lemma join_cons2 (x y : string) (l : list string) :
  JsString.join "-" (x :: y :: l) = x +:+ String dash (JsString.join "-" (y :: l)).
Proof. reflexivity. Qed.

Lemma join_dash_inj (l l' : list string) :
  List.Forall plain l -> List.Forall plain l' ->
  JsString.join "-" l = JsString.join "-" l' -> l = l'.
Proof.
  revert l'. induction l as [| x l IH]; intros l' Hl Hl' E.
  - destruct l' as [| y l']; [reflexivity |]. exfalso.
    inversion Hl' as [| ? ? [Hy _] _]. subst.
    destruct l' as [| y2 l'].
    + cbn in E. congruence.
    + rewrite join_cons2 in E. cbn in E. destruct y; [congruence | discriminate E].
  - inversion Hl as [| ? ? [Hx Hxfree] Hl0]. subst.
    destruct l' as [| y l'].
    + exfalso. destruct l as [| x2 l].
      * cbn in E. congruence.
      * rewrite join_cons2 in E. cbn in E. destruct x; [congruence | discriminate E].
    + inversion Hl' as [| ? ? [Hy Hyfree] Hl0']. subst.
      destruct l as [| x2 l], l' as [| y2 l'].
      * cbn in E. now subst.
      * exfalso. rewrite join_cons2 in E. change (JsString.join "-" [x]) with x in E.
        exact (dashFree_no_split x y _ Hxfree E).
      * exfalso. rewrite join_cons2 in E. change (JsString.join "-" [y]) with y in E.
        symmetry in E. exact (dashFree_no_split y x _ Hyfree E).
      * rewrite !join_cons2 in E.
        destruct (split_at_dash _ _ _ _ Hxfree Hyfree E) as [-> E'].
        f_equal. now apply IH.
Qed.

Lemma sort_Forall {A} (cmp : A -> A -> Z) (P : A -> Prop) (l : list A) :
  List.Forall P l -> List.Forall P (JsArray.sort cmp l).
Proof.
  intros H. apply List.Forall_forall. intros x Hx.
  rewrite List.Forall_forall in H. apply H.
  now apply (Permutation_in x (sort_Permutation cmp l)).
Qed.

(** X22. Markers of different sets of accounts never collide: for
    account ids that are not empty and hold no [-], two account lists
    give the same marker key for a metric and a month if and only if
    they list the same accounts, in any order. *)
Theorem alert_keys_identify_the_account_set (accounts accounts' : list string)
    (metricKey currentMonth : string) :
  List.Forall plain accounts -> List.Forall plain accounts' ->
  (alertKey accounts metricKey currentMonth
   = alertKey accounts' metricKey currentMonth
   <-> Permutation accounts accounts').
Proof.
  intros Hplain Hplain'. split; [| apply alertKey_permutation].
  unfold alertKey. intros E.
  apply append_inj_prefix in E as [_ E]; [| reflexivity].
  apply append_inj_suffix in E as [E _]; [| reflexivity].
  apply join_dash_inj in E; try now apply sort_Forall.
  transitivity (JsString.sort accounts).
  - symmetry. apply sort_Permutation.
  - rewrite E. apply sort_Permutation.
Qed.

Lemma alert_keys_identify_the_account_set_witness :
  alertKey ["b"; "a"] "requests" "2025-01" = alertKey ["a"; "b"] "requests" "2025-01"
  <-> Permutation ["b"; "a"] ["a"; "b"].
Proof.
  apply alert_keys_identify_the_account_set;
    repeat constructor; vm_compute; discriminate.
Defined.

End AlertKeyFacts.
(** ** Combined confidence lies between the accounts' *)

Section ConfidenceMeanFacts.

Import Confidence Reference ConfidenceReference.

(** The relative width of an interval, as a quotient, follows the
    cross-multiplied order. *)
Lemma relativeWidth_mono (e w e' w' : Z) :
  0 < e -> 0 < e' -> w' * e <= w * e' ->
  (inject_Z w' / inject_Z (2 * e') <= inject_Z w / inject_Z (2 * e))%Q.
Proof.
  intros He He' H.
  destruct e as [| p | p]; try lia. destruct e' as [| q | q]; try lia.
  change (2 * Z.pos p) with (Z.pos p~0). change (2 * Z.pos q) with (Z.pos q~0).
  unfold Qdiv, Qinv, inject_Z. cbn [Qnum Qden].
  unfold Qle, Qmult. cbn [Qnum Qden].
  change (Z.pos (1 * p~0)) with (2 * Z.pos p).
  change (Z.pos (1 * q~0)) with (2 * Z.pos q).
  revert H. generalize (Z.pos p) (Z.pos q). intros P P' H. lia.
Qed.

Lemma percentOf_tenths (e l u : Z) :
  percentOf e l u
  = Binary64.round
      (inject_Z (tenths (inject_Z (u - l) / inject_Z (2 * e))) / 10).
Proof.
  unfold percentOf, tenths, Binary64.div, Binary64.mul, Binary64.sub.
  reflexivity.
Qed.

(** A relatively narrower interval has the higher percentage: every
    rounded step of the calculator keeps the order. *)
Lemma percentOf_mono (e l u e' l' u' : Z) :
  0 < e -> 0 < e' -> (u' - l') * e <= (u - l) * e' ->
  (percentOf e l u <= percentOf e' l' u')%Q.
Proof.
  intros He He' H.
  pose proof (relativeWidth_mono e (u - l) e' (u' - l') He He' H) as Hw.
  pose proof (tenths_mono _ _ Hw) as Hn.
  rewrite !percentOf_tenths.
  apply round_mono. unfold Qdiv.
  apply Qmult_le_compat_r; [| discriminate].
  now rewrite <- Zle_Qle.
Qed.

Lemma all_narrower_sum {A} (w e : A -> Z) (W E : Z) (a : A) (l : list A) :
  (forall x, In x (a :: l) -> w x * E < W * e x) ->
  fold_right Z.add 0 (map w (a :: l)) * E
  < W * fold_right Z.add 0 (map e (a :: l)).
Proof.
  revert a. induction l as [| b l IH]; intros a H.
  - cbn [map fold_right]. specialize (H a (or_introl eq_refl)). lia.
  - specialize (IH b (fun x Hx => H x (or_intror Hx))).
    specialize (H a (or_introl eq_refl)).
    cbn [map fold_right] in IH |- *.
    revert IH.
    generalize (fold_right Z.add 0 (map w l)) (fold_right Z.add 0 (map e l)).
    intros sw se IH. lia.
Qed.

(** Some element is at least as wide, relative to its estimate, as the
    sums are; and some element is at most as wide. *)
Lemma mean_value {A} (w e : A -> Z) (a : A) (l : list A) :
  (exists x, In x (a :: l)
             /\ fold_right Z.add 0 (map w (a :: l)) * e x
                <= w x * fold_right Z.add 0 (map e (a :: l)))
  /\ (exists x, In x (a :: l)
                /\ w x * fold_right Z.add 0 (map e (a :: l))
                   <= fold_right Z.add 0 (map w (a :: l)) * e x).
Proof.
  set (W := fold_right Z.add 0 (map w (a :: l))).
  set (E := fold_right Z.add 0 (map e (a :: l))).
  split.
  - destruct (List.Exists_dec (fun x => W * e x <= w x * E) (a :: l)) as [Hex | Hnone].
    + intros x. apply Z_le_dec.
    + apply List.Exists_exists in Hex. exact Hex.
    + exfalso. apply List.Forall_Exists_neg in Hnone.
      rewrite List.Forall_forall in Hnone.
      pose proof (all_narrower_sum w e W E a l) as Hsum.
      fold W E in Hsum. specialize (Hsum ltac:(intros x Hx; specialize (Hnone x Hx); lia)).
      lia.
  - destruct (List.Exists_dec (fun x => w x * E <= W * e x) (a :: l)) as [Hex | Hnone].
    + intros x. apply Z_le_dec.
    + apply List.Exists_exists in Hex. exact Hex.
    + exfalso. apply List.Forall_Exists_neg in Hnone.
      rewrite List.Forall_forall in Hnone.
      pose proof (all_narrower_sum (fun x => - w x) (fun x => - e x) W E a l) as Hsum.
      specialize (Hsum ltac:(intros x Hx; specialize (Hnone x Hx); cbn beta; lia)).
      assert (fold_right Z.add 0 (map (fun x => - w x) (a :: l)) = - W) as Hw.
      { unfold W. clear. induction (a :: l) as [| b k IH]; cbn [map fold_right];
          [reflexivity | rewrite IH; lia]. }
      assert (fold_right Z.add 0 (map (fun x => - e x) (a :: l)) = - E) as He.
      { unfold E. clear. induction (a :: l) as [| b k IH]; cbn [map fold_right];
          [reflexivity | rewrite IH; lia]. }
      rewrite Hw, He in Hsum. lia.
Qed.

Lemma calculate_positive (e l u : Z) (n : Js.num) :
  0 < e -> 0 < l -> 0 < u ->
  exists r,
    calculateConfidencePercentage (Some (mkInterval (Some e) (Some l) (Some u) n))
      = Some r
    /\ percent r = percentOf e l u.
Proof.
  intros He Hl Hu. unfold calculateConfidencePercentage. cbn [estimate lower upper].
  destruct (Z.eqb_spec e 0); [lia |]. unfold Js.orNum.
  destruct (Z.eqb_spec l 0); [lia |]. destruct (Z.eqb_spec u 0); [lia |].
  eexists. split; [reflexivity |]. cbn [percent].
  unfold percentOf, Binary64.div, Binary64.mul, Binary64.sub. reflexivity.
Qed.

Lemma sum_of_positive (f : Confidence -> Js.num) (g : Confidence -> Z)
    (confs : list Confidence) :
  List.Forall (fun c => f c = Some (g c)) confs ->
  Js.sum (map f confs) = Some (fold_right Z.add 0 (map g confs)).
Proof.
  intros H. rewrite <- sum_present, map_map. f_equal.
  apply map_ext_in. intros c Hc. rewrite List.Forall_forall in H. now apply H.
Qed.

Lemma sum_positive (g : Confidence -> Z) (c : Confidence) (confs : list Confidence) :
  List.Forall (fun c => 0 < g c) (c :: confs) ->
  0 < fold_right Z.add 0 (map g (c :: confs)).
Proof.
  intros H. inversion H as [| ? ? Hc Hrest]. subst. cbn [map fold_right].
  assert (0 <= fold_right Z.add 0 (map g confs)).
  { clear H Hc. induction Hrest as [| d k Hd _ IH]; cbn [map fold_right]; lia. }
  lia.
Qed.

Lemma width_sum (confs : list Confidence) :
  fold_right Z.add 0 (map (fun c => upperOf c - lowerOf c) confs)
  = fold_right Z.add 0 (map upperOf confs) - fold_right Z.add 0 (map lowerOf confs).
Proof. induction confs as [| c confs IH]; cbn [map fold_right]; lia. Qed.

(** X23. The combined confidence is never better than the best account
    nor worse than the worst: for accounts whose intervals have positive
    estimate, lower and upper bound, the percentage derived from the
    summed interval lies between the percentages derived from the
    intervals of two of the accounts (it is a mean of the accounts'
    relative widths, weighted by their estimates). *)
Theorem combined_confidence_between_accounts (confs : list Confidence) :
  confs <> [] ->
  List.Forall positive confs ->
  exists combined least most fromLeast fromMost,
    confidenceOfSum confs = Some combined
    /\ In least confs /\ In most confs
    /\ recomputed least = Some fromLeast
    /\ recomputed most = Some fromMost
    /\ (percent fromLeast <= percent combined)%Q
    /\ (percent combined <= percent fromMost)%Q.
Proof.
  intros Hne Hpos. destruct confs as [| c0 confs]; [now destruct Hne |].
  assert (List.Forall (fun c => 0 < estimateOf c) (c0 :: confs)) as HE
    by (eapply List.Forall_impl; [| exact Hpos]; intros c H; apply H).
  assert (List.Forall (fun c => 0 < lowerOf c) (c0 :: confs)) as HL
    by (eapply List.Forall_impl; [| exact Hpos]; intros c H; apply H).
  assert (List.Forall (fun c => 0 < upperOf c) (c0 :: confs)) as HU
    by (eapply List.Forall_impl; [| exact Hpos]; intros c H; apply H).
  pose proof (sum_positive _ _ _ HE) as HsE.
  pose proof (sum_positive _ _ _ HL) as HsL.
  pose proof (sum_positive _ _ _ HU) as HsU.
  destruct (calculate_positive _ _ _
              (Js.sum (map c_sampleSize (c0 :: confs))) HsE HsL HsU)
    as (combined & Hcombined & Hpct).
  assert (confidenceOfSum (c0 :: confs) = Some combined) as Hsum.
  { unfold confidenceOfSum, summedInterval.
    rewrite (sum_of_positive c_estimate estimateOf),
      (sum_of_positive c_lower lowerOf), (sum_of_positive c_upper upperOf);
      [exact Hcombined | | |];
      (eapply List.Forall_impl; [| exact Hpos]); intros c H; apply H. }
  destruct (mean_value (fun c => upperOf c - lowerOf c) estimateOf c0 confs)
    as [(least & Hleast & Hwide) (most & Hmost & Hnarrow)].
  rewrite width_sum in Hwide, Hnarrow.
  assert (forall c, In c (c0 :: confs) ->
                    exists r, recomputed c = Some r
                              /\ percent r
                                 = percentOf (estimateOf c) (lowerOf c) (upperOf c))
    as Hre.
  { intros c Hc. rewrite List.Forall_forall in Hpos.
    destruct (Hpos c Hc) as (He & Hl & Hu & He0 & Hl0 & Hu0).
    unfold recomputed. rewrite He, Hl, Hu. now apply calculate_positive. }
  destruct (Hre least Hleast) as (fromLeast & HfromLeast & HpctLeast).
  destruct (Hre most Hmost) as (fromMost & HfromMost & HpctMost).
  exists combined, least, most, fromLeast, fromMost.
  split; [exact Hsum |]. split; [exact Hleast |]. split; [exact Hmost |].
  split; [exact HfromLeast |]. split; [exact HfromMost |].
  rewrite Hpct, HpctLeast, HpctMost.
  rewrite List.Forall_forall in HE.
  split; apply percentOf_mono; try assumption; try (now apply HE); lia.
Qed.

Lemma combined_confidence_between_accounts_witness :
  exists combined,
    confidenceOfSum [conf 100 90 110; conf 1000 600 1400] = Some combined
    /\ (percentOf 1000 600 1400 <= percent combined)%Q
    /\ (percent combined <= percentOf 100 90 110)%Q.
Proof.
  destruct (combined_confidence_between_accounts
              [conf 100 90 110; conf 1000 600 1400])
    as (combined & least & most & fromLeast & fromMost
        & Hsum & _).
  - discriminate.
  - repeat constructor; vm_compute; reflexivity.
  - exists combined. split; [exact Hsum |].
    vm_compute in Hsum. injection Hsum as <-. split; vm_compute; discriminate.
Defined.

End ConfidenceMeanFacts.
(** ** Bot Management of one account *)

Section BotFacts.

Import Bot BotReference HandlerReference AnalyticsReference.

Variable botApi : string -> period -> Http.outcome BotResponse.t.
Variable getHistoricalBotManagementData : string -> Exec.M (list BotEntry.t).

Lemma fetchBotManagementMetrics_outcome (zoneId : string) (range : period)
    (w : World.t) :
  fetchBotManagementMetrics botApi zoneId range w =
  (outcome botApi range zoneId, World.call (Call.Analytics "GetBotTimeseries") w).
Proof.
  unfold outcome, fetchBotManagementMetrics, Exec.bind, Exec.request.
  destruct (botApi zoneId range) as [| ok [data |]]; cbn; try reflexivity.
  destruct (negb ok || BotResponse.errors data); [reflexivity |].
  destruct (BotResponse.scope data); reflexivity.
Qed.

Lemma settle_bot (range : period) (zones : list string) (w : World.t) :
  Settled.settle
    (map (fun zoneId => fetchBotManagementMetrics botApi zoneId range) zones) w =
  (map (outcome botApi range) zones,
   {| World.kv := World.kv w; World.calls := World.calls w ++ botCalls zones |}).
Proof.
  revert w. induction zones as [| z zones IH]; intros w.
  - cbn. rewrite app_nil_r. now destruct w.
  - cbn [map]. rewrite settle_cons, fetchBotManagementMetrics_outcome.
    cbn [fst snd]. rewrite IH. cbn. now rewrite <- app_assoc.
Qed.

Lemma withValue_cons {A} (r : Exec.result (option A))
    (rs : list (Exec.result (option A))) :
  withValue (r :: rs) =
  match r with
  | Exec.Returned (Some a) => a :: withValue rs
  | _ => withValue rs
  end.
Proof. now destruct r as [[a |] | e]. Qed.

Lemma withValue_outcomes (range : period) (zones : list string) :
  withValue (map (outcome botApi range) zones) = omap (zoneData botApi range) zones.
Proof.
  induction zones as [| z zones IH]; [reflexivity |].
  cbn [map]. rewrite withValue_cons, IH.
  change (omap (zoneData botApi range) (z :: zones))
    with (match zoneData botApi range z with
          | Some metrics => metrics :: omap (zoneData botApi range) zones
          | None => omap (zoneData botApi range) zones
          end).
  pose proof (eq_refl (zoneData botApi range z)) as Hz.
  unfold zoneData at 2 in Hz. rewrite Hz.
  now destruct (outcome botApi range z) as [[metrics |] | e].
Qed.




Lemma totalLikelyHuman_sum (allZones : list EnterpriseZone.t)
    (data : list BotZoneMetrics.t) :
  totalLikelyHuman data
  = fold_right Z.add 0 (map BotZone.likelyHuman (map (toBreakdown allZones) data)).
Proof.
  unfold totalLikelyHuman. rewrite map_map. cbn [toBreakdown BotZone.likelyHuman].
  assert (forall z, fold_left (fun sum zone => sum + BotZoneMetrics.likelyHuman zone)
                      data z
                    = z + fold_right Z.add 0 (map BotZoneMetrics.likelyHuman data))
    as H.
  { induction data as [| d data IH]; intros z; cbn [fold_left map fold_right].
    - lia.
    - rewrite IH. lia. }
  now rewrite H.
Qed.


Lemma fetchBotManagementForAccount_world (env : Env.t) (accountId : string)
    (botManagementConfig : option AddonConfig.t)
    (allZones : list EnterpriseZone.t) (w : World.t) :
  enabled botManagementConfig = true ->
  zoneLookup env accountId = Exec.Returned allZones ->
  accountBotZones allZones botManagementConfig <> [] ->
  snd (fetchBotManagementForAccount botApi getHistoricalBotManagementData env
         accountId botManagementConfig w)
  = snd (getHistoricalBotManagementData accountId
           (if 2 <=? JsDate.date (Env.now env)
            then World.setKv
                   (KV.put (JsDate.getTime (Env.now env))
                      (monthlyKey accountId (Env.now env))
                      (monthlyStats
                         (totalLikelyHuman
                            (omap (zoneData botApi PreviousMonth)
                                  (accountBotZones allZones botManagementConfig)))
                         (map (toBreakdown allZones)
                              (omap (zoneData botApi PreviousMonth)
                                    (accountBotZones allZones botManagementConfig))))
                      31536000 (World.kv w))
                   (queried accountId (accountBotZones allZones botManagementConfig) w)
            else queried accountId (accountBotZones allZones botManagementConfig) w)).
Proof.
  unfold enabled, accountBotZones, AddonReference.configuredZones,
    fetchBotManagementForAccount.
  destruct botManagementConfig as [cfg |]; [| discriminate].
  destruct (AddonConfig.enabled cfg) as [[|] |]; try discriminate.
  intros _ Hzones Hne.
  destruct (AddonConfig.zones cfg) as [[| zone zones] |];
    [now destruct Hne | | now destruct Hne].
  set (zs := List.filter (inZones allZones) (zone :: zones)) in *.
  unfold Exec.bind at 1. rewrite fetchEnterpriseZones_lookup, Hzones.
  fold zs. rewrite (nonempty_length _ Hne).
  unfold Exec.bind at 1. rewrite allSettled_run, settle_bot. cbn [fst snd].
  unfold Exec.bind at 1. rewrite allSettled_run, settle_bot. cbn [fst snd].
  rewrite !withValue_outcomes.
  cbn [World.call World.kv World.calls].
  assert ({| World.kv := World.kv w;
             World.calls := ((World.calls w ++ [Call.ZoneList accountId])
                             ++ botCalls zs) ++ botCalls zs |}
          = queried accountId zs w) as ->.
  { unfold queried. now rewrite <- !app_assoc. }
  unfold Exec.bind at 1.
  destruct (2 <=? JsDate.date (Env.now env)).
  - unfold Exec.kvPut at 1. unfold Exec.bind at 1.
    cbn [World.kv queried].
    now destruct (getHistoricalBotManagementData accountId _) as [[h | e] w'].
  - unfold Exec.ret at 1. unfold Exec.bind at 1.
    now destruct (getHistoricalBotManagementData accountId _) as [[h | e] w'].
Qed.

(** X24. Bot Management of an account is reported as absent ([null])
    when it is not configured, not enabled, has no zone configured, or
    when none of its configured zones is an enterprise zone of the
    account. In these cases no bot query is made and nothing is
    stored. *)
Theorem bot_management_needs_an_account_zone (env : Env.t) (accountId : string)
    (botManagementConfig : option AddonConfig.t)
    (allZones : list EnterpriseZone.t) (w : World.t) :
  zoneLookup env accountId = Exec.Returned allZones ->
  enabled botManagementConfig = false
  \/ accountBotZones allZones botManagementConfig = [] ->
  exists w',
    fetchBotManagementForAccount botApi getHistoricalBotManagementData env
      accountId botManagementConfig w = (Exec.Returned None, w')
    /\ World.kv w' = World.kv w
    /\ List.filter Fetcher.isAnalytics (World.calls w')
       = List.filter Fetcher.isAnalytics (World.calls w).
Proof.
  intros Hzones H.
  unfold enabled, accountBotZones, AddonReference.configuredZones,
    fetchBotManagementForAccount in *.
  destruct botManagementConfig as [cfg |];
    [| exists w; now repeat split].
  destruct (AddonConfig.enabled cfg) as [[|] |];
    try (exists w; now repeat split).
  destruct (AddonConfig.zones cfg) as [[| zone zones] |];
    try (exists w; now repeat split).
  destruct H as [H | H]; [discriminate |].
  unfold Exec.bind at 1. rewrite fetchEnterpriseZones_lookup, Hzones, H.
  cbn [length Z.of_nat Z.eqb Exec.ret]. eexists.
  split; [reflexivity |]. split; [reflexivity |].
  unfold World.call. cbn [World.calls].
  rewrite List.filter_app. cbn. now rewrite app_nil_r.
Qed.


(** X26. Before it looks up the history, the Bot Management calculation
    of an account with configured account zones has asked for the zone
    list once and made two bot queries for every configured account
    zone (one per month), answered or not. From the 2nd day of the
    month on it has by then stored the previous month under
    [monthly-bot-stats:<account>:<YYYY-MM>] of the calendar month before
    the current one, to expire one year later, whatever that month's
    total is (also when it is 0); on the 1st it has stored nothing. *)
Theorem bot_management_previous_month_storage (env : Env.t) (accountId : string)
    (botManagementConfig : option AddonConfig.t)
    (allZones : list EnterpriseZone.t) (w : World.t) :
  0 <= JsDate.month (Env.now env) <= 11 ->
  enabled botManagementConfig = true ->
  zoneLookup env accountId = Exec.Returned allZones ->
  accountBotZones allZones botManagementConfig <> [] ->
  exists w1,
    snd (fetchBotManagementForAccount botApi getHistoricalBotManagementData env
           accountId botManagementConfig w)
    = snd (getHistoricalBotManagementData accountId w1)
    /\ World.calls w1
       = World.calls w ++ [Call.ZoneList accountId]
         ++ botCalls (accountBotZones allZones botManagementConfig)
         ++ botCalls (accountBotZones allZones botManagementConfig)
    /\ (JsDate.date (Env.now env) < 2 -> World.kv w1 = World.kv w)
    /\ (2 <= JsDate.date (Env.now env) ->
        World.kv w1 =
        <["monthly-bot-stats:" +:+ accountId +:+ ":"
          +:+ AddonReference.monthKeyOf (AddonReference.monthBefore (Env.now env))
          := (monthlyStats
                (fold_right Z.add 0
                   (map BotZoneMetrics.likelyHuman
                      (omap (zoneData botApi PreviousMonth)
                         (accountBotZones allZones botManagementConfig))))
                (map (toBreakdown allZones)
                   (omap (zoneData botApi PreviousMonth)
                      (accountBotZones allZones botManagementConfig))),
              Some (JsDate.getTime (Env.now env) + 31536000 * 1000))]>
          (World.kv w)).
Proof.
  intros Hm Hen Hzones Hne.
  eexists. split;
    [exact (fetchBotManagementForAccount_world env accountId botManagementConfig
              allZones w Hen Hzones Hne) |].
  destruct (Z.leb_spec 2 (JsDate.date (Env.now env))) as [Hday | Hday].
  - split; [reflexivity |]. split; [lia |]. intros _.
    cbn [World.kv World.setKv]. unfold KV.put, monthlyKey.
    rewrite previousMonth_key by exact Hm.
    rewrite (totalLikelyHuman_sum allZones), map_map. reflexivity.
  - split; [reflexivity |]. split; [reflexivity | lia].
Qed.

End BotFacts.

Section BotExamples.

Import Bot BotReference HandlerReference.

Lemma bot_management_needs_an_account_zone_witness :
  exists w',
    fetchBotManagementForAccount BotSample.botApi BotSample.noHistory
      AnalyticsSample.env "a" (Some BotStorageSample.elsewhere)
      ThresholdSample.emptyWorld = (Exec.Returned None, w')
    /\ World.kv w' = World.kv ThresholdSample.emptyWorld
    /\ List.filter Fetcher.isAnalytics (World.calls w')
       = List.filter Fetcher.isAnalytics (World.calls ThresholdSample.emptyWorld).
Proof.
  apply (bot_management_needs_an_account_zone BotSample.botApi BotSample.noHistory
           AnalyticsSample.env "a" (Some BotStorageSample.elsewhere)
           AnalyticsSample.zones ThresholdSample.emptyWorld).
  - reflexivity.
  - right. reflexivity.
Defined.


Lemma bot_management_previous_month_storage_witness :
  exists w1,
    snd (fetchBotManagementForAccount BotStorageSample.silent BotSample.noHistory
           AnalyticsSample.env "a" (Some BotSample.config)
           ThresholdSample.emptyWorld)
    = snd (BotSample.noHistory "a" w1)
    /\ World.calls w1
       = [Call.ZoneList "a";
          Call.Analytics "GetBotTimeseries"; Call.Analytics "GetBotTimeseries";
          Call.Analytics "GetBotTimeseries"; Call.Analytics "GetBotTimeseries"]
    /\ World.kv w1 =
       <["monthly-bot-stats:a:2024-12" :=
           (monthlyStats 0 [],
            Some (JsDate.getTime (Env.now AnalyticsSample.env) + 31536000 * 1000))]> ∅.
Proof.
  destruct (bot_management_previous_month_storage BotStorageSample.silent
              BotSample.noHistory AnalyticsSample.env "a" (Some BotSample.config)
              AnalyticsSample.zones ThresholdSample.emptyWorld
              ltac:(cbn; lia) eq_refl eq_refl ltac:(discriminate))
    as (w1 & Hrun & Hcalls & _ & Hstored).
  exists w1. split; [exact Hrun |]. split; [exact Hcalls |].
  apply Hstored. cbn. lia.
Defined.

End BotExamples.
